(* ===== verification/_CoqProject ===== *)
-Q . S2P
Prelude.v
Frame.v
Swarm.v
SwarmSpec.v
SwarmProps.v
Template.v
TemplateProps.v
TemplateWeights.v
TemplateTests.v
Constants.v
Fees.v
Genesis.v
Configs.v
Runtime.v
Capacity.v
PalletConfigs.v
Codec.v
Storage.v
Chain.v
Executive.v
Blocks.v
Wire.v
Xcm.v
XcmAssets.v
Interaction.v
NodeHost.v
Service.v
ServiceProps.v
ChainSpec.v
Build.v
Apis.v
Authoring.v
Kinematics.v
Client.v
ClientProps.v
Cli.v
Command.v
CommandProps.v
Reference.v
StorageReference.v
NodeReference.v
Witness.v
NodeWitness.v
XcmWitness.v
StorageWitness.v
ApiWitness.v
BlockWitness.v
AuthoringWitness.v
WireWitness.v
ClientWitness.v
