(* ===== verification/Prelude.v ===== *)
(** * The SwarmBase parachain: a verification development

    SwarmBase is a Substrate parachain that coordinates a swarm of robots: robots
    register on chain, operators enqueue commands, robots pull them in order.  The
    repository holds the pallet that does so, the runtime it is compiled into
    beside a template pallet and the pallets of polkadot-sdk, the node that runs the
    runtime, and a web page that sends commands and draws the robots.  This library
    models all four and proves what makes them correct, and where they are not.
    polkadot-sdk itself is not part of the repository: what the code uses of it is a
    parameter here, a record or a type class of operations with a class of laws that
    state its documented behaviour, and reference instances show that the laws can hold
    and that every theorem applies.

    ** Files, and what they model

    Foundations.
    - [Prelude.v] (this file): results and outcomes (value, error, panic), the effect
      monad in which dispatchables run over a mutable chain state, the effect
      classes ([ReadOnly], [Infallible], [ErrNoop], [NoPanic]) that are found by
      instance search over the shape of a handler, schedules of calls with their
      simulation lemmas, schedules in which calls nest further calls ([serves]), machine
      integers, the rewrite database [rust].
    - [Frame.v]: FRAME as the pallets see it: storage items, events, origins, the
      storage layer of a dispatch, bounded vectors, block numbers, weights, parts
      per billion, fee polynomials; each with its laws.
    - [Interaction.v]: programs that call a host, the hosts and traces they run with,
      the specification transformer [wp], and its derived notions: fail-fast
      programs, call orders ([Follows]), call contents ([Calls]), bounds on the
      number of calls ([AtMost]), causes of panics.

    The swarm pallet ([pallets/swarm-robot-pallet/src/lib.rs]).
    - [Swarm.v]: data, storage, errors, events, [register_robot],
      [enqueue_command], [pull_next] and their dispatch, statement by statement,
      and one lemma per branch.
    - [SwarmSpec.v]: the abstract machine (a set of robots, a list of commands, a
      history of events), the equivalence of states by what they show, and the
      refinement of the dispatchables.
    - [SwarmProps.v]: the guarantees: refinement over schedules, exactly-once FIFO
      delivery, the queue bound, success exactly under the precondition, no panic,
      errors that write nothing, progress of consumers and back-pressure on
      producers, commutation of registrations, and what the pallet does not do
      (no event for a registration, no check of who signs).

    The template pallet ([pallets/template/src/lib.rs], [weights.rs]).
    - [Template.v], [TemplateProps.v]: the stored block number as a bounded counter.
    - [TemplateWeights.v]: declared against measured weights.
    - [TemplateTests.v] ([tests.rs], [mock.rs], [benchmarking.rs]): the unit tests and
      the benchmarks as programs, that they pass, and the mock runtime.

    The runtime ([runtime/src]).
    - [Constants.v] ([lib.rs], [weights/]): times, units, weights.
    - [Fees.v] ([lib.rs], [configs/mod.rs]): the weight-to-fee polynomial.
    - [Genesis.v] ([genesis_config_presets.rs]): the genesis patch and presets.
    - [Configs.v], [PalletConfigs.v] ([configs/mod.rs]): block limits, message
      budgets, sessions, the instance of the swarm pallet's configuration; then the
      configuration of every other pallet, the pallets each is told to call, when
      sessions end and who may change the collators.
    - [Runtime.v] ([lib.rs]): pallets and indices, the dispatch of a mixed block, and
      the isolation of the two pallets from each other and from all others, calls
      nested in those of other pallets included.
    - [Codec.v] (the [Encode], [Decode] and [MaxEncodedLen] derives, the runtime call):
      what calls and stored values are in bytes; every call decodes from its encoding,
      and those of the two pallets from nothing else.
    - [Storage.v] (the storage attributes of both pallets): keys and values in the raw
      store; the laws the pallets are verified under hold of this layout, calls write
      under their own pallet's prefix only, and every stored value stays typed.
    - [Executive.v] ([lib.rs]): the transaction extensions and the application of an
      extrinsic, from its signature to the class of its call: what an invalid transaction
      is told, what a failing call leaves behind and what its signer pays.
    - [Blocks.v] ([lib.rs]): the execution of a block of transactions and its validation
      by the relay chain; blocks refine the abstract machine of the swarm pallet, and
      what the relay chain accepts delivers commands exactly once.
    - [Wire.v] ([lib.rs]): the concrete block and extrinsic types and their opaque
      counterparts, which agree on every byte; the byte fee of a swarm transaction.
    - [Capacity.v]: how many swarm calls fit in a block, what each path through a call
      takes in the database, and that a block filled with calls that succeed takes longer
      than a block may.
    - [Chain.v]: blocks that follow each other, as a labelled transition system, and
      the delivery of commands over the whole life of the chain.
    - [Xcm.v] ([configs/xcm_config.rs]): the barrier in front of the XCM executor,
      the converters of locations and origins, the weight of a message.
    - [XcmAssets.v] ([configs/xcm_config.rs]): the asset transactor, reserves,
      teleports, the trader, the router, the executor's configuration and the filters
      of the XCM pallet.
    - [Apis.v] ([apis.rs], [lib.rs], [benchmarks.rs]): every method of the runtime
      APIs, the version, the consensus hook and the set-up of the benchmarks.
    - [Authoring.v] ([apis.rs], [lib.rs]): the APIs joined to the executive of
      [Blocks.v]; the blocks a node imports are exactly those an author can build
      through the APIs, to the same state, and the sealed chains the network accepts
      exactly those of such blocks (as long as nobody writes raw keys in them).

    The node ([node/src]).
    - [NodeHost.v]: the types, accessors and calls of polkadot-sdk the node uses.
    - [Service.v], [ServiceProps.v] ([service.rs], [rpc.rs]): starting the node; the
      order of its calls, its errors, its one panic, the agreement of the arguments
      that calls share, with each other and with the runtime's constants.
    - [ChainSpec.v] ([chain_spec.rs]): the built-in chain specifications against the
      runtime's presets.
    - [Build.v] ([node/build.rs], [runtime/build.rs]): what the build scripts ask of the
      build tools; the metadata hash of a release agrees with the chain specifications.
    - [Cli.v], [Command.v], [CommandProps.v] ([cli.rs], [command.rs], [main.rs]): sub-commands,
      the relay chain's derived command line, what each command runs and which
      parachain it serves, and how many calls it makes at most.

    The web client ([swarmbase-ui/app]).
    - [Kinematics.v] ([lib/utils.ts], [page.tsx]): vectors and the three movements, over
      IEEE binary64 numbers.
    - [Client.v] ([page.tsx]): the page's state, handlers, callbacks and effects, and the
      transition system of page, transactions on their way and chain, in which the user,
      the network and other accounts act in any order.
    - [ClientProps.v]: what a pulled command does to the page; that the page pulls at most
      once for every command it enqueued, so that a backlog, or a full queue, stays for
      good; how a click moves the robots; which robots the movements keep, and two ways
      to lose them.

    Instances.  [Reference.v], [StorageReference.v] and [NodeReference.v] instantiate
    every interface; [Witness.v], [StorageWitness.v], [NodeWitness.v], [XcmWitness.v],
    [ApiWitness.v], [BlockWitness.v], [AuthoringWitness.v], [WireWitness.v] and
    [ClientWitness.v] apply the theorems that have
    hypotheses to concrete inputs, and run the models.

    ** How the parts interact

    A block is a list of calls with their origins ([Runtime.run_block]).  Each call is
    dispatched to its pallet inside a storage layer; the pallets are proved to need
    none ([ErrNoop]), so the layer is redundant for them, and the storage of
    different pallets is separate ([StorageApart]), so the theorems about schedules
    of one pallet's calls carry over to mixed blocks.  Calls of other pallets reach the two
    pallets in two ways: some dispatch calls ([Sudo], and messages from other chains), and
    these calls are part of the schedule a block goes through ([OtherPallets],
    [unfolds]); and root may write any key of the store with [System], itself or through
    [Sudo], which [raw_writes] marks and the theorems about such blocks exclude by a
    premise of their own ([block_writes_raw], [blocks_raw]).  [Storage.v] discharges the
    pallets' storage laws and [StorageApart] for the byte layout of [Codec.v], given
    hashes that do not collide on the names in use, so every theorem about a pallet
    holds of the raw store; and it proves the law on other pallets from what each of their
    steps does to the store: write under another prefix, or dispatch a call
    ([ForeignPallets]).  [Executive.v] puts the transaction extensions in front of
    the dispatch, [Blocks.v] the hooks around the transactions and the seal around the
    block; each layer is proved to show the swarm pallet nothing but the calls that
    pass through it, so the abstract machine of [SwarmSpec.v] describes what the relay
    chain validates; [Authoring.v] shows that the same blocks come out of the APIs an
    author calls.  The client's transactions are calls of [Swarm.v], and its event handler
    reads the events those leave in the log.  [Configs.v] fixes the swarm pallet's types and its queue bound of
    64; [Constants.v] feeds the block limits, the fees and the message weights;
    [ChainSpec.v], [Build.v] and [ServiceProps.v] tie the node to the runtime by para id,
    preset names, currency, slot duration and block computation time; [Apis.v] closes the circle: the presets those specifications
    name are the ones the runtime serves.

    ** Conventions

    Chain state is an abstract type [W]; storage items and events are operations on
    it.  A write before an error or panic is visible in the result, so that errors
    being no-ops is proved and not assumed.  Integers are [Z] with [fits w] where the
    width matters and [uint w] where a type must not leave its range; saturating and
    checked operations are written out.  Durations are in milliseconds, weights in
    picoseconds.  No recursion needs fuel: schedules are lists, and the node's
    programs are finite trees, so every run of a model terminates by construction;
    [CommandProps.v] bounds how many calls the node makes.

    ** Not modelled

    The pallets, codecs of base types, hashes, executive and XCM combinators of
    polkadot-sdk: they are parameters.  Type information derives; aliases no code uses
    ([SignedBlock], [BlockId], [Migrations]); associated types of a configuration that
    only name a type or a weight file of polkadot-sdk; the examples in the help text;
    hardware, networking, consensus and RPC beyond the calls that start them; module
    re-exports.  What remains of the sources unmapped is licenses, imports and comments
    besides these.

    Of the web client: the drawing of robots and of the log, the markup, the opening of
    the connection, and output to the console.  React renders when it likes: the model
    takes a render between any two steps, and applies an update when it is queued, which
    differs from the page only in when an update that throws is noticed.

    What the calls of other pallets do beyond the calls they dispatch.  Calls and hooks
    that come to write raw keys ([set_storage], [kill_storage] and [kill_prefix] of
    [System], with the rights of root) can change anything, unregister robots and drop
    commands: no theorem about the pallets covers a block with such a write.  A runtime
    upgrade replaces the runtime, and with it what this library is about. *)
From stdpp Require Export base option list gmap sets numbers strings.
From Stdlib Require Export ZArith Lia.

Declare Scope rust_scope.
Delimit Scope rust_scope with rust.
Open Scope rust_scope.

(** ** Outcomes of a Rust function

    [result] is Rust's [Result<A, E>].  [outcome] adds the third way a call can
    end: a panic, which no caller observes as a value. *)
Inductive result (A E : Type) : Type :=
| ROk (a : A)
| RErr (e : E).
Arguments ROk {A E} _.
Arguments RErr {A E} _.

Inductive outcome (E A : Type) : Type :=
| Ok (a : A)
| Err (e : E)
| Panic.
Arguments Ok {E A} _.
Arguments Err {E A} _.
Arguments Panic {E A}.

#[export] Instance result_eq_dec `{EqDecision A, EqDecision E} : EqDecision (result A E).
Proof. solve_decision. Defined.

#[export] Instance outcome_eq_dec `{EqDecision E, EqDecision A} : EqDecision (outcome E A).
Proof. solve_decision. Defined.

(** Success is decidable whatever the error type. *)
#[export] Instance ok_decision {E} (r : outcome E unit) : Decision (r = Ok tt).
Proof. destruct r as [[]| |]; [by left | by right..]. Defined.

Definition map_err {A E F : Type} (f : E -> F) (r : result A E) : result A F :=
  match r with ROk a => ROk a | RErr e => RErr (f e) end.

Definition ok_or {A E : Type} (o : option A) (e : E) : result A E :=
  match o with Some a => ROk a | None => RErr e end.

(** ** The effect monad

    [M W E A] is a computation over a chain state [W] that is mutated in place:
    a write made before an error or a panic is {e not} undone, so that "an error
    leaves the state alone" is a statement with content. *)
Definition M (W E A : Type) : Type := W -> outcome E A * W.

#[export] Instance M_ret {W E} : MRet (M W E) := fun A a w => (Ok a, w).
#[export] Instance M_bind {W E} : MBind (M W E) := fun A B f m w =>
  match m w with
  | (Ok a, w') => f a w'
  | (Err e, w') => (Err e, w')
  | (Panic, w') => (Panic, w')
  end.

(** [gets]: read the state; [modify]: write it; [attempt]: the [?] operator on a
    [Result]; [ensure]: FRAME's [ensure!]; [panic]: a call that does not return. *)
Definition gets {W E A} (f : W -> A) : M W E A := fun w => (Ok (f w), w).
Definition modify {W E} (f : W -> W) : M W E unit := fun w => (Ok tt, f w).
Definition throw {W E A} (e : E) : M W E A := fun w => (Err e, w).
Definition panic {W E A} : M W E A := fun w => (Panic, w).
Definition attempt {W E A} (r : result A E) : M W E A :=
  match r with ROk a => mret a | RErr e => throw e end.
Definition ensure {W E} (b : bool) (e : E) : M W E unit :=
  if b then mret tt else throw e.

(** [refuse]: stop with the reason given, if any; [reify]: what a computation returns,
    value or error, as a value. *)
Definition refuse {W E} (f : W -> option E) : M W E unit := fun w =>
  match f w with Some e => (Err e, w) | None => (Ok tt, w) end.
Definition reify {W E F A} (m : M W E A) : M W F (outcome E A) := fun w =>
  match m w with (Panic, w') => (Panic, w') | (r, w') => (Ok r, w') end.

(** [expect]: [Option::expect] and [Result::expect], which panic on the empty
    alternative. *)
Definition expect {W E A} (o : option A) : M W E A :=
  match o with Some a => mret a | None => panic end.

Section run_lemmas.
Context {W E : Type}.
Implicit Types w : W.

Lemma run_bind {A B} (m : M W E A) (f : A -> M W E B) w :
  (m ≫= f) w =
  match m w with
  | (Ok a, w') => f a w'
  | (Err e, w') => (Err e, w')
  | (Panic, w') => (Panic, w')
  end.
Proof. reflexivity. Qed.

Lemma run_bind_Ok {A B} (m : M W E A) (f : A -> M W E B) w b w' :
  (m ≫= f) w = (Ok b, w') <-> exists a w1, m w = (Ok a, w1) /\ f a w1 = (Ok b, w').
Proof. rewrite run_bind. destruct (m w) as [[a|e|] w1]; naive_solver. Qed.

Lemma run_refuse_Ok (f : W -> option E) w u w' :
  refuse f w = (Ok u, w') <-> f w = None /\ w' = w.
Proof. unfold refuse. destruct u. destruct (f w); naive_solver. Qed.

Lemma run_reify_Ok {F A} (m : M W F A) w r w' :
  (reify m : M W E _) w = (Ok r, w') <-> m w = (r, w') /\ r <> Panic.
Proof. unfold reify. destruct (m w) as [[a|e|] w1]; naive_solver. Qed.

Lemma run_ret {A} (a : A) w : (mret a : M W E A) w = (Ok a, w).
Proof. reflexivity. Qed.

Lemma run_gets {A} (f : W -> A) w : (gets f : M W E A) w = (Ok (f w), w).
Proof. reflexivity. Qed.

Lemma run_modify (f : W -> W) w : (modify f : M W E unit) w = (Ok tt, f w).
Proof. reflexivity. Qed.

Lemma run_attempt {A} (r : result A E) w :
  attempt r w = match r with ROk a => (Ok a, w) | RErr e => (Err e, w) end.
Proof. by destruct r. Qed.

Lemma run_ensure (b : bool) (e : E) w :
  ensure b e w = if b then (Ok tt, w) else (Err e, w).
Proof. by destruct b. Qed.

(** The three monad laws, pointwise. *)
Lemma bind_ret_l {A B} (a : A) (f : A -> M W E B) w : (mret a ≫= f) w = f a w.
Proof. reflexivity. Qed.

Lemma bind_ret_r {A} (m : M W E A) w : (m ≫= mret) w = m w.
Proof. rewrite run_bind. by destruct (m w) as [[]]. Qed.

Lemma bind_assoc {A B C} (m : M W E A) (f : A -> M W E B) (g : B -> M W E C) w :
  ((m ≫= f) ≫= g) w = (m ≫= (fun a => f a ≫= g)) w.
Proof. rewrite !run_bind. by destruct (m w) as [[]]. Qed.
End run_lemmas.

(** [rust_run] executes the straight-line part of a computation; the rewrite
    database [rust] carries its equations. *)
Create Rewrite HintDb rust.
#[export] Hint Rewrite @run_bind @run_ret @run_gets @run_modify @run_attempt @run_ensure : rust.

Ltac rust_run := repeat (progress (autorewrite with rust; cbn beta iota)).

(** ** Effect classes

    Syntactic closure properties of computations.  They are found by instance
    search over the shape of a handler, so that the generic facts of a handler
    need no proof of their own. *)
Section effects.
Context {W E : Type}.

(** does not write *)
Class ReadOnly {A} (m : M W E A) : Prop := read_only w : (m w).2 = w.
(** always returns a value *)
Class Infallible {A} (m : M W E A) : Prop := infallible w : exists a, (m w).1 = Ok a.
(** an error it returns comes with the state it started from *)
Class ErrNoop {A} (m : M W E A) : Prop :=
  err_noop w e w' : m w = (Err e, w') -> w' = w.
(** returns, with a value or an error *)
Class NoPanic {A} (m : M W E A) : Prop := no_panic w : (m w).1 <> Panic.

#[export] Instance ret_read_only {A} (a : A) : ReadOnly (mret a).
Proof. by intros w. Qed.
#[export] Instance gets_read_only {A} (f : W -> A) : ReadOnly (gets f).
Proof. by intros w. Qed.
#[export] Instance attempt_read_only {A} (r : result A E) : ReadOnly (attempt r).
Proof. intros w. by destruct r. Qed.
#[export] Instance ensure_read_only (b : bool) (e : E) : ReadOnly (ensure b e).
Proof. intros w. by destruct b. Qed.
#[export] Instance expect_read_only {A} (o : option A) : ReadOnly (expect o).
Proof. intros w. by destruct o. Qed.
#[export] Instance bind_read_only {A B} (m : M W E A) (f : A -> M W E B) :
  ReadOnly m -> (forall a, ReadOnly (f a)) -> ReadOnly (m ≫= f).
Proof.
  intros Hm Hf w. rewrite run_bind. pose proof (Hm w) as Hw.
  destruct (m w) as [[a| |] w']; cbn in *; subst; [apply Hf | done..].
Qed.

#[export] Instance ret_infallible {A} (a : A) : Infallible (mret a).
Proof. intros w. by eexists. Qed.
#[export] Instance gets_infallible {A} (f : W -> A) : Infallible (gets f).
Proof. intros w. by eexists. Qed.
#[export] Instance modify_infallible (f : W -> W) : Infallible (modify f).
Proof. intros w. by eexists. Qed.
#[export] Instance bind_infallible {A B} (m : M W E A) (f : A -> M W E B) :
  Infallible m -> (forall a, Infallible (f a)) -> Infallible (m ≫= f).
Proof.
  intros Hm Hf w. rewrite run_bind. destruct (Hm w) as [a Ha].
  destruct (m w) as [o w']; cbn in *; subst. apply Hf.
Qed.

(** The two ways a computation earns [ErrNoop]: it checks before it writes, or
    it cannot fail any more. *)
Lemma infallible_err_noop {A} (m : M W E A) : Infallible m -> ErrNoop m.
Proof. intros Hm w e w' H. destruct (Hm w) as [a Ha]. by rewrite H in Ha. Qed.
#[export] Instance throw_err_noop {A} (e : E) : ErrNoop (throw e : M W E A).
Proof. by intros w e' w' [= <- <-]. Qed.
#[export] Instance attempt_err_noop {A} (r : result A E) : ErrNoop (attempt r).
Proof. destruct r; [apply infallible_err_noop, _ | apply _]. Qed.
#[export] Instance bind_err_noop {A B} (m : M W E A) (f : A -> M W E B) :
  ReadOnly m -> (forall a, ErrNoop (f a)) -> ErrNoop (m ≫= f) | 10.
Proof.
  intros Hm Hf w e w' H. rewrite run_bind in H. pose proof (Hm w) as Hw.
  destruct (m w) as [[a|e'|] w0]; cbn in *; simplify_eq; [|done].
  by apply Hf in H.
Qed.

#[export] Instance throw_no_panic {A} (e : E) : NoPanic (throw e : M W E A).
Proof. by intros w. Qed.
#[export] Instance attempt_no_panic {A} (r : result A E) : NoPanic (attempt r).
Proof. intros w. by destruct r. Qed.
#[export] Instance ensure_no_panic (b : bool) (e : E) : NoPanic (ensure b e).
Proof. intros w. by destruct b. Qed.
Lemma infallible_no_panic {A} (m : M W E A) : Infallible m -> NoPanic m.
Proof. intros Hm w H. destruct (Hm w) as [a Ha]. congruence. Qed.
#[export] Instance bind_no_panic {A B} (m : M W E A) (f : A -> M W E B) :
  NoPanic m -> (forall a, NoPanic (f a)) -> NoPanic (m ≫= f) | 10.
Proof.
  intros Hm Hf w. rewrite run_bind. pose proof (Hm w) as Hw.
  destruct (m w) as [[a|e|] w']; cbn in *; [apply Hf | done..].
Qed.
End effects.
#[export] Hint Extern 5 (ErrNoop _) => apply infallible_err_noop : typeclass_instances.
#[export] Hint Extern 5 (NoPanic _) => apply infallible_no_panic : typeclass_instances.
#[export] Hint Mode ReadOnly - - - ! : typeclass_instances.

(** ** One computation per element *)
Section each.
Context {W E X P : Type}.

Fixpoint collect (f : X -> M W E P) (xs : list X) : M W E (list P) :=
  match xs with
  | [] => mret []
  | x :: xs => p ← f x; ps ← collect f xs; mret (p :: ps)
  end.
Fixpoint each (f : X -> P -> M W E unit) (xs : list X) (ps : list P) : M W E unit :=
  match xs, ps with
  | x :: xs, p :: ps => f x p;; each f xs ps
  | _, _ => mret tt
  end.

Lemma collect_cons f x xs w ps w' :
  collect f (x :: xs) w = (Ok ps, w') <->
  exists p ps' w1, ps = p :: ps' /\ f x w = (Ok p, w1) /\ collect f xs w1 = (Ok ps', w').
Proof.
  cbn [collect]. rewrite run_bind_Ok. setoid_rewrite run_bind_Ok. setoid_rewrite run_ret. split.
  - intros (p & w1 & Hp & ps' & w2 & Hps & [= <- <-]). eauto 10.
  - intros (p & ps' & w1 & -> & Hp & Hps). eauto 10.
Qed.

Lemma collect_app f xs ys w ps w' :
  collect f (xs ++ ys) w = (Ok ps, w') <->
  exists ps1 ps2 w1, ps = ps1 ++ ps2 /\ collect f xs w = (Ok ps1, w1) /\
    collect f ys w1 = (Ok ps2, w').
Proof.
  revert w ps. induction xs as [|x xs IH]; intros w ps; cbn [app].
  - split; [intros H; exists [], ps, w; eauto|]. by intros (? & ? & ? & -> & [= <- <-] & ?).
  - rewrite collect_cons. setoid_rewrite collect_cons. split.
    + intros (p & ps' & w1 & -> & Hp & (ps1 & ps2 & w2 & -> & H1 & H2)%IH).
      exists (p :: ps1), ps2, w2. eauto 10.
    + intros (ps1 & ps2 & w2 & -> & (p & ps' & w1 & -> & Hp & H1) & H2).
      exists p, (ps' ++ ps2), w1. split; [done|]. split; [done|]. apply IH. eauto 10.
Qed.

Lemma collect_length f xs w ps w' : collect f xs w = (Ok ps, w') -> length ps = length xs.
Proof.
  revert w ps. induction xs as [|x xs IH]; intros w ps; [by intros [= <- <-]|].
  intros (p & ps' & w1 & -> & _ & H)%collect_cons. cbn. f_equal. eauto.
Qed.

Lemma each_app f xs ys ps qs w u w' :
  length xs = length ps ->
  each f (xs ++ ys) (ps ++ qs) w = (Ok u, w') <->
  exists w1, each f xs ps w = (Ok tt, w1) /\ each f ys qs w1 = (Ok u, w').
Proof.
  revert w ps. induction xs as [|x xs IH]; intros w [|p ps] Hl; try done; cbn [app each].
  - setoid_rewrite run_ret. naive_solver.
  - rewrite run_bind_Ok. setoid_rewrite run_bind_Ok. injection Hl as Hl. split.
    + intros (v & w1 & Hf & (w2 & H1 & H2)%IH); [|done]. eauto 10.
    + intros (w2 & (v & w1 & Hf & H1) & H2). exists v, w1. split; [done|]. apply IH; eauto.
Qed.

(** What every element keeps, all keep. *)
Lemma collect_keeps (R : W -> W -> Prop) `{!PreOrder R} f xs w ps w' :
  (forall x w, x ∈ xs -> R w (f x w).2) -> collect f xs w = (Ok ps, w') -> R w w'.
Proof.
  revert w ps. induction xs as [|x xs IH]; intros w ps Hf; [by intros [= <- <-]|].
  intros (p & ps' & w1 & -> & Hp & H)%collect_cons. transitivity w1.
  - pose proof (Hf x w ltac:(by left)) as Hx. by rewrite Hp in Hx.
  - eapply IH; [|done]. intros y v Hy. apply Hf. by right.
Qed.
End each.

(** ** Schedules

    [run_all step xs]: the calls of a block one after the other, each started in
    the state its predecessor left, whatever the predecessor returned. *)
Section schedules.
Context {X W E : Type} (step : X -> M W E unit).

Fixpoint run_all (xs : list X) (w : W) : list (outcome E unit) * W :=
  match xs with
  | [] => ([], w)
  | x :: xs =>
      let '(r, w1) := step x w in
      let '(rs, w2) := run_all xs w1 in
      (r :: rs, w2)
  end.

Lemma run_all_cons x xs w :
  run_all (x :: xs) w =
  ((step x w).1 :: (run_all xs (step x w).2).1, (run_all xs (step x w).2).2).
Proof. cbn. destruct (step x w) as [r w1]; cbn. by destruct (run_all xs w1). Qed.

Lemma run_all_length xs w : length (run_all xs w).1 = length xs.
Proof. revert w. induction xs as [|x xs IH]; intros w; [done|]. rewrite run_all_cons. cbn. by f_equal. Qed.

Lemma run_all_app xs ys w :
  run_all (xs ++ ys) w =
  ((run_all xs w).1 ++ (run_all ys (run_all xs w).2).1, (run_all ys (run_all xs w).2).2).
Proof.
  revert w. induction xs as [|x xs IH]; intros w; [cbn; by destruct (run_all ys w)|].
  cbn [app]. by rewrite !run_all_cons, IH.
Qed.

(** A property every step keeps holds after any schedule. *)
Lemma run_all_invariant (I : W -> Prop) xs w :
  (forall x w, I w -> I (step x w).2) -> I w -> I (run_all xs w).2.
Proof.
  intros Hstep. revert w. induction xs as [|x xs IH]; intros w Hw; [done|].
  rewrite run_all_cons. cbn. auto.
Qed.
End schedules.

(** Two step functions that answer alike and keep a relation between their
    states do so over whole schedules. *)
Lemma run_all_simulation {X W S E : Type}
    (f : X -> M W E unit) (g : X -> M S E unit) (R : W -> S -> Prop) :
  (forall x w s, R w s -> (f x w).1 = (g x s).1 /\ R (f x w).2 (g x s).2) ->
  forall xs w s, R w s ->
    (run_all f xs w).1 = (run_all g xs s).1 /\ R (run_all f xs w).2 (run_all g xs s).2.
Proof.
  intros Hstep xs. induction xs as [|x xs IH]; intros w s HR; [done|].
  rewrite !run_all_cons; cbn. destruct (Hstep x w s HR) as [-> HR'].
  destruct (IH _ _ HR') as [-> HR'']. done.
Qed.

(** ** Components that serve part of a schedule

    A component is shown by an abstract machine [g] on what [show] sees of the state.
    Of the calls that reach it over a stretch of time some are asked for directly, and
    their callers are told the answers; the others are made on the way, by calls of
    other components.  [serves w ys rs w']: from [w] to [w'] the component went through
    the calls [ys], marked [true] when direct, as its machine would, and the direct
    ones were answered [rs]. *)
Definition direct_calls {Y} (ys : list (bool * Y)) : list Y :=
  omap (fun y => if y.1 : bool then Some y.2 else None) ys.
Definition direct_answers {Y E} (ys : list (bool * Y)) (rs : list (outcome E unit)) :
    list (outcome E unit) :=
  omap (fun yr => if yr.1.1 : bool then Some yr.2 else None) (zip ys rs).

Lemma direct_answers_app {Y E} (ys zs : list (bool * Y)) (rs ss : list (outcome E unit)) :
  length ys = length rs ->
  direct_answers (ys ++ zs) (rs ++ ss) = direct_answers ys rs ++ direct_answers zs ss.
Proof.
  intros Hl. unfold direct_answers. rewrite <- omap_app. f_equal.
  revert rs Hl. induction ys as [|y ys IH]; intros [|r rs] Hl; try done.
  cbn. f_equal. apply IH. by injection Hl.
Qed.

Lemma direct_calls_none {Y} (ys : list Y) : direct_calls (pair false <$> ys) = [].
Proof. by induction ys. Qed.

Lemma direct_calls_all {Y} (ys : list (bool * Y)) :
  Forall (fun y => y.1 = true) ys -> ys.*2 = direct_calls ys.
Proof.
  induction 1 as [|[b y] ys Hb _ IH]; [done|]. cbn in Hb. subst b. cbn. by f_equal.
Qed.

Lemma direct_answers_none {Y E} (ys : list Y) (rs : list (outcome E unit)) :
  direct_answers (pair false <$> ys) rs = [].
Proof. revert rs. induction ys as [|y ys IH]; intros [|r rs]; [done..|]. apply IH. Qed.

Lemma direct_answers_all {Y E} (ys : list (bool * Y)) (rs : list (outcome E unit)) :
  length ys = length rs -> Forall (fun y => y.1 = true) ys -> direct_answers ys rs = rs.
Proof.
  intros Hl Hys. revert rs Hl. induction Hys as [|[b y] ys Hb _ IH]; intros [|r rs] Hl; try done.
  cbn in Hb. subst b. unfold direct_answers. cbn. f_equal. apply IH. by injection Hl.
Qed.

Section serving.
Context {W Y S E : Type} (g : Y -> M S E unit) (show : W -> S) (R : S -> S -> Prop).

Record serves (w : W) (ys : list (bool * Y)) (rs : list (outcome E unit)) (w' : W) : Prop := {
  serves_answers : direct_answers ys (run_all g ys.*2 (show w)).1 = rs;
  serves_show : R (show w') (run_all g ys.*2 (show w)).2;
}.

Context `{!Equivalence R}.
Context (g_proper : forall y s t, R s t -> (g y s).1 = (g y t).1 /\ R (g y s).2 (g y t).2).

Lemma serves_quiet w w' : R (show w') (show w) -> serves w [] [] w'.
Proof. by split. Qed.

(** One call, asked for or made on the way. *)
Lemma serves_one (direct : bool) y w w' :
  R (show w') (g y (show w)).2 ->
  serves w [(direct, y)] (if direct then [(g y (show w)).1] else []) w'.
Proof.
  intros Hw'. split; cbn [fmap list_fmap snd]; rewrite run_all_cons; [|done].
  unfold direct_answers. cbn. by destruct direct.
Qed.

Lemma serves_app w ys rs w1 ys' rs' w2 :
  serves w ys rs w1 -> serves w1 ys' rs' w2 -> serves w (ys ++ ys') (rs ++ rs') w2.
Proof.
  intros [<- Hw1] [<- Hw2].
  destruct (run_all_simulation g g R g_proper ys'.*2 _ _ Hw1) as [Ha Hs].
  split; rewrite fmap_app, run_all_app; cbn [fst snd]; [|by rewrite Hw2].
  rewrite Ha, direct_answers_app; [done|]. by rewrite run_all_length, length_fmap.
Qed.

(** What the state shows decides. *)
Lemma serves_show_proper w w0 ys rs w' w1 :
  R (show w) (show w0) -> R (show w') (show w1) -> serves w0 ys rs w1 -> serves w ys rs w'.
Proof.
  intros Hw Hw' Hs. rewrite <- (app_nil_l ys), <- (app_nil_l rs).
  apply (serves_app w [] [] w0); [by apply serves_quiet|].
  rewrite <- (app_nil_r ys), <- (app_nil_r rs).
  by apply (serves_app w0 ys rs w1); [|apply serves_quiet].
Qed.

(** When every call was asked for, the machine's answers are those given. *)
Lemma serves_all_direct w ys rs w' :
  Forall (fun y => y.1 = true) ys -> serves w ys rs w' ->
  rs = (run_all g ys.*2 (show w)).1 /\ R (show w') (run_all g ys.*2 (show w)).2.
Proof.
  intros Hys [<- Hw']. split; [|done]. apply direct_answers_all; [|done].
  by rewrite run_all_length, length_fmap.
Qed.
End serving.

Local Open Scope Z_scope.

(** ** Machine integers

    An unsigned Rust integer of width [w] is a [Z] in [0, 2^w).  The operations
    are the standard library's: [checked_*] return an option, [saturating_*]
    clamp, [as u32] keeps the low bits, and the unsuffixed ones are used on constants that fit. *)
Definition umax (w : Z) : Z := 2 ^ w - 1.
Definition fits (w n : Z) : Prop := 0 <= n <= umax w.

#[export] Instance fits_dec (w n : Z) : Decision (fits w n).
Proof. unfold fits. apply _. Defined.

(** Closes [fits w n] for closed [w] and [n]. *)
Ltac solve_fits := solve [assumption | vm_compute; split; discriminate].

Definition saturating_add (w a b : Z) : Z := Z.min (umax w) (a + b).
Definition saturating_mul (w a b : Z) : Z := Z.min (umax w) (a * b).
Definition as_u32 (n : Z) : Z := n mod 2 ^ 32.
Definition saturating_sub (a b : Z) : Z := Z.max 0 (a - b).

(** The type of the integers of width [w]; [u32] is [uint 32]. *)
Definition uint (w : Z) : Type := dsig (fits w).
Abbreviation u32 := (uint 32).
Definition uval {w} (n : uint w) : Z := proj1_sig n.
Definition to_uint (w : Z) (n : Z) : option (uint w) :=
  match decide (fits w n) with left p => Some (dexist n p) | right _ => None end.

(** A literal: [#5] is the [u32] 5. *)
Definition lit32 (n : Z) (H : bool_decide (fits 32 n) = true) : u32 :=
  n ↾ proj2 (Is_true_true _) H.
Notation "# n" := (lit32 n eq_refl) (at level 8, format "# n") : rust_scope.

Section uint.
Context {w : Z}.
Implicit Types n m : uint w.

Lemma uval_fits n : fits w (uval n).
Proof. apply (proj2_dsig n). Qed.

#[export] Instance uval_inj : Inj (=) (=) (@uval w).
Proof. intros n m. apply dsig_eq. Qed.

Lemma to_uint_uval n : to_uint w (uval n) = Some n.
Proof.
  unfold to_uint. destruct (decide _) as [p|Hp]; [|by destruct Hp; apply uval_fits].
  f_equal. by apply dsig_eq.
Qed.

Lemma to_uint_Some z n : to_uint w z = Some n <-> uval n = z.
Proof.
  split; [|intros <-; apply to_uint_uval].
  unfold to_uint. destruct (decide _) as [p|]; [|done]. by intros [= <-].
Qed.

Lemma to_uint_None z : to_uint w z = None <-> ~ fits w z.
Proof. unfold to_uint. by destruct (decide _). Qed.

#[export] Instance uint_eq_dec : EqDecision (uint w).
Proof.
  intros n m. destruct (decide (uval n = uval m)) as [E|E].
  - left. by apply uval_inj.
  - right. congruence.
Defined.

#[export] Program Instance uint_countable : Countable (uint w) :=
  inj_countable uval (to_uint w) _.
Next Obligation. intros n. apply to_uint_uval. Qed.

(** Rust's [checked_add] on the type. *)
Definition uint_checked_add n m : option (uint w) := to_uint w (uval n + uval m).

Lemma uint_checked_add_Some n m k :
  uint_checked_add n m = Some k <-> uval k = uval n + uval m.
Proof. apply to_uint_Some. Qed.

Lemma uint_checked_add_None n m :
  uint_checked_add n m = None <-> umax w < uval n + uval m.
Proof.
  unfold uint_checked_add. rewrite to_uint_None. unfold fits.
  pose proof (uval_fits n) as Hn. pose proof (uval_fits m) as Hm. unfold fits in *. lia.
Qed.
End uint.

Section integers.
Context (w : Z).
Implicit Types a b c : Z.

Lemma saturating_add_exact a b : a + b <= umax w -> saturating_add w a b = a + b.
Proof. unfold saturating_add. lia. Qed.

Lemma saturating_mul_exact a b : a * b <= umax w -> saturating_mul w a b = a * b.
Proof. unfold saturating_mul. lia. Qed.
End integers.
