(* ===== verification/Frame.v ===== *)
(** * FRAME as the pallets see it

    The pallets and the runtime are written against polkadot-sdk, which is not
    part of this repository.  Everything they use of it is a parameter here: a
    record or a class of operations, with a class of laws that states the
    documented behaviour the code relies on.  The components are verified
    against these interfaces; [Reference.v] holds instances of them, so that the
    laws are known to be satisfiable and the theorems can be run. *)
From S2P Require Import Prelude.

Local Open Scope Z_scope.

(** ** Storage

    [StorageValue W Q V]: a single stored [V], read as a [Q] ([V] itself for
    [ValueQuery], [option V] for [OptionQuery]) in a chain state [W]. *)
Record StorageValue (W Q V : Type) : Type := {
  sv_get : W -> Q;
  sv_put : V -> W -> W;
}.
Arguments sv_get {W Q V} _ _.
Arguments sv_put {W Q V} _ _ _.

Record StorageMap (W K V : Type) : Type := {
  sm_contains_key : K -> W -> bool;
  sm_insert : K -> V -> W -> W;
}.
Arguments sm_contains_key {W K V} _ _ _.
Arguments sm_insert {W K V} _ _ _ _.

(** [deposit_event] and the events of the current block.  Nothing is recorded
    while the block number is zero ([es_recording] is false). *)
Record EventSink (W Ev : Type) : Type := {
  es_deposit : Ev -> W -> W;
  es_log : W -> list Ev;
  es_recording : W -> bool;
}.
Arguments es_deposit {W Ev} _ _ _.
Arguments es_log {W Ev} _ _.
Arguments es_recording {W Ev} _ _.

(** [Keeps obs f]: what [obs] shows of the state survives the write [f]. *)
Class Keeps {W X : Type} (obs : W -> X) (f : W -> W) : Prop :=
  keeps w : obs (f w) = obs w.

(** [frame] rewrites every observation that the write below it keeps. *)
Ltac frame := repeat
  match goal with
  | |- context [?obs (?f ?w)] => rewrite (@keeps _ _ obs f _ w)
  end.

Class StorageValueOk {W Q V} (query : V -> Q) (s : StorageValue W Q V) : Prop :=
  sv_get_put v w : sv_get s (sv_put s v w) = query v.

Class StorageMapOk {W K V} `{EqDecision K} (s : StorageMap W K V) : Prop :=
  sm_contains_insert k k' v w :
    sm_contains_key s k' (sm_insert s k v w) =
    bool_decide (k = k') || sm_contains_key s k' w.

Class EventSinkOk {W Ev} (s : EventSink W Ev) : Prop := {
  es_log_deposit e w :
    es_log s (es_deposit s e w) =
    if es_recording s w then es_log s w ++ [e] else es_log s w;
  es_recording_deposit e :: Keeps (es_recording s) (es_deposit s e);
}.

(** ** Origins and dispatch errors

    [ensure_signed] is [frame_system::ensure_signed]; [into] is the conversion
    of a pallet's error into a [DispatchError] that [#[pallet::error]] generates
    and the [?] operator applies. *)
Class FrameSystem : Type := {
  OriginFor : Type;
  AccountId : Type;
  DispatchError : Type;
  ensure_signed : OriginFor -> result AccountId DispatchError;
}.

Class IntoDispatchError `{FrameSystem} (E : Type) : Type :=
  into : E -> DispatchError.

Definition is_signed `{FrameSystem} (o : OriginFor) : Prop :=
  exists who, ensure_signed o = ROk who.

(** ** The storage layer of a dispatch

    FRAME runs every dispatchable in a storage transaction that is rolled back
    when the dispatchable returns an error. *)
Class StorageLayer (W : Type) `{FrameSystem} : Type :=
  with_storage_layer : M W DispatchError unit -> M W DispatchError unit.
Class StorageLayerOk (W : Type) `{StorageLayer W} : Prop := {
  layer_ok m w w' : m w = (Ok tt, w') -> with_storage_layer m w = (Ok tt, w');
  layer_err m w e w' : m w = (Err e, w') -> with_storage_layer m w = (Err e, w);
}.

(** Around a computation that neither panics nor writes before an error, the
    layer changes nothing. *)
Lemma layer_redundant `{StorageLayerOk W} (m : M W DispatchError unit) :
  ErrNoop m -> NoPanic m -> forall w, with_storage_layer m w = m w.
Proof.
  intros He Hp w. destruct (m w) as [[[]|e|] w'] eqn:Hm.
  - by apply layer_ok.
  - rewrite (layer_err m w e w' Hm). by rewrite (err_noop w e w' Hm).
  - destruct (Hp w). by rewrite Hm.
Qed.

(** ** [BoundedVec]

    [bv_try_push] returns the element in the error case; [bv_remove] returns
    [None] where the method panics; [bv_slice] is the dereference to a slice. *)
Class BoundedVec (A : Type) : Type := {
  bvec : Type;
  bv_default : bvec;
  bv_slice : bvec -> list A;
  bv_try_push : A -> bvec -> result unit A * bvec;
  bv_remove : nat -> bvec -> option (A * bvec);
}.
Arguments bvec A {_}.

(** The bound is the type parameter [S: Get<u32>] of the vector. *)
Class BoundedVecOk (A : Type) `{BoundedVec A} (bound : Z) : Prop := {
  bv_slice_default : bv_slice bv_default = [];
  bv_try_push_room a b :
    Z.of_nat (length (bv_slice b)) < bound ->
    (bv_try_push a b).1 = ROk tt /\
    bv_slice (bv_try_push a b).2 = bv_slice b ++ [a];
  bv_try_push_full a b :
    bound <= Z.of_nat (length (bv_slice b)) ->
    (bv_try_push a b).1 = RErr a /\
    bv_slice (bv_try_push a b).2 = bv_slice b;
  bv_remove_in_range i b x :
    bv_slice b !! i = Some x ->
    exists b', bv_remove i b = Some (x, b') /\ bv_slice b' = delete i (bv_slice b);
  bv_remove_out_of_range i b :
    bv_slice b !! i = None -> bv_remove i b = None;
}.

(** ** Block numbers

    [BlockNumberFor<T>] with the trait bounds the pallets use: [From<u32>],
    [CheckedAdd] and [One].  [bn_val] reads a block number as an integer. *)
Class BlockNumbers : Type := {
  BlockNumber : Type;
  bn_from_u32 : u32 -> BlockNumber;
  bn_checked_add : BlockNumber -> BlockNumber -> option BlockNumber;
  bn_one : BlockNumber;
}.

Class BlockNumbersOk `{BlockNumbers} (bn_val : BlockNumber -> Z) (bn_max : Z) : Prop := {
  bn_val_inj :: Inj (=) (=) bn_val;
  bn_val_bounds n : 0 <= bn_val n <= bn_max;
  bn_val_from n : bn_val (bn_from_u32 n) = uval n;
  bn_val_one : bn_val bn_one = 1;
  bn_add_Some n m k : bn_checked_add n m = Some k <-> bn_val k = bn_val n + bn_val m;
  bn_add_None n m : bn_checked_add n m = None <-> bn_max < bn_val n + bn_val m;
}.

(** ** Weights

    [Weight] has two [u64] components.  [saturating_add] works on each and clamps;
    [+] is the unclamped sum, used where it fits; [saturating_div] divides each
    component; the picosecond constants are those of [frame_support::weights]. *)
Class Weights : Type := {
  Weight : Type;
  from_parts : Z -> Z -> Weight;
  ref_time : Weight -> Z;
  proof_size : Weight -> Z;
  weight_saturating_add : Weight -> Weight -> Weight;
  weight_add : Weight -> Weight -> Weight;
  weight_sub : Weight -> Weight -> Weight;
  weight_saturating_div : Weight -> Z -> Weight;
  WEIGHT_REF_TIME_PER_SECOND : Z;
  WEIGHT_REF_TIME_PER_MILLIS : Z;
  WEIGHT_REF_TIME_PER_MICROS : Z;
  WEIGHT_REF_TIME_PER_NANOS : Z;
}.

Class WeightsOk `{Weights} : Prop := {
  ref_time_from_parts r p : fits 64 r -> fits 64 p -> ref_time (from_parts r p) = r;
  proof_size_from_parts r p : fits 64 r -> fits 64 p -> proof_size (from_parts r p) = p;
  weight_ext v w : ref_time v = ref_time w -> proof_size v = proof_size w -> v = w;
  ref_time_saturating_add v w :
    ref_time (weight_saturating_add v w) = saturating_add 64 (ref_time v) (ref_time w);
  proof_size_saturating_add v w :
    proof_size (weight_saturating_add v w) = saturating_add 64 (proof_size v) (proof_size w);
  ref_time_add v w :
    fits 64 (ref_time v + ref_time w) -> fits 64 (proof_size v + proof_size w) ->
    ref_time (weight_add v w) = ref_time v + ref_time w;
  proof_size_add v w :
    fits 64 (ref_time v + ref_time w) -> fits 64 (proof_size v + proof_size w) ->
    proof_size (weight_add v w) = proof_size v + proof_size w;
  ref_time_sub v w :
    ref_time w <= ref_time v -> proof_size w <= proof_size v ->
    ref_time (weight_sub v w) = ref_time v - ref_time w;
  proof_size_sub v w :
    ref_time w <= ref_time v -> proof_size w <= proof_size v ->
    proof_size (weight_sub v w) = proof_size v - proof_size w;
  ref_time_saturating_div v n : 0 < n -> ref_time (weight_saturating_div v n) = ref_time v / n;
  proof_size_saturating_div v n : 0 < n -> proof_size (weight_saturating_div v n) = proof_size v / n;
  per_second : WEIGHT_REF_TIME_PER_SECOND = 1_000_000_000_000;
  per_millis : WEIGHT_REF_TIME_PER_MILLIS = 1_000_000_000;
  per_micros : WEIGHT_REF_TIME_PER_MICROS = 1_000_000;
  per_nanos : WEIGHT_REF_TIME_PER_NANOS = 1_000;
}.

(** [RuntimeDbWeight]: the cost of one read and one write, and of [n] of them. *)
Record RuntimeDbWeight : Type := { read : Z; write : Z }.

Class DbWeights `{Weights} : Type := {
  db_reads : RuntimeDbWeight -> Z -> Weight;
  db_writes : RuntimeDbWeight -> Z -> Weight;
  db_reads_writes : RuntimeDbWeight -> Z -> Z -> Weight;
}.

Class DbWeightsOk `{DbWeights} : Prop := {
  db_reads_spec d n : db_reads d n = from_parts (saturating_mul 64 (read d) n) 0;
  db_writes_spec d n : db_writes d n = from_parts (saturating_mul 64 (write d) n) 0;
  db_reads_writes_spec d r w :
    db_reads_writes d r w =
    from_parts (saturating_add 64 (saturating_mul 64 (read d) r) (saturating_mul 64 (write d) w)) 0;
}.

(** ** [Perbill]: parts per billion

    Multiplication rounds to the nearest integer; [from_rational] is exact when
    the fraction is a whole number of parts. *)
Definition BILLION : Z := 1_000_000_000.

Class Perbills : Type := {
  Perbill : Type;
  parts : Perbill -> Z;
  from_percent : Z -> Perbill;
  from_rational : Z -> Z -> Perbill;
  perbill_mul : Perbill -> Z -> Z;
}.

Class PerbillsOk `{Perbills} : Prop := {
  parts_bounds p : 0 <= parts p <= BILLION;
  parts_from_percent n : 0 <= n <= 100 -> parts (from_percent n) = n * 10_000_000;
  parts_from_rational p q k :
    0 <= p <= q -> 0 < q -> p * BILLION = k * q -> parts (from_rational p q) = k;
  perbill_mul_nearest p n :
    0 <= n -> 2 * Z.abs (BILLION * perbill_mul p n - parts p * n) <= BILLION;
}.

Section perbills.
Context `{PerbillsOk}.

(** A multiple of a billion parts is computed without rounding. *)
Lemma perbill_mul_exact p n k :
  0 <= n -> parts p * n = k * BILLION -> perbill_mul p n = k.
Proof.
  intros Hn Hk. pose proof (perbill_mul_nearest p n Hn) as Hr.
  rewrite Hk in Hr. unfold BILLION in *. lia.
Qed.

Lemma percent_mul_exact c n k :
  0 <= c <= 100 -> 0 <= n -> c * n = k * 100 -> perbill_mul (from_percent c) n = k.
Proof.
  intros Hc Hn Hk. apply perbill_mul_exact; [done|].
  rewrite parts_from_percent by done. unfold BILLION. lia.
Qed.

Lemma perbill_mul_nonneg p n : 0 <= n -> 0 <= perbill_mul p n.
Proof.
  intros Hn. pose proof (perbill_mul_nearest p n Hn). pose proof (parts_bounds p).
  unfold BILLION in *. nia.
Qed.

Lemma perbill_mul_le p n : 0 <= n -> perbill_mul p n <= n.
Proof.
  intros Hn. pose proof (perbill_mul_nearest p n Hn). pose proof (parts_bounds p).
  unfold BILLION in *. nia.
Qed.
End perbills.

(** A share of a weight is taken of each component. *)
Class WeightShares `{Weights, Perbills} : Type :=
  perbill_mul_weight : Perbill -> Weight -> Weight.
Class WeightSharesOk `{WeightShares} : Prop :=
  perbill_mul_weight_spec p w :
    perbill_mul_weight p w = from_parts (perbill_mul p (ref_time w)) (perbill_mul p (proof_size w)).

(** ** Polynomial weight-to-fee conversion

    [WeightToFeePolynomial::weight_to_fee] evaluates the polynomial whose terms
    are given; what the runtime relies on is its value on a single linear term
    with a non-negative coefficient. *)
Record WeightToFeeCoefficient `{Perbills} : Type := {
  degree : Z;
  negative : bool;
  coeff_frac : Perbill;
  coeff_integer : Z;
}.

Class FeePolynomials `{Perbills} : Type :=
  evaluate : list WeightToFeeCoefficient -> Z -> Z.
Class FeePolynomialsOk `{FeePolynomials} : Prop :=
  evaluate_linear c t :
    degree c = 1 -> negative c = false -> fits 64 t -> 0 <= coeff_integer c ->
    evaluate [c] t =
    saturating_add 128 (perbill_mul (coeff_frac c) t) (saturating_mul 128 (coeff_integer c) t).
