(* ===== verification/Swarm.v ===== *)
(** * The swarm robot pallet

    [pallets/swarm-robot-pallet/src/lib.rs]: the registry of robots, the bounded
    queue of commands they share, and the three dispatchables over them. *)
From S2P Require Import Prelude Frame.

Local Open Scope Z_scope.

(** ** Data *)
Record Coordinate : Type := { x : u32; y : u32 }.

(** The pallet's [Config] trait.  [Location], [RobotId] and [TaskDefinition] are
    [PartialEq + Eq + Copy], and encodable, hence countable. *)
Class Config : Type := {
  Location : Type;
  RobotId : Type;
  TaskDefinition : Type;
  Location_eq :: EqDecision Location;
  RobotId_eq :: EqDecision RobotId;
  RobotId_countable :: Countable RobotId;
  TaskDefinition_eq :: EqDecision TaskDefinition;
  MaxGlobalCommands : Z;
}.

Inductive Command `{Config} : Type :=
| GoToLocation (l : Location)
| PerformTask (t : TaskDefinition)
| Halt
| WaitForCommand.

Inductive Error : Type :=
| InvalidRobotId
| QueueFull
| QueueEmpty.

Inductive Event `{Config} : Type :=
| CommandEnqueued (command : Command)
| CommandPulled (robot_id : RobotId) (command : Command) (coordinate : option Location).

#[export] Instance Coordinate_eq_dec : EqDecision Coordinate.
Proof. solve_decision. Defined.
#[export] Instance Command_eq_dec `{Config} : EqDecision Command.
Proof. solve_decision. Defined.
#[export] Instance Error_eq_dec : EqDecision Error.
Proof. solve_decision. Defined.
#[export] Instance Event_eq_dec `{Config} : EqDecision Event.
Proof. solve_decision. Defined.

(** ** Storage *)
Class SwarmStorage (W : Type) `{Config} `{BoundedVec Command} : Type := {
  RegisteredRobots : StorageMap W RobotId unit;
  GlobalCommandQueue : StorageValue W (bvec Command) (bvec Command);
  SwarmEvents : EventSink W Event;
}.

(** The storage items are separate keys: a write to one shows in no other. *)
Class SwarmStorageOk (W : Type) `{SwarmStorage W} : Prop := {
  robots_ok :: StorageMapOk RegisteredRobots;
  queue_ok :: StorageValueOk id GlobalCommandQueue;
  events_ok :: EventSinkOk SwarmEvents;
  insert_keeps_queue r u :: Keeps (sv_get GlobalCommandQueue) (sm_insert RegisteredRobots r u);
  insert_keeps_log r u :: Keeps (es_log SwarmEvents) (sm_insert RegisteredRobots r u);
  insert_keeps_rec r u :: Keeps (es_recording SwarmEvents) (sm_insert RegisteredRobots r u);
  put_keeps_robots r q :: Keeps (sm_contains_key RegisteredRobots r) (sv_put GlobalCommandQueue q);
  put_keeps_log q :: Keeps (es_log SwarmEvents) (sv_put GlobalCommandQueue q);
  put_keeps_rec q :: Keeps (es_recording SwarmEvents) (sv_put GlobalCommandQueue q);
  deposit_keeps_robots r e :: Keeps (sm_contains_key RegisteredRobots r) (es_deposit SwarmEvents e);
  deposit_keeps_queue e :: Keeps (sv_get GlobalCommandQueue) (es_deposit SwarmEvents e);
}.

(** ** Dispatchables

    [Call] is the enum [#[pallet::call]] makes of the dispatchables. *)
Inductive Call `{Config} : Type :=
| Call_register_robot (robot_id : RobotId)
| Call_enqueue_command (command : Command)
| Call_pull_next (robot_id : RobotId).

(** [#[pallet::weight(10_000)]] on each of the three: picoseconds of computation. *)
Definition declared_weight `{Config} (c : Call) : Z :=
  match c with
  | Call_register_robot _ => 10_000
  | Call_enqueue_command _ => 10_000
  | Call_pull_next _ => 10_000
  end.

Section calls.
Context {W : Type} `{FrameSystem} `{SwarmStorage W} `{!IntoDispatchError Error}.

Definition deposit_event (e : Event) : M W DispatchError unit :=
  modify (es_deposit SwarmEvents e).

Definition register_robot (origin : OriginFor) (robot_id : RobotId) :
    M W DispatchError unit :=
  _who ← attempt (ensure_signed origin);
  modify (sm_insert RegisteredRobots robot_id tt);;
  mret tt.

Definition enqueue_command (origin : OriginFor) (command : Command) :
    M W DispatchError unit :=
  _who ← attempt (ensure_signed origin);
  queue ← gets (sv_get GlobalCommandQueue);
  let '(pushed, queue) := bv_try_push command queue in
  attempt (map_err (fun _ => into QueueFull) pushed);;
  modify (sv_put GlobalCommandQueue queue);;
  deposit_event (CommandEnqueued command);;
  mret tt.

Definition pull_next (origin : OriginFor) (robot_id : RobotId) :
    M W DispatchError unit :=
  _who ← attempt (ensure_signed origin);
  registered ← gets (sm_contains_key RegisteredRobots robot_id);
  ensure registered (into InvalidRobotId);;
  queue ← gets (sv_get GlobalCommandQueue);
  cmd ← attempt (ok_or (bv_slice queue !! 0%nat) (into QueueEmpty));
  removed ← expect (bv_remove 0 queue);
  modify (sv_put GlobalCommandQueue removed.2);;
  let coord := match cmd with GoToLocation c => Some c | _ => None end in
  deposit_event (CommandPulled robot_id cmd coord);;
  mret tt.

Definition dispatch (origin : OriginFor) (c : Call) : M W DispatchError unit :=
  match c with
  | Call_register_robot r => register_robot origin r
  | Call_enqueue_command c => enqueue_command origin c
  | Call_pull_next r => pull_next origin r
  end.

(** A schedule of calls, in the order the block executes them. *)
Definition run : list (OriginFor * Call) -> W -> list (outcome DispatchError unit) * W :=
  run_all (fun oc => dispatch oc.1 oc.2).
End calls.

(** What every write of the pallet keeps, every call keeps. *)
Section footprint.
Context {W : Type} `{FrameSystem} `{SwarmStorage W} `{!IntoDispatchError Error}.

Lemma swarm_dispatch_invariant (I : W -> Prop) o c w :
  (forall r u v, I v -> I (sm_insert RegisteredRobots r u v)) ->
  (forall q v, I v -> I (sv_put GlobalCommandQueue q v)) ->
  (forall e v, I v -> I (es_deposit SwarmEvents e v)) ->
  I w -> I (dispatch o c w).2.
Proof.
  intros Hins Hput Hdep Hw.
  destruct c; cbn [dispatch];
    unfold register_robot, enqueue_command, pull_next, deposit_event;
    rust_run; (destruct (ensure_signed o); rust_run; [|done]); cbn [snd]; auto.
  - destruct (bv_try_push _ _) as [[] ?]; cbn [map_err]; rust_run; cbn [snd]; auto.
  - destruct (sm_contains_key _ _ _); rust_run; [|done].
    destruct (bv_slice _ !! _); cbn [ok_or]; rust_run; [|done].
    destruct (bv_remove _ _); cbn [expect]; rust_run; cbn [snd]; auto.
Qed.
End footprint.

(** ** What the calls do to the state a caller can read *)
Section lemmas.
Context {W : Type} `{FrameSystem} `{SwarmStorage W} `{!IntoDispatchError Error}.
Context `{!SwarmStorageOk W} `{!BoundedVecOk Command MaxGlobalCommands}.
Implicit Types (w : W) (o : OriginFor).

Definition queue w : list Command := bv_slice (sv_get GlobalCommandQueue w).
Definition registered w (r : RobotId) : bool := sm_contains_key RegisteredRobots r w.
Definition log w : list Event := es_log SwarmEvents w.
Definition recording w : bool := es_recording SwarmEvents w.

(** The destination a command carries. *)
Definition coordinate_of (c : Command) : option Location :=
  match c with GoToLocation l => Some l | _ => None end.

Lemma dispatch_unsigned o c w e :
  ensure_signed o = RErr e -> dispatch o c w = (Err e, w).
Proof. intros Ho.
  destruct c; cbn [dispatch];
    unfold register_robot, enqueue_command, pull_next; rust_run; by rewrite Ho.
Qed.

Lemma register_robot_run o who r w :
  ensure_signed o = ROk who ->
  register_robot o r w = (Ok tt, sm_insert RegisteredRobots r tt w).
Proof. intros Ho. unfold register_robot. rust_run. by rewrite Ho. Qed.

Lemma enqueue_command_room o who c w :
  ensure_signed o = ROk who ->
  Z.of_nat (length (queue w)) < MaxGlobalCommands ->
  exists q, bv_slice q = queue w ++ [c] /\
    enqueue_command o c w =
    (Ok tt, es_deposit SwarmEvents (CommandEnqueued c) (sv_put GlobalCommandQueue q w)).
Proof.
  intros Ho Hroom. unfold enqueue_command.
  destruct (bv_try_push_room c _ Hroom) as [Hr Hs].
  destruct (bv_try_push c (sv_get GlobalCommandQueue w)) as [r q] eqn:Hp; cbn in *; subst.
  exists q. split; [done|]. rust_run. rewrite Ho. rust_run. rewrite Hp. by rust_run.
Qed.

Lemma enqueue_command_full o who c w :
  ensure_signed o = ROk who ->
  MaxGlobalCommands <= Z.of_nat (length (queue w)) ->
  enqueue_command o c w = (Err (into QueueFull), w).
Proof.
  intros Ho Hfull. unfold enqueue_command.
  destruct (bv_try_push_full c _ Hfull) as [Hr _].
  destruct (bv_try_push c (sv_get GlobalCommandQueue w)) as [r q] eqn:Hp; cbn in *; subst.
  rust_run. rewrite Ho. rust_run. rewrite Hp. by rust_run.
Qed.

Lemma pull_next_unregistered o who r w :
  ensure_signed o = ROk who -> registered w r = false ->
  pull_next o r w = (Err (into InvalidRobotId), w).
Proof.
  intros Ho Hr. unfold pull_next, registered in *. rust_run. rewrite Ho.
  rust_run. by rewrite Hr.
Qed.

Lemma pull_next_empty o who r w :
  ensure_signed o = ROk who -> registered w r = true -> queue w = [] ->
  pull_next o r w = (Err (into QueueEmpty), w).
Proof.
  intros Ho Hr Hq. unfold pull_next, registered, queue in *. rust_run. rewrite Ho.
  rust_run. rewrite Hr. rust_run. by rewrite Hq.
Qed.

Lemma pull_next_head o who r w c cs :
  ensure_signed o = ROk who -> registered w r = true -> queue w = c :: cs ->
  exists q, bv_slice q = cs /\
    pull_next o r w =
    (Ok tt, es_deposit SwarmEvents (CommandPulled r c (coordinate_of c))
              (sv_put GlobalCommandQueue q w)).
Proof.
  intros Ho Hr Hq. unfold pull_next, registered, queue in *.
  destruct (bv_remove_in_range 0 (sv_get GlobalCommandQueue w) c) as (q & Hrm & Hs).
  { by rewrite Hq. }
  exists q. rewrite Hq in Hs. split; [done|].
  rust_run. rewrite Ho. rust_run. rewrite Hr. rust_run. rewrite Hq. cbn.
  rewrite Hrm. by rust_run.
Qed.
End lemmas.

