(* ===== verification/SwarmSpec.v ===== *)
(** * What the swarm pallet promises

    An abstract machine over a set of robots and a plain list of commands, and
    the proof that the dispatchables of [Swarm.v] implement it.  States are
    compared by what they show ([≡]): two chain states are equivalent when the
    same robots are registered, the same commands are queued and the same events
    were recorded, whatever the storage looks like underneath. *)
From S2P Require Import Prelude Frame Swarm.

Local Open Scope Z_scope.

(** ** The abstract machine

    [live] is false in the genesis block only, where FRAME records no events. *)
Record state `{Config} : Type := {
  robots : RobotId -> bool;
  pending : list Command;
  history : list Event;
  live : bool;
}.

#[export] Instance state_equiv `{Config} : Equiv state := fun s t =>
  (forall r, robots s r = robots t r) /\
  pending s = pending t /\ history s = history t /\ live s = live t.

#[export] Instance state_equivalence `{Config} : Equivalence (≡@{state}).
Proof.
  split.
  - by intros s.
  - intros s t (Hr & Hp & Hh & Hl). by repeat split.
  - intros s t u (Hr & Hp & Hh & Hl) (Hr' & Hp' & Hh' & Hl').
    repeat split; [intros r|..]; etrans; eauto.
Qed.

Section spec.
Context `{Config}.
Implicit Types s t : state.

(** Add a robot; replace the queue and record an event. *)
Definition enlist (r : RobotId) s : state :=
  {| robots := fun r' => bool_decide (r = r') || robots s r';
     pending := pending s; history := history s; live := live s |}.
Definition commit (q : list Command) (e : Event) s : state :=
  {| robots := robots s; pending := q;
     history := if live s then history s ++ [e] else history s; live := live s |}.

(** One signed call: the next state, or the error and no change. *)
Definition spec_call (c : Call) s : result state Error :=
  match c with
  | Call_register_robot r => ROk (enlist r s)
  | Call_enqueue_command c =>
      if decide (Z.of_nat (length (pending s)) < MaxGlobalCommands)
      then ROk (commit (pending s ++ [c]) (CommandEnqueued c) s)
      else RErr QueueFull
  | Call_pull_next r =>
      if robots s r
      then match pending s with
           | [] => RErr QueueEmpty
           | c :: cs => ROk (commit cs (CommandPulled r c (coordinate_of c)) s)
           end
      else RErr InvalidRobotId
  end.

(** Results agree when they are the same error or equivalent states. *)
Inductive result_rel : result state Error -> result state Error -> Prop :=
| result_rel_ok s t : s ≡ t -> result_rel (ROk s) (ROk t)
| result_rel_err e : result_rel (RErr e) (RErr e).

#[export] Instance enlist_proper r : Proper ((≡) ==> (≡)) (enlist r).
Proof. intros s t (Hr & Hp & Hh & Hl). repeat split; [intros r'|..]; cbn; congruence. Qed.

#[export] Instance commit_proper q e : Proper ((≡) ==> (≡)) (commit q e).
Proof. intros s t (Hr & Hp & Hh & Hl). repeat split; cbn; by rewrite ?Hl, ?Hh. Qed.

#[export] Instance spec_call_proper c : Proper ((≡) ==> result_rel) (spec_call c).
Proof.
  intros s t Hst. pose proof Hst as (Hr & Hp & Hh & Hl).
  destruct c as [r|c|r]; cbn; [|rewrite Hp | rewrite Hr, Hp]; repeat case_match;
    constructor; by rewrite Hst.
Qed.
End spec.

(** ** Refinement *)
Section refinement.
Context {W : Type} `{FrameSystem} `{SwarmStorage W} `{!IntoDispatchError Error}.
Context `{!SwarmStorageOk W} `{!BoundedVecOk Command MaxGlobalCommands}.
Implicit Types (w : W) (o : OriginFor) (s : state).

(** The abstract state a chain state shows, and what a caller is told. *)
Definition view w : state :=
  {| robots := registered w; pending := queue w; history := log w; live := recording w |}.

Definition told (r : result state Error) : outcome DispatchError unit :=
  match r with ROk _ => Ok tt | RErr e => Err (into e) end.

(** One call by any origin, signed or not, on the abstract machine. *)
Definition spec_dispatch o (c : Call) s : outcome DispatchError unit * state :=
  match ensure_signed o with
  | RErr e => (Err e, s)
  | ROk _ => (told (spec_call c s), match spec_call c s with ROk s' => s' | RErr _ => s end)
  end.

Definition spec_run : list (OriginFor * Call) -> state -> list (outcome DispatchError unit) * state :=
  run_all (fun oc => spec_dispatch oc.1 oc.2).

Lemma view_insert w r : view (sm_insert RegisteredRobots r tt w) ≡ enlist r (view w).
Proof.
  repeat split; [intros r'|..]; cbn; unfold registered, queue, log, recording; frame; try done.
  by rewrite sm_contains_insert.
Qed.

Lemma view_put_deposit w q e :
  view (es_deposit SwarmEvents e (sv_put GlobalCommandQueue q w)) ≡
  commit (bv_slice q) e (view w).
Proof.
  repeat split; [intros r'|..]; cbn; unfold registered, queue, log, recording; frame; try done.
  - by rewrite sv_get_put.
  - rewrite es_log_deposit. by frame.
Qed.

(** The heart of the refinement: a signed call does what the specification
    says, error for error, and an error changes nothing at all. *)
Lemma dispatch_signed o who c w :
  ensure_signed o = ROk who ->
  match spec_call c (view w) with
  | ROk s' => exists w', dispatch o c w = (Ok tt, w') /\ view w' ≡ s'
  | RErr e => dispatch o c w = (Err (into e), w)
  end.
Proof.
  intros Ho. destruct c as [r|c|r]; cbn [spec_call dispatch view pending robots].
  - rewrite (register_robot_run o who) by done. eauto using view_insert.
  - case_decide as Hroom.
    + destruct (enqueue_command_room o who c w Ho Hroom) as (q & Hs & ->).
      rewrite <- Hs. eauto using view_put_deposit.
    + apply (enqueue_command_full o who); [done | lia].
  - destruct (registered w r) eqn:Hr; [|by apply (pull_next_unregistered o who)].
    destruct (queue w) as [|c cs] eqn:Hq; [by apply (pull_next_empty o who)|].
    destruct (pull_next_head o who r w c cs Ho Hr Hq) as (q & Hs & ->).
    rewrite <- Hs. eauto using view_put_deposit.
Qed.

(** Outcome and view of one call, for every origin. *)
Lemma dispatch_refines o c w :
  (dispatch o c w).1 = (spec_dispatch o c (view w)).1 /\
  view (dispatch o c w).2 ≡ (spec_dispatch o c (view w)).2.
Proof.
  unfold spec_dispatch. destruct (ensure_signed o) as [who|e] eqn:Ho.
  - pose proof (dispatch_signed o who c w Ho) as Hd.
    destruct (spec_call c (view w)); [destruct Hd as (w' & -> & Hv) | rewrite Hd]; done.
  - by rewrite (dispatch_unsigned o c w e).
Qed.

#[export] Instance spec_dispatch_proper o c :
  Proper ((≡) ==> prod_relation (=) (≡)) (spec_dispatch o c).
Proof.
  intros s t Hst. unfold spec_dispatch. destruct (ensure_signed o); [|by split].
  by destruct (spec_call_proper c s t Hst).
Qed.

#[export] Instance spec_run_proper cs :
  Proper ((≡) ==> prod_relation (=) (≡)) (spec_run cs).
Proof.
  intros s t Hst. apply (run_all_simulation _ _ (≡)); [|done].
  intros [o c] s' t' Hst'. apply (spec_dispatch_proper o c s' t' Hst').
Qed.

(** Runs from equivalent states, one after the other, are one run. *)
Lemma spec_run_trans cs cs' s t u :
  t ≡ (spec_run cs s).2 -> u ≡ (spec_run cs' t).2 -> u ≡ (spec_run (cs ++ cs') s).2.
Proof.
  intros Ht ->. unfold spec_run at 2. rewrite run_all_app. apply (spec_run_proper cs' _ _ Ht).
Qed.

Lemma run_view cs w :
  (run cs w).1 = (spec_run cs (view w)).1 /\ view (run cs w).2 ≡ (spec_run cs (view w)).2.
Proof.
  apply (run_all_simulation _ _ (fun w s => view w ≡ s)); [|done].
  intros [o c] w' s Hs; cbn. destruct (dispatch_refines o c w') as [-> ->].
  apply (spec_dispatch_proper o c _ _ Hs).
Qed.
End refinement.
