(* ===== verification/SwarmProps.v ===== *)
(** * Guarantees of the swarm pallet

    What the refinement of [SwarmSpec.v] gives to the users of the chain: the
    invariants of the queue and of the registry, FIFO exactly-once delivery, the
    progress properties, and the calls that commute. *)
From S2P Require Import Prelude Frame Swarm SwarmSpec.

Local Open Scope Z_scope.

(** ** Reading a history *)
Section ledger.
Context `{Config}.
Context {O E : Type}.

Definition enqueued (e : Event) : option Command :=
  match e with CommandEnqueued c => Some c | _ => None end.
Definition pulled (e : Event) : option Command :=
  match e with CommandPulled _ c _ => Some c | _ => None end.
Definition puller (e : Event) : option RobotId :=
  match e with CommandPulled r _ _ => Some r | _ => None end.

(** An event is sound for a registry when the robot it names is in it and the
    coordinate it shows is the one of its command. *)
Definition event_ok (rs : RobotId -> bool) (e : Event) : Prop :=
  match e with
  | CommandEnqueued _ => True
  | CommandPulled r c l => rs r = true /\ l = coordinate_of c
  end.

(** The commands accepted, and the robots served, by the calls that returned
    [Ok]. *)
Definition accepted (cr : (O * Call) * outcome E unit) : option Command :=
  match cr with ((_, Call_enqueue_command c), Ok _) => Some c | _ => None end.
Definition served (cr : (O * Call) * outcome E unit) : option RobotId :=
  match cr with ((_, Call_pull_next r), Ok _) => Some r | _ => None end.

(** The books balance over a stretch of history [es]: what was in the queue and
    what was put into it, in order, is what was taken out of it followed by
    what is left; and the events are exactly those of the successful calls. *)
Record ledger (cs : list (O * Call)) (rs : list (outcome E unit))
    (s s' : state) (es : list Event) : Prop := {
  led_history : history s' = history s ++ es;
  led_queue : pending s ++ omap enqueued es = omap pulled es ++ pending s';
  led_accepted : omap enqueued es = omap accepted (zip cs rs);
  led_served : omap puller es = omap served (zip cs rs);
  led_sound : Forall (event_ok (robots s')) es;
}.

Lemma event_ok_mono (f g : RobotId -> bool) e :
  (forall r, f r = true -> g r = true) -> event_ok f e -> event_ok g e.
Proof. destruct e; naive_solver. Qed.

Lemma ledger_nil s : ledger [] [] s s [].
Proof. split; cbn; rewrite ?app_nil_r; done. Qed.

Lemma ledger_cons c cs r rs s s1 s2 es1 es2 :
  (forall k, robots s1 k = true -> robots s2 k = true) ->
  ledger [c] [r] s s1 es1 -> ledger cs rs s1 s2 es2 ->
  ledger (c :: cs) (r :: rs) s s2 (es1 ++ es2).
Proof.
  intros Hmono [Hh Hq Ha Hs Hok] [Hh' Hq' Ha' Hs' Hok'].
  change (zip (c :: cs) (r :: rs)) with (zip [c] [r] ++ zip cs rs).
  split; rewrite ?omap_app.
  - by rewrite Hh', Hh, app_assoc.
  - by rewrite app_assoc, Hq, <- app_assoc, Hq', app_assoc.
  - by rewrite Ha, Ha', <- omap_app.
  - by rewrite Hs, Hs', <- omap_app.
  - apply Forall_app; split; [|done]. eapply Forall_impl; [exact Hok|].
    intros e. by apply event_ok_mono.
Qed.
End ledger.

(** ** Runs of the abstract machine *)
Section spec_runs.
Context `{FrameSystem} `{Config} `{!IntoDispatchError Error}.
Implicit Types (s t : state) (o : OriginFor) (cs : list (OriginFor * Call)).

Lemma spec_run_cons o c cs s :
  spec_run ((o, c) :: cs) s =
  ((spec_dispatch o c s).1 :: (spec_run cs (spec_dispatch o c s).2).1,
   (spec_run cs (spec_dispatch o c s).2).2).
Proof. unfold spec_run. by rewrite run_all_cons. Qed.

(** Case analysis of one abstract call. *)
Ltac spec_cases := unfold spec_dispatch, spec_call, told; repeat (case_match; cbn in *);
  simplify_eq; cbn in *.

Lemma spec_dispatch_live o c s : live (spec_dispatch o c s).2 = live s.
Proof. by spec_cases. Qed.

Lemma spec_dispatch_robots o c s r :
  robots (spec_dispatch o c s).2 r = true <->
  robots s r = true \/ (is_signed o /\ c = Call_register_robot r).
Proof.
  unfold is_signed. spec_cases; rewrite ?orb_true_iff, ?bool_decide_eq_true;
    (split; [intros; destruct_or?; subst; eauto 6 | intros [?|[[??]?]]; simplify_eq; eauto]).
Qed.

Lemma spec_dispatch_bounded o c s :
  Z.of_nat (length (pending s)) <= MaxGlobalCommands ->
  Z.of_nat (length (pending (spec_dispatch o c s).2)) <= MaxGlobalCommands.
Proof. spec_cases; rewrite ?length_app; cbn in *; lia. Qed.

Lemma spec_dispatch_ledger o c s :
  live s = true ->
  exists es, ledger [(o, c)] [(spec_dispatch o c s).1] s (spec_dispatch o c s).2 es.
Proof.
  intros Hl. destruct c as [r|c|r].
  - exists []. spec_cases; split; cbn; by rewrite ?app_nil_r.
  - spec_cases;
      first [ by exists []; split; cbn; rewrite ?app_nil_r
            | by exists [CommandEnqueued c]; split; cbn; rewrite ?Hl; repeat constructor ].
  - destruct (pending s) as [|k q] eqn:Hp; spec_cases;
      first [ by exists []; split; cbn; rewrite ?app_nil_r
            | by exists [CommandPulled r k (coordinate_of k)]; split; cbn;
                 rewrite ?Hl, ?app_nil_r; repeat constructor ].
Qed.

Lemma spec_run_robots cs s r :
  robots (spec_run cs s).2 r = true <->
  robots s r = true \/ exists o, is_signed o /\ (o, Call_register_robot r) ∈ cs.
Proof.
  revert s. induction cs as [|[o c] cs IH]; intros s.
  - cbn. set_solver.
  - rewrite spec_run_cons. cbn [snd]. rewrite IH, spec_dispatch_robots. set_solver.
Qed.

Lemma spec_run_bounded cs s :
  Z.of_nat (length (pending s)) <= MaxGlobalCommands ->
  Z.of_nat (length (pending (spec_run cs s).2)) <= MaxGlobalCommands.
Proof.
  apply (run_all_invariant _ (fun s => Z.of_nat (length (pending s)) <= MaxGlobalCommands)).
  intros [o c] t. apply (spec_dispatch_bounded o c t).
Qed.

Lemma spec_run_ledger cs s :
  live s = true -> exists es, ledger cs (spec_run cs s).1 s (spec_run cs s).2 es.
Proof.
  revert s. induction cs as [|[o c] cs IH]; intros s Hl; [by exists []; apply ledger_nil|].
  rewrite spec_run_cons; cbn [fst snd].
  destruct (spec_dispatch_ledger o c s Hl) as [es1 H1].
  destruct (IH (spec_dispatch o c s).2) as [es2 H2]; [by rewrite spec_dispatch_live|].
  exists (es1 ++ es2). eapply ledger_cons; [|done..].
  intros r Hr. apply spec_run_robots. by left.
Qed.

(** Draining: as many pulls as there are commands empty the queue. *)
Lemma spec_run_drain o who r s :
  ensure_signed o = ROk who -> robots s r = true ->
  (spec_run (replicate (length (pending s)) (o, Call_pull_next r)) s).1 =
    replicate (length (pending s)) (Ok tt) /\
  pending (spec_run (replicate (length (pending s)) (o, Call_pull_next r)) s).2 = [].
Proof.
  intros Ho. remember (pending s) as q eqn:Hq. revert s Hq.
  induction q as [|c q IH]; intros s Hq Hr; [done|].
  cbn [length replicate]. rewrite spec_run_cons; cbn [fst snd].
  assert (spec_dispatch o (Call_pull_next r) s =
    (Ok tt, commit q (CommandPulled r c (coordinate_of c)) s)) as ->.
  { unfold spec_dispatch. rewrite Ho. cbn. by rewrite Hr, <- Hq. }
  destruct (IH (commit q (CommandPulled r c (coordinate_of c)) s)) as [IH1 IH2]; [done..|].
  cbn [fst snd]. by rewrite IH1.
Qed.

(** Filling: the first enqueues that fit are accepted, the others refused. *)
Lemma spec_run_fill o who ks s n :
  ensure_signed o = ROk who ->
  Z.of_nat (length (pending s)) + Z.of_nat n = MaxGlobalCommands ->
  (spec_run ((fun c => (o, Call_enqueue_command c)) <$> ks) s).1 =
    replicate (n `min` length ks) (Ok tt) ++ replicate (length ks - n) (Err (into QueueFull)) /\
  pending (spec_run ((fun c => (o, Call_enqueue_command c)) <$> ks) s).2 =
    pending s ++ take n ks.
Proof.
  intros Ho. revert s n. induction ks as [|c ks IH]; intros s n Hn.
  { cbn [length]. rewrite Nat.min_0_r, take_nil. split; [done|]. by rewrite app_nil_r. }
  rewrite fmap_cons, spec_run_cons; cbn [fst snd].
  unfold spec_dispatch. rewrite Ho. cbn [spec_call].
  case_decide as Hroom; cbn [told fst snd].
  - destruct n as [|n]; [lia|].
    destruct (IH (commit (pending s ++ [c]) (CommandEnqueued c) s) n) as [IH1 IH2].
    { cbn. rewrite length_app. cbn. lia. }
    rewrite IH1, IH2. cbn. by rewrite <- app_assoc.
  - assert (n = 0%nat) as -> by lia.
    destruct (IH s 0%nat) as [IH1 IH2]; [done|]. rewrite IH1, IH2. cbn.
    by rewrite Nat.sub_0_r.
Qed.
End spec_runs.

(** ** Guarantees about the dispatchables *)
Section guarantees.
Context {W : Type} `{FrameSystem} `{SwarmStorage W} `{!IntoDispatchError Error}.
Implicit Types (w : W) (o : OriginFor) (cs : list (OriginFor * Call)).

#[export] Instance dispatch_err_noop o c : ErrNoop (dispatch o c).
Proof.
  destruct c; cbn [dispatch];
    unfold register_robot, enqueue_command, pull_next, deposit_event;
    repeat (apply bind_err_noop; [apply _ | intros ?]); repeat case_match; try apply _;
    repeat (apply bind_err_noop; [apply _ | intros ?]); apply _.
Qed.

(** C13: a dispatchable of the pallet that returns an error has written nothing:
    every check comes before the first write, so the call is a no-op even
    without the storage layer FRAME wraps around it. *)
Theorem error_is_noop o c w e w' : dispatch o c w = (Err e, w') -> w' = w.
Proof. apply err_noop. Qed.

Context `{!SwarmStorageOk W} `{!BoundedVecOk Command MaxGlobalCommands}.

(** C1: the pallet refines its abstract machine: over any schedule of calls by
    any origins, signed or not, every caller is told what the machine says and
    the chain state shows the machine's state. *)
Theorem run_refines cs w :
  (run cs w).1 = (spec_run cs (view w)).1 /\
  view (run cs w).2 ≡ (spec_run cs (view w)).2.
Proof. apply run_view. Qed.

Lemma run_pending cs w : queue (run cs w).2 = pending (spec_run cs (view w)).2.
Proof. by destruct (run_view cs w) as [_ (_ & Hp & _)]. Qed.
Lemma run_robots cs w r : registered (run cs w).2 r = robots (spec_run cs (view w)).2 r.
Proof. destruct (run_view cs w) as [_ (Hr & _)]. apply Hr. Qed.
Lemma run_history cs w : log (run cs w).2 = history (spec_run cs (view w)).2.
Proof. by destruct (run_view cs w) as [_ (_ & _ & Hh & _)]. Qed.

(** C2: exactly-once delivery in order.  Over any schedule of a block that records
    events, as every block after genesis does, the events recorded are those of the
    enqueues and pulls that succeeded, in their order (a registration records none); the
    commands in the queue followed by the ones accepted are, in order, the ones delivered
    followed by the ones still queued; and each delivery names a registered robot and
    shows the coordinate its command carries. *)
Theorem fifo_exactly_once cs w :
  recording w = true ->
  exists es,
    log (run cs w).2 = log w ++ es /\
    queue w ++ omap accepted (zip cs (run cs w).1) = omap pulled es ++ queue (run cs w).2 /\
    omap enqueued es = omap accepted (zip cs (run cs w).1) /\
    omap puller es = omap served (zip cs (run cs w).1) /\
    Forall (event_ok (registered (run cs w).2)) es.
Proof.
  intros Hl. destruct (spec_run_ledger cs (view w) Hl) as [es [Hh Hq Ha Hs Hok]].
  exists es. destruct (run_view cs w) as [-> _]. rewrite run_history, run_pending, <- Ha.
  repeat split; try done. eapply Forall_impl; [exact Hok|].
  intros e. apply event_ok_mono. intros r. by rewrite run_robots.
Qed.

(** The queue never holds more than [MaxGlobalCommands] commands. *)
Theorem queue_bounded cs w :
  Z.of_nat (length (queue w)) <= MaxGlobalCommands ->
  Z.of_nat (length (queue (run cs w).2)) <= MaxGlobalCommands.
Proof. rewrite run_pending. apply (spec_run_bounded cs (view w)). Qed.

(** The registry only grows, and holds after a schedule exactly the robots
    it held before and those a signed [register_robot] named. *)
Theorem registry_grows cs w r :
  registered (run cs w).2 r = true <->
  registered w r = true \/ exists o, is_signed o /\ (o, Call_register_robot r) ∈ cs.
Proof. rewrite run_robots. apply (spec_run_robots cs (view w)). Qed.

(** When a signed call succeeds. *)
Definition accepts (c : Call) w : Prop :=
  match c with
  | Call_register_robot _ => True
  | Call_enqueue_command _ => Z.of_nat (length (queue w)) < MaxGlobalCommands
  | Call_pull_next r => registered w r = true /\ queue w <> []
  end.

(** C16: a call succeeds exactly when its origin is signed and its precondition
    holds: room in the queue for an enqueue; a registered robot and a queued
    command for a pull; nothing for a registration. *)
Theorem succeeds_iff o c w :
  (dispatch o c w).1 = Ok tt <-> is_signed o /\ accepts c w.
Proof.
  destruct (dispatch_refines o c w) as [-> _]. unfold spec_dispatch, is_signed, accepts.
  destruct (ensure_signed o) as [who|e]; [|by split; [|intros [[??]?]]].
  destruct c as [r|c|r]; cbn; [|case_decide|destruct (registered w r), (queue w)];
    cbn; naive_solver.
Qed.

#[export] Instance dispatch_no_panic o c : NoPanic (dispatch o c).
Proof.
  intros w. destruct (dispatch_refines o c w) as [-> _]. unfold spec_dispatch.
  destruct (ensure_signed o); [by destruct (spec_call c (view w))|done].
Qed.

(** C17: no dispatchable panics; in particular [queue.remove(0)] is only reached
    with a command at the head of the queue. *)
Theorem never_panics o c w : (dispatch o c w).1 <> Panic.
Proof. apply no_panic. Qed.

(** C22: progress of the consumers: a registered robot that pulls as many times
    as there are commands empties the queue, every pull succeeding. *)
Theorem pulls_drain_queue o r w :
  is_signed o -> registered w r = true ->
  let cs := replicate (length (queue w)) (o, Call_pull_next r) in
  (run cs w).1 = replicate (length (queue w)) (Ok tt) /\ queue (run cs w).2 = [].
Proof.
  intros [who Ho] Hr cs. rewrite run_pending. destruct (run_view cs w) as [-> _].
  by apply (spec_run_drain o who r (view w)).
Qed.

(** C25: back-pressure on the producers: with room for [n] commands, the first
    [n] enqueues of a batch are accepted in order and every later one is
    refused with [QueueFull]. *)
Theorem enqueues_fill_queue o ks w n :
  is_signed o -> Z.of_nat (length (queue w)) + Z.of_nat n = MaxGlobalCommands ->
  let cs := (fun c => (o, Call_enqueue_command c)) <$> ks in
  (run cs w).1 = replicate (n `min` length ks) (Ok tt) ++
                 replicate (length ks - n) (Err (into QueueFull)) /\
  queue (run cs w).2 = queue w ++ take n ks.
Proof.
  intros [who Ho] Hn cs. rewrite run_pending. destruct (run_view cs w) as [-> _].
  by apply (spec_run_fill o who ks (view w) n).
Qed.

(** What the callers of a schedule are told, and what the chain shows after
    it, depend only on what the chain showed before: the registry, the queue and
    the history, not on how storage represents them. *)
Theorem run_observational cs w1 w2 :
  view w1 ≡ view w2 ->
  (run cs w1).1 = (run cs w2).1 /\ view (run cs w1).2 ≡ view (run cs w2).2.
Proof.
  intros Hw. destruct (run_view cs w1) as [-> ->], (run_view cs w2) as [-> ->].
  apply (spec_run_proper cs _ _ Hw).
Qed.

Lemma spec_register_commutes o1 o2 r c s :
  c <> Call_pull_next r ->
  let reg t := (spec_dispatch o1 (Call_register_robot r) t).2 in
  (spec_dispatch o2 c (reg s)).1 = (spec_dispatch o2 c s).1 /\
  (spec_dispatch o2 c (reg s)).2 ≡ reg (spec_dispatch o2 c s).2.
Proof.
  intros Hc reg. subst reg. unfold spec_dispatch.
  destruct (ensure_signed o1) as [w1|], (ensure_signed o2) as [w2|]; cbn; try done.
  destruct c as [r'|c|r']; cbn.
  - split; [done|]. repeat split; intros r''. cbn. by destruct (bool_decide (r' = r'')), (bool_decide (r = r'')).
  - by case_decide.
  - rewrite (bool_decide_false (r = r')) by congruence. cbn.
    destruct (robots s r'); [destruct (pending s)|]; done.
Qed.

(** C40: A registration commutes with every call except a pull by the robot it
    registers: neither the answer to that call nor the resulting state depends
    on the order in which the block holds the two. *)
Theorem registration_commutes o1 o2 r c w :
  c <> Call_pull_next r ->
  let reg v := (dispatch o1 (Call_register_robot r) v).2 in
  (dispatch o2 c (reg w)).1 = (dispatch o2 c w).1 /\
  view (dispatch o2 c (reg w)).2 ≡ view (reg (dispatch o2 c w).2).
Proof.
  intros Hc reg. subst reg. cbn beta.
  destruct (spec_register_commutes o1 o2 r c (view w) Hc) as [Ha Hs].
  destruct (dispatch_refines o1 (Call_register_robot r) w) as [_ Hreg].
  destruct (dispatch_refines o2 c w) as [Hd1 Hd2].
  destruct (dispatch_refines o2 c (dispatch o1 (Call_register_robot r) w).2) as [He1 He2].
  destruct (dispatch_refines o1 (Call_register_robot r) (dispatch o2 c w).2) as [_ Hf].
  destruct (spec_dispatch_proper o2 c _ _ Hreg) as [Hp1 Hp2].
  destruct (spec_dispatch_proper o1 (Call_register_robot r) _ _ Hd2) as [_ Hq].
  split; [congruence|]. by rewrite He2, Hp2, Hs, Hf, Hq.
Qed.

(** [register_robot] leaves the history alone: no event tells a client that
    a robot was registered. *)
Theorem register_robot_silent o r w : log (register_robot o r w).2 = log w.
Proof.
  destruct (dispatch_refines o (Call_register_robot r) w) as [_ (_ & _ & Hh & _)].
  etrans; [exact Hh|]. unfold spec_dispatch. by destruct (ensure_signed o).
Qed.

(** Who signs a call makes no difference: any account may register any
    robot, enqueue any command, and pull for any registered robot. *)
Theorem signer_agnostic o1 o2 c w :
  is_signed o1 -> is_signed o2 -> dispatch o1 c w = dispatch o2 c w.
Proof.
  intros [a1 H1'] [a2 H2']. destruct c; cbn [dispatch];
    unfold register_robot, enqueue_command, pull_next; rust_run; by rewrite H1', H2'.
Qed.
End guarantees.
