(* ===== verification/Template.v ===== *)
(** * The template pallet

    [pallets/template/src/lib.rs]: one optional stored block number, a call that
    sets it and a call that increments it with an overflow check. *)
From S2P Require Import Prelude Frame.

Local Open Scope Z_scope.

(** ** Data *)
Record CompositeStruct `{BlockNumbers} : Type := { block_number : BlockNumber }.
Add Printing Constructor CompositeStruct.

Inductive Event `{FrameSystem, BlockNumbers} : Type :=
| SomethingStored (bn : BlockNumber) (who : AccountId).

Inductive Error : Type :=
| NoneValue
| StorageOverflow.

#[export] Instance Error_eq_dec : EqDecision Error.
Proof. solve_decision. Defined.

(** ** Storage: [Something] is an [OptionQuery] value. *)
Class TemplateStorage (W : Type) `{FrameSystem, BlockNumbers} : Type := {
  Something : StorageValue W (option CompositeStruct) CompositeStruct;
  TemplateEvents : EventSink W Event;
}.

Class TemplateStorageOk (W : Type) `{TemplateStorage W} : Prop := {
  something_ok :: StorageValueOk Some Something;
  events_ok :: EventSinkOk TemplateEvents;
  put_keeps_log v :: Keeps (es_log TemplateEvents) (sv_put Something v);
  put_keeps_rec v :: Keeps (es_recording TemplateEvents) (sv_put Something v);
  deposit_keeps_something e :: Keeps (sv_get Something) (es_deposit TemplateEvents e);
}.

(** ** Dispatchables *)
Inductive Call : Type :=
| Call_do_something (bn : u32)
| Call_cause_error.

Section calls.
Context {W : Type} `{TemplateStorage W} `{!IntoDispatchError Error}.

Definition deposit_event (e : Event) : M W DispatchError unit :=
  modify (es_deposit TemplateEvents e).

Definition do_something (origin : OriginFor) (bn : u32) : M W DispatchError unit :=
  who ← attempt (ensure_signed origin);
  let block_number := bn_from_u32 bn in
  modify (sv_put Something {| block_number := block_number |});;
  deposit_event (SomethingStored block_number who);;
  mret tt.

Definition cause_error (origin : OriginFor) : M W DispatchError unit :=
  _who ← attempt (ensure_signed origin);
  something ← gets (sv_get Something);
  match something with
  | None => throw (into NoneValue)
  | Some old =>
      bn ← attempt (ok_or (bn_checked_add (block_number old) bn_one) (into StorageOverflow));
      modify (sv_put Something {| block_number := bn |});;
      mret tt
  end.

Definition dispatch (origin : OriginFor) (c : Call) : M W DispatchError unit :=
  match c with
  | Call_do_something bn => do_something origin bn
  | Call_cause_error => cause_error origin
  end.

Definition run : list (OriginFor * Call) -> W -> list (outcome DispatchError unit) * W :=
  run_all (fun oc => dispatch oc.1 oc.2).
End calls.

(** What every write of the pallet keeps, every call keeps. *)
Section footprint.
Context {W : Type} `{TemplateStorage W} `{!IntoDispatchError Error}.

Lemma template_dispatch_invariant (I : W -> Prop) o c w :
  (forall s v, I v -> I (sv_put Something s v)) ->
  (forall e v, I v -> I (es_deposit TemplateEvents e v)) ->
  I w -> I (dispatch o c w).2.
Proof.
  intros Hput Hdep Hw.
  destruct c; cbn [dispatch]; unfold do_something, cause_error, deposit_event;
    rust_run; (destruct (ensure_signed o); rust_run; [|done]); cbn [snd]; auto.
  destruct (sv_get _ w); [|done]. rust_run.
  destruct (bn_checked_add _ _); cbn [ok_or]; rust_run; cbn [snd]; auto.
Qed.
End footprint.
