(* ===== verification/TemplateProps.v ===== *)
(** * What the template pallet promises

    The abstract machine is an optional bounded counter; the dispatchables of
    [Template.v] refine it for every block number type that counts up to a
    maximum without wrapping. *)
From S2P Require Import Prelude Frame Template.

Local Open Scope Z_scope.

Section spec.
Context `{FrameSystem, BlockNumbers}.
Context (bn_max : Z).

Record state : Type := {
  value : option Z;
  history : list Event;
  live : bool;
}.
Implicit Types s : state.

Definition spec_call (who : AccountId) (c : Call) s : result state Error :=
  match c with
  | Call_do_something n =>
      ROk {| value := Some (uval n);
             history := if live s
                        then history s ++ [SomethingStored (bn_from_u32 n) who]
                        else history s;
             live := live s |}
  | Call_cause_error =>
      match value s with
      | None => RErr NoneValue
      | Some v =>
          if decide (v + 1 <= bn_max)
          then ROk {| value := Some (v + 1); history := history s; live := live s |}
          else RErr StorageOverflow
      end
  end.

Context `{!IntoDispatchError Error}.

Definition spec_dispatch (o : OriginFor) (c : Call) s : outcome DispatchError unit * state :=
  match ensure_signed o with
  | RErr e => (Err e, s)
  | ROk who =>
      match spec_call who c s with
      | ROk s' => (Ok tt, s')
      | RErr e => (Err (into e), s)
      end
  end.

Definition spec_run : list (OriginFor * Call) -> state -> list (outcome DispatchError unit) * state :=
  run_all (fun oc => spec_dispatch oc.1 oc.2).

Lemma spec_dispatch_store o who n s :
  ensure_signed o = ROk who ->
  exists s', spec_dispatch o (Call_do_something n) s = (Ok tt, s') /\ value s' = Some (uval n).
Proof. intros Ho. unfold spec_dispatch. rewrite Ho. cbn. eauto. Qed.

(** [k] increments from [v]: those that fit succeed, the rest overflow. *)
Lemma spec_run_increments o who s v k n :
  ensure_signed o = ROk who -> value s = Some v -> v + Z.of_nat n = bn_max ->
  (spec_run (replicate k (o, Call_cause_error)) s).1 =
    replicate (k `min` n) (Ok tt) ++ replicate (k - n) (Err (into StorageOverflow)) /\
  value (spec_run (replicate k (o, Call_cause_error)) s).2 = Some (v + Z.of_nat (k `min` n)).
Proof.
  intros Ho. unfold spec_run. revert s v n.
  induction k as [|k IH]; intros s v n Hv Hn.
  { cbn. split; [done|]. rewrite Hv. f_equal. lia. }
  cbn [replicate]. rewrite run_all_cons; cbn [fst snd].
  assert (Hd : spec_dispatch o Call_cause_error s =
    match n with
    | O => (Err (into StorageOverflow), s)
    | S _ => (Ok tt, {| value := Some (v + 1); history := history s; live := live s |})
    end).
  { unfold spec_dispatch. rewrite Ho. cbn. rewrite Hv. by case_decide; destruct n; try lia. }
  rewrite Hd. destruct n as [|n]; cbn [fst snd].
  - destruct (IH s v 0%nat Hv Hn) as [IH1 IH2]. rewrite IH1, IH2.
    by rewrite !Nat.min_0_r, !Nat.sub_0_r.
  - destruct (IH {| value := Some (v + 1); history := history s; live := live s |}
      (v + 1) n eq_refl) as [IH1 IH2]; [lia|].
    rewrite IH1, IH2. split; [done|]. f_equal. cbn. lia.
Qed.
End spec.

Section guarantees.
Context {W : Type} `{TemplateStorage W} `{!IntoDispatchError Error}.
Implicit Types (w : W) (o : OriginFor) (cs : list (OriginFor * Call)).

#[export] Instance dispatch_err_noop o c : ErrNoop (dispatch o c).
Proof.
  destruct c; cbn [dispatch]; unfold do_something, cause_error, deposit_event;
    repeat (apply bind_err_noop; [apply _ | intros ?]); repeat case_match;
    repeat (apply bind_err_noop; [apply _ | intros ?]); apply _.
Qed.
#[export] Instance dispatch_no_panic o c : NoPanic (dispatch o c).
Proof.
  destruct c; cbn [dispatch]; unfold do_something, cause_error, deposit_event;
    repeat (apply bind_no_panic; [apply _ | intros ?]); repeat case_match;
    repeat (apply bind_no_panic; [apply _ | intros ?]); apply _.
Qed.

(** A template call that returns an error has written nothing. *)
Theorem template_error_is_noop o c w e w' : dispatch o c w = (Err e, w') -> w' = w.
Proof. apply err_noop. Qed.

(** No template call panics: the increment is checked. *)
Theorem template_never_panics o c w : (dispatch o c w).1 <> Panic.
Proof. apply no_panic. Qed.

Context `{!TemplateStorageOk W} (bn_val : BlockNumber -> Z) (bn_max : Z).
Context `{!BlockNumbersOk bn_val bn_max}.

Definition stored w : option Z := (fun v => bn_val (block_number v)) <$> sv_get Something w.
Definition log w : list Event := es_log TemplateEvents w.
Definition view w : state :=
  {| value := stored w; history := log w; live := es_recording TemplateEvents w |}.

Lemma template_dispatch_refines o c w :
  (dispatch o c w).1 = (spec_dispatch bn_max o c (view w)).1 /\
  view (dispatch o c w).2 = (spec_dispatch bn_max o c (view w)).2.
Proof.
  unfold spec_dispatch. destruct c as [n|]; cbn [dispatch spec_call view value].
  - unfold do_something. rust_run. destruct (ensure_signed o) as [who|e]; [|done].
    rust_run. split; [done|]. unfold view, stored, log, deposit_event. rust_run. cbn [snd].
    rewrite es_log_deposit. frame. rewrite (sv_get_put (s := Something)). cbn. by rewrite bn_val_from.
  - unfold cause_error. rust_run. destruct (ensure_signed o) as [who|e]; [|done].
    rust_run. unfold stored at 1 2. destruct (sv_get Something w) as [old|] eqn:Hs; cbn; [|done].
    rust_run. destruct (bn_checked_add (block_number old) bn_one) as [b|] eqn:Ha; cbn.
    + apply bn_add_Some in Ha. rewrite bn_val_one in Ha.
      pose proof (bn_val_bounds b). rewrite decide_True by lia. split; [done|].
      unfold view, stored, log. rust_run. cbn [snd]. frame. rewrite (sv_get_put (s := Something)). cbn. by rewrite Ha.
    + apply bn_add_None in Ha. rewrite bn_val_one in Ha. rewrite decide_False by lia. done.
Qed.

Lemma template_run_view cs w :
  (run cs w).1 = (spec_run bn_max cs (view w)).1 /\
  view (run cs w).2 = (spec_run bn_max cs (view w)).2.
Proof.
  apply (run_all_simulation _ _ (fun w s => view w = s)); [|done].
  intros [o c] w' s <-. apply template_dispatch_refines.
Qed.

(** C21: the template pallet refines the bounded counter: over any schedule every
    caller is told what the machine says, and the stored block number and the
    events are the machine's. *)
Theorem template_run_refines cs w :
  (run cs w).1 = (spec_run bn_max cs (view w)).1 /\
  view (run cs w).2 = (spec_run bn_max cs (view w)).2.
Proof. apply template_run_view. Qed.

(** C26: [do_something] then [k] times [cause_error]: the stored number counts up
    by one per call and stops at the largest block number, where every further
    call reports [StorageOverflow] and changes nothing. *)
Theorem increments_until_overflow o (n : u32) k room w :
  is_signed o -> uval n + Z.of_nat room = bn_max ->
  let cs := (o, Call_do_something n) :: replicate k (o, Call_cause_error) in
  (run cs w).1 = Ok tt :: replicate (k `min` room) (Ok tt) ++
                 replicate (k - room) (Err (into StorageOverflow)) /\
  stored (run cs w).2 = Some (uval n + Z.of_nat (k `min` room)).
Proof.
  intros [who Ho] Hroom cs.
  assert (stored (run cs w).2 = value (spec_run bn_max cs (view w)).2) as ->.
  { by destruct (template_run_view cs w) as [_ <-]. }
  destruct (template_run_view cs w) as [-> _]. subst cs.
  unfold spec_run. rewrite run_all_cons; cbn [fst snd].
  destruct (spec_dispatch_store bn_max o who n (view w) Ho) as (s & -> & Hs). cbn [fst snd].
  destruct (spec_run_increments bn_max o who s (uval n) k room Ho Hs Hroom) as [Ho1 Ho2].
  unfold spec_run in Ho1, Ho2. by rewrite Ho1, Ho2.
Qed.
End guarantees.
