(* ===== verification/TemplateWeights.v ===== *)
(** * Weights of the template pallet's calls

    [pallets/template/src/weights.rs], and the weights that the
    [#[pallet::weight]] attributes of [pallets/template/src/lib.rs] declare.
    The two are independent in the source: the declared weights do not go through
    [T::WeightInfo]. *)
From S2P Require Import Prelude Frame Template.

Local Open Scope Z_scope.

(** [trait WeightInfo] *)
Class WeightInfo `{Weights} : Type := {
  weight_do_something : Weight;
  weight_cause_error : Weight;
}.

Section weights.
Context `{DbWeights}.

(** [SubstrateWeight<T>], with [T::DbWeight::get()] as an argument. *)
Definition SubstrateWeight (DbWeight : RuntimeDbWeight) : WeightInfo := {|
  weight_do_something :=
    weight_saturating_add (from_parts 9_000_000 0) (db_writes DbWeight 1);
  weight_cause_error :=
    weight_saturating_add
      (weight_saturating_add (from_parts 6_000_000 1489) (db_reads DbWeight 1))
      (db_writes DbWeight 1);
|}.

(** [impl WeightInfo for ()], over [frame_support]'s [RocksDbWeight]. *)
Definition unit_WeightInfo (RocksDbWeight : RuntimeDbWeight) : WeightInfo := {|
  weight_do_something :=
    weight_saturating_add (from_parts 9_000_000 0) (db_writes RocksDbWeight 1);
  weight_cause_error :=
    weight_saturating_add
      (weight_saturating_add (from_parts 6_000_000 1489) (db_reads RocksDbWeight 1))
      (db_writes RocksDbWeight 1);
|}.

(** The [#[pallet::weight]] attributes. *)
Definition declared_weight (DbWeight : RuntimeDbWeight) (c : Call) : Weight :=
  match c with
  | Call_do_something _ => weight_add (from_parts 10_000 0) (db_writes DbWeight 1)
  | Call_cause_error => weight_add (from_parts 10_000 0) (db_reads_writes DbWeight 1 1)
  end.

(** The measured weight of a call. *)
Definition measured_weight (info : WeightInfo) (c : Call) : Weight :=
  match c with
  | Call_do_something _ => @weight_do_something _ info
  | Call_cause_error => @weight_cause_error _ info
  end.
End weights.

Section facts.
Context `{DbWeightsOk} `{!WeightsOk}.

(** Database costs small enough that no sum below saturates. *)
Definition small_db (d : RuntimeDbWeight) : Prop :=
  0 <= read d < 2 ^ 62 /\ 0 <= write d < 2 ^ 62.

Lemma one_access n :
  0 <= n < 2 ^ 62 ->
  saturating_mul 64 n 1 = n.
Proof. unfold saturating_mul, umax. lia. Qed.

Ltac weigh :=
  repeat first
    [ rewrite ref_time_saturating_add | rewrite proof_size_saturating_add
    | rewrite ref_time_add by (weigh; unfold fits, umax; lia)
    | rewrite proof_size_add by (weigh; unfold fits, umax; lia)
    | rewrite ref_time_from_parts by (unfold fits, umax; lia)
    | rewrite proof_size_from_parts by (unfold fits, umax; lia) ].

(** The weight a template call declares is less than its measured weight for
    every (realistic) database: the declared computation time falls short by
    8_990_000 ps for [do_something] and 5_990_000 ps for [cause_error], and the
    proof size of the storage read of [cause_error] is not declared at all. *)
Theorem declared_weight_falls_short d c :
  small_db d ->
  ref_time (measured_weight (SubstrateWeight d) c) - ref_time (declared_weight d c) =
    match c with Call_do_something _ => 8_990_000 | Call_cause_error => 5_990_000 end /\
  proof_size (measured_weight (SubstrateWeight d) c) - proof_size (declared_weight d c) =
    match c with Call_do_something _ => 0 | Call_cause_error => 1489 end.
Proof.
  intros [Hr Hw].
  pose proof (one_access _ Hr) as Er. pose proof (one_access _ Hw) as Ew.
  destruct c; cbn [measured_weight declared_weight SubstrateWeight
    weight_do_something weight_cause_error];
    rewrite ?db_reads_spec, ?db_writes_spec, ?db_reads_writes_spec, ?Er, ?Ew,
      ?saturating_add_exact by (unfold umax; lia);
    split; weigh; unfold saturating_add, umax; lia.
Qed.
End facts.
