(* ===== verification/TemplateTests.v ===== *)
(** * The template pallet's tests and benchmarks

    [pallets/template/src/tests.rs], [benchmarking.rs] and the runtime of
    [mock.rs]: the unit tests and the benchmarks as programs that panic where an
    assertion fails, and what each of them establishes: the tests pass from the
    empty genesis, the benchmarks verify from every state, so that they may run
    against any chain's storage. *)
From S2P Require Import Prelude Frame Template TemplateProps TemplateWeights.

Local Open Scope Z_scope.
Local Open Scope rust_scope.

(** ** Assertions *)
Section assertions.
Context {W E : Type}.

(** [assert_eq!] *)
Definition assert_eq `{EqDecision A} (a b : A) : M W E unit :=
  if decide (a = b) then mret tt else panic.

(** [assert_ok!] and [assert_err!], of a call's result *)
Definition assert_ok (call : M W E unit) : M W E unit := fun w =>
  match call w with (Err _, w') => (Panic, w') | r => r end.
Definition assert_err `{EqDecision E} (call : M W E unit) (e : E) : M W E unit := fun w =>
  match call w with (Err e', w') => assert_eq e' e w' | (_, w') => (Panic, w') end.

(** [assert_noop!]: the error, and the same storage root before and after *)
Definition assert_noop `{EqDecision E} `{EqDecision Root} (storage_root : W -> Root)
    (call : M W E unit) (e : E) : M W E unit :=
  h ← gets storage_root;
  assert_err call e;;
  h' ← gets storage_root;
  assert_eq h h'.

Lemma assert_eq_Ok `{EqDecision A} (a b : A) w : (assert_eq a b w).1 = Ok tt <-> a = b.
Proof. unfold assert_eq. by case_decide. Qed.

Lemma assert_ok_Ok call w w' : call w = (Ok tt, w') -> assert_ok call w = (Ok tt, w').
Proof. intros H. unfold assert_ok. by rewrite H. Qed.

(** What never writes on error passes [assert_noop!] on exactly its error. *)
Lemma assert_noop_Ok `{EqDecision E} `{EqDecision Root} (root : W -> Root) call e w :
  ErrNoop call -> (assert_noop root call e w).1 = Ok tt <-> (call w).1 = Err e.
Proof.
  intros Hnoop. unfold assert_noop. rust_run. unfold mbind at 1, M_bind, assert_err.
  destruct (call w) as [[[]|e'|] w'] eqn:Hc; cbn; [done| |done].
  apply err_noop in Hc as ->. unfold assert_eq at 1. case_decide; cbn; [|naive_solver].
  rust_run. unfold assert_eq. rewrite decide_True by done. naive_solver.
Qed.
End assertions.

(** ** The mock runtime's storage

    The storage a genesis configuration builds, and the state tests run in. *)
Class TestHost (W : Type) : Type := {
  GenesisConfig : Type;
  genesis_default : GenesisConfig;
  GenesisStorage : Type;
  build_storage : GenesisConfig -> result GenesisStorage string;
  test_state : GenesisStorage -> W;
}.

(** The mock runtime's default genesis builds, and leaves out pallets that have no
    genesis configuration of their own. *)
Class TestHostOk (W : Type) `{TestHost W} `{TemplateStorage W} : Prop := {
  default_builds : exists s, build_storage genesis_default = ROk s /\
    sv_get Something (test_state s) = None;
}.

Section tests.
Context {W : Type} `{TemplateStorage W} `{!IntoDispatchError Error} `{!TestHost W}.
Context `{!EqDecision BlockNumber, !EqDecision DispatchError}.
Context {Root : Type} `{EqDecision Root} (storage_root : W -> Root).
(** [RuntimeOrigin::signed], and the account benchmarks sign with *)
Context (signed : AccountId -> OriginFor) (account_1 whitelisted_caller : AccountId).

Definition new_test_ext : option W :=
  match build_storage genesis_default with
  | ROk s => Some (test_state s)
  | RErr _ => None
  end.

(** [new_test_ext().execute_with]: a genesis that does not build panics. *)
Definition execute_with (t : M W DispatchError unit) : outcome DispatchError unit :=
  match new_test_ext with Some w => (t w).1 | None => Panic end.

(** *** Tests *)
Definition it_works_for_default_value : M W DispatchError unit :=
  assert_ok (do_something (signed account_1) #42);;
  v ← gets (sv_get Something);
  assert_eq (block_number <$> v) (Some (bn_from_u32 #42)).

Definition correct_error_for_none_value : M W DispatchError unit :=
  assert_noop storage_root (cause_error (signed account_1)) (into NoneValue).

(** *** Benchmarks: the measured call, whose error is the benchmark's, then the
    verification of its effect. *)
Definition bench_do_something : M W DispatchError unit :=
  dispatch (signed whitelisted_caller) (Call_do_something #100);;
  v ← gets (sv_get Something);
  assert_eq (block_number <$> v) (Some (bn_from_u32 #100)).

Definition bench_cause_error : M W DispatchError unit :=
  modify (sv_put Something {| block_number := bn_from_u32 #100 |});;
  dispatch (signed whitelisted_caller) Call_cause_error;;
  v ← gets (sv_get Something);
  assert_eq (block_number <$> v) (Some (bn_from_u32 #101)).

(** [impl_benchmark_test_suite!] *)
Definition benchmark_test_suite : list (outcome DispatchError unit) :=
  execute_with <$> [bench_do_something; bench_cause_error].

Context (signed_ok : forall who, ensure_signed (signed who) = ROk who).
Context `{!TemplateStorageOk W} (bn_val : BlockNumber -> Z) (bn_max : Z).
Context `{!BlockNumbersOk bn_val bn_max}.

(** Storing a number stores it, whatever was there. *)
Lemma stores_number (n : u32) who w :
  exists w', do_something (signed who) n w = (Ok tt, w') /\
    block_number <$> sv_get Something w' = Some (bn_from_u32 n).
Proof.
  unfold do_something, deposit_event. rewrite signed_ok. rust_run. eexists. split; [done|].
  frame. by rewrite (sv_get_put (s := Something)).
Qed.

(** Incrementing a small number stores the next one. *)
Lemma increments_number (n m : u32) who w :
  uval m = uval n + 1 -> sv_get Something w = Some {| block_number := bn_from_u32 n |} ->
  exists w', cause_error (signed who) w = (Ok tt, w') /\
    block_number <$> sv_get Something w' = Some (bn_from_u32 m).
Proof.
  intros Hm Hw. unfold cause_error. rewrite signed_ok. rust_run. rewrite Hw. cbn [block_number].
  rewrite (proj2 (bn_add_Some _ _ (bn_from_u32 m))) by (rewrite !bn_val_from, bn_val_one; lia).
  cbn [ok_or]. rust_run. eexists. split; [done|]. by rewrite (sv_get_put (s := Something)).
Qed.

Lemma stored_verified (call : M W DispatchError unit) (n : BlockNumber) w :
  (exists w', call w = (Ok tt, w') /\ block_number <$> sv_get Something w' = Some n) ->
  ((call;; v ← gets (sv_get Something); assert_eq (block_number <$> v) (Some n)) w).1 = Ok tt.
Proof.
  intros (w' & Hc & Hv). rust_run. rewrite Hc. rust_run. rewrite Hv. by apply assert_eq_Ok.
Qed.

(** The benchmarks verify in every state, also one that already holds a number. *)
Lemma benchmarks_verify w :
  (bench_do_something w).1 = Ok tt /\ (bench_cause_error w).1 = Ok tt.
Proof.
  split; [apply stored_verified, stores_number|].
  apply (stored_verified (dispatch (signed whitelisted_caller) Call_cause_error) (bn_from_u32 #101)
    (sv_put Something {| block_number := bn_from_u32 #100 |} w)).
  apply (increments_number #100 #101); [done|]. by rewrite (sv_get_put (s := Something)).
Qed.

(** The second test passes exactly in the states without a number, where the first
    call of any user must fail. *)
Lemma none_value_test w :
  into NoneValue <> into StorageOverflow ->
  (correct_error_for_none_value w).1 = Ok tt <-> sv_get Something w = None.
Proof.
  intros Hne. unfold correct_error_for_none_value.
  rewrite assert_noop_Ok by exact (dispatch_err_noop (signed account_1) Call_cause_error).
  unfold cause_error. rewrite signed_ok. rust_run.
  destruct (sv_get Something w) as [old|]; [|by rust_run].
  destruct (bn_checked_add (block_number old) bn_one); cbn [ok_or]; rust_run; [done|].
  split; [intros [= E]; by rewrite E in Hne | done].
Qed.

(** The pallet's test suite passes: both unit tests and both benchmarks, run in the
    state the mock runtime's genesis builds.  The benchmarks, which also run
    against the storage of a live chain, verify from every state. *)
Theorem template_tests_pass `{!TestHostOk W} :
  execute_with it_works_for_default_value = Ok tt /\
  execute_with correct_error_for_none_value = Ok tt /\
  benchmark_test_suite = [Ok tt; Ok tt] /\
  forall w, (bench_do_something w).1 = Ok tt /\ (bench_cause_error w).1 = Ok tt.
Proof.
  destruct default_builds as (s & Hs & Hnone).
  unfold benchmark_test_suite, execute_with, new_test_ext. rewrite Hs. cbn [fmap list_fmap].
  destruct (benchmarks_verify (test_state s)) as [-> ->].
  split; [|split; [|split; [done | apply benchmarks_verify]]].
  - apply stored_verified. destruct (stores_number #42 account_1 (test_state s)) as (w' & Hc & Hv).
    exists w'. by rewrite (assert_ok_Ok _ _ _ Hc).
  - unfold correct_error_for_none_value.
    apply assert_noop_Ok; [exact (dispatch_err_noop (signed account_1) Call_cause_error)|].
    unfold cause_error. rewrite signed_ok. rust_run. rewrite Hnone. by rust_run.
Qed.
End tests.

(** ** The mock runtime

    [test_runtime]: the system pallet and the template pallet; calls carry the index of
    their pallet and run in a storage layer, as in the runtime.  [FrameRocksDbWeight] is
    [frame_support]'s own [RocksDbWeight]. *)
Inductive test_pallet : Type := TestSystem | TestTemplate.
Definition test_pallet_index (p : test_pallet) : Z :=
  match p with TestSystem => 0 | TestTemplate => 1 end.

Record TestSystemConfig : Type := {
  nonce_bits : Z;
  block_hash_count : Z;
  test_db_weight : RuntimeDbWeight;
}.

Section mock.
Context {W : Type} `{TemplateStorage W} `{!IntoDispatchError Error} `{!StorageLayer W}.
Context {SystemCall : Type} (system_dispatch : OriginFor -> SystemCall -> M W DispatchError unit).
Context `{!Weights, !DbWeights} (FrameRocksDbWeight : RuntimeDbWeight).

Definition test_system_config : TestSystemConfig := {|
  nonce_bits := 64;
  block_hash_count := 250;
  test_db_weight := FrameRocksDbWeight;
|}.

(** [type WeightInfo = ()] *)
Definition test_weight_info : WeightInfo := unit_WeightInfo FrameRocksDbWeight.

Inductive TestCall : Type :=
| TestCallSystem (c : SystemCall)
| TestCallTemplate (c : Call).

Definition test_dispatch (x : OriginFor * TestCall) : M W DispatchError unit :=
  match x.2 with
  | TestCallSystem c => system_dispatch x.1 c
  | TestCallTemplate c => with_storage_layer (dispatch x.1 c)
  end.

Context `{!StorageLayerOk W} `{!TemplateStorageOk W}.

(** What holds of the pallet in the mock runtime holds of it called directly, as the
    tests do, and the weights the tests run with are those the runtime would measure
    over the mock's database. *)
Theorem mock_runs_pallet o c w :
  test_dispatch (o, TestCallTemplate c) w = dispatch o c w /\
  measured_weight test_weight_info c =
    measured_weight (SubstrateWeight (test_db_weight test_system_config)) c.
Proof. split; [apply (layer_redundant (dispatch o c)); apply _ | by destruct c]. Qed.
End mock.
