(* ===== verification/Constants.v ===== *)
(** * Constants of the runtime

    [runtime/src/lib.rs] and [runtime/src/weights/]: block times, units of the
    currency, and the weights the block limits and fees are computed from. *)
From S2P Require Import Prelude Frame.

Local Open Scope Z_scope.

(** ** Time, measured in blocks ([BlockNumber] is [u32]) *)
Definition MILLI_SECS_PER_BLOCK : Z := 6000.
Definition SLOT_DURATION : Z := MILLI_SECS_PER_BLOCK.
Definition MINUTES : Z := 60_000 / as_u32 MILLI_SECS_PER_BLOCK.
Definition HOURS : Z := MINUTES * 60.
Definition DAYS : Z := HOURS * 24.

(** ** Balances ([u128]) *)
Definition UNIT : Z := 1_000_000_000_000.
Definition MILLI_UNIT : Z := 1_000_000_000.
Definition MICRO_UNIT : Z := 1_000_000.
Definition EXISTENTIAL_DEPOSIT : Z := MILLI_UNIT.

(** ** Async backing *)
Definition UNINCLUDED_SEGMENT_CAPACITY : Z := 3.
Definition BLOCK_PROCESSING_VELOCITY : Z := 1.
Definition RELAY_CHAIN_SLOT_DURATION_MILLIS : Z := 6000.

(** ** Weights *)
Section weights.
Context `{Weights, Perbills}.

Definition AVERAGE_ON_INITIALIZE_RATIO : Perbill := from_percent 5.
Definition NORMAL_DISPATCH_RATIO : Perbill := from_percent 75.

(** [MAX_POV_SIZE] is the relay chain's limit on a proof of validity. *)
Definition MAXIMUM_BLOCK_WEIGHT (MAX_POV_SIZE : Z) : Weight :=
  from_parts (saturating_mul 64 WEIGHT_REF_TIME_PER_SECOND 2) MAX_POV_SIZE.

Definition BlockExecutionWeight : Weight :=
  from_parts (saturating_mul 64 WEIGHT_REF_TIME_PER_NANOS 5_000_000) 0.
Definition ExtrinsicBaseWeight : Weight :=
  from_parts (saturating_mul 64 WEIGHT_REF_TIME_PER_NANOS 125_000) 0.
Definition RocksDbWeight : RuntimeDbWeight := {|
  read := 25_000 * WEIGHT_REF_TIME_PER_NANOS;
  write := 100_000 * WEIGHT_REF_TIME_PER_NANOS;
|}.
Definition ParityDbWeight : RuntimeDbWeight := {|
  read := 8_000 * WEIGHT_REF_TIME_PER_NANOS;
  write := 50_000 * WEIGHT_REF_TIME_PER_NANOS;
|}.

(** The assertions of the [sane] tests, one per weight file. *)
Definition block_weights_sane : bool :=
  (100 * WEIGHT_REF_TIME_PER_MICROS <=? ref_time BlockExecutionWeight) &&
  (ref_time BlockExecutionWeight <=? 50 * WEIGHT_REF_TIME_PER_MILLIS).
Definition extrinsic_weights_sane : bool :=
  (10 * WEIGHT_REF_TIME_PER_MICROS <=? ref_time ExtrinsicBaseWeight) &&
  (ref_time ExtrinsicBaseWeight <=? WEIGHT_REF_TIME_PER_MILLIS).
Definition db_weights_sane `{!DbWeights} (W : RuntimeDbWeight) : bool :=
  (WEIGHT_REF_TIME_PER_MICROS <=? ref_time (db_reads W 1)) &&
  (WEIGHT_REF_TIME_PER_MICROS <=? ref_time (db_writes W 1)) &&
  (ref_time (db_reads W 1) <=? WEIGHT_REF_TIME_PER_MILLIS) &&
  (ref_time (db_writes W 1) <=? WEIGHT_REF_TIME_PER_MILLIS).
Definition rocksdb_sane `{!DbWeights} : bool := db_weights_sane RocksDbWeight.
Definition paritydb_sane `{!DbWeights} : bool := db_weights_sane ParityDbWeight.
End weights.

(** ** Values *)
Section facts.
Context `{WeightsOk} `{!Perbills} `{!DbWeights} `{!DbWeightsOk}.

(** Evaluates closed integer expressions over the documented constants. *)
Ltac weigh :=
  rewrite ?per_second, ?per_millis, ?per_micros, ?per_nanos;
  repeat first [ rewrite ref_time_from_parts by solve_fits
               | rewrite proof_size_from_parts by solve_fits ];
  try (vm_compute; reflexivity).

Lemma base_weight_time : ref_time ExtrinsicBaseWeight = 125_000_000.
Proof. unfold ExtrinsicBaseWeight. weigh. Qed.

Lemma block_execution_time : ref_time BlockExecutionWeight = 5_000_000_000.
Proof. unfold BlockExecutionWeight. weigh. Qed.

Lemma max_block_time pov : fits 64 pov -> ref_time (MAXIMUM_BLOCK_WEIGHT pov) = 2_000_000_000_000.
Proof.
  intros Hp. unfold MAXIMUM_BLOCK_WEIGHT. rewrite per_second.
  by rewrite ref_time_from_parts by solve_fits.
Qed.

Lemma max_block_proof pov : fits 64 pov -> proof_size (MAXIMUM_BLOCK_WEIGHT pov) = pov.
Proof.
  intros Hp. unfold MAXIMUM_BLOCK_WEIGHT. rewrite per_second.
  by rewrite proof_size_from_parts by solve_fits.
Qed.

(** The sanity assertions of all four weight files hold: the block weight is
    between 100 us and 50 ms, the extrinsic weight between 10 us and 1 ms, and
    one database access of either backend between 1 us and 1 ms. *)
Theorem weights_are_sane :
  block_weights_sane = true /\ extrinsic_weights_sane = true /\
  rocksdb_sane = true /\ paritydb_sane = true.
Proof.
  unfold block_weights_sane, extrinsic_weights_sane, rocksdb_sane, paritydb_sane, db_weights_sane.
  rewrite block_execution_time, base_weight_time, !db_reads_spec, !db_writes_spec.
  unfold RocksDbWeight, ParityDbWeight; cbn [read write]. weigh. done.
Qed.
End facts.
