(* ===== verification/Fees.v ===== *)
(** * Transaction fees

    The weight-to-fee polynomial of [runtime/src/lib.rs] and the fee parameters of
    [runtime/src/configs/mod.rs].  Evaluating the polynomial is polkadot-sdk's
    code ([evaluate]); the polynomial itself is the runtime's. *)
From S2P Require Import Prelude Frame Constants.

Local Open Scope Z_scope.

Section fees.
Context `{Weights, FeePolynomials}.

(** [WeightToFee::polynomial] *)
Definition polynomial : list WeightToFeeCoefficient :=
  let p := MILLI_UNIT / 10 in
  let q := 100 * ref_time ExtrinsicBaseWeight in
  [{| degree := 1;
      negative := false;
      coeff_frac := from_rational (p mod q) q;
      coeff_integer := p / q |}].

(** [WeightToFeePolynomial::weight_to_fee] on the computation time. *)
Definition weight_to_fee (w : Weight) : Z := evaluate polynomial (ref_time w).

Definition TransactionByteFee : Z := 10 * MICRO_UNIT.

End fees.

Section facts.
Context `{!Weights} `{!WeightsOk} `{!Perbills} `{!PerbillsOk}
  `{!FeePolynomials} `{!FeePolynomialsOk}.

(** The coefficient is 8 parts per thousand of a balance unit per picosecond. *)
Lemma polynomial_coefficient :
  exists c, polynomial = [c] /\ degree c = 1 /\ negative c = false /\
    coeff_integer c = 0 /\ parts (coeff_frac c) = 8_000_000.
Proof.
  unfold polynomial. eexists. split; [done|]. rewrite base_weight_time. cbn [degree negative coeff_frac coeff_integer].
  repeat split. apply parts_from_rational; vm_compute; [split; discriminate|done..].
Qed.

Lemma weight_to_fee_near w :
  fits 64 (ref_time w) ->
  2 * Z.abs (1000 * weight_to_fee w - 8 * ref_time w) <= 1000.
Proof.
  intros Hw. unfold weight_to_fee.
  destruct polynomial_coefficient as (c & -> & Hd & Hn & Hi & Hp).
  rewrite evaluate_linear by (try done; lia). rewrite Hi.
  pose proof (perbill_mul_nearest (coeff_frac c) (ref_time w) ltac:(unfold fits in Hw; lia)) as Hr.
  pose proof (perbill_mul_le (coeff_frac c) (ref_time w) ltac:(unfold fits in Hw; lia)) as Hle.
  pose proof (perbill_mul_nonneg (coeff_frac c) (ref_time w) ltac:(unfold fits in Hw; lia)) as Hge.
  rewrite Hp in Hr. unfold fits in Hw.
  assert (umax 64 < umax 128) by done.
  rewrite saturating_mul_exact, saturating_add_exact by lia. unfold BILLION in Hr. lia.
Qed.

(** The fee of a weight is 8/1000 of its computation time in picoseconds, to
    the nearest balance unit (rounding to the nearest, never more than half a
    unit away), for every 64-bit weight. *)
Theorem weight_to_fee_is_linear w :
  fits 64 (ref_time w) ->
  2 * Z.abs (1000 * weight_to_fee w - 8 * ref_time w) <= 1000.
Proof. apply weight_to_fee_near. Qed.

(** The weight fee is monotone up to rounding: of two weights at least one
    unit of fee (125 ps) apart, the heavier never costs less. *)
Theorem weight_to_fee_monotone v w :
  fits 64 (ref_time v) -> fits 64 (ref_time w) ->
  ref_time v + 125 <= ref_time w -> weight_to_fee v <= weight_to_fee w.
Proof.
  intros Hv Hw Hle.
  pose proof (weight_to_fee_near v Hv). pose proof (weight_to_fee_near w Hw). lia.
Qed.

(** The base weight of an extrinsic costs one MICRO_UNIT, a hundredth of the
    tenth of a MILLI_UNIT the comment on the polynomial announces; a block full
    of computation costs 16 MILLI_UNITs. *)
Theorem base_extrinsic_fee pov :
  fits 64 pov ->
  weight_to_fee ExtrinsicBaseWeight = MICRO_UNIT /\
  100 * weight_to_fee ExtrinsicBaseWeight = MILLI_UNIT / 10 /\
  weight_to_fee (MAXIMUM_BLOCK_WEIGHT pov) = 16 * MILLI_UNIT.
Proof.
  intros Hpov.
  pose proof (weight_to_fee_near ExtrinsicBaseWeight) as Hb.
  pose proof (weight_to_fee_near (MAXIMUM_BLOCK_WEIGHT pov)) as Hm.
  rewrite base_weight_time in Hb. rewrite max_block_time in Hm by done.
  specialize (Hb ltac:(solve_fits)). specialize (Hm ltac:(solve_fits)).
  unfold MICRO_UNIT, MILLI_UNIT.
  assert (weight_to_fee ExtrinsicBaseWeight = 1_000_000) as -> by lia.
  repeat split. lia.
Qed.
End facts.
