(* ===== verification/Genesis.v ===== *)
(** * Genesis presets

    [runtime/src/genesis_config_presets.rs]: the genesis patch of a test network
    and the presets the runtime serves by name. *)
From S2P Require Import Prelude Frame Constants.

Local Open Scope Z_scope.

Definition PARACHAIN_ID : Z := 1000.

(** The development keyring, the XCM version, the JSON library and the names of
    the presets are polkadot-sdk's and serde's. *)
Class GenesisHost : Type := {
  Account : Type;
  AuraId : Type;
  Keyring : Type;
  Alice : Keyring;
  Bob : Keyring;
  well_known : list Keyring;
  to_account_id : Keyring -> Account;
  aura_public : Keyring -> AuraId;
  XCM_VERSION : Z;
  PresetId : Type;
  PresetId_eq :: EqDecision PresetId;
  DEV_RUNTIME_PRESET : PresetId;
  LOCAL_TESTNET_RUNTIME_PRESET : PresetId;
  Value : Type;
  Bytes : Type;
}.

(** The two preset names differ; the well-known keys are distinct accounts and
    include Alice and Bob. *)
Class GenesisHostOk `{GenesisHost} : Prop := {
  presets_differ : DEV_RUNTIME_PRESET <> LOCAL_TESTNET_RUNTIME_PRESET;
  well_known_nodup : NoDup (to_account_id <$> well_known);
  alice_well_known : Alice ∈ well_known;
  bob_well_known : Bob ∈ well_known;
  alice_is_not_bob : to_account_id Alice <> to_account_id Bob;
}.

Section genesis.
Context `{GenesisHost}.

Record SessionKeys : Type := { aura : AuraId }.

Definition template_session_keys (keys : AuraId) : SessionKeys := {| aura := keys |}.

Definition SAFE_XCM_VERSION : Z := XCM_VERSION.

(** The fields of [RuntimeGenesisConfig] that the patch sets. *)
Record GenesisPatch : Type := {
  balances : list (Account * Z);
  parachain_id : Z;
  invulnerables : list Account;
  candidacy_bond : Z;
  session_keys : list (Account * Account * SessionKeys);
  safe_xcm_version : option Z;
  sudo_key : option Account;
}.

Definition testnet_genesis (invs : list (Account * AuraId))
    (endowed_accounts : list Account) (root : Account) (id : Z) : GenesisPatch := {|
  balances := (fun k => (k, Z.shiftl 1 60)) <$> endowed_accounts;
  parachain_id := id;
  invulnerables := (fun '(acc, _) => acc) <$> invs;
  candidacy_bond := EXISTENTIAL_DEPOSIT * 16;
  session_keys := (fun '(acc, aura) => (acc, acc, template_session_keys aura)) <$> invs;
  safe_xcm_version := Some SAFE_XCM_VERSION;
  sudo_key := Some root;
|}.

Definition local_testnet_genesis : GenesisPatch :=
  testnet_genesis
    [(to_account_id Alice, aura_public Alice); (to_account_id Bob, aura_public Bob)]
    (to_account_id <$> well_known) (to_account_id Alice) PARACHAIN_ID.

Definition development_config_genesis : GenesisPatch :=
  testnet_genesis
    [(to_account_id Alice, aura_public Alice); (to_account_id Bob, aura_public Bob)]
    (to_account_id <$> well_known) (to_account_id Alice) PARACHAIN_ID.

(** [build_struct_json_patch!] and [serde_json::to_string] (into bytes). *)
Context (json_patch : GenesisPatch -> Value) (to_string : Value -> option Bytes).

Definition get_preset {W E} (id : PresetId) : M W E (option Bytes) :=
  let patch :=
    if decide (id = LOCAL_TESTNET_RUNTIME_PRESET) then Some (json_patch local_testnet_genesis)
    else if decide (id = DEV_RUNTIME_PRESET) then Some (json_patch development_config_genesis)
    else None in
  match patch with
  | None => mret None
  | Some patch => bytes ← expect (to_string patch); mret (Some bytes)
  end.

Definition preset_names : list PresetId :=
  [DEV_RUNTIME_PRESET; LOCAL_TESTNET_RUNTIME_PRESET].
End genesis.

(** ** Facts *)
Section facts.
Context `{GenesisHostOk}.

(** What a genesis patch owes the pallets that read it at block zero. *)
Record genesis_ok (g : GenesisPatch) : Prop := {
  (* each collator has session keys, registered under its own account, and
     nobody else has *)
  keys_of_invulnerables : (fun k => k.1.1) <$> session_keys g = invulnerables g;
  validator_is_account : Forall (fun k => k.1.1 = k.1.2) (session_keys g);
  collators_distinct : NoDup (invulnerables g);
  collators_exist : invulnerables g <> [];
  (* every account is endowed once, above the existential deposit; a collator
     and the sudo account can pay the candidacy bond and stay alive *)
  endowed_once : NoDup (fst <$> balances g);
  endowed_alive : Forall (fun b => EXISTENTIAL_DEPOSIT <= b.2) (balances g);
  collators_solvent : forall a, a ∈ invulnerables g \/ sudo_key g = Some a ->
    exists b, (a, b) ∈ balances g /\ candidacy_bond g + EXISTENTIAL_DEPOSIT <= b;
}.

Lemma testnet_genesis_ok invs endowed root id :
  NoDup invs.*1 -> invs <> [] -> NoDup endowed -> root ∈ endowed -> invs.*1 ⊆ endowed ->
  genesis_ok (testnet_genesis invs endowed root id).
Proof.
  intros Hnd Hne Hen Hroot Hsub.
  assert (Hinv : (fun '(acc, _) => acc) <$> invs = invs.*1).
  { apply list_fmap_ext. by intros ? [] ?. }
  split; cbn -[Z.shiftl EXISTENTIAL_DEPOSIT].
  - rewrite <- list_fmap_compose. apply list_fmap_ext. by intros ? [] ?.
  - apply Forall_fmap, Forall_true. by intros [].
  - by rewrite Hinv.
  - by destruct invs.
  - rewrite <- list_fmap_compose. by rewrite list_fmap_id.
  - apply Forall_fmap, Forall_true. by intros a; vm_compute.
  - rewrite Hinv. intros a Ha. exists (Z.shiftl 1 60). split; [|by vm_compute].
    apply list_elem_of_fmap. exists a. split; [done|].
    destruct Ha as [Ha|[= ->]]; [by apply Hsub | done].
Qed.

Lemma development_ok : genesis_ok development_config_genesis.
Proof.
  apply testnet_genesis_ok; cbn; try done.
  all: try apply well_known_nodup; try by apply list_elem_of_fmap_2, alice_well_known.
  all: try (apply NoDup_cons; split; [rewrite list_elem_of_singleton; apply alice_is_not_bob
                                     | apply NoDup_singleton]).
  all: intros a; rewrite elem_of_cons, list_elem_of_singleton;
    intros [-> | ->]; apply list_elem_of_fmap_2; apply alice_well_known || apply bob_well_known.
Qed.

(** Both test networks start well-formed: two distinct collators with session
    keys under their own accounts and nobody else's, every endowment unique and
    above the existential deposit, and collators and sudo able to pay the
    candidacy bond. *)
Theorem presets_well_formed :
  genesis_ok local_testnet_genesis /\ genesis_ok development_config_genesis.
Proof. split; apply development_ok. Qed.

(** Sum of the endowments: the issuance pallet_balances starts with. *)
Definition issuance (g : GenesisPatch) : Z := foldr Z.add 0 (snd <$> balances g).

(** The genesis issuance is [2^60] per endowed account and fits the [u128]
    balance type for any list of fewer than [2^68] accounts. *)
Theorem issuance_fits invs endowed root id :
  Z.of_nat (length endowed) < 2 ^ 68 ->
  issuance (testnet_genesis invs endowed root id) = 2 ^ 60 * Z.of_nat (length endowed) /\
  fits 128 (issuance (testnet_genesis invs endowed root id)).
Proof.
  intros Hlen.
  assert (issuance (testnet_genesis invs endowed root id) = 2 ^ 60 * Z.of_nat (length endowed)) as ->.
  { unfold issuance. cbn -[Z.shiftl]. clear Hlen.
    induction endowed as [|a l IH]; [done|]. cbn -[Z.shiftl Z.of_nat Z.mul] in *.
    rewrite IH, Nat2Z.inj_succ. change (Z.shiftl 1 60) with (2 ^ 60). lia. }
  split; [done|]. unfold fits, umax. lia.
Qed.

Context (json_patch : GenesisPatch -> Value) (to_string : Value -> option Bytes).

(** The runtime serves exactly the presets it lists: a listed name gives the
    serialized genesis, any other name gives none, and with a serializer that
    does not fail no request panics. *)
Theorem preset_served_iff_listed {W E : Type} id (w : W) :
  (forall v, is_Some (to_string v)) ->
  exists r, get_preset (E := E) json_patch to_string id w = (Ok r, w) /\
    (is_Some r <-> id ∈ preset_names) /\
    (forall b, r = Some b -> to_string (json_patch development_config_genesis) = Some b).
Proof.
  intros Hser. unfold get_preset, preset_names.
  change local_testnet_genesis with development_config_genesis.
  destruct (Hser (json_patch development_config_genesis)) as [b Hb].
  repeat case_decide; subst; cbn; rewrite ?Hb; cbn; eexists; (split; [done|]);
    rewrite !elem_of_cons, elem_of_nil.
  - split; [split; [auto | eauto] | by intros ? [= ->]].
  - split; [split; [auto | eauto] | by intros ? [= ->]].
  - split; [|done]. split; [by intros [] | intros [?|[?|[]]]; done].
Qed.
End facts.
