(* ===== verification/Configs.v ===== *)
(** * Configuration of the runtime

    [runtime/src/configs/mod.rs]: the block limits built from the constants of
    [Constants.v], the budgets of message processing, the sessions and the
    collator selection, and the instance of the swarm pallet's [Config]. *)
From S2P Require Import Prelude Frame Constants Genesis.
From S2P Require Swarm.

Local Open Scope Z_scope.

(** ** The block limits API of frame_system

    A builder holds one [WeightsPerClass] per dispatch class; [for_class] edits
    those of the given classes; [build_or_panic] checks the result and computes
    the block's maximum as the largest of the classes' totals. *)
Record WeightsPerClass `{Weights} : Type := {
  base_extrinsic : Weight;
  max_total : option Weight;
  reserved : option Weight;
}.

Class BlockLimits `{Weights, Perbills} : Type := {
  DispatchClass : Type;
  DispatchClass_eq :: EqDecision DispatchClass;
  Normal : DispatchClass;
  Operational : DispatchClass;
  all_classes : list DispatchClass;
  Builder : Type;
  builder : Builder;
  base_block : Weight -> Builder -> Builder;
  for_class : list DispatchClass -> (WeightsPerClass -> WeightsPerClass) -> Builder -> Builder;
  avg_block_initialization : Perbill -> Builder -> Builder;
  per_class : Builder -> DispatchClass -> WeightsPerClass;
  BlockWeights : Type;
  build_or_panic : Builder -> option BlockWeights;
  class_weights : BlockWeights -> DispatchClass -> WeightsPerClass;
  max_block : BlockWeights -> Weight;
  BlockLength : Type;
  max_with_normal_ratio : Z -> Perbill -> BlockLength;
}.

Definition weight_le `{Weights} (v w : Weight) : Prop :=
  ref_time v <= ref_time w /\ proof_size v <= proof_size w.

Class BlockLimitsOk `{BlockLimits} : Prop := {
  normal_is_class : Normal ∈ all_classes;
  operational_is_class : Operational ∈ all_classes;
  normal_not_operational : Normal <> Operational;
  every_class c : c ∈ all_classes;
  (* only the two limited classes start with a limit *)
  builder_unlimited c : c <> Normal -> c <> Operational -> max_total (per_class builder c) = None;
  per_class_base_block w b c : per_class (base_block w b) c = per_class b c;
  per_class_avg_init p b c : per_class (avg_block_initialization p b) c = per_class b c;
  per_class_for_class cs f b c :
    per_class (for_class cs f b) c =
    if decide (c ∈ cs) then f (per_class b c) else per_class b c;
  class_weights_built b bw c : build_or_panic b = Some bw -> class_weights bw c = per_class b c;
  max_block_built b bw c m :
    build_or_panic b = Some bw -> max_total (per_class b c) = Some m ->
    (forall c' m', max_total (per_class b c') = Some m' -> weight_le m' m) ->
    max_block bw = m;
}.

Section limits.
Context `{WeightShares, !BlockLimits} (MAX_POV_SIZE : Z).

Definition RuntimeBlockLength : BlockLength :=
  max_with_normal_ratio (5 * 1024 * 1024) NORMAL_DISPATCH_RATIO.

(** The closures given to [for_class]. *)
Definition set_base_extrinsic (w : Weight) (c : WeightsPerClass) : WeightsPerClass :=
  {| base_extrinsic := w; max_total := max_total c; reserved := reserved c |}.
Definition set_max_total (w : option Weight) (c : WeightsPerClass) : WeightsPerClass :=
  {| base_extrinsic := base_extrinsic c; max_total := w; reserved := reserved c |}.
Definition set_reserved (w : option Weight) (c : WeightsPerClass) : WeightsPerClass :=
  {| base_extrinsic := base_extrinsic c; max_total := max_total c; reserved := w |}.

Definition MAX : Weight := MAXIMUM_BLOCK_WEIGHT MAX_POV_SIZE.

Definition block_weights_builder : Builder :=
  let b := base_block BlockExecutionWeight builder in
  let b := for_class all_classes (fun weights =>
    set_base_extrinsic ExtrinsicBaseWeight weights) b in
  let b := for_class [Normal] (fun weights =>
    set_max_total (Some (perbill_mul_weight NORMAL_DISPATCH_RATIO MAX)) weights) b in
  let b := for_class [Operational] (fun weights =>
    let weights := set_max_total (Some MAX) weights in
    set_reserved (Some (weight_sub MAX (perbill_mul_weight NORMAL_DISPATCH_RATIO MAX))) weights) b in
  avg_block_initialization AVERAGE_ON_INITIALIZE_RATIO b.

Definition RuntimeBlockWeights : option BlockWeights := build_or_panic block_weights_builder.

(** ** Budgets of message processing *)
Definition ReservedXcmpWeight : Weight := weight_saturating_div MAX 4.
Definition ReservedDmpWeight : Weight := weight_saturating_div MAX 4.
Definition MessageQueueServiceWeight : option Weight :=
  (fun bw => perbill_mul_weight (from_percent 35) (max_block bw)) <$> RuntimeBlockWeights.
End limits.

(** ** Sessions and collators *)
Definition Period : Z := 6 * HOURS.
Definition Offset : Z := 0.
Definition SessionLength : Z := 6 * HOURS.
Definition MaxCandidates : Z := 100.
Definition MinEligibleCollators : Z := 4.
Definition MaxInvulnerables : Z := 20.
Definition KickThreshold : Z := Period.
Definition MaxAuthorities : Z := 100_000.

(** ** The swarm pallet in this runtime *)
Definition MaxGlobalCommands : Z := 64.

#[export] Instance swarm_config : Swarm.Config := {|
  Swarm.Location := Swarm.Coordinate;
  Swarm.RobotId := u32;
  Swarm.TaskDefinition := u32;
  Swarm.Location_eq := Swarm.Coordinate_eq_dec;
  Swarm.MaxGlobalCommands := MaxGlobalCommands;
|}.

(** ** Facts *)
Section facts.
Context `{WeightSharesOk} `{!WeightsOk} `{!PerbillsOk} `{!BlockLimits} `{!BlockLimitsOk}.
Context (MAX_POV_SIZE : Z) (pov_fits : fits 64 MAX_POV_SIZE).
Abbreviation MAX := (MAX MAX_POV_SIZE).
Abbreviation normal_share := (perbill_mul_weight NORMAL_DISPATCH_RATIO MAX).

Lemma max_time : ref_time MAX = 2_000_000_000_000.
Proof. by apply max_block_time. Qed.
Lemma max_proof : proof_size MAX = MAX_POV_SIZE.
Proof. by apply max_block_proof. Qed.

(** A share of a weight is between nothing and the weight. *)
Lemma share_components p (w : Weight) :
  fits 64 (ref_time w) -> fits 64 (proof_size w) ->
  ref_time (perbill_mul_weight p w) = perbill_mul p (ref_time w) /\
  proof_size (perbill_mul_weight p w) = perbill_mul p (proof_size w) /\
  0 <= perbill_mul p (ref_time w) <= ref_time w /\
  0 <= perbill_mul p (proof_size w) <= proof_size w.
Proof.
  unfold fits. intros Hr Hs. rewrite perbill_mul_weight_spec.
  pose proof (perbill_mul_le p (ref_time w)). pose proof (perbill_mul_le p (proof_size w)).
  pose proof (perbill_mul_nonneg p (ref_time w)). pose proof (perbill_mul_nonneg p (proof_size w)).
  rewrite ref_time_from_parts, proof_size_from_parts by (unfold fits; lia). lia.
Qed.

Lemma max_fits : fits 64 (ref_time MAX) /\ fits 64 (proof_size MAX).
Proof. rewrite max_time, max_proof. split; solve_fits. Qed.

(** The settings of each class, as the chain of [for_class] calls leaves them. *)
Lemma built_normal :
  per_class (block_weights_builder MAX_POV_SIZE) Normal =
  {| base_extrinsic := ExtrinsicBaseWeight; max_total := Some normal_share;
     reserved := reserved (per_class builder Normal) |}.
Proof.
  unfold block_weights_builder. rewrite per_class_avg_init, !per_class_for_class, per_class_base_block.
  rewrite decide_False by (rewrite list_elem_of_singleton; apply normal_not_operational).
  rewrite !decide_True by (set_solver || apply normal_is_class). done.
Qed.

Lemma built_operational :
  per_class (block_weights_builder MAX_POV_SIZE) Operational =
  {| base_extrinsic := ExtrinsicBaseWeight; max_total := Some MAX;
     reserved := Some (weight_sub MAX normal_share) |}.
Proof.
  pose proof normal_not_operational as Hno.
  unfold block_weights_builder. rewrite per_class_avg_init, !per_class_for_class, per_class_base_block.
  rewrite (decide_False (P := Operational ∈ [Normal])) by (rewrite list_elem_of_singleton; congruence).
  rewrite !decide_True by (set_solver || apply operational_is_class). done.
Qed.

Lemma built_other c :
  c <> Normal -> c <> Operational ->
  per_class (block_weights_builder MAX_POV_SIZE) c =
  {| base_extrinsic := ExtrinsicBaseWeight; max_total := None;
     reserved := reserved (per_class builder c) |}.
Proof.
  intros Hn Ho. unfold block_weights_builder.
  rewrite per_class_avg_init, !per_class_for_class, per_class_base_block.
  rewrite !(decide_False (P := c ∈ [_])) by (rewrite list_elem_of_singleton; congruence).
  rewrite decide_True by apply every_class. unfold set_base_extrinsic. by rewrite builder_unlimited.
Qed.

Lemma built_max_block bw : RuntimeBlockWeights MAX_POV_SIZE = Some bw -> max_block bw = MAX.
Proof.
  intros Hb. apply (max_block_built _ bw Operational MAX Hb); [by rewrite built_operational|].
  intros c m. destruct (decide (c = Normal)) as [->|Hn].
  - rewrite built_normal. intros [= <-]. destruct max_fits as [Hr Hs].
    destruct (share_components NORMAL_DISPATCH_RATIO MAX Hr Hs) as (E1 & E2 & ? & ?).
    unfold weight_le. rewrite E1, E2. lia.
  - destruct (decide (c = Operational)) as [->|Ho].
    + rewrite built_operational. intros [= <-]. unfold weight_le. lia.
    + by rewrite built_other.
Qed.

(** The computation normal extrinsics may use: 75% of two seconds. *)
Lemma normal_time bw m :
  RuntimeBlockWeights MAX_POV_SIZE = Some bw -> max_total (class_weights bw Normal) = Some m ->
  ref_time m = 1_500_000_000_000.
Proof.
  intros Hb. rewrite (class_weights_built _ bw Normal Hb), built_normal. intros [= <-].
  destruct max_fits as [Hr Hs].
  destruct (share_components NORMAL_DISPATCH_RATIO MAX Hr Hs) as (-> & _).
  rewrite max_time. by apply percent_mul_exact.
Qed.

(** C33: the block limits.  Every class charges the extrinsic base weight; normal
    extrinsics may fill 75% of a block (1.5 s of computation, 75% of the proof
    size to the nearest byte); operational ones may fill all of it and have the
    rest reserved, so that the two shares make up the whole block in both
    components; no other class is limited; and the block's maximum is 2 s. *)
Theorem block_limits bw :
  RuntimeBlockWeights MAX_POV_SIZE = Some bw ->
  (forall c, base_extrinsic (class_weights bw c) = ExtrinsicBaseWeight) /\
  (exists n r, max_total (class_weights bw Normal) = Some n /\
     max_total (class_weights bw Operational) = Some MAX /\
     reserved (class_weights bw Operational) = Some r /\
     ref_time n = 1_500_000_000_000 /\
     2 * Z.abs (4 * proof_size n - 3 * MAX_POV_SIZE) <= 4 /\
     ref_time n + ref_time r = ref_time MAX /\
     proof_size n + proof_size r = proof_size MAX) /\
  (forall c, c <> Normal -> c <> Operational -> max_total (class_weights bw c) = None) /\
  max_block bw = MAX.
Proof.
  intros Hb. pose proof (fun c => class_weights_built _ bw c Hb) as Hcw.
  split; [|split; [|split]].
  - intros c. rewrite Hcw. destruct (decide (c = Normal)) as [->|Hn]; [by rewrite built_normal|].
    destruct (decide (c = Operational)) as [->|Ho]; [by rewrite built_operational|].
    by rewrite built_other.
  - rewrite !Hcw, built_normal, built_operational. eexists _, _. repeat (split; [done|]).
    destruct max_fits as [Hr Hs].
    destruct (share_components NORMAL_DISPATCH_RATIO MAX Hr Hs) as (E1 & E2 & ? & ?).
    pose proof (perbill_mul_nearest NORMAL_DISPATCH_RATIO MAX_POV_SIZE) as Hnear.
    unfold NORMAL_DISPATCH_RATIO in Hnear at 2. rewrite parts_from_percent in Hnear by lia.
    rewrite ref_time_sub, proof_size_sub by lia. rewrite E1, E2, max_proof in *.
    rewrite max_time in *. unfold fits, BILLION in *.
    assert (perbill_mul NORMAL_DISPATCH_RATIO 2_000_000_000_000 = 1_500_000_000_000) as ->
      by (by apply percent_mul_exact). lia.
  - intros c Hn Ho. rewrite Hcw. by rewrite built_other.
  - by apply built_max_block.
Qed.

(** The message budgets fit in a block: what is reserved for downward and for
    sibling messages plus what the message queue may spend per block is at most
    85% of the block in either component, up to one unit of rounding. *)
Theorem message_budgets_fit mq :
  MessageQueueServiceWeight MAX_POV_SIZE = Some mq ->
  forall comp, comp = ref_time \/ comp = proof_size ->
  100 * (comp (ReservedXcmpWeight MAX_POV_SIZE) + comp (ReservedDmpWeight MAX_POV_SIZE) + comp mq)
    <= 85 * comp MAX + 100.
Proof.
  unfold MessageQueueServiceWeight. intros Hmq comp Hcomp.
  destruct (RuntimeBlockWeights MAX_POV_SIZE) as [bw|] eqn:Hb; [|done]. injection Hmq as <-.
  rewrite (built_max_block bw Hb). destruct max_fits as [Hr Hs].
  destruct (share_components (from_percent 35) MAX Hr Hs) as (E1 & E2 & _ & _).
  unfold ReservedXcmpWeight, ReservedDmpWeight.
  assert (Hpos : 0 <= comp MAX) by (unfold fits in *; destruct Hcomp; subst; lia).
  pose proof (perbill_mul_nearest (from_percent 35) (comp MAX) Hpos) as Hnear.
  rewrite parts_from_percent in Hnear by lia. unfold BILLION in Hnear.
  destruct Hcomp as [-> | ->];
    rewrite ?ref_time_saturating_div, ?proof_size_saturating_div by lia; rewrite ?E1, ?E2;
    [pose proof (Z.mul_div_le (ref_time MAX) 4) | pose proof (Z.mul_div_le (proof_size MAX) 4)];
    lia.
Qed.

(** Sessions and collators: a session is six hours of six-second blocks, a
    collator is kicked after a whole number of sessions, and the collators of
    both genesis presets respect the pallet's bounds. *)
Theorem session_times `{GenesisHostOk} :
  Period * MILLI_SECS_PER_BLOCK = 6 * 60 * 60 * 1000 /\
  DAYS * MILLI_SECS_PER_BLOCK = 24 * 60 * 60 * 1000 /\
  KickThreshold mod SessionLength = 0 /\ 0 < KickThreshold /\
  Z.of_nat (length (invulnerables development_config_genesis)) <= MaxInvulnerables /\
  Z.of_nat (length (invulnerables local_testnet_genesis)) <= MaxInvulnerables.
Proof. by repeat split. Qed.
End facts.
