(* ===== verification/Runtime.v ===== *)
(** * The composed runtime

    The [#[frame_support::runtime]] module of [runtime/src/lib.rs]: the pallets and
    their indices, and the dispatch of a block's calls to the two pallets of this
    repository beside the pallets of polkadot-sdk. *)
From S2P Require Import Prelude Frame Constants.
From S2P Require Swarm SwarmSpec SwarmProps Template TemplateProps.
From Stdlib Require Import Sorting.Sorted.

Local Open Scope Z_scope.

#[local] Existing Instances SwarmProps.dispatch_err_noop SwarmProps.dispatch_no_panic
  TemplateProps.dispatch_err_noop TemplateProps.dispatch_no_panic
  SwarmSpec.state_equiv SwarmSpec.state_equivalence.

(** ** Pallets *)
Inductive pallet : Type :=
| System | ParachainSystem | Timestamp | ParachainInfo | WeightReclaim
| Balances | TransactionPayment
| Sudo
| Authorship | CollatorSelection | Session | Aura | AuraExt
| XcmpQueue | PolkadotXcm | CumulusXcm | MessageQueue
| TemplatePallet | SwarmRobotPallet.

#[export] Instance pallet_eq_dec : EqDecision pallet.
Proof. solve_decision. Defined.

Definition pallet_index (p : pallet) : Z :=
  match p with
  | System => 0 | ParachainSystem => 1 | Timestamp => 2 | ParachainInfo => 3
  | WeightReclaim => 4
  | Balances => 10 | TransactionPayment => 11
  | Sudo => 15
  | Authorship => 20 | CollatorSelection => 21 | Session => 22 | Aura => 23 | AuraExt => 24
  | XcmpQueue => 30 | PolkadotXcm => 31 | CumulusXcm => 32 | MessageQueue => 33
  | TemplatePallet => 50 | SwarmRobotPallet => 51
  end.

(** [AllPalletsWithSystem]: in the order of declaration. *)
Definition all_pallets : list pallet :=
  [System; ParachainSystem; Timestamp; ParachainInfo; WeightReclaim;
   Balances; TransactionPayment; Sudo;
   Authorship; CollatorSelection; Session; Aura; AuraExt;
   XcmpQueue; PolkadotXcm; CumulusXcm; MessageQueue;
   TemplatePallet; SwarmRobotPallet].

(** The pallet a call's leading index byte selects. *)
Definition pallet_of_index (i : Z) : option pallet :=
  find (fun p => pallet_index p =? i) all_pallets.

(** The index byte of a call identifies its pallet: every pallet is declared,
    its index is a [u8] that decodes to it and to no other, and the declaration
    order, which fixes the order of the hooks, is the order of the indices. *)
Theorem pallet_index_roundtrip :
  (forall p, p ∈ all_pallets /\ fits 8 (pallet_index p) /\
             pallet_of_index (pallet_index p) = Some p) /\
  (forall i p, pallet_of_index i = Some p -> pallet_index p = i) /\
  StronglySorted Z.lt (pallet_index <$> all_pallets).
Proof.
  split; [|split].
  - intros []; (split; [apply (bool_decide_unpack _); vm_compute; exact I|]);
      split; first [done | solve_fits].
  - intros i p Hp. apply find_some in Hp as [_ Hp]. by apply Z.eqb_eq.
  - cbn. repeat constructor.
Qed.

(** ** Calls *)
Section dispatch.
Context {W : Type} `{FrameSystem, !StorageLayer W}.
Context `{!Swarm.Config} `{!BoundedVec Swarm.Command} `{!Swarm.SwarmStorage W}.
Context `{!BlockNumbers} `{!Template.TemplateStorage W}.
Context `{!IntoDispatchError Swarm.Error} `{!IntoDispatchError Template.Error}.

(** The calls of the pallets that are not in this repository, and what they do. *)
Context {OtherCall : Type} (other_dispatch : OriginFor -> OtherCall -> M W DispatchError unit).

Inductive RuntimeCall : Type :=
| CallTemplate (c : Template.Call)
| CallSwarm (c : Swarm.Call)
| CallOther (c : OtherCall).

(** The dispatch [#[pallet::call]] and the runtime macro generate: the call of
    the selected pallet, in a storage layer. *)
Definition runtime_dispatch (x : OriginFor * RuntimeCall) : M W DispatchError unit :=
  match x.2 with
  | CallTemplate c => with_storage_layer (Template.dispatch x.1 c)
  | CallSwarm c => with_storage_layer (Swarm.dispatch x.1 c)
  | CallOther c => other_dispatch x.1 c
  end.

Definition run_block : list (OriginFor * RuntimeCall) -> W ->
    list (outcome DispatchError unit) * W := run_all runtime_dispatch.

(** The calls of a block that concern one pallet. *)
Definition swarm_call (x : OriginFor * RuntimeCall) : option (OriginFor * Swarm.Call) :=
  match x.2 with CallSwarm c => Some (x.1, c) | _ => None end.
Definition template_call (x : OriginFor * RuntimeCall) : option (OriginFor * Template.Call) :=
  match x.2 with CallTemplate c => Some (x.1, c) | _ => None end.

(** The answers to the selected calls. *)
Definition answers {Y} (sel : OriginFor * RuntimeCall -> option Y)
    (xs : list (OriginFor * RuntimeCall)) (rs : list (outcome DispatchError unit)) :
    list (outcome DispatchError unit) :=
  omap (fun xr => (fun _ => xr.2) <$> sel xr.1) (zip xs rs).

(** ** Isolation

    Storage items of different pallets have different prefixes: the writes of
    one show in nothing the other reads. *)
Context `{!StorageLayerOk W} `{!Swarm.SwarmStorageOk W} `{!Template.TemplateStorageOk W}.
Context `{!BoundedVecOk Swarm.Command Swarm.MaxGlobalCommands}.
Context (bn_val : BlockNumber -> Z) (bn_max : Z) `{!BlockNumbersOk bn_val bn_max}.

Class StorageApart : Prop := {
  something_apart v w : SwarmSpec.view (sv_put Template.Something v w) ≡ SwarmSpec.view w;
  template_event_apart e w :
    SwarmSpec.view (es_deposit Template.TemplateEvents e w) ≡ SwarmSpec.view w;
  robots_apart r u w :
    TemplateProps.view bn_val (sm_insert Swarm.RegisteredRobots r u w) = TemplateProps.view bn_val w;
  queue_apart q w :
    TemplateProps.view bn_val (sv_put Swarm.GlobalCommandQueue q w) = TemplateProps.view bn_val w;
  swarm_event_apart e w :
    TemplateProps.view bn_val (es_deposit Swarm.SwarmEvents e w) = TemplateProps.view bn_val w;
}.
Context `{!StorageApart}.

(** The storage layer FRAME puts around a dispatchable is redundant for the
    pallets of this repository: with it or without it, every call gives the
    same answer and the same state. *)
Theorem storage_layer_redundant o w :
  (forall c : Swarm.Call, with_storage_layer (Swarm.dispatch o c) w = Swarm.dispatch o c w) /\
  (forall c : Template.Call, with_storage_layer (Template.dispatch o c) w = Template.dispatch o c w).
Proof. split; intros c; apply layer_redundant; apply _. Qed.

Lemma runtime_dispatch_template o c w :
  runtime_dispatch (o, CallTemplate c) w = Template.dispatch o c w.
Proof. apply (layer_redundant (Template.dispatch o c)); apply _. Qed.

Lemma runtime_dispatch_swarm_call o c w :
  runtime_dispatch (o, CallSwarm c) w = Swarm.dispatch o c w.
Proof. apply (layer_redundant (Swarm.dispatch o c)); apply _. Qed.

Lemma template_leaves_swarm o c w :
  SwarmSpec.view (Template.dispatch o c w).2 ≡ SwarmSpec.view w.
Proof.
  apply (Template.template_dispatch_invariant (fun v => SwarmSpec.view v ≡ SwarmSpec.view w)); [..|done].
  - intros s v <-. apply something_apart.
  - intros e v <-. apply template_event_apart.
Qed.

Lemma swarm_leaves_template o c w :
  TemplateProps.view bn_val (Swarm.dispatch o c w).2 = TemplateProps.view bn_val w.
Proof.
  apply (Swarm.swarm_dispatch_invariant
    (fun v => TemplateProps.view bn_val v = TemplateProps.view bn_val w));
    [..|done]; intros; by rewrite ?robots_apart, ?queue_apart, ?swarm_event_apart.
Qed.

(** ** The calls of the other pallets

    A call of another pallet may dispatch calls of the two pallets on its way: those of
    [Sudo] do, and those that execute a message from another chain.  [nested_calls]:
    the ones whose effects remain, in order.  [raw_writes]: the call comes to run
    [set_storage], [kill_storage] or [kill_prefix] of [System], as root, which in this
    runtime is who holds the key of [Sudo]; these write any key of the store.
    [other_mandatory]: its dispatch class is [Mandatory], as an inherent's. *)
Inductive OwnCall : Type :=
| OwnTemplate (c : Template.Call)
| OwnSwarm (c : Swarm.Call).

Definition own_call (x : OriginFor * OwnCall) : OriginFor * RuntimeCall :=
  (x.1, match x.2 with OwnTemplate c => CallTemplate c | OwnSwarm c => CallSwarm c end).

Class OtherPallets : Type := {
  other_mandatory : OtherCall -> bool;
  nested_calls : OriginFor -> OtherCall -> W -> list (OriginFor * OwnCall);
  raw_writes : OriginFor -> OtherCall -> W -> bool;
}.

(** From one state to another by calls of the two pallets, in order, and steps
    [elsewhere] before, between and after them. *)
Inductive unfolds (elsewhere : W -> W -> Prop) : W -> list (OriginFor * OwnCall) -> W -> Prop :=
| unfolds_done w : unfolds elsewhere w [] w
| unfolds_elsewhere w v cs w' :
    elsewhere w v -> unfolds elsewhere v cs w' -> unfolds elsewhere w cs w'
| unfolds_own x w cs w' :
    unfolds elsewhere (runtime_dispatch (own_call x) w).2 cs w' ->
    unfolds elsewhere w (x :: cs) w'.

Lemma unfolds_weaken (R R' : W -> W -> Prop) w cs w' :
  (forall v v', R v v' -> R' v v') -> unfolds R w cs w' -> unfolds R' w cs w'.
Proof.
  intros HR. induction 1 as [w | w v cs w' Hv _ IH | x w cs w' _ IH]; [constructor|..].
  - apply (unfolds_elsewhere R' w v); auto.
  - by apply unfolds_own.
Qed.

(** A step that neither of the two pallets sees. *)
Definition unseen (w v : W) : Prop :=
  SwarmSpec.view v ≡ SwarmSpec.view w /\ TemplateProps.view bn_val v = TemplateProps.view bn_val w.

#[export] Instance unseen_preorder : PreOrder unseen.
Proof.
  split; [by intros w|]. intros w v u [Hs Ht] [Hs' Ht'].
  split; [by rewrite Hs'|]. by rewrite Ht'.
Qed.

(** The storage of the two pallets is private: short of raw writes, nothing but their
    own calls changes what they show. *)
Class OtherPalletsOk `{!OtherPallets} : Prop :=
  other_unfolds o c w :
    raw_writes o c w = false -> unfolds unseen w (nested_calls o c w) (other_dispatch o c w).2.

Section schedules.
Context `{!OtherPallets} {Y : Type} (direct : OriginFor * RuntimeCall -> option Y).
Implicit Types x : OriginFor * RuntimeCall.

(** Whether a call, or a block, comes to write raw keys. *)
Definition call_writes_raw x (w : W) : bool :=
  match x.2 with CallOther c => raw_writes x.1 c w | _ => false end.
Fixpoint block_writes_raw (xs : list (OriginFor * RuntimeCall)) (w : W) : bool :=
  match xs with
  | [] => false
  | x :: xs => call_writes_raw x w || block_writes_raw xs (runtime_dispatch x w).2
  end.

(** The calls of one pallet that a call of the runtime amounts to, [true] when it is
    one of them itself, and those a block amounts to, each call of it in the state it
    comes to. *)
Definition nested_of (cs : list (OriginFor * OwnCall)) : list (bool * Y) :=
  pair false <$> omap (fun y => direct (own_call y)) cs.
Definition schedule_of x (w : W) : list (bool * Y) :=
  match x.2 with
  | CallOther c => nested_of (nested_calls x.1 c w)
  | _ => if direct x is Some y then [(true, y)] else []
  end.
Fixpoint schedule (xs : list (OriginFor * RuntimeCall)) (w : W) : list (bool * Y) :=
  match xs with
  | [] => []
  | x :: xs => schedule_of x w ++ schedule xs (runtime_dispatch x w).2
  end.

Lemma answers_cons x xs r rs :
  answers direct (x :: xs) (r :: rs) =
  (match direct x with Some _ => [r] | None => [] end) ++ answers direct xs rs.
Proof. unfold answers. cbn. by destruct (direct x). Qed.

(** *** One pallet of the runtime

    A pallet with calls [Y] behaves as a machine [g] on what [show] sees of it. *)
Context {S : Type} (g : Y -> M S DispatchError unit) (show : W -> S) (R : S -> S -> Prop).
Record PalletOk : Prop := {
  pallet_equivalence : Equivalence R;
  pallet_proper y s t : R s t -> (g y s).1 = (g y t).1 /\ R (g y s).2 (g y t).2;
  pallet_direct x y w :
    direct x = Some y ->
    (runtime_dispatch x w).1 = (g y (show w)).1 /\
    R (show (runtime_dispatch x w).2) (g y (show w)).2;
  pallet_apart x w :
    direct x = None -> (forall c, x.2 <> CallOther c) -> R (show (runtime_dispatch x w).2) (show w);
  pallet_unseen w v : unseen w v -> R (show v) (show w);
  pallet_other o c : direct (o, CallOther c) = None;
}.
Context (Hok : PalletOk) `{!OtherPalletsOk}.
#[local] Instance pallet_R : Equivalence R := pallet_equivalence Hok.

(** The block's own calls of the pallet are the direct ones of its schedule. *)
Lemma schedule_of_direct x w :
  direct_calls (schedule_of x w) = if direct x is Some y then [y] else [].
Proof.
  unfold schedule_of. destruct x as [o [c|c|c]]; cbn [fst snd]; [by destruct (direct _)..|].
  rewrite (pallet_other Hok). apply direct_calls_none.
Qed.

Lemma schedule_direct xs w : direct_calls (schedule xs w) = omap direct xs.
Proof.
  revert w. induction xs as [|x xs IH]; intros w; [done|].
  cbn [schedule]. unfold direct_calls in *. rewrite omap_app, IH.
  change (omap direct (x :: xs)) with
    (match direct x with Some y => y :: omap direct xs | None => omap direct xs end).
  pose proof (schedule_of_direct x w) as Hx. unfold direct_calls in Hx. rewrite Hx.
  by destruct (direct x).
Qed.

(** Each call, and each block, serves its schedule. *)
Lemma own_serves (b : bool) x w :
  (forall c, x.2 <> CallOther c) ->
  serves g show R w (if direct x is Some y then [(b, y)] else [])
    (if b then if direct x is Some _ then [(runtime_dispatch x w).1] else [] else [])
    (runtime_dispatch x w).2.
Proof.
  intros Hx. destruct (direct x) as [y|] eqn:Hy.
  - destruct (pallet_direct Hok x y w Hy) as [Ha Hv]. rewrite Ha.
    by apply (serves_one g show R b y).
  - assert ((if b then [] else []) = ([] : list (outcome DispatchError unit))) as -> by by destruct b.
    by apply serves_quiet, (pallet_apart Hok).
Qed.

Lemma unfolds_serves w cs w' : unfolds unseen w cs w' -> serves g show R w (nested_of cs) [] w'.
Proof.
  induction 1 as [w | w v cs w' Hv _ IH | y w cs w' _ IH]; [by apply serves_quiet|..].
  - apply (serves_show_proper g show R (pallet_proper Hok) w v _ _ w' w'); [|done..].
    symmetry. by apply (pallet_unseen Hok).
  - assert (nested_of (y :: cs) =
      (if direct (own_call y) is Some z then [(false, z)] else []) ++ nested_of cs) as ->.
    { unfold nested_of. cbn. by destruct (direct (own_call y)). }
    apply (serves_app g show R (pallet_proper Hok) w _ [] (runtime_dispatch (own_call y) w).2 _ [] w');
      [|done].
    apply (own_serves false). by destruct y as [o []].
Qed.

Lemma call_serves x w :
  call_writes_raw x w = false ->
  serves g show R w (schedule_of x w)
    (if direct x is Some _ then [(runtime_dispatch x w).1] else []) (runtime_dispatch x w).2.
Proof.
  intros Hraw. destruct x as [o [c|c|c]];
    [apply (own_serves true (o, CallTemplate c)) | apply (own_serves true (o, CallSwarm c)) |];
    [done..|].
  rewrite (pallet_other Hok). apply unfolds_serves. by apply other_unfolds.
Qed.

Lemma block_serves xs w :
  block_writes_raw xs w = false ->
  serves g show R w (schedule xs w) (answers direct xs (run_block xs w).1) (run_block xs w).2.
Proof.
  revert w. induction xs as [|x xs IH]; intros w Hraw; [by apply serves_quiet|].
  cbn [block_writes_raw] in Hraw. apply orb_false_iff in Hraw as [Hx Hxs].
  unfold run_block. rewrite run_all_cons. cbn [fst snd]. rewrite answers_cons. cbn [schedule].
  apply (serves_app g show R (pallet_proper Hok) w _ _ (runtime_dispatch x w).2); [|by apply IH].
  by apply call_serves.
Qed.
End schedules.

(** ** The two pallets *)
Lemma runtime_dispatch_swarm o c w :
  (runtime_dispatch (o, CallSwarm c) w).1 = (SwarmSpec.spec_dispatch o c (SwarmSpec.view w)).1 /\
  SwarmSpec.view (runtime_dispatch (o, CallSwarm c) w).2 ≡
    (SwarmSpec.spec_dispatch o c (SwarmSpec.view w)).2.
Proof. rewrite runtime_dispatch_swarm_call. apply SwarmSpec.dispatch_refines. Qed.

Abbreviation swarm_machine := (fun y : OriginFor * Swarm.Call => SwarmSpec.spec_dispatch y.1 y.2).
Abbreviation template_machine :=
  (fun y : OriginFor * Template.Call => TemplateProps.spec_dispatch bn_max y.1 y.2).

Lemma swarm_pallet_ok : PalletOk swarm_call swarm_machine SwarmSpec.view (≡).
Proof.
  split; [apply _|..].
  - intros y s t Hst. apply (SwarmSpec.spec_dispatch_proper y.1 y.2 _ _ Hst).
  - intros [o []] y w Hy; inversion Hy; subst. apply runtime_dispatch_swarm.
  - intros [o []] w Hx Hc; [|done|by destruct (Hc c)].
    rewrite runtime_dispatch_template. apply template_leaves_swarm.
  - by intros w v [].
  - done.
Qed.

Lemma template_pallet_ok :
  PalletOk template_call template_machine (TemplateProps.view bn_val) (=).
Proof.
  split; [apply _|..].
  - by intros y s t ->.
  - intros [o []] y w Hy; inversion Hy; subst. rewrite runtime_dispatch_template.
    apply TemplateProps.template_dispatch_refines; apply _.
  - intros [o []] w Hx Hc; [done| |by destruct (Hc c)].
    rewrite runtime_dispatch_swarm_call. apply swarm_leaves_template.
  - by intros w v [].
  - done.
Qed.

Abbreviation swarm_serves := (serves swarm_machine SwarmSpec.view (≡)).
Context `{!OtherPallets} `{!OtherPalletsOk}.

(** C4: Isolation of the swarm pallet.  A block mixes calls of every pallet, and calls of
    other pallets may dispatch calls of the swarm pallet on their way; none of them
    writes raw keys.  Then the swarm pallet goes through a schedule that is the block's
    own swarm calls, in their order, with the nested ones in between, exactly as its
    abstract machine: the callers of the block's swarm calls are told what the machine
    says, and the pallet shows the machine's state.  In a block that nests no swarm
    call, that is the machine run on the block's swarm calls alone: no other call can
    delay, reorder, drop or forge a command. *)
Theorem swarm_isolated xs w :
  block_writes_raw xs w = false ->
  let ys := schedule swarm_call xs w in
  direct_calls ys = omap swarm_call xs /\
  answers swarm_call xs (run_block xs w).1 =
    direct_answers ys (SwarmSpec.spec_run ys.*2 (SwarmSpec.view w)).1 /\
  SwarmSpec.view (run_block xs w).2 ≡ (SwarmSpec.spec_run ys.*2 (SwarmSpec.view w)).2 /\
  (Forall (fun y => y.1 = true) ys ->
   answers swarm_call xs (run_block xs w).1 =
     (SwarmSpec.spec_run (omap swarm_call xs) (SwarmSpec.view w)).1 /\
   SwarmSpec.view (run_block xs w).2 ≡
     (SwarmSpec.spec_run (omap swarm_call xs) (SwarmSpec.view w)).2).
Proof.
  intros Hraw ys. pose proof (block_serves _ _ _ _ swarm_pallet_ok xs w Hraw) as Hs.
  split; [by apply (schedule_direct _ _ _ _ swarm_pallet_ok)|]. split; [|split].
  - symmetry. apply (serves_answers _ _ _ _ _ _ _ Hs).
  - apply (serves_show _ _ _ _ _ _ _ Hs).
  - intros Hall. rewrite <- (schedule_direct _ _ _ _ swarm_pallet_ok xs w).
    rewrite <- (direct_calls_all (schedule swarm_call xs w) Hall).
    exact (serves_all_direct _ _ _ _ _ _ _ Hall Hs).
Qed.

(** Isolation of the template pallet, likewise. *)
Theorem template_isolated xs w :
  block_writes_raw xs w = false ->
  let ys := schedule template_call xs w in
  direct_calls ys = omap template_call xs /\
  answers template_call xs (run_block xs w).1 =
    direct_answers ys (TemplateProps.spec_run bn_max ys.*2 (TemplateProps.view bn_val w)).1 /\
  TemplateProps.view bn_val (run_block xs w).2 =
    (TemplateProps.spec_run bn_max ys.*2 (TemplateProps.view bn_val w)).2.
Proof.
  intros Hraw ys. pose proof (block_serves _ _ _ _ template_pallet_ok xs w Hraw) as Hs.
  split; [by apply (schedule_direct _ _ _ _ template_pallet_ok)|]. split.
  - symmetry. apply (serves_answers _ _ _ _ _ _ _ Hs).
  - apply (serves_show _ _ _ _ _ _ _ Hs).
Qed.

Lemma schedule_of_swarm x w :
  direct_calls (schedule_of swarm_call x w) = if swarm_call x is Some y then [y] else [].
Proof. apply (schedule_of_direct _ _ _ _ swarm_pallet_ok). Qed.

Lemma call_serves_swarm x w :
  call_writes_raw x w = false ->
  swarm_serves w (schedule_of swarm_call x w)
    (if swarm_call x is Some _ then [(runtime_dispatch x w).1] else []) (runtime_dispatch x w).2.
Proof. apply (call_serves _ _ _ _ swarm_pallet_ok). Qed.

Lemma unfolds_serves_swarm w cs w' :
  unfolds unseen w cs w' -> swarm_serves w (nested_of swarm_call cs) [] w'.
Proof. apply (unfolds_serves _ _ _ _ swarm_pallet_ok). Qed.
End dispatch.

(** ** The price of a swarm call

    Every call of the swarm pallet declares the same constant weight.  Its database
    cost, from the storage accesses on the path it takes, is another. *)
Section swarm_weights.
Context {W : Type} `{FrameSystem} `{Swarm.SwarmStorage W} `{!IntoDispatchError Swarm.Error}.
Context `{!Swarm.SwarmStorageOk W} `{!BoundedVecOk Swarm.Command Swarm.MaxGlobalCommands}.
Context `{DbWeightsOk} `{!WeightsOk}.

(** Reads and writes of the pallet's storage items, up to where the call returns. *)
Definition storage_accesses (o : OriginFor) (c : Swarm.Call) (w : W) : Z * Z :=
  match ensure_signed o with
  | RErr _ => (0, 0)
  | ROk _ =>
      match c with
      | Swarm.Call_register_robot _ => (0, 1)
      | Swarm.Call_enqueue_command _ =>
          if decide (Z.of_nat (length (Swarm.queue w)) < Swarm.MaxGlobalCommands)
          then (1, 1) else (1, 0)
      | Swarm.Call_pull_next r =>
          if Swarm.registered w r
          then match Swarm.queue w with [] => (2, 0) | _ => (2, 1) end
          else (1, 0)
      end
  end.

(** By the runtime's own database weights, in picoseconds. *)
Definition database_time (o : OriginFor) (c : Swarm.Call) (w : W) : Z :=
  ref_time (db_reads_writes RocksDbWeight (storage_accesses o c w).1 (storage_accesses o c w).2).

Lemma database_time_exact o c w :
  database_time o c w =
  25_000_000 * (storage_accesses o c w).1 + 100_000_000 * (storage_accesses o c w).2.
Proof.
  unfold database_time. rewrite db_reads_writes_spec. unfold RocksDbWeight; cbn [read write].
  rewrite per_nanos. unfold storage_accesses.
  repeat case_match; cbn [fst snd]; rewrite ref_time_from_parts by solve_fits; vm_compute; done.
Qed.

(** A call that succeeds writes; so the weight it declares is at most a ten-thousandth
    of what the runtime's own database weights charge for its storage accesses. *)
Lemma success_writes o c w :
  (Swarm.dispatch o c w).1 = Ok tt -> 100_000_000 <= database_time o c w.
Proof.
  rewrite database_time_exact. destruct (SwarmSpec.dispatch_refines o c w) as [-> _].
  unfold SwarmSpec.spec_dispatch, storage_accesses. destruct (ensure_signed o); [|done].
  destruct c; cbn [SwarmSpec.spec_call SwarmSpec.view SwarmSpec.pending SwarmSpec.robots];
    repeat case_match; done || (cbn; lia).
Qed.

Theorem swarm_weight_below_database o c w :
  (Swarm.dispatch o c w).1 = Ok tt -> 10_000 * Swarm.declared_weight c <= database_time o c w.
Proof. intros Hok%success_writes. destruct c; cbn [Swarm.declared_weight]; lia. Qed.
End swarm_weights.
