(* ===== verification/Capacity.v ===== *)
(** * How many swarm calls fit in a block

    The weight the swarm pallet declares for its calls decides how many of them an
    author may put in a block ([pallets/swarm-robot-pallet/src/lib.rs],
    [runtime/src/configs/mod.rs]).  This file compares what a block of swarm calls is
    charged with what it takes by the runtime's own weights for an extrinsic and for
    the database. *)
From S2P Require Import Prelude Frame Constants Configs.
From S2P Require Swarm SwarmSpec Runtime.

Local Open Scope Z_scope.

Section capacity.
Context {W : Type} `{FrameSystem} `{Swarm.SwarmStorage W} `{!IntoDispatchError Swarm.Error}.
Context `{!Swarm.SwarmStorageOk W} `{!BoundedVecOk Swarm.Command Swarm.MaxGlobalCommands}.
Context `{WeightSharesOk} `{!WeightsOk} `{!PerbillsOk} `{!BlockLimits} `{!BlockLimitsOk}.
Context `{!DbWeights} `{!DbWeightsOk}.
Implicit Types cs : list (OriginFor * Swarm.Call).

(** In picoseconds: what the block is charged for a call, and what the call takes in
    the state it comes to.  [ext] is the weight of the transaction extensions, which
    both count. *)
Definition charged (ext : Z) (c : Swarm.Call) : Z :=
  ref_time ExtrinsicBaseWeight + ext + Swarm.declared_weight c.
Definition taken (ext : Z) (o : OriginFor) (c : Swarm.Call) (w : W) : Z :=
  ref_time ExtrinsicBaseWeight + ext + Runtime.database_time o c w.

Definition total_charged (ext : Z) cs : Z := foldr (fun oc n => charged ext oc.2 + n) 0 cs.
Fixpoint total_taken (ext : Z) cs (w : W) : Z :=
  match cs with
  | [] => 0
  | (o, c) :: cs => taken ext o c w + total_taken ext cs (Swarm.dispatch o c w).2
  end.

Lemma charged_time ext c : charged ext c = 125_010_000 + ext.
Proof. unfold charged. rewrite base_weight_time. destruct c; cbn; lia. Qed.

Lemma total_charged_time ext cs :
  total_charged ext cs = Z.of_nat (length cs) * (125_010_000 + ext).
Proof.
  induction cs as [|[o c] cs IH]; [done|]. unfold total_charged in *. cbn [foldr length snd].
  rewrite IH, charged_time. lia.
Qed.

Lemma total_taken_time ext cs w :
  Forall (eq (Ok tt)) (Swarm.run cs w).1 ->
  Z.of_nat (length cs) * (225_000_000 + ext) <= total_taken ext cs w.
Proof.
  revert w. induction cs as [|[o c] cs IH]; intros w; [done|].
  unfold Swarm.run. rewrite run_all_cons. cbn [fst snd length total_taken].
  intros [Hc Hcs]%Forall_cons. apply IH in Hcs. symmetry in Hc.
  apply Runtime.success_writes in Hc. unfold taken. rewrite base_weight_time. lia.
Qed.

(** C23: A block within its limits can take longer than a block may.  Each swarm call
    that succeeds takes at least 99.99 us more than it is charged, by the runtime's own
    weights; so a block its author filled with calls that succeed, registrations for
    example, to the limit of normal extrinsics (1.5 s as charged, room for not one
    more), takes more than the two seconds of [MAXIMUM_BLOCK_WEIGHT], as long as the
    extensions of a transaction weigh no more than 170 us. *)
Theorem full_block_overruns pov bw m ext cs w :
  fits 64 pov -> RuntimeBlockWeights pov = Some bw ->
  max_total (class_weights bw Normal) = Some m ->
  Forall (eq (Ok tt)) (Swarm.run cs w).1 -> 0 <= ext ->
  total_charged ext cs + Z.of_nat (length cs) * 99_990_000 <= total_taken ext cs w /\
  (total_charged ext cs <= ref_time m < total_charged ext cs + (125_010_000 + ext) ->
   ext <= 170_000_000 ->
   ref_time (max_block bw) < total_taken ext cs w).
Proof.
  intros Hp Hb Hm Hcs Hext. rewrite total_charged_time.
  pose proof (total_taken_time ext cs w Hcs) as Ht. split; [lia|]. intros Hfull Hle.
  rewrite (built_max_block pov Hp bw Hb), max_time by done.
  rewrite (normal_time pov Hp bw m Hb Hm) in Hfull. nia.
Qed.
End capacity.
