(* ===== verification/PalletConfigs.v ===== *)
(** * The configuration of the other pallets

    [runtime/src/configs/mod.rs], beyond the block limits and budgets of [Configs.v]:
    the constants and the neighbours the runtime hands to each pallet of
    polkadot-sdk, the fee of an extrinsic's length, the rotation of sessions, the
    origins that may change the set of collators, and the queues inbound messages go
    through. *)
From S2P Require Import Prelude Frame Constants Fees Genesis Configs.
From S2P Require Runtime Template TemplateWeights.

Local Open Scope Z_scope.

(** ** Constants handed to pallets *)
Definition SS58Prefix : Z := 42.
Definition MaxConsumers : Z := 16.
Definition MinimumPeriod : Z := 0.
Definition ExistentialDeposit : Z := EXISTENTIAL_DEPOSIT.
Definition MaxLocks : Z := 50.
Definition MaxReserves : Z := 50.
Definition OperationalFeeMultiplier : Z := 5.
Definition HeapSize : Z := 103 * 1024.
Definition MaxStale : Z := 8.
Definition MaxInboundSuspended : Z := 1_000.
Definition MaxActiveOutboundChannels : Z := 128.
Definition MaxPageSize : Z := Z.shiftl 1 16.
Definition AllowMultipleBlocksPerSlot : bool := true.
Definition SlotDuration : Z := SLOT_DURATION.

Definition PotId : string := "PotStake".

(** The configurations, as the runtime sets them: numbers, and the pallets a pallet
    is connected to.  Associated types that only name a type of polkadot-sdk or a
    weight file have no field. *)
Record SystemConfig `{Weights, Perbills, !BlockLimits} : Type := {
  db_weight : RuntimeDbWeight;
  block_weights : option BlockWeights;
  block_length : BlockLength;
  ss58_prefix : Z;
  on_set_code : Runtime.pallet;
  max_consumers : Z;
}.
Definition system_config `{WeightShares, !BlockLimits} (MAX_POV_SIZE : Z) : SystemConfig := {|
  db_weight := RocksDbWeight;
  block_weights := RuntimeBlockWeights MAX_POV_SIZE;
  block_length := RuntimeBlockLength;
  ss58_prefix := SS58Prefix;
  on_set_code := Runtime.ParachainSystem;
  max_consumers := MaxConsumers;
|}.

Record TimestampConfig : Type := {
  moment_bits : Z;
  on_timestamp_set : Runtime.pallet;
  minimum_period : Z;
}.
Definition timestamp_config : TimestampConfig := {|
  moment_bits := 64;
  on_timestamp_set := Runtime.Aura;
  minimum_period := MinimumPeriod;
|}.

Record AuthorshipConfig : Type := {
  find_author : Runtime.pallet;
  event_handler : list Runtime.pallet;
}.
Definition authorship_config : AuthorshipConfig := {|
  find_author := Runtime.Aura;
  event_handler := [Runtime.CollatorSelection];
|}.

Record BalancesConfig : Type := {
  max_locks : Z;
  existential_deposit : Z;
  account_store : Runtime.pallet;
  max_reserves : Z;
  reserve_identifier_bytes : Z;
}.
Definition balances_config : BalancesConfig := {|
  max_locks := MaxLocks;
  existential_deposit := ExistentialDeposit;
  account_store := Runtime.System;
  max_reserves := MaxReserves;
  reserve_identifier_bytes := 8;
|}.

Record ParachainSystemConfig `{Weights} : Type := {
  self_para_id : Runtime.pallet;
  outbound_xcmp_message_source : Runtime.pallet;
  dmp_queue : Runtime.pallet;
  reserved_dmp_weight : Weight;
  xcmp_message_handler : Runtime.pallet;
  reserved_xcmp_weight : Weight;
}.
Definition parachain_system_config `{WeightShares} (MAX_POV_SIZE : Z) : ParachainSystemConfig := {|
  self_para_id := Runtime.ParachainInfo;
  outbound_xcmp_message_source := Runtime.XcmpQueue;
  dmp_queue := Runtime.MessageQueue;
  reserved_dmp_weight := ReservedDmpWeight MAX_POV_SIZE;
  xcmp_message_handler := Runtime.XcmpQueue;
  reserved_xcmp_weight := ReservedXcmpWeight MAX_POV_SIZE;
|}.

Record MessageQueueConfig `{Weights} : Type := {
  size_bits : Z;
  queue_change_handler : Runtime.pallet;
  queue_paused_query : Runtime.pallet;
  heap_size : Z;
  max_stale : Z;
  service_weight : option Weight;
}.
Definition message_queue_config `{WeightShares, !BlockLimits} (MAX_POV_SIZE : Z) : MessageQueueConfig := {|
  size_bits := 32;
  queue_change_handler := Runtime.XcmpQueue;
  queue_paused_query := Runtime.XcmpQueue;
  heap_size := HeapSize;
  max_stale := MaxStale;
  service_weight := MessageQueueServiceWeight MAX_POV_SIZE;
|}.

Record XcmpQueueConfig : Type := {
  channel_info : Runtime.pallet;
  xcmp_queue : Runtime.pallet;
  max_inbound_suspended : Z;
  max_active_outbound_channels : Z;
  max_page_size : Z;
}.
Definition xcmp_queue_config : XcmpQueueConfig := {|
  channel_info := Runtime.ParachainSystem;
  xcmp_queue := Runtime.MessageQueue;
  max_inbound_suspended := MaxInboundSuspended;
  max_active_outbound_channels := MaxActiveOutboundChannels;
  max_page_size := MaxPageSize;
|}.

Record AuraConfig : Type := {
  max_authorities : Z;
  allow_multiple_blocks_per_slot : bool;
  slot_duration : Z;
}.
Definition aura_config : AuraConfig := {|
  max_authorities := MaxAuthorities;
  allow_multiple_blocks_per_slot := AllowMultipleBlocksPerSlot;
  slot_duration := SlotDuration;
|}.

Record CollatorSelectionConfig : Type := {
  currency : Runtime.pallet;
  pot_id : string;
  max_candidates : Z;
  min_eligible_collators : Z;
  max_invulnerables : Z;
  kick_threshold : Z;
  validator_registration : Runtime.pallet;
}.
Definition collator_selection_config : CollatorSelectionConfig := {|
  currency := Runtime.Balances;
  pot_id := PotId;
  max_candidates := MaxCandidates;
  min_eligible_collators := MinEligibleCollators;
  max_invulnerables := MaxInvulnerables;
  kick_threshold := KickThreshold;
  validator_registration := Runtime.Session;
|}.

(** ** The fee of an extrinsic's length

    [ConstantMultiplier]: so much per byte, saturating in [u128]. *)
Class LengthFees : Type := ConstantMultiplier : Z -> Z -> Z.
Class LengthFeesOk `{LengthFees} : Prop :=
  constant_multiplier_spec m n : fits 128 m -> 0 <= n -> ConstantMultiplier m n = saturating_mul 128 m n.

Record TransactionPaymentConfig `{Weights} : Type := {
  weight_to_fee_of : Weight -> Z; length_to_fee_of : Z -> Z; operational_fee_multiplier : Z }.
Definition transaction_payment_config `{Weights, FeePolynomials, !LengthFees} :
    TransactionPaymentConfig := {|
  weight_to_fee_of := weight_to_fee;
  length_to_fee_of := ConstantMultiplier TransactionByteFee;
  operational_fee_multiplier := OperationalFeeMultiplier |}.

(** ** Sessions

    [PeriodicSessions]: a session ends at the offset and every period after it. *)
Class Sessions : Type := PeriodicSessions : Z -> Z -> Z -> bool.
Class SessionsOk `{Sessions} : Prop :=
  periodic_sessions_spec p o n : 0 < p -> 0 <= o -> 0 <= n ->
    PeriodicSessions p o n = bool_decide (o <= n) && bool_decide ((n - o) mod p = 0).

Record SessionConfig : Type := {
  should_end_session_fn : Z -> bool;
  next_session_rotation : Z -> bool;
  session_manager : Runtime.pallet;
  session_handlers : list Runtime.pallet;
}.

Definition ShouldEndSession `{Sessions} : Z -> bool := PeriodicSessions Period Offset.
Definition NextSessionRotation `{Sessions} : Z -> bool := PeriodicSessions Period Offset.

(** The session keys are Aura's. *)
Definition session_config `{Sessions} : SessionConfig := {|
  should_end_session_fn := ShouldEndSession;
  next_session_rotation := NextSessionRotation;
  session_manager := Runtime.CollatorSelection;
  session_handlers := [Runtime.Aura];
|}.

(** ** Who may change the collators

    An origin guard answers an origin with its witness or refuses it. *)
Section origins.
Context {Origin Location BodyId : Type}.
Definition EnsureOrigin : Type := Origin -> bool.

Context (EnsureRoot : EnsureOrigin).
Context (EnsureXcm : (Location -> bool) -> EnsureOrigin).
Context (IsVoiceOfBody : Location -> BodyId -> Location -> bool).
Context (EitherOfDiverse : EnsureOrigin -> EnsureOrigin -> EnsureOrigin).
Context (RelayLocation : Location) (Defense : BodyId).

Definition StakingAdminBodyId : BodyId := Defense.
Definition CollatorSelectionUpdateOrigin : EnsureOrigin :=
  EitherOfDiverse EnsureRoot (EnsureXcm (IsVoiceOfBody RelayLocation StakingAdminBodyId)).
End origins.

(** ** Inbound messages

    [AggregateMessageOrigin]: the queues of the message queue pallet.  Downward
    messages are enqueued under the parent, the messages of a sibling under the
    sibling; the XCMP queue pallet, which knows siblings only, is asked whether a
    queue is paused. *)
Class MessageOrigins : Type := {
  ParaId : Type;
  ParaId_eq :: EqDecision ParaId;
  AggregateMessageOrigin : Type;
  Here : AggregateMessageOrigin;
  Parent : AggregateMessageOrigin;
  Sibling : ParaId -> AggregateMessageOrigin;
  as_sibling : AggregateMessageOrigin -> option ParaId;
}.
Class MessageOriginsOk `{MessageOrigins} : Prop := {
  as_sibling_sibling p : as_sibling (Sibling p) = Some p;
  as_sibling_here : as_sibling Here = None;
  as_sibling_parent : as_sibling Parent = None;
}.

Section queues.
Context `{MessageOrigins} {Message W : Type}.
(** the message queue pallet, by origin, and the state of the XCMP queue pallet *)
Context (enqueue : AggregateMessageOrigin -> Message -> W -> W).
Context (xcmp_is_paused : ParaId -> W -> bool).

Class QueueCombinators : Type := {
  EnqueueWithOrigin : AggregateMessageOrigin -> Message -> W -> W;
  TransformOrigin : (ParaId -> AggregateMessageOrigin) -> ParaId -> Message -> W -> W;
  ParaIdToSibling : ParaId -> AggregateMessageOrigin;
  NarrowOriginToSibling : (ParaId -> W -> bool) -> AggregateMessageOrigin -> W -> bool;
}.
Class QueueCombinatorsOk `{QueueCombinators} : Prop := {
  enqueue_with_origin_spec o m w : EnqueueWithOrigin o m w = enqueue o m w;
  transform_origin_spec f p m w : TransformOrigin f p m w = enqueue (f p) m w;
  para_id_to_sibling_spec p : ParaIdToSibling p = Sibling p;
  narrow_spec q o w :
    NarrowOriginToSibling q o w = match as_sibling o with Some p => q p w | None => false end;
}.
Context `{!QueueCombinators}.

Definition RelayOrigin : AggregateMessageOrigin := Parent.
Definition DmpQueue : Message -> W -> W := EnqueueWithOrigin RelayOrigin.
Definition XcmpQueue : ParaId -> Message -> W -> W := TransformOrigin ParaIdToSibling.
Definition QueuePausedQuery : AggregateMessageOrigin -> W -> bool :=
  NarrowOriginToSibling xcmp_is_paused.
End queues.

(** ** The template pallet

    [T::DbWeight] is that of the system pallet. *)
Definition template_config `{WeightShares, !BlockLimits, !DbWeights} (MAX_POV_SIZE : Z) :
    TemplateWeights.WeightInfo :=
  TemplateWeights.SubstrateWeight (db_weight (system_config MAX_POV_SIZE)).

(** ** Facts *)

(** What the runtime's weights say of the template pallet's calls, and what the calls
    declare: 109 against 100.01 microseconds for [do_something], 131 against 125.01 for
    [cause_error], so the runtime's choice of [SubstrateWeight] has no effect. *)
Theorem template_weights_unused `{WeightShares, !BlockLimits, !WeightsOk} `{!DbWeights, !DbWeightsOk}
    pov n :
  ref_time (TemplateWeights.measured_weight (template_config pov) (Template.Call_do_something n)) =
    109_000_000 /\
  ref_time (TemplateWeights.declared_weight RocksDbWeight (Template.Call_do_something n)) =
    100_010_000 /\
  ref_time (TemplateWeights.measured_weight (template_config pov) Template.Call_cause_error) =
    131_000_000 /\
  ref_time (TemplateWeights.declared_weight RocksDbWeight Template.Call_cause_error) = 125_010_000.
Proof.
  assert (Hd : TemplateWeights.small_db RocksDbWeight)
    by (unfold RocksDbWeight; split; cbn [read write]; rewrite per_nanos; lia).
  destruct (TemplateWeights.declared_weight_falls_short RocksDbWeight (Template.Call_do_something n) Hd)
    as [Hs _].
  destruct (TemplateWeights.declared_weight_falls_short RocksDbWeight Template.Call_cause_error Hd)
    as [He _].
  assert (Ds : ref_time (TemplateWeights.declared_weight RocksDbWeight
      (Template.Call_do_something n)) = 100_010_000).
  { cbn [TemplateWeights.declared_weight]. rewrite db_writes_spec. unfold RocksDbWeight.
    rewrite per_nanos. cbn [write].
    rewrite ref_time_add; rewrite ?ref_time_from_parts, ?proof_size_from_parts by solve_fits;
      first [vm_compute; reflexivity | solve_fits]. }
  assert (De : ref_time (TemplateWeights.declared_weight RocksDbWeight Template.Call_cause_error) =
      125_010_000).
  { cbn [TemplateWeights.declared_weight]. rewrite db_reads_writes_spec. unfold RocksDbWeight.
    rewrite per_nanos. cbn [read write].
    rewrite ref_time_add; rewrite ?ref_time_from_parts, ?proof_size_from_parts by solve_fits;
      first [vm_compute; reflexivity | solve_fits]. }
  change (TemplateWeights.SubstrateWeight RocksDbWeight) with (template_config pov) in Hs, He. lia.
Qed.

(** The pallets are given capacities that agree with each other: a
    page of a sibling's messages fits in the message queue's heap (and in [u32]); the
    collators of a full set, candidates and invulnerables, all fit in the authorities
    Aura can hold, and suffice for the minimum; an author's slot is the block time of
    the runtime; the genesis candidacy bond keeps a candidate alive. *)
Theorem capacities_consistent `{GenesisHost} invs endowed root id :
  max_page_size xcmp_queue_config <= HeapSize /\ fits 32 HeapSize /\
  max_candidates collator_selection_config + max_invulnerables collator_selection_config
    <= max_authorities aura_config /\
  min_eligible_collators collator_selection_config
    <= max_candidates collator_selection_config + max_invulnerables collator_selection_config /\
  slot_duration aura_config = MILLI_SECS_PER_BLOCK /\
  existential_deposit balances_config <= candidacy_bond (testnet_genesis invs endowed root id).
Proof. repeat split; vm_compute; discriminate. Qed.

(** The pallets are connected to each other consistently: outbound messages come from
    the pallet that handles inbound ones; sibling and downward messages end in one
    queue, which asks that pallet whether a sibling is paused; the pallet told who
    authored manages the sessions; and the author is found by the pallet that owns
    the session keys and is told the time. *)
Theorem neighbours_consistent `{WeightShares, !BlockLimits, !Sessions} pov :
  let ps := parachain_system_config pov in
  let mq := message_queue_config pov in
  outbound_xcmp_message_source ps = xcmp_message_handler ps /\
  xcmp_queue xcmp_queue_config = dmp_queue ps /\
  queue_paused_query mq = xcmp_message_handler ps /\
  queue_change_handler mq = queue_paused_query mq /\
  event_handler authorship_config = [session_manager session_config] /\
  session_handlers session_config = [on_timestamp_set timestamp_config] /\
  find_author authorship_config = on_timestamp_set timestamp_config.
Proof. done. Qed.

Section session_facts.
Context `{SessionsOk}.

Lemma should_end_session n : 0 <= n -> ShouldEndSession n = bool_decide (n mod Period = 0).
Proof.
  intros Hn. unfold ShouldEndSession. rewrite periodic_sessions_spec by (done || lia).
  unfold Offset. rewrite Z.sub_0_r. by rewrite (bool_decide_true (0 <= n)).
Qed.

(** Sessions rotate every six hours: whatever the block, exactly one of the blocks of
    the next six hours (3600 blocks of six seconds) ends a session, and the next
    rotation the pallet predicts is the one that happens. *)
Theorem session_rotation n :
  0 <= n ->
  (exists m, (n < m <= n + Period /\ ShouldEndSession m = true) /\
     forall m', n < m' <= n + Period /\ ShouldEndSession m' = true -> m' = m) /\
  Period * MILLI_SECS_PER_BLOCK = 6 * 60 * 60 * 1000 /\
  (forall m, NextSessionRotation m = ShouldEndSession m).
Proof.
  intros Hn. split; [|done].
  assert (HP : Period = 3600) by done.
  pose proof (Z.div_mod n Period) as Hd. pose proof (Z.mod_pos_bound n Period) as Hb.
  exists (Period * (n / Period + 1)).
  assert (Hm : forall m, 0 <= m -> ShouldEndSession m = true -> m = Period * (m / Period)).
  { intros m Hm. rewrite should_end_session, bool_decide_eq_true by done.
    pose proof (Z.div_mod m Period). lia. }
  pose proof (Z.div_pos n Period). split; [split; [lia|]|].
  - rewrite should_end_session, bool_decide_eq_true by lia. by rewrite Z.mul_comm, Z.mod_mul by lia.
  - intros m [Hle He]. apply Hm in He; [|lia]. rewrite He in *. nia.
Qed.
End session_facts.

Section fee_facts.
Context `{!Weights, !WeightsOk, !Perbills, !PerbillsOk, !FeePolynomials, !FeePolynomialsOk}.
Context `{!LengthFees, !LengthFeesOk}.
Abbreviation length_to_fee := (length_to_fee_of transaction_payment_config).

Lemma length_fee_exact n : 0 <= n < 2 ^ 32 -> length_to_fee n = 10 * MICRO_UNIT * n.
Proof.
  intros Hn. cbn [length_to_fee_of transaction_payment_config].
  rewrite constant_multiplier_spec by (solve_fits || lia). unfold TransactionByteFee.
  apply saturating_mul_exact. unfold MICRO_UNIT.
  assert (umax 128 = 340282366920938463463374607431768211455) as -> by done. lia.
Qed.

(** Fees stay payable: the length of an extrinsic costs ten MICRO_UNITs per byte,
    exactly, for every length a block can announce, and the longest extrinsic of a
    block (5 MiB) that also uses all of a block's computation costs less than 53
    UNITs, far below the [2^60] a development account is endowed with. *)
Theorem extrinsic_fee_bounded pov w n :
  fits 64 pov -> 0 <= ref_time w <= ref_time (MAXIMUM_BLOCK_WEIGHT pov) -> 0 <= n <= 5 * 1024 * 1024 ->
  length_to_fee n = 10 * MICRO_UNIT * n /\
  weight_to_fee_of transaction_payment_config w + length_to_fee n < 53 * UNIT /\
  53 * UNIT < Z.shiftl 1 60.
Proof.
  intros Hp Hw Hn. rewrite max_block_time in Hw by done.
  rewrite length_fee_exact by lia. cbn [weight_to_fee_of transaction_payment_config].
  assert (umax 64 = 18446744073709551615) as Hmax by done.
  pose proof (weight_to_fee_near w ltac:(unfold fits; lia)).
  split; [done|]. split; [unfold UNIT, MICRO_UNIT; lia | by vm_compute].
Qed.
End fee_facts.

Section origin_facts.
Context {Origin Location BodyId : Type} (EnsureRoot : EnsureOrigin (Origin := Origin)).
Context (EnsureXcm : (Location -> bool) -> EnsureOrigin (Origin := Origin)).
Context (IsVoiceOfBody : Location -> BodyId -> Location -> bool).
Context (EitherOfDiverse : EnsureOrigin (Origin := Origin) -> EnsureOrigin (Origin := Origin) ->
  EnsureOrigin (Origin := Origin)).
Context (RelayLocation : Location) (Defense : BodyId).
(** the location an XCM origin carries, and whether an origin is a signed account *)
Context (xcm_location : Origin -> option Location) (signed : Origin -> bool).
Context (either_spec : forall f g o, EitherOfDiverse f g o = f o || g o).
Context (ensure_xcm_spec : forall f o,
  EnsureXcm f o = match xcm_location o with Some l => f l | None => false end).
Context (signed_plain : forall o, signed o = true -> EnsureRoot o = false /\ xcm_location o = None).

(** Who may change the set of collators: root, and the voice of the relay chain's
    Defense body speaking over XCM; no signed account. *)
Theorem collator_admins o :
  let update := CollatorSelectionUpdateOrigin EnsureRoot EnsureXcm IsVoiceOfBody EitherOfDiverse
                  RelayLocation Defense in
  (update o = true <-> EnsureRoot o = true \/
     exists l, xcm_location o = Some l /\ IsVoiceOfBody RelayLocation Defense l = true) /\
  (signed o = true -> update o = false).
Proof.
  cbn. unfold CollatorSelectionUpdateOrigin, StakingAdminBodyId.
  rewrite either_spec, ensure_xcm_spec. split.
  - rewrite orb_true_iff. destruct (xcm_location o); naive_solver.
  - intros Hs. by destruct (signed_plain o Hs) as [-> ->].
Qed.
End origin_facts.

Section queue_facts.
Context `{MessageOriginsOk} {Message W : Type}.
Context (enqueue : AggregateMessageOrigin -> Message -> W -> W) (xcmp_is_paused : ParaId -> W -> bool).
Context `{!QueueCombinators (Message := Message) (W := W)} `{!QueueCombinatorsOk enqueue}.
Implicit Types w : W.

(** Every source of inbound messages has its own queue: the relay chain's messages
    and those of any two siblings are enqueued under different origins; suspending
    a sibling pauses the queue of that sibling and no other, and nothing pauses the
    relay chain's. *)
Theorem inbound_queues_separate p q (m : Message) w :
  DmpQueue m w = enqueue RelayOrigin m w /\
  XcmpQueue p m w = enqueue (Sibling p) m w /\
  Sibling p <> RelayOrigin /\ (Sibling p = Sibling q -> p = q) /\
  QueuePausedQuery xcmp_is_paused RelayOrigin w = false /\
  QueuePausedQuery xcmp_is_paused (Sibling p) w = xcmp_is_paused p w.
Proof.
  unfold DmpQueue, XcmpQueue, QueuePausedQuery, RelayOrigin.
  rewrite (enqueue_with_origin_spec enqueue), (transform_origin_spec enqueue).
  rewrite (para_id_to_sibling_spec enqueue), !(narrow_spec enqueue).
  rewrite as_sibling_parent, as_sibling_sibling. repeat split; try done.
  - intros E. pose proof (as_sibling_sibling p) as Hp. by rewrite E, as_sibling_parent in Hp.
  - intros E. pose proof (as_sibling_sibling p) as Hp. rewrite E, as_sibling_sibling in Hp.
    by simplify_eq.
Qed.
End queue_facts.
