(* ===== verification/Codec.v ===== *)
(** * The SCALE codec of the program's types

    [parity-scale-codec] encodes every value a transaction carries and every value
    the storage holds.  Its codecs for the base types are parameters here, with the
    two laws a codec is documented to have; the codecs of the types of this
    repository are the layouts their derives ask for: the fields of a struct in
    order, the variant of an enum as one index byte before its fields, a runtime
    call as the index of its pallet before the call.  The classes are interfaces:
    a type's codec is found by instance search from the codecs of its parts. *)
From S2P Require Import Prelude Frame Configs.
From S2P Require Swarm Template Runtime.
From Stdlib Require Import Strings.Byte.

Local Open Scope Z_scope.

(** ** Bytes *)
Abbreviation bytes := (list byte).

#[export] Instance byte_eq_dec : EqDecision byte := Byte.byte_eq_dec.

(** An index as the byte that carries it, and back. *)
Definition index_byte (i : Z) : byte := default x00 (Byte.of_N (Z.to_N i)).
Definition byte_index (b : byte) : Z := Z.of_N (Byte.to_N b).

Lemma byte_index_fits b : fits 8 (byte_index b).
Proof. unfold fits, byte_index, umax. pose proof (Byte.to_N_bounded b). lia. Qed.

Lemma byte_index_byte i : fits 8 i -> byte_index (index_byte i) = i.
Proof.
  unfold fits, umax, index_byte, byte_index. intros Hi.
  destruct (Byte.of_N (Z.to_N i)) as [b|] eqn:Hb; cbn.
  - apply Byte.to_of_N in Hb. rewrite Hb. lia.
  - apply Byte.of_N_None_iff in Hb. lia.
Qed.

Lemma index_byte_index b : index_byte (byte_index b) = b.
Proof. unfold index_byte, byte_index. by rewrite N2Z.id, Byte.of_to_N. Qed.

(** ** Decoders

    A decoder takes a value off the front of the input and returns the rest. *)
Definition Decoder (A : Type) : Type := bytes -> option (A * bytes).

#[export] Instance Decoder_ret : MRet Decoder := fun A a bs => Some (a, bs).
#[export] Instance Decoder_bind : MBind Decoder := fun A B f d bs =>
  match d bs with Some (a, rest) => f a rest | None => None end.

Definition read_byte : Decoder byte := fun bs =>
  match bs with b :: rest => Some (b, rest) | [] => None end.
Definition invalid {A} : Decoder A := fun _ => None.

(** A decoder inverts an encoding: it reads it back in front of anything, and
    accepts nothing else. *)
Definition inverts {A} (d : Decoder A) (e : A -> bytes) : Prop :=
  forall a bs rest, d bs = Some (a, rest) <-> bs = e a ++ rest.

(** The generic step of a proof of [inverts]: one byte or one field is read. *)
Lemma read_byte_Some bs b rest : read_byte bs = Some (b, rest) <-> bs = b :: rest.
Proof. destruct bs as [|b' bs]; cbn; naive_solver. Qed.

Lemma decode_bind_Some {A B} (d : Decoder A) (f : A -> Decoder B) bs b rest :
  (d ≫= f) bs = Some (b, rest) <->
  exists a mid, d bs = Some (a, mid) /\ f a mid = Some (b, rest).
Proof. unfold mbind, Decoder_bind. destruct (d bs) as [[a mid]|]; naive_solver. Qed.

Lemma decode_ret_Some {A} (a b : A) bs rest :
  (mret a : Decoder A) bs = Some (b, rest) <-> a = b /\ bs = rest.
Proof. unfold mret, Decoder_ret. naive_solver. Qed.

Lemma decode_fmap_Some {A B} (d : Decoder A) (e : A -> bytes) (f : A -> B) bs b rest :
  inverts d e ->
  (d ≫= (fun a => mret (f a))) bs = Some (b, rest) <-> exists a, f a = b /\ bs = e a ++ rest.
Proof.
  intros Hd. rewrite decode_bind_Some. setoid_rewrite decode_ret_Some. split.
  - intros (a & mid & Ha & <- & <-). apply Hd in Ha. eauto.
  - intros (a & <- & ->). exists a, rest. split; [by apply Hd | done].
Qed.

(** ** The interface *)
Class Codec (A : Type) : Type := {
  scale_encode : A -> bytes;
  scale_decode : Decoder A;
}.
Class CodecOk (A : Type) `{Codec A} : Prop :=
  scale_inverts : inverts scale_decode scale_encode.
Arguments CodecOk A {_}.

(** [MaxEncodedLen] *)
Class MaxEncodedLen (A : Type) : Type := max_encoded_len : Z.
Arguments max_encoded_len A {_}.
Class MaxEncodedLenOk (A : Type) `{Codec A, !MaxEncodedLen A} : Prop :=
  encoded_len (a : A) : Z.of_nat (length (scale_encode a)) <= max_encoded_len A.
Arguments MaxEncodedLenOk A {_ _}.

Section codec_facts.
Context `{CodecOk A}.

Lemma scale_decode_encode (a : A) rest : scale_decode (scale_encode a ++ rest) = Some (a, rest).
Proof. by apply scale_inverts. Qed.

Lemma scale_decode_exact (a : A) : scale_decode (scale_encode a) = Some (a, []).
Proof. rewrite <- (app_nil_r (scale_encode a)). apply scale_decode_encode. Qed.

(** No encoding is the beginning of another. *)
Lemma scale_prefix_free (a b : A) r s : scale_encode a ++ r = scale_encode b ++ s -> a = b /\ r = s.
Proof.
  intros E. pose proof (scale_decode_encode a r) as Ha. rewrite E, scale_decode_encode in Ha.
  by simplify_eq.
Qed.
End codec_facts.

(** What is encoded decodes; other bytes may decode to the same. *)
Class Roundtrips (A : Type) `{Codec A} : Prop :=
  roundtrips (a : A) rest : scale_decode (scale_encode a ++ rest) = Some (a, rest).
Arguments Roundtrips A {_}.
#[export] Instance codec_roundtrips `{CodecOk A} : Roundtrips A.
Proof. intros a rest. apply scale_decode_encode. Qed.

(** The two directions of [inverts] for a derived codec: [decode_inv] reads a
    successful decoding back into the bytes it consumed, [decode_run] runs a
    decoder on what was encoded. *)
Ltac decode_inv := repeat
  match goal with
  | H : invalid _ = Some _ |- _ => discriminate H
  | H : (_ ≫= _) _ = Some _ |- _ => apply decode_bind_Some in H as (? & ? & ? & H)
  | H : mret _ _ = Some _ |- _ => apply decode_ret_Some in H as [? ?]; subst
  | H : read_byte _ = Some _ |- _ => apply read_byte_Some in H; subst
  | H : scale_decode _ = Some _ |- _ => apply scale_inverts in H; subst
  end.

Ltac decode_run := repeat first
  [ rewrite scale_decode_encode | rewrite <- app_assoc
  | progress (unfold mbind, Decoder_bind, mret, Decoder_ret; cbn [read_byte app]) ].

(** ** Base types whose layout needs no bytes *)
#[export] Instance unit_codec : Codec unit := {|
  scale_encode _ := [];
  scale_decode := mret tt;
|}.
#[export] Instance unit_codec_ok : CodecOk unit.
Proof.
  intros [] bs rest. unfold scale_decode, scale_encode, unit_codec; cbn.
  rewrite decode_ret_Some. naive_solver.
Qed.

(** ** The swarm pallet's types *)
Section swarm_types.
Context `{!Codec u32}.

#[export] Instance Coordinate_codec : Codec Swarm.Coordinate := {|
  scale_encode c := scale_encode (Swarm.x c) ++ scale_encode (Swarm.y c);
  scale_decode :=
    x ← scale_decode; y ← scale_decode; mret {| Swarm.x := x; Swarm.y := y |};
|}.

#[export] Instance Coordinate_max_len `{!MaxEncodedLen u32} : MaxEncodedLen Swarm.Coordinate :=
  max_encoded_len u32 + max_encoded_len u32.

Context `{!Swarm.Config} `{!Codec Swarm.Location} `{!Codec Swarm.TaskDefinition}
  `{!Codec Swarm.RobotId}.

(** [Command]: the index of the variant, in the order of declaration, and its field. *)
#[export] Instance Command_codec : Codec Swarm.Command := {|
  scale_encode c :=
    match c with
    | Swarm.GoToLocation l => x00 :: scale_encode l
    | Swarm.PerformTask t => x01 :: scale_encode t
    | Swarm.Halt => [x02]
    | Swarm.WaitForCommand => [x03]
    end;
  scale_decode :=
    variant ← read_byte;
    match variant with
    | x00 => l ← scale_decode; mret (Swarm.GoToLocation l)
    | x01 => t ← scale_decode; mret (Swarm.PerformTask t)
    | x02 => mret Swarm.Halt
    | x03 => mret Swarm.WaitForCommand
    | _ => invalid
    end;
|}.

#[export] Instance Command_max_len
    `{!MaxEncodedLen Swarm.Location} `{!MaxEncodedLen Swarm.TaskDefinition} :
  MaxEncodedLen Swarm.Command :=
  1 + Z.max (Z.max (max_encoded_len Swarm.Location) (max_encoded_len Swarm.TaskDefinition)) 0.

(** The call enum: no [call_index] attributes, so the order of declaration. *)
#[export] Instance SwarmCall_codec : Codec Swarm.Call := {|
  scale_encode c :=
    match c with
    | Swarm.Call_register_robot r => x00 :: scale_encode r
    | Swarm.Call_enqueue_command c => x01 :: scale_encode c
    | Swarm.Call_pull_next r => x02 :: scale_encode r
    end;
  scale_decode :=
    call ← read_byte;
    match call with
    | x00 => r ← scale_decode; mret (Swarm.Call_register_robot r)
    | x01 => c ← scale_decode; mret (Swarm.Call_enqueue_command c)
    | x02 => r ← scale_decode; mret (Swarm.Call_pull_next r)
    | _ => invalid
    end;
|}.
End swarm_types.

(** ** The template pallet's types *)
Section template_types.
Context `{!Codec u32} `{!BlockNumbers} `{!Codec BlockNumber}.

#[export] Instance CompositeStruct_codec : Codec Template.CompositeStruct := {|
  scale_encode s := scale_encode (Template.block_number s);
  scale_decode := n ← scale_decode; mret {| Template.block_number := n |};
|}.

(** [#[pallet::call_index(0)]] and [(1)]. *)
#[export] Instance TemplateCall_codec : Codec Template.Call := {|
  scale_encode c :=
    match c with
    | Template.Call_do_something bn => x00 :: scale_encode bn
    | Template.Call_cause_error => [x01]
    end;
  scale_decode :=
    call ← read_byte;
    match call with
    | x00 => bn ← scale_decode; mret (Template.Call_do_something bn)
    | x01 => mret Template.Call_cause_error
    | _ => invalid
    end;
|}.
End template_types.

(** ** The runtime's call

    The calls of the pallets outside this repository: the pallet each belongs to
    and its codec behind the pallet's index byte.  What is encoded decodes, but other
    bytes may decode to the same call: a call of [ParachainSystem] carries sets and
    maps, which decode in any order of their elements. *)
Class OtherCalls (OtherCall : Type) : Type := {
  other_pallet : OtherCall -> Runtime.pallet;
  other_encode : OtherCall -> bytes;
  other_decode : Runtime.pallet -> Decoder OtherCall;
}.
Class OtherCallsOk (OtherCall : Type) `{OtherCalls OtherCall} : Prop := {
  other_roundtrips c rest : other_decode (other_pallet c) (other_encode c ++ rest) = Some (c, rest);
  other_selected p c bs rest : other_decode p bs = Some (c, rest) -> other_pallet c = p;
  other_elsewhere c :
    other_pallet c <> Runtime.TemplatePallet /\ other_pallet c <> Runtime.SwarmRobotPallet;
}.

Section runtime_call.
Context `{!Swarm.Config} {OtherCall : Type} `{!OtherCalls OtherCall}.
Context `{!Codec Swarm.Call} `{!Codec Template.Call}.
Abbreviation RuntimeCall := (Runtime.RuntimeCall (OtherCall := OtherCall)).

Definition call_pallet (c : RuntimeCall) : Runtime.pallet :=
  match c with
  | Runtime.CallTemplate _ => Runtime.TemplatePallet
  | Runtime.CallSwarm _ => Runtime.SwarmRobotPallet
  | Runtime.CallOther c => other_pallet c
  end.

(** The index byte of the pallet, then the pallet's call. *)
#[export] Instance RuntimeCall_codec : Codec RuntimeCall := {|
  scale_encode c :=
    index_byte (Runtime.pallet_index (call_pallet c)) ::
    match c with
    | Runtime.CallTemplate c => scale_encode c
    | Runtime.CallSwarm c => scale_encode c
    | Runtime.CallOther c => other_encode c
    end;
  scale_decode :=
    index ← read_byte;
    match Runtime.pallet_of_index (byte_index index) with
    | Some Runtime.TemplatePallet => c ← scale_decode; mret (Runtime.CallTemplate c)
    | Some Runtime.SwarmRobotPallet => c ← scale_decode; mret (Runtime.CallSwarm c)
    | Some p => c ← other_decode p; mret (Runtime.CallOther c)
    | None => invalid
    end;
|}.
End runtime_call.

(** ** The laws of the derived codecs *)
Section derived_laws.
Context `{!Codec u32} `{!CodecOk u32}.

#[export] Instance Coordinate_codec_ok : CodecOk Swarm.Coordinate.
Proof.
  intros [x y] bs rest. unfold scale_decode at 1, scale_encode at 1, Coordinate_codec.
  cbn [Swarm.x Swarm.y]. split; intros Hd; [decode_inv | subst; by decode_run].
  simplify_eq. by rewrite <- app_assoc.
Qed.

Context `{!Swarm.Config} `{!Codec Swarm.Location, !CodecOk Swarm.Location}
  `{!Codec Swarm.TaskDefinition, !CodecOk Swarm.TaskDefinition}
  `{!Codec Swarm.RobotId, !CodecOk Swarm.RobotId}.

#[export] Instance Command_codec_ok : CodecOk Swarm.Command.
Proof.
  intros c bs rest. unfold scale_decode at 1, scale_encode at 1, Command_codec.
  split; intros Hd; [|subst; destruct c; by decode_run].
  apply decode_bind_Some in Hd as ([] & ? & Hb & Hd); decode_inv; done.
Qed.

#[export] Instance SwarmCall_codec_ok : CodecOk Swarm.Call.
Proof.
  intros c bs rest. unfold scale_decode at 1, scale_encode at 1, SwarmCall_codec.
  split; intros Hd; [|subst; destruct c; by decode_run].
  apply decode_bind_Some in Hd as ([] & ? & Hb & Hd); decode_inv; done.
Qed.

Context `{!BlockNumbers} `{!Codec BlockNumber, !CodecOk BlockNumber}.

#[export] Instance CompositeStruct_codec_ok : CodecOk Template.CompositeStruct.
Proof.
  intros [n] bs rest. unfold scale_decode at 1, scale_encode at 1, CompositeStruct_codec.
  cbn [Template.block_number]. split; intros Hd; [decode_inv; by simplify_eq | subst; by decode_run].
Qed.

#[export] Instance TemplateCall_codec_ok : CodecOk Template.Call.
Proof.
  intros c bs rest. unfold scale_decode at 1, scale_encode at 1, TemplateCall_codec.
  split; intros Hd; [|subst; destruct c; by decode_run].
  apply decode_bind_Some in Hd as ([] & ? & Hb & Hd); decode_inv; done.
Qed.

Context {OtherCall : Type} `{!OtherCalls OtherCall} `{!OtherCallsOk OtherCall}.

(** A pallet's index byte selects the pallet. *)
Lemma pallet_of_index_byte p :
  Runtime.pallet_of_index (byte_index (index_byte (Runtime.pallet_index p))) = Some p.
Proof. by destruct p. Qed.

Lemma pallet_of_byte b p :
  Runtime.pallet_of_index (byte_index b) = Some p -> b = index_byte (Runtime.pallet_index p).
Proof.
  intros Hp. apply find_some in Hp as [_ Hp]. apply Z.eqb_eq in Hp.
  by rewrite Hp, index_byte_index.
Qed.

#[export] Instance RuntimeCall_roundtrips :
  Roundtrips (Runtime.RuntimeCall (OtherCall := OtherCall)).
Proof.
  intros c rest. unfold scale_decode at 1, scale_encode at 1, RuntimeCall_codec.
  apply decode_bind_Some. eexists _, _. split; [reflexivity|].
  cbn beta. rewrite pallet_of_index_byte.
  destruct c as [c|c|c]; cbn [call_pallet]; [by decode_run..|].
  destruct (other_elsewhere c) as [Ht Hs]. pose proof (other_roundtrips c rest) as Hd.
  destruct (other_pallet c); try done; by (apply decode_bind_Some; eauto).
Qed.

(** What bytes that decode to a call are: the index byte of its pallet, and its
    encoding unless it is a call of another pallet that other bytes decode to. *)
Definition decoded_exactly (c : Runtime.RuntimeCall (OtherCall := OtherCall)) : Prop :=
  match c with
  | Runtime.CallOther d => forall bs rest,
      other_decode (other_pallet d) bs = Some (d, rest) -> bs = other_encode d ++ rest
  | _ => True
  end.

Lemma runtime_call_decoded c bs rest :
  scale_decode bs = Some (c, rest) ->
  head bs = Some (index_byte (Runtime.pallet_index (call_pallet c))) /\
  (decoded_exactly c -> bs = scale_encode c ++ rest).
Proof.
  unfold scale_decode at 1, scale_encode at 1, RuntimeCall_codec.
  intros Hd. apply decode_bind_Some in Hd as (b & mid & Hb & Hd). decode_inv.
  destruct (Runtime.pallet_of_index (byte_index b)) as [p|] eqn:Hp; [|done].
  apply pallet_of_byte in Hp as ->.
  destruct p; decode_inv; try done;
    match goal with H : other_decode _ _ = Some _ |- _ =>
      pose proof (other_selected _ _ _ _ H) as Hq; rewrite <- Hq in H;
      cbn [call_pallet]; rewrite Hq; split; [done|]; intros Hex; by rewrite (Hex _ _ H) end.
Qed.

Lemma runtime_call_inverts c bs rest :
  decoded_exactly c -> scale_decode bs = Some (c, rest) <-> bs = scale_encode c ++ rest.
Proof.
  intros Hex. split; [|intros ->; apply roundtrips].
  intros Hd. by apply runtime_call_decoded in Hd as [_ Hd]; auto.
Qed.
End derived_laws.

(** ** Encoded lengths *)
Section lengths.
Context `{!Codec u32} `{!MaxEncodedLen u32} `{!MaxEncodedLenOk u32}.

#[export] Instance Coordinate_len_ok : MaxEncodedLenOk Swarm.Coordinate.
Proof.
  intros [x y]. unfold scale_encode, Coordinate_codec, max_encoded_len, Coordinate_max_len.
  cbn [Swarm.x Swarm.y]. rewrite length_app, Nat2Z.inj_add.
  pose proof (encoded_len x). pose proof (encoded_len y). lia.
Qed.

Context `{!Swarm.Config} `{!Codec Swarm.Location} `{!Codec Swarm.TaskDefinition}.
Context `{!MaxEncodedLen Swarm.Location} `{!MaxEncodedLen Swarm.TaskDefinition}.
Context `{!MaxEncodedLenOk Swarm.Location} `{!MaxEncodedLenOk Swarm.TaskDefinition}.

#[export] Instance Command_len_ok : MaxEncodedLenOk Swarm.Command.
Proof.
  intros c. unfold scale_encode, Command_codec, max_encoded_len, Command_max_len.
  destruct c as [l|t| |]; cbn [length]; rewrite ?Nat2Z.inj_succ;
    [pose proof (encoded_len l) | pose proof (encoded_len t) |..]; lia.
Qed.
End lengths.

(** [Compact<u32>]: the length of a vector, in one, two or four bytes. *)
Class Compacts : Type := compact : Z -> bytes.
Class CompactsOk `{Compacts} : Prop :=
  compact_len n : 0 <= n < 2 ^ 14 -> Z.of_nat (length (compact n)) = if decide (n < 64) then 1 else 2.

(** A vector: its length, then its elements. *)
Class BoundedVecCodec (A : Type) `{BoundedVec A, Codec A, Compacts} `{!Codec (bvec A)} : Prop := {
  bvec_codec_ok :: CodecOk (bvec A);
  encode_bvec b :
    scale_encode b =
    compact (Z.of_nat (length (bv_slice b))) ++ concat (scale_encode <$> bv_slice b);
}.

Lemma concat_encoded_len `{MaxEncodedLenOk A} (l : list A) :
  Z.of_nat (length (concat (scale_encode <$> l))) <= Z.of_nat (length l) * max_encoded_len A.
Proof.
  induction l as [|a l IH]; [done|]. cbn [fmap list_fmap concat length] in *.
  rewrite length_app, Nat2Z.inj_add, Nat2Z.inj_succ. pose proof (encoded_len a). lia.
Qed.

(** The bytes of a bounded vector: at most those of its length and of its elements at
    their longest. *)
Lemma bvec_encoded_len `{MaxEncodedLenOk A} `{!BoundedVec A, !Compacts, !CompactsOk}
    `{!Codec (bvec A), !BoundedVecCodec A} (b : bvec A) (n : Z) :
  0 <= max_encoded_len A -> Z.of_nat (length (bv_slice b)) <= n -> 0 <= n < 2 ^ 14 ->
  Z.of_nat (length (scale_encode b)) <= 2 + n * max_encoded_len A.
Proof.
  intros Hm Hb Hn. rewrite encode_bvec, length_app, Nat2Z.inj_add, compact_len by lia.
  pose proof (concat_encoded_len (bv_slice b)).
  assert (Z.of_nat (length (bv_slice b)) * max_encoded_len A <= n * max_encoded_len A) by nia.
  case_decide; lia.
Qed.

(** ** Transactions carry the calls they were given *)
Section roundtrip.
Context `{!Codec u32} `{!CodecOk u32}.
Context `{!Swarm.Config} `{!Codec Swarm.Location, !CodecOk Swarm.Location}
  `{!Codec Swarm.TaskDefinition, !CodecOk Swarm.TaskDefinition}
  `{!Codec Swarm.RobotId, !CodecOk Swarm.RobotId}.
Context {OtherCall : Type} `{!OtherCalls OtherCall} `{!OtherCallsOk OtherCall}.

(** C11: The wire format of the runtime's calls is lossless and unambiguous.  The
    encoding of every call decodes to it, whatever follows.  The first byte alone, 51
    for the swarm pallet and 50 for the template pallet, tells which pallet executes
    the call that bytes decode to.  And the bytes that decode to a call of one of these
    two pallets are exactly its encoding, so such a call has one encoding. *)
Theorem runtime_call_roundtrip (c : Runtime.RuntimeCall (OtherCall := OtherCall)) bs rest :
  scale_decode (scale_encode c ++ rest) = Some (c, rest) /\
  (scale_decode bs = Some (c, rest) ->
   (byte_index <$> head bs = Some 51 <-> exists s, c = Runtime.CallSwarm s) /\
   (byte_index <$> head bs = Some 50 <-> exists t, c = Runtime.CallTemplate t) /\
   ((exists s, c = Runtime.CallSwarm s) \/ (exists t, c = Runtime.CallTemplate t) ->
    bs = scale_encode c ++ rest)).
Proof.
  split; [apply roundtrips|]. intros [Hh Hex]%runtime_call_decoded. rewrite Hh.
  cbn [fmap option_fmap option_map].
  rewrite byte_index_byte by (destruct (call_pallet c); solve_fits).
  destruct c as [c|c|c]; cbn [call_pallet]; [naive_solver..|].
  destruct (other_elsewhere c). destruct (other_pallet c); naive_solver.
Qed.

(** The commands operators enqueue are lossless likewise: the bytes that decode to
    a command are exactly its encoding, and a first byte above 3 is refused. *)
Theorem command_roundtrip (c : Swarm.Command) bs rest :
  (scale_decode bs = Some (c, rest) <-> bs = scale_encode c ++ rest) /\
  (forall b, 3 < byte_index b -> scale_decode (A := Swarm.Command) (b :: bs) = None).
Proof.
  split; [apply scale_inverts|]. intros b Hb.
  destruct (scale_decode (b :: bs)) as [[d r]|] eqn:Hd; [|done].
  apply scale_inverts in Hd. by destruct d; injection Hd as -> _.
Qed.
End roundtrip.
