(* ===== verification/Storage.v ===== *)
(** * The storage layout

    Below the typed storage items of [Swarm.v] and [Template.v] lies one map from
    bytes to bytes.  This file places the items in it the way their declarations
    say: under the hashes of the pallet's and the item's name, a map entry under
    the [Blake2_128Concat] of its key, values in the codecs of [Codec.v], events in
    the one list of the runtime.  The laws the pallets and the composed runtime are
    verified under ([SwarmStorageOk], [TemplateStorageOk], [StorageApart]) are proved
    here from the map, the codecs and the hashes. *)
From S2P Require Import Prelude Frame Configs Codec.
From S2P Require Swarm SwarmSpec SwarmProps Template TemplateProps Runtime.

Local Open Scope Z_scope.

#[local] Existing Instances SwarmSpec.state_equiv SwarmSpec.state_equivalence Swarm.RobotId_eq.

(** ** The raw store and the hashes *)
Class RawStorage (W : Type) : Type := {
  raw_get : bytes -> W -> option bytes;
  raw_put : bytes -> bytes -> W -> W;
}.
Class RawStorageOk (W : Type) `{RawStorage W} : Prop :=
  raw_get_put k k' v w : raw_get k' (raw_put k v w) = if decide (k = k') then Some v else raw_get k' w.

Class StorageHashers : Type := {
  twox_128 : bytes -> bytes;
  blake2_128 : bytes -> bytes;
}.

Definition name_bytes (s : string) : bytes := String.list_byte_of_string s.

(** The name the runtime declares each pallet under. *)
Definition pallet_name (p : Runtime.pallet) : string :=
  match p with
  | Runtime.System => "System" | Runtime.ParachainSystem => "ParachainSystem"
  | Runtime.Timestamp => "Timestamp" | Runtime.ParachainInfo => "ParachainInfo"
  | Runtime.WeightReclaim => "WeightReclaim"
  | Runtime.Balances => "Balances" | Runtime.TransactionPayment => "TransactionPayment"
  | Runtime.Sudo => "Sudo"
  | Runtime.Authorship => "Authorship" | Runtime.CollatorSelection => "CollatorSelection"
  | Runtime.Session => "Session" | Runtime.Aura => "Aura" | Runtime.AuraExt => "AuraExt"
  | Runtime.XcmpQueue => "XcmpQueue" | Runtime.PolkadotXcm => "PolkadotXcm"
  | Runtime.CumulusXcm => "CumulusXcm" | Runtime.MessageQueue => "MessageQueue"
  | Runtime.TemplatePallet => "TemplatePallet" | Runtime.SwarmRobotPallet => "SwarmRobotPallet"
  end.

(** Hashes of 128 bits that tell the names of the pallets apart, and those of the
    swarm pallet's two items. *)
Class StorageHashersOk `{StorageHashers} : Prop := {
  twox_len bs : length (twox_128 bs) = 16%nat;
  blake2_len bs : length (blake2_128 bs) = 16%nat;
  twox_pallets p q :
    twox_128 (name_bytes (pallet_name p)) = twox_128 (name_bytes (pallet_name q)) -> p = q;
  twox_items :
    twox_128 (name_bytes "RegisteredRobots") <> twox_128 (name_bytes "GlobalCommandQueue");
}.

Section keys.
Context `{StorageHashers}.

Definition pallet_prefix (p : Runtime.pallet) : bytes := twox_128 (name_bytes (pallet_name p)).
Definition item_prefix (p : Runtime.pallet) (item : string) : bytes :=
  pallet_prefix p ++ twox_128 (name_bytes item).

(** [Blake2_128Concat] *)
Definition blake2_128_concat (bs : bytes) : bytes := blake2_128 bs ++ bs.

Definition robots_prefix : bytes := item_prefix Runtime.SwarmRobotPallet "RegisteredRobots".
Definition robot_key `{!Swarm.Config, !Codec Swarm.RobotId} (r : Swarm.RobotId) : bytes :=
  robots_prefix ++ blake2_128_concat (scale_encode r).
Definition queue_key : bytes := item_prefix Runtime.SwarmRobotPallet "GlobalCommandQueue".
Definition something_key : bytes := item_prefix Runtime.TemplatePallet "Something".
(** FRAME keeps the version of a pallet's storage, a [u16], beside the pallet's items. *)
Definition version_key (p : Runtime.pallet) : bytes := item_prefix p ":__STORAGE_VERSION__:".

(** The keys of a pallet. *)
Definition under (p : Runtime.pallet) (k : bytes) : Prop := pallet_prefix p `prefix_of` k.

Context `{!StorageHashersOk}.

Lemma item_prefix_len p item : length (item_prefix p item) = 32%nat.
Proof. unfold item_prefix, pallet_prefix. by rewrite length_app, !twox_len. Qed.

Lemma under_item p item rest : under p (item_prefix p item ++ rest).
Proof. unfold under, item_prefix. rewrite <- app_assoc. by eexists. Qed.

Lemma under_item0 p item : under p (item_prefix p item).
Proof. rewrite <- (app_nil_r (item_prefix p item)). apply under_item. Qed.

Lemma under_unique p q k : under p k -> under q k -> p = q.
Proof.
  intros [a ->] [b E]. apply twox_pallets.
  by apply app_inj_1 in E as [E _]; [|unfold pallet_prefix; rewrite !twox_len].
Qed.

Lemma under_not p q k : under p k -> p <> q -> ~ under q k.
Proof. intros Hp Hne Hq. by apply Hne, (under_unique p q k). Qed.

Lemma under_apart p q k k' : under p k -> under q k' -> p <> q -> k <> k'.
Proof. intros Hp Hq Hne ->. by apply Hne, (under_unique p q k'). Qed.

Lemma queue_not_robot rest : queue_key <> robots_prefix ++ rest.
Proof.
  intros E. rewrite <- (app_nil_r queue_key) in E.
  apply app_inj_1 in E as [E _]; [|by unfold queue_key, robots_prefix; rewrite !item_prefix_len].
  apply app_inv_head in E. by apply twox_items.
Qed.

Lemma robot_key_inj `{!Swarm.Config, !Codec Swarm.RobotId, !CodecOk Swarm.RobotId} r r' :
  robot_key r = robot_key r' -> r = r'.
Proof.
  unfold robot_key, blake2_128_concat. intros E. apply app_inv_head in E.
  apply app_inj_1 in E as [_ E]; [|by rewrite !blake2_len].
  rewrite <- (app_nil_r (scale_encode r)), <- (app_nil_r (scale_encode r')) in E.
  by apply scale_prefix_free in E as [].
Qed.

Lemma robot_key_under `{!Swarm.Config, !Codec Swarm.RobotId} r :
  under Runtime.SwarmRobotPallet (robot_key r).
Proof. apply under_item. Qed.
Lemma queue_key_under : under Runtime.SwarmRobotPallet queue_key.
Proof. apply under_item0. Qed.
Lemma something_key_under : under Runtime.TemplatePallet something_key.
Proof. apply under_item0. Qed.
End keys.

(** [keys]: which pallet a key belongs to, and that it belongs to no other. *)
Create HintDb keys.
#[export] Hint Resolve robot_key_under queue_key_under something_key_under under_not under_apart : keys.
#[export] Hint Extern 1 (_ <> _ :> Runtime.pallet) => discriminate : keys.

(** ** The events of the runtime

    [RuntimeEvent]: the events of every pallet, in the one list [System] keeps.
    [From<Event<Self>>] wraps a pallet's event in its variant. *)
Section events.
Context `{!Swarm.Config} `{FrameSystem, !BlockNumbers} {OtherEvent : Type}.

Inductive RuntimeEvent : Type :=
| SwarmEvent (e : Swarm.Event)
| TemplateEvent (e : Template.Event)
| OtherEventOf (e : OtherEvent).

Definition swarm_event (e : RuntimeEvent) : option Swarm.Event :=
  match e with SwarmEvent e => Some e | _ => None end.
Definition template_event (e : RuntimeEvent) : option Template.Event :=
  match e with TemplateEvent e => Some e | _ => None end.
End events.
Arguments RuntimeEvent {_ _ _} OtherEvent.

(** A pallet's view of the list: its own events, wrapped when deposited. *)
Definition pallet_sink {W A B : Type} (s : EventSink W B) (wrap : A -> B)
    (unwrap : B -> option A) : EventSink W A := {|
  es_deposit e := es_deposit s (wrap e);
  es_log w := omap unwrap (es_log s w);
  es_recording := es_recording s;
|}.

Lemma pallet_sink_ok {W A B} (s : EventSink W B) (wrap : A -> B) unwrap :
  EventSinkOk s -> (forall a, unwrap (wrap a) = Some a) -> EventSinkOk (pallet_sink s wrap unwrap).
Proof.
  intros Hs Hw. split; [|intros e; exact (es_recording_deposit (s := s) (wrap e))].
  intros e w. cbn. rewrite es_log_deposit. destruct (es_recording s w); [|done].
  rewrite omap_app. cbn. by rewrite Hw.
Qed.

(** A deposit of another pallet's event does not show. *)
Lemma pallet_sink_other {W A B} (s : EventSink W B) (wrap : A -> B) unwrap `{!EventSinkOk s} b w :
  unwrap b = None ->
  es_log (pallet_sink s wrap unwrap) (es_deposit s b w) = es_log (pallet_sink s wrap unwrap) w.
Proof.
  intros Hb. cbn. rewrite es_log_deposit. destruct (es_recording s w); [|done].
  rewrite omap_app. cbn. by rewrite Hb, app_nil_r.
Qed.

(** ** The items in the store *)
Section items.
Context {W : Type} `{!RawStorage W} `{StorageHashers}.
Context `{FrameSystem} `{!BlockNumbers} {OtherEvent : Type}.
Context `{!Swarm.Config} `{!BoundedVec Swarm.Command}.
Context `{!Codec Swarm.RobotId} `{!Codec (bvec Swarm.Command)} `{!Codec BlockNumber}.
Context (SystemEvents : EventSink W (RuntimeEvent OtherEvent)).

(** A stored value that does not decode reads as absent. *)
Definition read_value {A} `{!Codec A} (k : bytes) (w : W) : option A :=
  raw_get k w ≫= (fun bs => fst <$> scale_decode bs).

#[export] Instance raw_swarm_storage : Swarm.SwarmStorage W := {|
  Swarm.RegisteredRobots := {|
    sm_contains_key r w := bool_decide (is_Some (raw_get (robot_key r) w));
    sm_insert r (u : unit) := raw_put (robot_key r) (scale_encode u) |};
  Swarm.GlobalCommandQueue := {|
    sv_get w := default bv_default (read_value queue_key w);
    sv_put q := raw_put queue_key (scale_encode q) |};
  Swarm.SwarmEvents := pallet_sink SystemEvents SwarmEvent swarm_event;
|}.

#[export] Instance raw_template_storage : Template.TemplateStorage W := {|
  Template.Something := {|
    sv_get w := read_value something_key w;
    sv_put (s : Template.CompositeStruct) := raw_put something_key (scale_encode s) |};
  Template.TemplateEvents := pallet_sink SystemEvents TemplateEvent template_event;
|}.

(** ** The laws of the pallets, from those of the store

    [System] keeps the events under its own prefix. *)
Context `{!RawStorageOk W} `{!StorageHashersOk} `{!EventSinkOk SystemEvents}.
Context `{!CodecOk Swarm.RobotId} `{!CodecOk (bvec Swarm.Command)} `{!CodecOk BlockNumber}.

Class SystemEventsApart : Prop := {
  deposit_apart e k w :
    ~ under Runtime.System k -> raw_get k (es_deposit SystemEvents e w) = raw_get k w;
  log_apart k v w :
    ~ under Runtime.System k -> es_log SystemEvents (raw_put k v w) = es_log SystemEvents w;
  recording_apart k v w :
    ~ under Runtime.System k -> es_recording SystemEvents (raw_put k v w) = es_recording SystemEvents w;
}.
Context `{!SystemEventsApart}.

Lemma raw_get_put_ne k k' v w : k <> k' -> raw_get k' (raw_put k v w) = raw_get k' w.
Proof. intros Hk. rewrite raw_get_put. by rewrite decide_False. Qed.

#[export] Instance raw_swarm_storage_ok : Swarm.SwarmStorageOk W.
Proof.
  split.
  - intros r r' [] w. cbn. rewrite raw_get_put.
    destruct (decide (r = r')) as [->|Hr].
    + rewrite decide_True by done. by rewrite !bool_decide_true by eauto.
    + rewrite decide_False by (intros E; by apply robot_key_inj in E).
      by rewrite (bool_decide_false (r = r')).
  - intros q w. cbn. unfold read_value. rewrite raw_get_put, decide_True by done. cbn.
    by rewrite scale_decode_exact.
  - by apply pallet_sink_ok.
  - intros r u w. cbn. unfold read_value. rewrite raw_get_put_ne; [done|].
    intros E. by destruct (queue_not_robot (blake2_128_concat (scale_encode r))).
  - intros r u w. cbn. by rewrite log_apart by eauto with keys.
  - intros r u w. cbn. by rewrite recording_apart by eauto with keys.
  - intros r q w. cbn. rewrite raw_get_put_ne; [done|]. apply queue_not_robot.
  - intros q w. cbn. by rewrite log_apart by eauto with keys.
  - intros q w. cbn. by rewrite recording_apart by eauto with keys.
  - intros r e w. cbn. by rewrite deposit_apart by eauto with keys.
  - intros e w. cbn. unfold read_value. by rewrite deposit_apart by eauto with keys.
Qed.

#[export] Instance raw_template_storage_ok : Template.TemplateStorageOk W.
Proof.
  split.
  - intros s w. cbn [sv_get sv_put Template.Something raw_template_storage]. unfold read_value.
    rewrite raw_get_put, decide_True by done. cbn [mbind option_bind].
    by rewrite scale_decode_exact.
  - by apply pallet_sink_ok.
  - intros s w. cbn. by rewrite log_apart by eauto with keys.
  - intros s w. cbn. by rewrite recording_apart by eauto with keys.
  - intros e w. cbn. unfold read_value. by rewrite deposit_apart by eauto with keys.
Qed.

Context (bn_val : BlockNumber -> Z).

(** Different pallets, different prefixes: the law the composed runtime relies on. *)
#[export] Instance raw_storage_apart : Runtime.StorageApart bn_val.
Proof.
  split.
  - intros s w. repeat split; [intros r|..]; cbn; unfold Swarm.registered, Swarm.queue, Swarm.log,
      Swarm.recording; cbn; unfold read_value;
      rewrite ?log_apart, ?recording_apart by eauto with keys; try done;
      by rewrite raw_get_put_ne by eauto using not_eq_sym with keys.
  - intros e w. repeat split; [intros r|..]; cbn; unfold Swarm.registered, Swarm.queue, Swarm.log,
      Swarm.recording; cbn; unfold read_value; rewrite ?deposit_apart by eauto with keys; try done.
    + by apply (pallet_sink_other SystemEvents SwarmEvent swarm_event).
    + apply (es_recording_deposit (s := SystemEvents)).
  - intros r u w. unfold TemplateProps.view, TemplateProps.stored, TemplateProps.log; cbn.
    unfold read_value.
    by rewrite raw_get_put_ne, log_apart, recording_apart by eauto with keys.
  - intros q w. unfold TemplateProps.view, TemplateProps.stored, TemplateProps.log; cbn.
    unfold read_value.
    by rewrite raw_get_put_ne, log_apart, recording_apart by eauto with keys.
  - intros e w. unfold TemplateProps.view, TemplateProps.stored, TemplateProps.log.
    cbn [sv_get Template.Something raw_template_storage].
    unfold read_value. cbn [es_deposit Swarm.SwarmEvents raw_swarm_storage pallet_sink].
    rewrite deposit_apart by eauto with keys.
    f_equal; [by apply (pallet_sink_other SystemEvents TemplateEvent template_event)|].
    apply (es_recording_deposit (s := SystemEvents)).
Qed.

(** ** The swarm pallet on the raw store *)
Context `{!IntoDispatchError Swarm.Error} `{!IntoDispatchError Template.Error}.
Context `{!BoundedVecOk Swarm.Command Swarm.MaxGlobalCommands}.

(** What a client that reads the store sees of the pallet. *)
Definition raw_queue (w : W) : list Swarm.Command :=
  default [] (bv_slice <$> read_value (A := bvec Swarm.Command) queue_key w).
Definition raw_view (w : W) : SwarmSpec.state := {|
  SwarmSpec.robots r := bool_decide (is_Some (raw_get (robot_key r) w));
  SwarmSpec.pending := raw_queue w;
  SwarmSpec.history := omap swarm_event (es_log SystemEvents w);
  SwarmSpec.live := es_recording SystemEvents w;
|}.

(** The machine before the first call. *)
Definition initial (w : W) : SwarmSpec.state := {|
  SwarmSpec.robots _ := false;
  SwarmSpec.pending := [];
  SwarmSpec.history := omap swarm_event (es_log SystemEvents w);
  SwarmSpec.live := es_recording SystemEvents w;
|}.
(** A store with no robot and no queue of the pallet; FRAME's own key is allowed. *)
Definition blank (w : W) : Prop :=
  (forall r, raw_get (robot_key r) w = None) /\ raw_get queue_key w = None.

Lemma raw_queue_spec w : raw_queue w = Swarm.queue w.
Proof.
  unfold raw_queue, Swarm.queue. cbn. destruct (read_value queue_key w); [done|].
  cbn. by rewrite bv_slice_default.
Qed.

Lemma raw_view_spec w : SwarmSpec.view w ≡ raw_view w.
Proof. repeat split. cbn. by rewrite raw_queue_spec. Qed.

Lemma raw_view_blank w : blank w -> raw_view w ≡ initial w.
Proof.
  intros [Hr Hq]. repeat split; [intros r|..]; cbn.
  - by rewrite (Hr r).
  - unfold raw_queue, read_value. by rewrite Hq.
Qed.

(** C8: The swarm pallet on the raw store, from a store that holds no robot and no queue
    of it: over any schedule it answers as the abstract machine from its initial state, a
    robot's key is present exactly when the machine has the robot, the bytes
    under the queue's key decode to the machine's queue, and the runtime's list
    holds the machine's events. *)
Theorem raw_store_refines cs w :
  blank w ->
  (Swarm.run cs w).1 = (SwarmSpec.spec_run cs (initial w)).1 /\
  raw_view (Swarm.run cs w).2 ≡ (SwarmSpec.spec_run cs (initial w)).2.
Proof.
  intros Hb. destruct (SwarmSpec.run_view cs w) as [Ha Hv].
  assert (Hi : SwarmSpec.view w ≡ initial w) by by rewrite raw_view_spec, raw_view_blank.
  destruct (SwarmSpec.spec_run_proper cs _ _ Hi) as [Ha' Hv'].
  split; [by rewrite Ha | by rewrite <- raw_view_spec, Hv].
Qed.

(** ** Footprints and types *)
Context `{!StorageLayer W} `{!StorageLayerOk W}.
Context {OtherCall : Type} (other_dispatch : OriginFor -> OtherCall -> M W DispatchError unit).
Implicit Types x : OriginFor * Runtime.RuntimeCall (OtherCall := OtherCall).

(** What the writes of the two pallets keep, their calls keep. *)
Lemma own_call_invariant (I : W -> Prop) x w :
  (forall c, x.2 <> Runtime.CallOther c) ->
  (forall r u v, I v -> I (sm_insert Swarm.RegisteredRobots r u v)) ->
  (forall q v, I v -> I (sv_put Swarm.GlobalCommandQueue q v)) ->
  (forall s v, I v -> I (sv_put Template.Something s v)) ->
  (forall e v, I v -> I (es_deposit SystemEvents e v)) ->
  I w -> I (Runtime.runtime_dispatch other_dispatch x w).2.
Proof.
  intros Hx Hins Hq Hs He Hw. destruct x as [o [c|c|c]]; [..|by destruct (Hx c)].
  - rewrite (Runtime.runtime_dispatch_template other_dispatch o c w).
    apply Template.template_dispatch_invariant; [done| |done]. intros e v. apply He.
  - rewrite (Runtime.runtime_dispatch_swarm_call other_dispatch o c w).
    apply Swarm.swarm_dispatch_invariant; [done..| |done]. intros e v. apply He.
Qed.

Definition pallet_of (c : Runtime.RuntimeCall (OtherCall := OtherCall)) : option Runtime.pallet :=
  match c with
  | Runtime.CallTemplate _ => Some Runtime.TemplatePallet
  | Runtime.CallSwarm _ => Some Runtime.SwarmRobotPallet
  | Runtime.CallOther _ => None
  end.

(** C9: A call of the swarm or the template pallet writes only under the prefix of its
    own pallet, and the events under [System]: every other key of the store,
    balances, sessions, the code of the runtime and the keys of the other of
    the two pallets, holds the same bytes before and after. *)
Theorem calls_write_own_keys x p k w :
  pallet_of x.2 = Some p -> ~ under p k -> ~ under Runtime.System k ->
  raw_get k (Runtime.runtime_dispatch other_dispatch x w).2 = raw_get k w.
Proof.
  intros Hp Hk Hsys. set (I v := raw_get k v = raw_get k w).
  assert (Hput : forall k' bs v, under p k' -> I v -> I (raw_put k' bs v)).
  { unfold I. intros k' bs v Hk' <-. apply raw_get_put_ne. by intros ->. }
  assert (He : forall e v, I v -> I (es_deposit SystemEvents e v)).
  { unfold I. intros e v <-. by apply deposit_apart. }
  destruct x as [o [c|c|c]]; simplify_eq/=.
  - rewrite (Runtime.runtime_dispatch_template other_dispatch o c w).
    apply (Template.template_dispatch_invariant I); [|intros ? ?; apply He | done].
    intros s v. apply Hput; eauto with keys.
  - rewrite (Runtime.runtime_dispatch_swarm_call other_dispatch o c w).
    apply (Swarm.swarm_dispatch_invariant I); [..|intros ? ?; apply He | done];
      intros; apply Hput; eauto with keys.
Qed.

(** The store is well-typed for the two pallets: what lies under their prefixes is
    a registered robot with the empty value, the queue, or the template's
    value, each the encoding of a value of its type, or the two bytes of FRAME's
    storage version, and nothing else. *)
Definition swarm_entry (k v : bytes) : Prop :=
  (exists r, k = robot_key r /\ v = scale_encode tt) \/
  (k = queue_key /\ exists q : bvec Swarm.Command, v = scale_encode q) \/
  (k = version_key Runtime.SwarmRobotPallet /\ length v = 2%nat).
Definition template_entry (k v : bytes) : Prop :=
  (k = something_key /\ exists s : Template.CompositeStruct, v = scale_encode s) \/
  (k = version_key Runtime.TemplatePallet /\ length v = 2%nat).
Record well_typed (w : W) : Prop := {
  swarm_keys k v : under Runtime.SwarmRobotPallet k -> raw_get k w = Some v -> swarm_entry k v;
  template_keys k v : under Runtime.TemplatePallet k -> raw_get k w = Some v -> template_entry k v;
}.

Lemma well_typed_put k0 v0 w :
  (under Runtime.SwarmRobotPallet k0 -> swarm_entry k0 v0) ->
  (under Runtime.TemplatePallet k0 -> template_entry k0 v0) ->
  well_typed w -> well_typed (raw_put k0 v0 w).
Proof.
  intros Hs Ht [Ws Wt]. split; intros k v Hu; rewrite raw_get_put; case_decide; subst; eauto;
    intros [= <-]; eauto.
Qed.

Definition own_prefix (k : bytes) : Prop :=
  under Runtime.SwarmRobotPallet k \/ under Runtime.TemplatePallet k.

Lemma well_typed_same w w' :
  (forall k, own_prefix k -> raw_get k w' = raw_get k w) -> well_typed w -> well_typed w'.
Proof.
  intros Hsame [Ws Wt].
  split; intros k v Hu; rewrite Hsame by (unfold own_prefix; auto); eauto.
Qed.

Lemma own_call_typed (y : OriginFor * Runtime.OwnCall) w :
  well_typed w -> well_typed (Runtime.runtime_dispatch other_dispatch (Runtime.own_call y) w).2.
Proof.
  intros Hw. apply own_call_invariant; [by destruct y as [o []]|..|done].
  - intros r [] v. apply well_typed_put; [left; eauto|]. intros Hu.
    by pose proof (under_unique _ _ _ Hu (robot_key_under r)).
  - intros q v. apply well_typed_put; [right; left; eauto|]. intros Hu.
    by pose proof (under_unique _ _ _ Hu queue_key_under).
  - intros s v. apply well_typed_put; [|left; eauto]. intros Hu.
    by pose proof (under_unique _ _ _ Hu something_key_under).
  - intros e v. apply well_typed_same. intros k [Hu|Hu]; apply deposit_apart; eauto with keys.
Qed.

(** *** The other pallets on the raw store

    FRAME gives every pallet a prefix of its own.  What another pallet does itself, raw
    writes apart, is to write keys under the prefix of a pallet that is neither of the
    two, or keys under no pallet's prefix such as [:code]; the events it adds are none of
    the two pallets'.  The rest are the calls it dispatches. *)
Record same_events (w v : W) : Prop := {
  same_swarm : omap swarm_event (es_log SystemEvents v) = omap swarm_event (es_log SystemEvents w);
  same_template :
    omap template_event (es_log SystemEvents v) = omap template_event (es_log SystemEvents w);
  same_recording : es_recording SystemEvents v = es_recording SystemEvents w;
}.
Inductive foreign_step (w v : W) : Prop :=
| foreign_pallet p :
    p <> Runtime.SwarmRobotPallet -> p <> Runtime.TemplatePallet ->
    (forall k, ~ under p k -> raw_get k v = raw_get k w) ->
    same_events w v -> foreign_step w v
| foreign_unprefixed :
    (forall k p, under p k -> raw_get k v = raw_get k w) ->
    same_events w v -> foreign_step w v.

Lemma foreign_step_keys w v k : foreign_step w v -> own_prefix k -> raw_get k v = raw_get k w.
Proof.
  intros [p Hs Ht Hk _ | Hk _] [Hu|Hu]; [| |by eapply Hk..]; apply Hk.
  - by apply (under_not Runtime.SwarmRobotPallet); [|apply not_eq_sym].
  - by apply (under_not Runtime.TemplatePallet); [|apply not_eq_sym].
Qed.

Lemma foreign_step_events w v : foreign_step w v -> same_events w v.
Proof. by intros []. Qed.

Class ForeignPallets `{!Runtime.OtherPallets (W := W) (OtherCall := OtherCall)} : Prop :=
  foreign_unfolds o c w :
    Runtime.raw_writes o c w = false ->
    Runtime.unfolds other_dispatch foreign_step w (Runtime.nested_calls o c w)
      (other_dispatch o c w).2.
Context `{!Runtime.OtherPallets (W := W) (OtherCall := OtherCall)} `{!ForeignPallets}.

(** Such steps show in neither pallet: the law of [Runtime.v], from the prefixes. *)
Lemma foreign_step_unseen w v : foreign_step w v -> Runtime.unseen bn_val w v.
Proof.
  intros Hf. pose proof (fun k => foreign_step_keys w v k Hf) as Hk.
  destruct (foreign_step_events w v Hf) as [Hs Ht Hrec]. split.
  - rewrite !raw_view_spec. repeat split; [intros r|..]; cbn; [|..|done|done].
    + by rewrite Hk by (left; eauto with keys).
    + unfold raw_queue, read_value. by rewrite Hk by (left; eauto with keys).
  - unfold TemplateProps.view, TemplateProps.stored, TemplateProps.log; cbn.
    unfold read_value. by rewrite Hk, Ht, Hrec by (right; eauto with keys).
Qed.

#[export] Instance raw_other_pallets : Runtime.OtherPalletsOk other_dispatch bn_val.
Proof.
  intros o c w Hraw. eapply Runtime.unfolds_weaken; [exact foreign_step_unseen|].
  by apply foreign_unfolds.
Qed.

Lemma unfolds_typed w cs w' :
  Runtime.unfolds other_dispatch foreign_step w cs w' -> well_typed w -> well_typed w'.
Proof.
  induction 1 as [w | w v cs w' Hf _ IH | y w cs w' _ IH]; [done|..]; intros Hw; apply IH.
  - revert Hw. apply well_typed_same. intros k. by apply foreign_step_keys.
  - by apply own_call_typed.
Qed.

Lemma runtime_dispatch_typed x w :
  Runtime.call_writes_raw x w = false ->
  well_typed w -> well_typed (Runtime.runtime_dispatch other_dispatch x w).2.
Proof.
  destruct x as [o [c|c|c]]; intros Hraw;
    [apply (own_call_typed (o, Runtime.OwnTemplate c)) | apply (own_call_typed (o, Runtime.OwnSwarm c)) |].
  eapply unfolds_typed. by apply foreign_unfolds.
Qed.

(** C10: Type safety of the storage: whatever the calls of a block, of these pallets and
    of all others, with the calls these dispatch in turn, a well-typed store stays
    well-typed, unless root writes raw keys. *)
Theorem storage_stays_typed xs w :
  Runtime.block_writes_raw other_dispatch xs w = false ->
  well_typed w -> well_typed (Runtime.run_block other_dispatch xs w).2.
Proof.
  revert w. induction xs as [|x xs IH]; intros w Hraw Hw; [done|].
  cbn [Runtime.block_writes_raw] in Hraw. apply orb_false_iff in Hraw as [Hx Hxs].
  unfold Runtime.run_block. rewrite run_all_cons. cbn [snd].
  apply IH; [done|]. by apply runtime_dispatch_typed.
Qed.

(** ** The size of the queue's value *)
Context `{!Codec Swarm.Command} `{!MaxEncodedLen Swarm.Command} `{!MaxEncodedLenOk Swarm.Command}.
Context `{!Compacts} `{!CompactsOk} `{!BoundedVecCodec Swarm.Command}.

Definition queue_typed (w : W) : Prop :=
  forall v, raw_get queue_key w = Some v -> exists q : bvec Swarm.Command, v = scale_encode q.

Lemma run_queue_typed cs w : queue_typed w -> queue_typed (Swarm.run cs w).2.
Proof.
  apply run_all_invariant. intros [o c] v Hv. apply Swarm.swarm_dispatch_invariant; [..|done].
  - intros r u v' Hv' bs. cbn. rewrite raw_get_put_ne; [apply Hv'|].
    intros E. by apply (queue_not_robot (blake2_128_concat (scale_encode r))).
  - intros q v' _ bs. cbn. rewrite raw_get_put, decide_True by done. intros [= <-]. eauto.
  - intros e v' Hv' bs. cbn. rewrite deposit_apart by eauto with keys. apply Hv'.
Qed.

Lemma queue_value_len w v :
  0 <= max_encoded_len Swarm.Command -> Z.of_nat (length (Swarm.queue w)) <= Swarm.MaxGlobalCommands ->
  0 <= Swarm.MaxGlobalCommands < 2 ^ 14 -> queue_typed w -> raw_get queue_key w = Some v ->
  Z.of_nat (length v) <= 2 + Swarm.MaxGlobalCommands * max_encoded_len Swarm.Command.
Proof.
  intros Hm Hq Hb Ht Hv. destruct (Ht v Hv) as [q ->].
  apply bvec_encoded_len; [done| |done]. revert Hq. unfold Swarm.queue. cbn.
  unfold read_value. rewrite Hv. cbn. by rewrite scale_decode_exact.
Qed.
End items.

(** ** In this runtime

    Locations of two [u32], tasks and robots of one, at most 64 commands. *)
Section this_runtime.
Context {W : Type} `{!RawStorage W} `{!RawStorageOk W} `{StorageHashersOk}.
Context `{FrameSystem} {OtherEvent : Type} `{!BlockNumbers}.
Context `{!BoundedVec Swarm.Command}.
Context `{!BoundedVecOk Swarm.Command Swarm.MaxGlobalCommands}.
Context `{!Codec u32} `{!CodecOk u32} `{!MaxEncodedLen u32} `{!MaxEncodedLenOk u32}.
Context (SystemEvents : EventSink W (RuntimeEvent OtherEvent)) `{!EventSinkOk SystemEvents}.
Context `{!SystemEventsApart SystemEvents} `{!IntoDispatchError Swarm.Error}.

#[export] Instance location_codec : Codec Swarm.Location := Coordinate_codec.
#[export] Instance robot_codec : Codec Swarm.RobotId := (_ : Codec u32).
#[export] Instance task_codec : Codec Swarm.TaskDefinition := (_ : Codec u32).
#[export] Instance location_codec_ok : CodecOk Swarm.Location := Coordinate_codec_ok.
#[export] Instance robot_codec_ok : CodecOk Swarm.RobotId := (_ : CodecOk u32).
#[export] Instance task_codec_ok : CodecOk Swarm.TaskDefinition := (_ : CodecOk u32).
#[export] Instance location_max_len : MaxEncodedLen Swarm.Location := Coordinate_max_len.
#[export] Instance task_max_len : MaxEncodedLen Swarm.TaskDefinition := (_ : MaxEncodedLen u32).
#[export] Instance location_len_ok : MaxEncodedLenOk Swarm.Location := Coordinate_len_ok.
#[export] Instance task_len_ok : MaxEncodedLenOk Swarm.TaskDefinition := (_ : MaxEncodedLenOk u32).

Context `{!Codec (bvec Swarm.Command)} `{!Compacts} `{!CompactsOk} `{!BoundedVecCodec Swarm.Command}.
#[local] Instance runtime_store : Swarm.SwarmStorage W := raw_swarm_storage SystemEvents.
#[local] Instance runtime_store_ok : Swarm.SwarmStorageOk W := raw_swarm_storage_ok SystemEvents.

(** C24: The whole queue is one storage value, read and written by every enqueue and
    every pull: from a store that holds no robot and no queue of the pallet, over any
    schedule, it never takes more than 578 bytes, two for the length and nine for each of
    64 commands. *)
Theorem queue_bytes_bounded cs w v :
  max_encoded_len u32 = 4 -> blank w ->
  raw_get queue_key (Swarm.run cs w).2 = Some v ->
  Z.of_nat (length v) <= 578.
Proof.
  intros Hlen Hb Hv.
  assert (Hcmd : max_encoded_len Swarm.Command = 9).
  { change (1 + Z.max (Z.max (max_encoded_len u32 + max_encoded_len u32) (max_encoded_len u32)) 0 = 9).
    by rewrite Hlen. }
  change 578 with (2 + Swarm.MaxGlobalCommands * 9). rewrite <- Hcmd.
  destruct (SwarmSpec.run_view cs w) as [_ (_ & Hq & _)].
  assert (Hbound : Z.of_nat (length (Swarm.queue (Swarm.run cs w).2)) <= Swarm.MaxGlobalCommands).
  { rewrite (Hq : Swarm.queue (Swarm.run cs w).2 = _). apply SwarmProps.spec_run_bounded.
    assert (Hp : SwarmSpec.pending (SwarmSpec.view w) = []); [|by rewrite Hp].
    etrans; [exact (proj1 (proj2 (raw_view_spec SystemEvents w)))|].
    exact (proj1 (proj2 (raw_view_blank SystemEvents w Hb))). }
  apply (queue_value_len SystemEvents _ v) in Hv; [done| |exact Hbound|done|].
  - by rewrite Hcmd.
  - refine (run_queue_typed SystemEvents cs w _). intros v' Hv'.
    by rewrite (proj2 Hb) in Hv'.
Qed.
End this_runtime.
