(* ===== verification/Chain.v ===== *)
(** * The life of the chain

    Blocks follow each other: the calls of a block run one by one, and the next
    block starts with an empty event log.  The swarm pallet's promises are proved
    here over whole lives of the chain, as a labelled transition system: the
    label of a step is the list of swarm events it records. *)
From S2P Require Import Prelude Frame.
From S2P Require Swarm SwarmSpec SwarmProps Template TemplateProps Runtime.

Local Open Scope Z_scope.

#[local] Existing Instances SwarmSpec.state_equiv SwarmSpec.state_equivalence.

Section chain.
Context {W : Type} `{FrameSystem, !StorageLayer W}.
Context `{!Swarm.Config} `{!BoundedVec Swarm.Command} `{!Swarm.SwarmStorage W}.
Context `{!BlockNumbers} `{!Template.TemplateStorage W}.
Context `{!IntoDispatchError Swarm.Error} `{!IntoDispatchError Template.Error}.
Context {OtherCall : Type} (other_dispatch : OriginFor -> OtherCall -> M W DispatchError unit).
Context `{!Runtime.OtherPallets (W := W) (OtherCall := OtherCall)}.
Implicit Types w : W.

(** The chain records the events of a block ([recording]); a new block keeps the
    pallet's storage and empties the log. *)
Definition new_block w w' : Prop :=
  (forall r, Swarm.registered w' r = Swarm.registered w r) /\
  Swarm.queue w' = Swarm.queue w /\ Swarm.log w' = [] /\ Swarm.recording w' = true.

(** A call of any pallet, with the calls nested in it, that writes no raw keys; or the
    next block. *)
Inductive chain_step : W -> list Swarm.Event -> W -> Prop :=
| step_call x w es :
    Runtime.call_writes_raw x w = false ->
    Swarm.recording w = true ->
    Swarm.log (Runtime.runtime_dispatch other_dispatch x w).2 = Swarm.log w ++ es ->
    chain_step w es (Runtime.runtime_dispatch other_dispatch x w).2
| step_block w w' : new_block w w' -> chain_step w [] w'.

Inductive chain_life : W -> list Swarm.Event -> W -> Prop :=
| life_here w : chain_life w [] w
| life_step w es w' es' w'' :
    chain_step w es w' -> chain_life w' es' w'' -> chain_life w (es ++ es') w''.

Context `{!StorageLayerOk W} `{!Swarm.SwarmStorageOk W} `{!Template.TemplateStorageOk W}.
Context `{!BoundedVecOk Swarm.Command Swarm.MaxGlobalCommands}.
Context (bn_val : BlockNumber -> Z) `{!Runtime.StorageApart bn_val}.
Context `{!Runtime.OtherPalletsOk other_dispatch bn_val}.

(** What a step of the chain owes the robots and the operators. *)
Record step_ok w (es : list Swarm.Event) w' : Prop := {
  ok_queue : Swarm.queue w ++ omap SwarmProps.enqueued es =
             omap SwarmProps.pulled es ++ Swarm.queue w';
  ok_events : Forall (SwarmProps.event_ok (Swarm.registered w')) es;
  ok_registry : forall r, Swarm.registered w r = true -> Swarm.registered w' r = true;
  ok_bound : Z.of_nat (length (Swarm.queue w)) <= Swarm.MaxGlobalCommands ->
             Z.of_nat (length (Swarm.queue w')) <= Swarm.MaxGlobalCommands;
}.

Lemma step_ok_quiet w w' :
  (forall r, Swarm.registered w' r = Swarm.registered w r) ->
  Swarm.queue w' = Swarm.queue w -> step_ok w [] w'.
Proof. intros Hr Hq. split; rewrite ?Hq, ?app_nil_r; try done. intros r. by rewrite Hr. Qed.

Lemma step_ok_trans w es w' es' w'' :
  step_ok w es w' -> step_ok w' es' w'' -> step_ok w (es ++ es') w''.
Proof.
  intros [Hq He Hr Hb] [Hq' He' Hr' Hb']. split; rewrite ?omap_app; auto.
  - by rewrite app_assoc, Hq, <- app_assoc, Hq', app_assoc.
  - apply Forall_app; split; [|done]. eapply Forall_impl; [exact He|].
    intros e. by apply SwarmProps.event_ok_mono.
Qed.

(** What moves the pallet as a run of its machine, from a state [v] with the robots and
    the queue of [w], meets what is owed, under the label of the events it adds. *)
Lemma step_ok_spec cs w v es w' :
  (forall r, Swarm.registered v r = Swarm.registered w r) -> Swarm.queue v = Swarm.queue w ->
  Swarm.recording v = true ->
  SwarmSpec.view w' ≡ (SwarmSpec.spec_run cs (SwarmSpec.view v)).2 ->
  Swarm.log w' = Swarm.log v ++ es -> step_ok w es w'.
Proof.
  intros Hreg Hqueue Hrec (Hr & Hq & Hh & _) Hlog.
  destruct (SwarmProps.spec_run_ledger cs (SwarmSpec.view v) Hrec) as [es' [Lh Lq _ _ Le]].
  rewrite Lh in Hh.
  cbn [SwarmSpec.view SwarmSpec.robots SwarmSpec.pending SwarmSpec.history] in *.
  rewrite Hlog in Hh. apply app_inv_head in Hh as ->. split.
  - rewrite <- Hqueue, Hq. exact Lq.
  - eapply Forall_impl; [exact Le|]. intros e. apply SwarmProps.event_ok_mono. intros r.
    by rewrite Hr.
  - intros r Hin. rewrite Hr. apply SwarmProps.spec_run_robots. left. cbn. by rewrite Hreg.
  - rewrite <- Hqueue, Hq. apply (SwarmProps.spec_run_bounded cs (SwarmSpec.view v)).
Qed.

(** A block from a fresh log: its label is the log it leaves. *)
Lemma block_ok cs w v w' :
  new_block w v -> SwarmSpec.view w' ≡ (SwarmSpec.spec_run cs (SwarmSpec.view v)).2 ->
  step_ok w (Swarm.log w') w'.
Proof.
  intros (Hr & Hq & Hl & Hrec) Hv. apply (step_ok_spec cs w v); [done..|]. by rewrite Hl.
Qed.

Lemma chain_step_ok w es w' : chain_step w es w' -> step_ok w es w'.
Proof.
  intros [x w0 es0 Hraw Hrec Hlog | w0 w1 (Hr & Hq & _)]; [|by apply step_ok_quiet].
  pose proof (Runtime.call_serves_swarm other_dispatch bn_val x w0 Hraw) as Hs.
  by apply (step_ok_spec (Runtime.schedule_of Runtime.swarm_call x w0).*2 w0 w0);
    [..|apply (serves_show _ _ _ _ _ _ _ Hs)|].
Qed.

Lemma chain_life_ok w es w' : chain_life w es w' -> step_ok w es w'.
Proof.
  induction 1 as [w|w es w' es' w'' Hs _ IH]; [by apply step_ok_quiet|].
  eapply step_ok_trans; [by apply chain_step_ok | done].
Qed.

(** C3: exactly-once delivery over the life of the chain.  Across any number of
    blocks and any mix of calls, calls nested in those of other pallets included, as
    long as nobody with the rights of root writes raw keys, the commands waiting at the
    start followed by those enqueued since are, in order, those delivered since followed
    by those still waiting; every delivery went to a robot that is registered; no robot
    is ever unregistered; and a queue within its bound stays within it. *)
Theorem lifetime_delivery w es w' :
  chain_life w es w' ->
  Swarm.queue w ++ omap SwarmProps.enqueued es = omap SwarmProps.pulled es ++ Swarm.queue w' /\
  Forall (SwarmProps.event_ok (Swarm.registered w')) es /\
  (forall r, Swarm.registered w r = true -> Swarm.registered w' r = true) /\
  (Z.of_nat (length (Swarm.queue w)) <= Swarm.MaxGlobalCommands ->
   Z.of_nat (length (Swarm.queue w')) <= Swarm.MaxGlobalCommands).
Proof. intros Hl. by destruct (chain_life_ok _ _ _ Hl). Qed.
End chain.
