(* ===== verification/Executive.v ===== *)
(** * Transactions

    [runtime/src/lib.rs]: the extensions every transaction of this chain carries, in
    their order, and what the executive does with a transaction: its signature is
    checked, all extensions validate it, all prepare (the nonce is used, the weight is
    booked, the fee is withdrawn), its call is dispatched ([Runtime.v]), and the
    extensions settle. *)
From S2P Require Import Prelude Frame Constants Fees Configs PalletConfigs.
From S2P Require Swarm SwarmSpec SwarmProps Template TemplateProps Runtime.

Local Open Scope Z_scope.

#[local] Existing Instances SwarmProps.dispatch_err_noop SwarmProps.dispatch_no_panic
  TemplateProps.dispatch_err_noop TemplateProps.dispatch_no_panic
  SwarmSpec.state_equiv SwarmSpec.state_equivalence Runtime.unseen_preorder.

(** ** Transaction extensions

    An extension validates a transaction (an answer is the reason it is invalid),
    prepares its dispatch, and settles afterwards with what it prepared.  A tuple does
    each in order.  [StorageWeightReclaim] does what the extension in it does and then
    gives back unused proof size ([reclaim]). *)
Class TransactionExtensions (W Tx E R : Type) : Type := {
  Ext : Type;
  Pre : Type;
  validate : Ext -> Tx -> W -> option E;
  prepare : Ext -> Tx -> M W E Pre;
  post_dispatch : Tx -> R -> Ext -> Pre -> M W E unit;
  tuple : list Ext -> Ext;
  pre_tuple : list Pre -> Pre;
  StorageWeightReclaim : Ext -> Ext;
  inner_pre : Pre -> Pre;
  reclaim : Pre -> Tx -> R -> M W E unit;
  CheckNonZeroSender : Ext;
  CheckSpecVersion : Ext;
  CheckTxVersion : Ext;
  CheckGenesis : Ext;
  CheckEra : Ext;
  CheckNonce : Ext;
  CheckWeight : Ext;
  ChargeTransactionPayment : Ext;
  CheckMetadataHash : Ext;
}.
Class TransactionExtensionsOk (W Tx E R : Type) `{TransactionExtensions W Tx E R} : Prop := {
  validate_nil t w : validate (tuple []) t w = None;
  validate_cons x xs t w :
    validate (tuple (x :: xs)) t w =
    match validate x t w with Some e => Some e | None => validate (tuple xs) t w end;
  prepare_tuple xs t w :
    prepare (tuple xs) t w = (ps ← collect (fun x => prepare x t) xs; mret (pre_tuple ps)) w;
  post_tuple xs ps t r w :
    length xs = length ps ->
    post_dispatch t r (tuple xs) (pre_tuple ps) w = each (post_dispatch t r) xs ps w;
  reclaim_validate x t w : validate (StorageWeightReclaim x) t w = validate x t w;
  reclaim_prepare x t w p w' :
    prepare (StorageWeightReclaim x) t w = (Ok p, w') -> prepare x t w = (Ok (inner_pre p), w');
  reclaim_post x p t r w :
    post_dispatch t r (StorageWeightReclaim x) p w =
    (post_dispatch t r x (inner_pre p);; reclaim p t r) w;
}.

Section extension.
Context {W Tx E R : Type} `{TransactionExtensions W Tx E R}.

(** The tuple of [TxExtension], and the extension itself. *)
Definition checks : list Ext :=
  [CheckNonZeroSender; CheckSpecVersion; CheckTxVersion; CheckGenesis; CheckEra; CheckNonce;
   CheckWeight; ChargeTransactionPayment; CheckMetadataHash].
Definition TxExtension : Ext := StorageWeightReclaim (tuple checks).

Context `{!TransactionExtensionsOk W Tx E R}.

Lemma validate_tuple xs t w i x e :
  xs !! i = Some x -> validate x t w = Some e ->
  (forall j y, (j < i)%nat -> xs !! j = Some y -> validate y t w = None) ->
  validate (tuple xs) t w = Some e.
Proof.
  revert i. induction xs as [|y xs IH]; intros i Hi He Hbefore; [done|]. rewrite validate_cons.
  destruct i as [|i]; [injection Hi as ->; by rewrite He|].
  rewrite (Hbefore 0%nat y) by (done || lia). apply (IH i); [done..|].
  intros j z Hj Hz. apply (Hbefore (S j)); [lia | done].
Qed.

Lemma validate_tuple_None xs t w :
  validate (tuple xs) t w = None <-> Forall (fun x => validate x t w = None) xs.
Proof.
  induction xs as [|x xs IH]; [by rewrite validate_nil|].
  rewrite validate_cons, Forall_cons, <- IH. destruct (validate x t w); naive_solver.
Qed.

(** The preparations of [TxExtension] are those of the nine checks; so are its
    settlements, before the reclaim. *)
Lemma prepare_TxExtension t w p w' :
  prepare TxExtension t w = (Ok p, w') ->
  exists ps, inner_pre p = pre_tuple ps /\ length checks = length ps /\
    collect (fun x => prepare x t) checks w = (Ok ps, w').
Proof.
  unfold TxExtension. intros Hp%reclaim_prepare. rewrite prepare_tuple, run_bind_Ok in Hp.
  destruct Hp as (ps & w1 & Hps & Heq). rewrite run_ret in Heq. injection Heq as Hps' ->.
  exists ps. by rewrite (collect_length _ _ _ _ _ Hps).
Qed.

Lemma post_TxExtension t r p ps w w' :
  inner_pre p = pre_tuple ps -> length checks = length ps ->
  post_dispatch t r TxExtension p w = (Ok tt, w') ->
  exists w1, each (post_dispatch t r) checks ps w = (Ok tt, w1) /\
    reclaim p t r w1 = (Ok tt, w').
Proof.
  intros Hp Hl. unfold TxExtension. rewrite reclaim_post, run_bind_Ok, Hp.
  intros ([] & w1 & Hpost & Hr). rewrite post_tuple in Hpost by done. eauto.
Qed.
End extension.

(** ** The executive

    [Executive::apply_extrinsic], over the runtime's extension, the class of its calls
    and their dispatch.  The transaction is checked (its signature) and noted; what the
    extension finds invalid is not applied; what it prepares is dispatched, whatever
    comes of it, and settled with the result; a mandatory call may not fail; and the
    result is noted. *)
Class Executives (W Tx E D X : Type) `{TransactionExtensions W Tx E (outcome D unit)} : Type := {
  tx_call : Tx -> X;
  check : Tx -> W -> option E;
  note_extrinsic : Tx -> W -> W;
  note_applied_extrinsic : Tx -> outcome D unit -> W -> W;
  BadMandatory : E;
  Executive : Ext -> (X -> bool) -> (X -> M W D unit) -> Tx -> M W E (outcome D unit);
}.
Definition is_err {D} (r : outcome D unit) : bool := match r with Err _ => true | _ => false end.
Class ExecutivesOk (W Tx E D X : Type) `{Executives W Tx E D X} : Prop :=
  executive_spec x mandatory dispatch t w :
    Executive x mandatory dispatch t w =
    (refuse (check t);;
     modify (note_extrinsic t);;
     refuse (validate x t);;
     p ← prepare x t;
     r ← reify (dispatch (tx_call t));
     post_dispatch t r x p;;
     (if mandatory (tx_call t) && is_err r then throw BadMandatory
      else modify (note_applied_extrinsic t r));;
     mret r) w.

Section executive.
Context {W : Type} `{FrameSystem, !StorageLayer W}.
Context `{!Swarm.Config} `{!BoundedVec Swarm.Command} `{!Swarm.SwarmStorage W}.
Context `{!BlockNumbers} `{!Template.TemplateStorage W}.
Context `{!IntoDispatchError Swarm.Error} `{!IntoDispatchError Template.Error}.
Context {OtherCall : Type} (other_dispatch : OriginFor -> OtherCall -> M W DispatchError unit).
Context `{!Runtime.OtherPallets (W := W) (OtherCall := OtherCall)}.
Context {Tx E : Type} `{!TransactionExtensions W Tx E (outcome DispatchError unit)}.
Abbreviation Call := (OriginFor * Runtime.RuntimeCall (OtherCall := OtherCall))%type.
Context `{!Executives W Tx E DispatchError Call}.

(** The class of a call: normal for the two pallets, whose calls declare a weight and
    nothing else. *)
Definition is_mandatory (x : Call) : bool :=
  match x.2 with Runtime.CallOther c => Runtime.other_mandatory c | _ => false end.

(** The runtime's executive. *)
Definition apply_extrinsic : Tx -> M W E (outcome DispatchError unit) :=
  Executive TxExtension is_mandatory (Runtime.runtime_dispatch other_dispatch).

(** The state a transaction's call is dispatched in. *)
Definition dispatched_in (t : Tx) (w : W) : W := (prepare TxExtension t (note_extrinsic t w)).2.

Context `{!TransactionExtensionsOk W Tx E (outcome DispatchError unit)}.
Context `{!ExecutivesOk W Tx E DispatchError Call}.
Context `{!StorageLayerOk W} `{!Swarm.SwarmStorageOk W} `{!Template.TemplateStorageOk W}.
Context `{!BoundedVecOk Swarm.Command Swarm.MaxGlobalCommands}.

(** The way of a transaction that applies. *)
Record applied (t : Tx) (w : W) (r : outcome DispatchError unit) (w' : W) : Prop := {
  applied_signed : check t w = None;
  applied_valid : Forall (fun x => validate x t (note_extrinsic t w) = None) checks;
  applied_prepared : exists p, prepare TxExtension t (note_extrinsic t w) = (Ok p, dispatched_in t w) /\
    let w2 := (Runtime.runtime_dispatch other_dispatch (tx_call t) (dispatched_in t w)).2 in
    r = (Runtime.runtime_dispatch other_dispatch (tx_call t) (dispatched_in t w)).1 /\
    r <> Panic /\
    exists w3, post_dispatch t r TxExtension p w2 = (Ok tt, w3) /\
      w' = note_applied_extrinsic t r w3;
  applied_class : is_mandatory (tx_call t) && is_err r = false;
}.

Lemma apply_extrinsic_Ok t w r w' :
  apply_extrinsic t w = (Ok r, w') <-> applied t w r w'.
Proof.
  unfold apply_extrinsic. rewrite executive_spec. split.
  - intros (u & w0 & [Hc ->]%run_refuse_Ok & Ha)%run_bind_Ok.
    apply run_bind_Ok in Ha as (u1 & w1 & Hn & Ha). rewrite run_modify in Hn. injection Hn as _ <-.
    apply run_bind_Ok in Ha as (u2 & w2 & [Hv ->]%run_refuse_Ok & Ha).
    apply run_bind_Ok in Ha as (p & w3 & Hp & Ha).
    apply run_bind_Ok in Ha as (r0 & w4 & [Hd Hr]%run_reify_Ok & Ha).
    apply run_bind_Ok in Ha as ([] & w5 & Hpost & Ha).
    apply run_bind_Ok in Ha as (u4 & w6 & Hm & Heq). rewrite run_ret in Heq.
    injection Heq as -> ->.
    destruct (is_mandatory (tx_call t) && is_err r) eqn:Hb; [done|].
    rewrite run_modify in Hm. injection Hm as _ <-.
    assert (Hw3 : dispatched_in t w = w3) by (unfold dispatched_in; by rewrite Hp).
    unfold TxExtension in Hv. rewrite reclaim_validate, validate_tuple_None in Hv.
    split; [done..| |done]. exists p. rewrite Hw3, Hd. eauto 10.
  - intros [Hc Hv (p & Hp & -> & Hr & w3 & Hpost & ->) Hb].
    apply run_bind_Ok. exists tt, w. split; [by apply run_refuse_Ok|].
    apply run_bind_Ok. exists tt, (note_extrinsic t w). split; [done|].
    apply run_bind_Ok. exists tt, (note_extrinsic t w). split.
    { apply run_refuse_Ok. unfold TxExtension. by rewrite reclaim_validate, validate_tuple_None. }
    apply run_bind_Ok. exists p, (dispatched_in t w). split; [done|].
    apply run_bind_Ok. eexists _, _. split.
    { apply run_reify_Ok. split; [apply surjective_pairing|done]. }
    apply run_bind_Ok. exists tt, w3. split; [done|].
    apply run_bind_Ok. rewrite Hb. by eexists _, _.
Qed.

(** A transaction whose signature is wrong, or that a check finds invalid, is refused and
    told why: the reason is that of the first of the nine checks, in the order of the
    runtime, that refuses it, so a wrong version is reported before a wrong nonce and a
    wrong nonce before a missing fee. *)
Theorem invalid_transaction_refused t w i x e :
  checks !! i = Some x -> validate x t (note_extrinsic t w) = Some e ->
  (forall j y, (j < i)%nat -> checks !! j = Some y -> validate y t (note_extrinsic t w) = None) ->
  (apply_extrinsic t w).1 = Err (default e (check t w)) /\
  checks !! 1%nat = Some CheckSpecVersion /\ checks !! 5%nat = Some CheckNonce /\
  checks !! 7%nat = Some ChargeTransactionPayment.
Proof.
  intros Hi He Hbefore. split; [|done]. unfold apply_extrinsic. rewrite executive_spec, run_bind.
  unfold refuse at 1. destruct (check t w) as [e'|]; [done|]. cbn [default].
  rewrite run_bind, run_modify, run_bind. unfold refuse.
  unfold TxExtension at 1. rewrite reclaim_validate.
  by rewrite (validate_tuple checks t (note_extrinsic t w) i x e).
Qed.

(** ** Around the dispatch *)
Record ExtensionsKeep (R : W -> W -> Prop) : Prop := {
  note_keeps t w : R w (note_extrinsic t w);
  prepare_keeps x t w : x ∈ checks -> R w (prepare x t w).2;
  post_keeps p t r w : R w (post_dispatch t r TxExtension p w).2;
  applied_keeps t r w : R w (note_applied_extrinsic t r w);
}.

(** What everything around a dispatch keeps, holds up to it and from it on. *)
Lemma applied_around (R : W -> W -> Prop) `{!PreOrder R} t w r w' :
  ExtensionsKeep R -> applied t w r w' ->
  R w (dispatched_in t w) /\
  R (Runtime.runtime_dispatch other_dispatch (tx_call t) (dispatched_in t w)).2 w'.
Proof.
  intros HR [_ _ (p & Hp & _ & _ & w3 & Hpost & ->) _]. split.
  - apply prepare_TxExtension in Hp as (ps & _ & _ & Hps).
    transitivity (note_extrinsic t w); [apply (note_keeps R HR)|].
    eapply (collect_keeps R); [|done]. intros x v. apply (prepare_keeps R HR).
  - transitivity w3; [|apply (applied_keeps R HR)].
    pose proof (post_keeps R HR p t r
      (Runtime.runtime_dispatch other_dispatch (tx_call t) (dispatched_in t w)).2) as H'.
    by rewrite Hpost in H'.
Qed.

(** A call of the two pallets that fails has changed nothing. *)
Lemma own_failure x w e :
  (forall c, x.2 <> Runtime.CallOther c) ->
  (Runtime.runtime_dispatch other_dispatch x w).1 = Err e ->
  (Runtime.runtime_dispatch other_dispatch x w).2 = w.
Proof.
  destruct x as [o [c|c|c]]; intros Hown; [..|by destruct (Hown c)].
  - rewrite (Runtime.runtime_dispatch_template other_dispatch o c w).
    destruct (Template.dispatch o c w) as [r w2] eqn:Hd. cbn. intros ->.
    exact (@err_noop _ _ _ (Template.dispatch o c) _ w e w2 Hd).
  - rewrite (Runtime.runtime_dispatch_swarm_call other_dispatch o c w).
    destruct (Swarm.dispatch o c w) as [r w2] eqn:Hd. cbn. intros ->.
    exact (@err_noop _ _ _ (Swarm.dispatch o c) _ w e w2 Hd).
Qed.
End executive.

(** ** Who pays

    The accounts of [System] and [Balances]: who signed a transaction, the nonce and the
    free balance of an account, the length of a transaction and the fee withdrawn for it
    by a preparation. *)
Class Accounts (W Tx E R : Type) `{TransactionExtensions W Tx E R} : Type := {
  Payer : Type;
  signer : Tx -> option Payer;
  nonce : Payer -> W -> Z;
  free : Payer -> W -> Z;
  tx_len : Tx -> Z;
  withdrawn : Pre -> Z;
}.

Section paying.
Context {W : Type} `{FrameSystem, !StorageLayer W}.
Context `{!Swarm.Config} `{!BoundedVec Swarm.Command} `{!Swarm.SwarmStorage W}.
Context `{!BlockNumbers} `{!Template.TemplateStorage W}.
Context `{!IntoDispatchError Swarm.Error} `{!IntoDispatchError Template.Error}.
Context {OtherCall : Type} (other_dispatch : OriginFor -> OtherCall -> M W DispatchError unit).
Context `{!Runtime.OtherPallets (W := W) (OtherCall := OtherCall)}.
Context {Tx E : Type} `{!TransactionExtensions W Tx E (outcome DispatchError unit)}.
Abbreviation Call := (OriginFor * Runtime.RuntimeCall (OtherCall := OtherCall))%type.
Abbreviation Result := (outcome DispatchError unit).
Context `{!Executives W Tx E DispatchError Call} `{!Accounts W Tx E Result}.
Context `{!Weights, !Perbills, !FeePolynomials, !LengthFees}.

(** The account looks the same. *)
Definition same_account (a : Payer) (w v : W) : Prop := nonce a v = nonce a w /\ free a v = free a w.

(** The checks that touch no account. *)
Definition frugal : list Ext :=
  [CheckNonZeroSender; CheckSpecVersion; CheckTxVersion; CheckGenesis; CheckEra; CheckWeight;
   CheckMetadataHash].

(** The least a transaction pays: the fees of the base weight of an extrinsic and of its
    length, as the payment pallet is configured. *)
Definition least_fee (t : Tx) : Z :=
  weight_to_fee_of transaction_payment_config ExtrinsicBaseWeight +
  length_to_fee_of transaction_payment_config (tx_len t).

(** [CheckNonce] counts the signer's nonce up when it prepares.
    [ChargeTransactionPayment] withdraws a fee when it prepares; when it settles it gives
    back what was withdrawn in excess, but of a call that does not ask to be free, as no
    call of the two pallets does, never the least fee. *)
Class AccountsOk : Prop := {
  note_same t a w : same_account a w (note_extrinsic t w);
  noted_same t r a w : same_account a w (note_applied_extrinsic t r w);
  frugal_prepare x t a w p w' :
    x ∈ frugal -> prepare x t w = (Ok p, w') -> same_account a w w';
  frugal_post x p t r a w w' :
    x ∈ CheckNonce :: frugal -> post_dispatch t r x p w = (Ok tt, w') -> same_account a w w';
  reclaim_same p t r a w w' : reclaim p t r w = (Ok tt, w') -> same_account a w w';
  nonce_used t a w p w' :
    signer t = Some a -> prepare CheckNonce t w = (Ok p, w') ->
    nonce a w' = nonce a w + 1 /\ free a w' = free a w;
  fee_withdrawn t a w p w' :
    signer t = Some a -> prepare ChargeTransactionPayment t w = (Ok p, w') ->
    nonce a w' = nonce a w /\ free a w' = free a w - withdrawn p;
  fee_settled t a r p w w' :
    signer t = Some a -> (forall c, (tx_call t).2 <> Runtime.CallOther c) ->
    post_dispatch t r ChargeTransactionPayment p w = (Ok tt, w') ->
    nonce a w' = nonce a w /\ free a w' <= free a w + (withdrawn p - least_fee t);
}.
Context `{!AccountsOk}.

#[local] Instance same_account_preorder a : PreOrder (same_account a).
Proof. split; [by split|]. intros u v w [] []. split; congruence. Qed.

Lemma frugal_collect xs t a w ps w' :
  (forall x, x ∈ xs -> x ∈ frugal) ->
  collect (fun x => prepare x t) xs w = (Ok ps, w') -> same_account a w w'.
Proof.
  revert w ps. induction xs as [|x xs IH]; intros w ps Hx; [by intros [= <- <-]|].
  intros (p & ps' & w1 & -> & Hp & Hc)%collect_cons. transitivity w1.
  - eapply frugal_prepare; [|done]. apply Hx. by left.
  - eapply IH; [|done]. intros y Hy. apply Hx. by right.
Qed.

Lemma frugal_each xs ps t r a w w' :
  (forall x, x ∈ xs -> x ∈ CheckNonce :: frugal) ->
  each (post_dispatch t r) xs ps w = (Ok tt, w') -> same_account a w w'.
Proof.
  revert w ps. induction xs as [|x xs IH]; intros w [|p ps] Hx; cbn [each];
    try (by intros [= <-]).
  intros ([] & w1 & Hp & Hc)%run_bind_Ok. transitivity w1.
  - eapply frugal_post; [|done]. apply Hx. by left.
  - eapply IH; [|done]. intros y Hy. apply Hx. by right.
Qed.

(** The nine checks, around the two that matter. *)
Definition before_nonce : list Ext :=
  [CheckNonZeroSender; CheckSpecVersion; CheckTxVersion; CheckGenesis; CheckEra].

Lemma collect_one (x : Ext) t w ps w' :
  collect (fun x => prepare x t) [x] w = (Ok ps, w') ->
  exists p, ps = [p] /\ prepare x t w = (Ok p, w').
Proof.
  intros (p & ps' & w1 & -> & Hp & Hc)%collect_cons. injection Hc as <- <-. eauto.
Qed.

Lemma prepared_account t a w ps w' :
  signer t = Some a -> collect (fun x => prepare x t) checks w = (Ok ps, w') ->
  exists ps1 p ps2, ps = ps1 ++ [p] ++ ps2 /\ length ps1 = 7%nat /\
    nonce a w' = nonce a w + 1 /\ free a w' = free a w - withdrawn p.
Proof.
  intros Ha. change checks with
    ((before_nonce ++ [CheckNonce] ++ [CheckWeight]) ++ [ChargeTransactionPayment] ++ [CheckMetadataHash]).
  intros (ps1 & qs & w3 & -> & Hps1 & Hqs)%collect_app.
  apply collect_app in Hqs as (qs1 & qs2 & w4 & -> & (p & -> & Hfee)%collect_one & Hlast).
  exists ps1, p, qs2. split; [done|]. split; [by rewrite (collect_length _ _ _ _ _ Hps1)|].
  apply collect_app in Hps1 as (rs1 & rs2 & w1 & -> & Hfirst & Hrs).
  apply collect_app in Hrs as (rs3 & rs4 & w2 & -> & (n & -> & Hnonce)%collect_one & Hweight).
  apply (frugal_collect _ _ a) in Hfirst as [Hn1 Hf1]; [|unfold frugal, before_nonce; set_solver].
  apply (nonce_used t a) in Hnonce as [Hn2 Hf2]; [|done].
  apply (frugal_collect _ _ a) in Hweight as [Hn3 Hf3]; [|unfold frugal; set_solver].
  apply (fee_withdrawn t a) in Hfee as [Hn4 Hf4]; [|done].
  apply (frugal_collect _ _ a) in Hlast as [Hn5 Hf5]; [|unfold frugal; set_solver].
  lia.
Qed.

Lemma settled_account t a r ps1 p ps2 w w' :
  signer t = Some a -> (forall c, (tx_call t).2 <> Runtime.CallOther c) -> length ps1 = 7%nat ->
  each (post_dispatch t r) checks (ps1 ++ [p] ++ ps2) w = (Ok tt, w') ->
  nonce a w' = nonce a w /\ free a w' <= free a w + (withdrawn p - least_fee t).
Proof.
  intros Ha Hown Hl. change checks with
    ((before_nonce ++ [CheckNonce] ++ [CheckWeight]) ++ [ChargeTransactionPayment] ++ [CheckMetadataHash]).
  rewrite each_app by done. intros (w1 & H1' & Hrest).
  rewrite each_app in Hrest by done. destruct Hrest as (w2 & Hfee & H3').
  apply (frugal_each _ _ _ _ a) in H1' as [Hn1 Hf1]; [|unfold frugal, before_nonce; set_solver].
  apply (frugal_each _ _ _ _ a) in H3' as [Hn3 Hf3]; [|unfold frugal; set_solver].
  cbn [each] in Hfee. apply run_bind_Ok in Hfee as ([] & w0 & Hfee & Heq).
  rewrite run_ret in Heq. injection Heq as ->.
  apply (fee_settled t a) in Hfee as [Hn2 Hf2]; [|done..]. lia.
Qed.

Context `{!TransactionExtensionsOk W Tx E Result} `{!ExecutivesOk W Tx E DispatchError Call}.
Context `{!StorageLayerOk W} `{!Swarm.SwarmStorageOk W} `{!Template.TemplateStorageOk W}.
Context `{!BoundedVecOk Swarm.Command Swarm.MaxGlobalCommands}.
Context (bn_val : BlockNumber -> Z).
Context `{!WeightsOk, !PerbillsOk, !FeePolynomialsOk, !LengthFeesOk}.

Lemma least_fee_exact t :
  0 <= tx_len t < 2 ^ 32 -> least_fee t = MICRO_UNIT + 10 * MICRO_UNIT * tx_len t.
Proof.
  intros Hl. unfold least_fee. rewrite length_fee_exact by done.
  cbn [weight_to_fee_of transaction_payment_config].
  pose proof (weight_to_fee_near ExtrinsicBaseWeight) as Hb. rewrite base_weight_time in Hb.
  specialize (Hb ltac:(solve_fits)). unfold MICRO_UNIT. lia.
Qed.

(** C19: A transaction whose call fails still pays.  When a signed transaction carries a
    call of the swarm or the template pallet and the call fails, then: if it passes the
    nine checks and they prepare and settle, it is applied, with the failure as its
    result and no error of the block; and whenever it is applied, its signer's nonce is
    one higher, its signer has at least one MICRO_UNIT and ten more per byte of the
    transaction less, and neither of the two pallets shows any change. *)
Theorem failed_call_still_pays t a w e :
  ExtensionsKeep (Runtime.unseen bn_val) ->
  signer t = Some a -> 0 <= tx_len t < 2 ^ 32 ->
  (forall c, (tx_call t).2 <> Runtime.CallOther c) ->
  (forall p w1, check t w = None ->
     Forall (fun x => validate x t (note_extrinsic t w) = None) checks ->
     prepare TxExtension t (note_extrinsic t w) = (Ok p, w1) ->
     (Runtime.runtime_dispatch other_dispatch (tx_call t) w1).1 = Err e ->
     forall w2, post_dispatch t (Err e) TxExtension p w1 = (Ok tt, w2) ->
     exists w', apply_extrinsic other_dispatch t w = (Ok (Err e), w')) /\
  (forall w', apply_extrinsic other_dispatch t w = (Ok (Err e), w') ->
     nonce a w' = nonce a w + 1 /\
     free a w' <= free a w - (MICRO_UNIT + 10 * MICRO_UNIT * tx_len t) /\
     Runtime.unseen bn_val w w').
Proof.
  intros Hkeep Ha Hl Hown. split.
  - intros p w1 Hc Hv Hp Hd w2 Hpost. exists (note_applied_extrinsic t (Err e) w2).
    apply (apply_extrinsic_Ok other_dispatch t w).
    assert (Hw1 : dispatched_in t w = w1) by (unfold dispatched_in; by rewrite Hp).
    split; [exact Hc|exact Hv| |].
    + exists p. rewrite Hw1. split; [done|]. rewrite Hd, (own_failure other_dispatch _ _ e) by done.
      split; [done|]. split; [done|]. eauto.
    + unfold is_mandatory. destruct (tx_call t) as [o [c|c|c]]; [done..|by destruct (Hown c)].
  - intros w' Hap. apply (apply_extrinsic_Ok other_dispatch t w) in Hap.
    destruct (applied_around other_dispatch (Runtime.unseen bn_val) t w (Err e) w' Hkeep Hap)
      as [Hin Hout].
    destruct Hap as [_ _ (p & Hp & Hd & _ & w3 & Hpost & ->) _].
    rewrite (own_failure other_dispatch _ _ e) in Hpost, Hout by done.
    apply prepare_TxExtension in Hp as (ps & Hps & Hlen & Hcoll).
    destruct (prepared_account t a _ _ _ Ha Hcoll) as (ps1 & q & ps2 & -> & Hl1 & Hn & Hf).
    apply (post_TxExtension t (Err e) p _ _ _ Hps Hlen) in Hpost as (w4 & Heach & Hrec).
    apply (settled_account t a) in Heach as [Hn' Hf']; [|done..].
    destruct (reclaim_same p t (Err e) a _ _ Hrec) as [Hn4 Hf4].
    destruct (note_same t a w) as [Hn0 Hf0], (noted_same t (Err e) a w3) as [Hn5 Hf5].
    rewrite (least_fee_exact t Hl) in Hf'. split; [lia|]. split; [lia|].
    by transitivity (dispatched_in t w).
Qed.
End paying.
