(* ===== verification/Blocks.v ===== *)
(** * Blocks of transactions

    [runtime/src/lib.rs]: a block is executed by the [Executive] of this runtime, and
    the relay chain validates it by running the same executive behind the check of
    the author's seal ([register_validate_block!]).  The swarm pallet's promises are
    proved here for whole blocks of transactions, extensions and hooks included, and
    for what the relay chain accepts. *)
From S2P Require Import Prelude Frame.
From S2P Require Swarm SwarmSpec SwarmProps Template TemplateProps Runtime Chain.
From S2P Require Import Executive.

Local Open Scope Z_scope.

#[local] Existing Instances SwarmSpec.state_equiv SwarmSpec.state_equivalence Runtime.unseen_preorder.

(** ** Executing a block

    [Executive::execute_block]: the block is initialized (the hooks of all pallets
    run), every transaction is applied, and the block is finalized and compared
    with its header.  A transaction that cannot be applied panics, and so does a
    header that does not fit.  The inherents of a block are transactions without a
    signer; the extensions check them in their own way ([validate], [prepare]). *)
Section each.
Context {W Tx E R : Type} (apply : Tx -> M W E R).

Fixpoint apply_each (ts : list Tx) : M W E (list R) := fun w =>
  match ts with
  | [] => (Ok [], w)
  | t :: ts =>
      match apply t w with
      | (Ok r, w1) =>
          match apply_each ts w1 with
          | (Ok rs, w2) => (Ok (r :: rs), w2)
          | (_, w2) => (Panic, w2)
          end
      | (_, w1) => (Panic, w1)
      end
  end.

Lemma apply_each_cons t ts w rs w' :
  apply_each (t :: ts) w = (Ok rs, w') <->
  exists r rs' w1, rs = r :: rs' /\ apply t w = (Ok r, w1) /\ apply_each ts w1 = (Ok rs', w').
Proof.
  cbn [apply_each]. split.
  - destruct (apply t w) as [[r|e|] w1]; [|done..].
    destruct (apply_each ts w1) as [[rs'|e|] w2] eqn:Hts; [|done..].
    intros [= <- <-]. eauto 10.
  - intros (r & rs' & w1 & -> & -> & ->). done.
Qed.
End each.

Class BlockExecutives (W Tx E R : Type) : Type := {
  Block : Type;
  Header : Type;
  header : Block -> Header;
  extrinsics : Block -> list Tx;
  initialize_block : Block -> M W E unit;
  finish_block : Block -> M W E unit;
  execute_block : (Tx -> M W E R) -> Block -> M W E unit;
}.
Class BlockExecutivesOk (W Tx E R : Type) `{BlockExecutives W Tx E R} : Prop :=
  execute_block_spec apply b w :
    execute_block apply b w =
    (initialize_block b;; apply_each apply (extrinsics b);; finish_block b) w.

(** ** Hooks

    The hooks at the start of a block empty the event log and set the block's number;
    hooks may dispatch calls, as when a message from another chain carries one: here
    are the calls of the two pallets ([Y]) that remain of them, and whether they come to
    write raw keys. *)
Class BlockHooks (W Hdr Y : Type) : Type := {
  opening_calls : Hdr -> W -> list Y;
  opening_raw : Hdr -> W -> bool;
  closing_calls : W -> list Y;
  closing_raw : W -> bool;
}.

(** ** Validating a block

    [BlockExecutor] takes the one seal off the block's header and checks that one of
    the authorities of the parent state made it, then executes the block; no seal,
    several, or a wrong one panic.  [register_validate_block!] makes the function
    the relay chain calls with the blocks of a candidate and the part of the parent
    state they touch; it answers only if every block in turn executes. *)
Class ParachainBlocks (W Tx E R : Type) `{BlockExecutives W Tx E R} : Type := {
  Seal : Type;
  remove_seal : Block -> option (Seal * Block);
  seal_verifies : Seal -> Block -> W -> bool;
  BlockExecutor : (Block -> M W E unit) -> Block -> M W E unit;
  ValidationParams : Type;
  ValidationResult : Type;
  params_blocks : ValidationParams -> list Block;
  params_state : ValidationParams -> W;
  register_validate_block :
    (Block -> M W E unit) -> ValidationParams -> option ValidationResult;
}.
Class ParachainBlocksOk (W Tx E R : Type) `{ParachainBlocks W Tx E R} : Prop := {
  remove_seal_extrinsics b s b' : remove_seal b = Some (s, b') -> extrinsics b' = extrinsics b;
  block_executor_spec exec b w :
    BlockExecutor exec b w =
    match remove_seal b with
    | Some (s, b') => if seal_verifies s b' w then exec b' w else (Panic, w)
    | None => (Panic, w)
    end;
  validate_spec exec p v :
    register_validate_block exec p = Some v ->
    exists us w', apply_each exec (params_blocks p) (params_state p) = (Ok us, w');
}.

(** ** The runtime's blocks *)
Section blocks.
Context {W : Type} `{FrameSystem, !StorageLayer W}.
Context `{!Swarm.Config} `{!BoundedVec Swarm.Command} `{!Swarm.SwarmStorage W}.
Context `{!BlockNumbers} `{!Template.TemplateStorage W}.
Context `{!IntoDispatchError Swarm.Error} `{!IntoDispatchError Template.Error}.
Context {OtherCall : Type} (other_dispatch : OriginFor -> OtherCall -> M W DispatchError unit).
Context `{!Runtime.OtherPallets (W := W) (OtherCall := OtherCall)}.
Context {Tx E : Type} `{!TransactionExtensions W Tx E (outcome DispatchError unit)}.
Abbreviation Call := (OriginFor * Runtime.RuntimeCall (OtherCall := OtherCall))%type.
Abbreviation Result := (outcome DispatchError unit).
Context `{!Executives W Tx E DispatchError Call}.
Context `{!BlockExecutives W Tx E Result} `{!ParachainBlocks W Tx E Result}.

(** [Executive], as the APIs and the block validation use it. *)
Definition Executive_execute_block : Block -> M W E unit :=
  execute_block (apply_extrinsic other_dispatch).

(** [register_validate_block! { Runtime, BlockExecutor<Runtime, Executive> }] *)
Definition validate_block : ValidationParams -> option ValidationResult :=
  register_validate_block (BlockExecutor Executive_execute_block).

Context `{!BlockHooks W Header (OriginFor * Runtime.OwnCall)}.

(** The calls of the swarm pallet that transactions amount to, each in the state it comes
    to; and whether transactions, a block, or sealed blocks come to write raw keys. *)
Fixpoint tx_schedule (ts : list Tx) (w : W) : list (bool * (OriginFor * Swarm.Call)) :=
  match ts with
  | [] => []
  | t :: ts =>
      Runtime.schedule_of Runtime.swarm_call (tx_call t) (dispatched_in t w) ++
      tx_schedule ts (apply_extrinsic other_dispatch t w).2
  end.
Fixpoint txs_raw (ts : list Tx) (w : W) : bool :=
  match ts with
  | [] => false
  | t :: ts =>
      Runtime.call_writes_raw (tx_call t) (dispatched_in t w) ||
      txs_raw ts (apply_extrinsic other_dispatch t w).2
  end.
Definition block_raw (b : Block) (w : W) : bool :=
  let w1 := (initialize_block b w).2 in
  let w2 := (apply_each (apply_extrinsic other_dispatch) (extrinsics b) w1).2 in
  opening_raw (header b) w || txs_raw (extrinsics b) w1 || closing_raw w2.
Definition sealed_raw (b : Block) (w : W) : bool :=
  match remove_seal b with Some (_, b) => block_raw b w | None => false end.
Fixpoint blocks_raw (bs : list Block) (w : W) : bool :=
  match bs with
  | [] => false
  | b :: bs => sealed_raw b w || blocks_raw bs (BlockExecutor Executive_execute_block b w).2
  end.

Context `{!TransactionExtensionsOk W Tx E Result} `{!ExecutivesOk W Tx E DispatchError Call}.
Context `{!BlockExecutivesOk W Tx E Result} `{!ParachainBlocksOk W Tx E Result}.
Context `{!StorageLayerOk W} `{!Swarm.SwarmStorageOk W} `{!Template.TemplateStorageOk W}.
Context `{!BoundedVecOk Swarm.Command Swarm.MaxGlobalCommands}.
Context (bn_val : BlockNumber -> Z) `{!Runtime.StorageApart bn_val}.
Context `{!Runtime.OtherPalletsOk other_dispatch bn_val}.
Abbreviation unseen := (Runtime.unseen bn_val).
Abbreviation unfolds := (Runtime.unfolds other_dispatch unseen).
Abbreviation swarm_serves :=
  (serves (fun y : OriginFor * Swarm.Call => SwarmSpec.spec_dispatch y.1 y.2) SwarmSpec.view (≡)).

(** The extensions read and write the storage of the system and of the payment pallets;
    hooks that write no raw keys leave the two pallets alone but for the calls they
    dispatch. *)
Class HooksOk : Prop := {
  extensions_unseen : ExtensionsKeep unseen;
  initialize_calls b w w' :
    initialize_block b w = (Ok tt, w') -> opening_raw (header b) w = false ->
    exists v, Chain.new_block w v /\ unfolds v (opening_calls (header b) w) w';
  finish_calls b w w' :
    finish_block b w = (Ok tt, w') -> closing_raw w = false -> unfolds w (closing_calls w) w';
}.
Context `{!HooksOk}.

(** *** Transactions *)
Lemma swarm_proper (y : OriginFor * Swarm.Call) s t :
  s ≡ t -> (SwarmSpec.spec_dispatch y.1 y.2 s).1 = (SwarmSpec.spec_dispatch y.1 y.2 t).1 /\
           (SwarmSpec.spec_dispatch y.1 y.2 s).2 ≡ (SwarmSpec.spec_dispatch y.1 y.2 t).2.
Proof. intros Hst. apply (SwarmSpec.spec_dispatch_proper y.1 y.2 _ _ Hst). Qed.

Lemma tx_serves t w r w' :
  apply_extrinsic other_dispatch t w = (Ok r, w') ->
  Runtime.call_writes_raw (tx_call t) (dispatched_in t w) = false ->
  swarm_serves w (Runtime.schedule_of Runtime.swarm_call (tx_call t) (dispatched_in t w))
    (if Runtime.swarm_call (tx_call t) is Some _ then [r] else []) w'.
Proof.
  intros Ha Hraw. apply (apply_extrinsic_Ok other_dispatch t w) in Ha.
  destruct (applied_around other_dispatch unseen t w r w' extensions_unseen Ha) as [[Hin _] [Hout _]].
  destruct Ha as [_ _ (p & _ & -> & _) _].
  apply (serves_show_proper _ _ _ swarm_proper w (dispatched_in t w) _ _ w'
    (Runtime.runtime_dispatch other_dispatch (tx_call t) (dispatched_in t w)).2);
    [by symmetry|done|].
  by apply (Runtime.call_serves_swarm other_dispatch bn_val).
Qed.

Lemma txs_serve ts w rs w' :
  apply_each (apply_extrinsic other_dispatch) ts w = (Ok rs, w') -> txs_raw ts w = false ->
  swarm_serves w (tx_schedule ts w) (Runtime.answers Runtime.swarm_call (tx_call <$> ts) rs) w'.
Proof.
  revert w rs. induction ts as [|t ts IH]; intros w rs Hts Hraw.
  { injection Hts as <- <-. by apply serves_quiet. }
  apply apply_each_cons in Hts as (r & rs' & w1 & -> & Ht & Hts).
  cbn [txs_raw] in Hraw. apply orb_false_iff in Hraw as [Hraw Hraws].
  cbn [tx_schedule]. rewrite Ht in *. cbn [snd] in *.
  rewrite fmap_cons, Runtime.answers_cons.
  apply (serves_app _ _ _ swarm_proper w _ _ w1); [by apply tx_serves | by apply IH].
Qed.

Lemma tx_schedule_direct ts w :
  direct_calls (tx_schedule ts w) = omap Runtime.swarm_call (tx_call <$> ts).
Proof.
  revert w. induction ts as [|t ts IH]; intros w; [done|].
  cbn [tx_schedule]. unfold direct_calls. rewrite omap_app.
  pose proof (Runtime.schedule_of_swarm other_dispatch bn_val (tx_call t) (dispatched_in t w)) as Hx.
  unfold direct_calls in *. rewrite Hx, IH, fmap_cons.
  change (omap Runtime.swarm_call (tx_call t :: (tx_call <$> ts))) with
    (match Runtime.swarm_call (tx_call t) with
     | Some y => y :: omap Runtime.swarm_call (tx_call <$> ts)
     | None => omap Runtime.swarm_call (tx_call <$> ts) end).
  by destruct (Runtime.swarm_call (tx_call t)).
Qed.

(** C5: Blocks of transactions refine the abstract machine.  When every transaction of a
    block applies and none comes to write raw keys, the pallet goes through a schedule
    that is the swarm calls the transactions carry, in the order of the block, with
    those nested in other transactions (of [Sudo], say) in between; the answers the
    transactions get from the swarm pallet and what the pallet shows afterwards are those
    of the abstract machine on this schedule, whatever the extensions do before and
    after each call.  Without nested calls that is the machine run on the swarm calls of
    the transactions alone. *)
Theorem transactions_refine ts w rs w' :
  apply_each (apply_extrinsic other_dispatch) ts w = (Ok rs, w') -> txs_raw ts w = false ->
  let ys := tx_schedule ts w in
  let own := omap Runtime.swarm_call (tx_call <$> ts) in
  direct_calls ys = own /\
  Runtime.answers Runtime.swarm_call (tx_call <$> ts) rs =
    direct_answers ys (SwarmSpec.spec_run ys.*2 (SwarmSpec.view w)).1 /\
  SwarmSpec.view w' ≡ (SwarmSpec.spec_run ys.*2 (SwarmSpec.view w)).2 /\
  (Forall (fun y => y.1 = true) ys ->
   Runtime.answers Runtime.swarm_call (tx_call <$> ts) rs =
     (SwarmSpec.spec_run own (SwarmSpec.view w)).1 /\
   SwarmSpec.view w' ≡ (SwarmSpec.spec_run own (SwarmSpec.view w)).2).
Proof.
  intros Hts Hraw ys own. pose proof (txs_serve ts w rs w' Hts Hraw) as Hs.
  pose proof (tx_schedule_direct ts w) as Hd.
  split; [exact Hd|]. split; [symmetry; apply (serves_answers _ _ _ _ _ _ _ Hs)|].
  split; [apply (serves_show _ _ _ _ _ _ _ Hs)|].
  intros Hall. subst own. rewrite <- Hd. fold ys. rewrite <- (direct_calls_all ys Hall).
  exact (serves_all_direct _ _ _ _ _ _ _ Hall Hs).
Qed.

(** *** Books *)

(** A block as the abstract machine sees it: from a fresh log, a run of the calls of the
    opening hooks, of the transactions, and of the closing hooks. *)
Lemma executed_block_spec b w w' :
  Executive_execute_block b w = (Ok tt, w') -> block_raw b w = false ->
  exists v cs, Chain.new_block w v /\
    SwarmSpec.view w' ≡ (SwarmSpec.spec_run cs (SwarmSpec.view v)).2.
Proof.
  unfold Executive_execute_block, block_raw. rewrite execute_block_spec.
  intros ([] & w1 & Hi & Hb)%run_bind_Ok Hraw.
  apply run_bind_Ok in Hb as (rs & w2 & Ht & Hf). rewrite Hi in Hraw. cbn [snd] in Hraw.
  rewrite Ht in Hraw. apply orb_false_iff in Hraw as [[Hr1 Hr2]%orb_false_iff Hr3].
  apply initialize_calls in Hi as (v & Hnew & Hv); [|done].
  apply finish_calls in Hf; [|done]. apply txs_serve in Ht; [|done].
  apply (Runtime.unfolds_serves_swarm other_dispatch bn_val) in Hv, Hf.
  pose proof (serves_app _ _ _ swarm_proper _ _ _ _ _ _ _ Hv
    (serves_app _ _ _ swarm_proper _ _ _ _ _ _ _ Ht Hf)) as Hs.
  eexists v, _. split; [done|]. apply (serves_show _ _ _ _ _ _ _ Hs).
Qed.

(** A block that executes keeps the books, hooks and transactions together, under the
    label of the events it leaves in the log. *)
Lemma executed_block_ok b w w' :
  Executive_execute_block b w = (Ok tt, w') -> block_raw b w = false ->
  Chain.step_ok w (Swarm.log w') w'.
Proof.
  intros Hb Hraw. destruct (executed_block_spec b w w' Hb Hraw) as (v & cs & Hnew & Hv).
  by apply (Chain.block_ok cs w v).
Qed.

(** What a transaction was found to be when its turn came. *)
Definition valid_in (t : Tx) (w : W) : Prop :=
  check t w = None /\ Forall (fun x => validate x t (note_extrinsic t w) = None) checks.

Lemma executed_block_valid b w w' t :
  Executive_execute_block b w = (Ok tt, w') -> t ∈ extrinsics b -> exists v, valid_in t v.
Proof.
  unfold Executive_execute_block. rewrite execute_block_spec.
  intros (u & w1 & _ & Hb)%run_bind_Ok. apply run_bind_Ok in Hb as (rs & w2 & Ht & _).
  clear w. revert w1 rs Ht. induction (extrinsics b) as [|t' ts IH]; intros w1 rs Ht Hin.
  { by apply not_elem_of_nil in Hin. }
  apply apply_each_cons in Ht as (r & rs' & w3 & -> & Ha & Ht).
  apply elem_of_cons in Hin as [->|Hin]; [|by eapply IH].
  exists w1. apply (apply_extrinsic_Ok other_dispatch) in Ha as [Hc Hv _ _]. by split.
Qed.

Lemma sealed_block_executes exec b w w' :
  BlockExecutor exec b w = (Ok tt, w') ->
  exists s b', remove_seal b = Some (s, b') /\ seal_verifies s b' w = true /\
    extrinsics b' = extrinsics b /\ exec b' w = (Ok tt, w').
Proof.
  rewrite block_executor_spec. destruct (remove_seal b) as [[s b']|] eqn:Hs; [|done].
  destruct (seal_verifies s b' w) eqn:Hv; [|done]. intros He.
  exists s, b'. by rewrite (remove_seal_extrinsics b s b' Hs).
Qed.

(** Sealed blocks one after the other, and the events each leaves in the log. *)
Inductive sealed_blocks : W -> list Block -> list Swarm.Event -> W -> Prop :=
| sealed_nil w : sealed_blocks w [] [] w
| sealed_cons w b w1 bs es w' :
    BlockExecutor Executive_execute_block b w = (Ok tt, w1) ->
    sealed_blocks w1 bs es w' -> sealed_blocks w (b :: bs) (Swarm.log w1 ++ es) w'.

Lemma sealed_blocks_exist bs w us w' :
  apply_each (BlockExecutor Executive_execute_block) bs w = (Ok us, w') ->
  exists es, sealed_blocks w bs es w'.
Proof.
  revert w us. induction bs as [|b bs IH]; intros w us Hbs.
  { injection Hbs as _ <-. exists []. constructor. }
  apply apply_each_cons in Hbs as ([] & us' & w1 & _ & Hb & Hbs).
  destruct (IH _ _ Hbs) as [es Hes]. exists (Swarm.log w1 ++ es). by econstructor.
Qed.

Lemma sealed_blocks_ok w bs es w' :
  sealed_blocks w bs es w' -> blocks_raw bs w = false -> Chain.step_ok w es w'.
Proof.
  induction 1 as [w|w b w1 bs es w' Hb _ IH]; intros Hraw; [by apply Chain.step_ok_quiet|].
  cbn [blocks_raw] in Hraw. rewrite Hb in Hraw. apply orb_false_iff in Hraw as [Hraw Hraws].
  apply sealed_block_executes in Hb as (s & b' & Hs & _ & _ & Hb).
  unfold sealed_raw in Hraw. rewrite Hs in Hraw.
  apply (Chain.step_ok_trans _ _ w1); [by eapply executed_block_ok | by apply IH].
Qed.

Lemma sealed_blocks_valid w bs es w' b :
  sealed_blocks w bs es w' -> b ∈ bs ->
  (exists s b' v, remove_seal b = Some (s, b') /\ seal_verifies s b' v = true) /\
  (forall t, t ∈ extrinsics b -> exists v, valid_in t v).
Proof.
  induction 1 as [w|w b0 w1 bs es w' Hb _ IH]; [by intros Hb%not_elem_of_nil|].
  intros [->|Hin]%elem_of_cons; [|by apply IH].
  apply sealed_block_executes in Hb as (s & b' & Hs & Hv & Hx & Hb).
  split; [by eauto 6|]. rewrite <- Hx. intros t. by apply (executed_block_valid b' w w1).
Qed.

(** C6: What the relay chain accepts keeps the promises.  If it validates a candidate,
    the blocks of the candidate execute one after the other from the parent state;
    every block carries one seal that an authority made, and every transaction of every
    block had a good signature and passed the nine checks when its turn came.  And if no
    call in the blocks, be it of a transaction or of a hook, comes to write raw keys with
    the rights of root, then under the events the blocks log, hooks and transactions
    together, the commands waiting before followed by those enqueued are, in order,
    those delivered followed by those still waiting, every delivery went to a registered
    robot, nobody is unregistered, and a queue within its bound stays within it. *)
Theorem validated_blocks_deliver p v :
  validate_block p = Some v ->
  exists es w', sealed_blocks (params_state p) (params_blocks p) es w' /\
    (forall b, b ∈ params_blocks p ->
       (exists s b' w, remove_seal b = Some (s, b') /\ seal_verifies s b' w = true) /\
       forall t, t ∈ extrinsics b -> exists w, valid_in t w) /\
    (blocks_raw (params_blocks p) (params_state p) = false ->
     Swarm.queue (params_state p) ++ omap SwarmProps.enqueued es =
       omap SwarmProps.pulled es ++ Swarm.queue w' /\
     Forall (SwarmProps.event_ok (Swarm.registered w')) es /\
     (forall r, Swarm.registered (params_state p) r = true -> Swarm.registered w' r = true) /\
     (Z.of_nat (length (Swarm.queue (params_state p))) <= Swarm.MaxGlobalCommands ->
      Z.of_nat (length (Swarm.queue w')) <= Swarm.MaxGlobalCommands)).
Proof.
  unfold validate_block. intros Hp. apply validate_spec in Hp as (us & w' & Hp).
  apply sealed_blocks_exist in Hp as [es Hes]. exists es, w'. split; [done|].
  split; [intros b; by apply (sealed_blocks_valid _ _ _ _ _ Hes)|].
  intros Hraw. by destruct (sealed_blocks_ok _ _ _ _ Hes Hraw).
Qed.
End blocks.
