(* ===== verification/Wire.v ===== *)
(** * Blocks and extrinsics on the wire

    [runtime/src/lib.rs]: the concrete types the generic blocks, headers and
    extrinsics of polkadot-sdk are instantiated with, and the module [opaque], the
    same block with extrinsics the node does not look into.  The node and the
    runtime exchange blocks as bytes; this file shows that the two views of a block
    agree on every byte, and what the bytes of a transaction to the swarm pallet
    cost. *)
From S2P Require Import Prelude Frame Constants Fees Configs PalletConfigs Codec.
From S2P Require Swarm Template Runtime Storage.
From Stdlib Require Import Strings.Byte.

Local Open Scope Z_scope.

(** ** Vectors

    [Vec<A>]: a list no longer than a length fits its [Compact<u32>]. *)
Class Vecs : Type := {
  Vec : Type -> Type;
  vec_list : forall {A}, Vec A -> list A;
  vec_new : forall {A}, list A -> option (Vec A);
  vec_capacity : Z;
  vec_codec :: forall A `{Codec A}, Codec (Vec A);
}.
Class VecsOk `{Vecs, Compacts} : Prop := {
  vec_new_Some {A} (l : list A) v : vec_new l = Some v <-> vec_list v = l;
  vec_new_total {A} (l : list A) :
    Z.of_nat (length l) <= vec_capacity -> is_Some (vec_new l);
  vec_bound {A} (v : Vec A) : Z.of_nat (length (vec_list v)) <= vec_capacity;
  vec_codec_ok :: forall A `{CodecOk A}, CodecOk (Vec A);
  encode_vec `{Codec A} (v : Vec A) :
    scale_encode v =
    compact (Z.of_nat (length (vec_list v))) ++ concat (scale_encode <$> vec_list v);
}.

(** [u8] *)
#[export] Instance byte_codec : Codec byte := {|
  scale_encode b := [b];
  scale_decode := read_byte;
|}.
#[export] Instance byte_codec_ok : CodecOk byte.
Proof. intros b bs rest. apply read_byte_Some. Qed.

Lemma concat_bytes (bs : bytes) : concat (scale_encode <$> bs) = bs.
Proof. induction bs as [|b bs IH]; [done|]. cbn in *. by rewrite IH. Qed.

(** ** The generic types

    [generic::UncheckedExtrinsic]: a preamble (none for an inherent; signer,
    signature and extension data for a transaction) and a call; its bytes are those
    of the vector of the bytes of both. *)
Class UncheckedExtrinsics (Address Call Signature Extension : Type)
    `{!Codec Call, !Vecs, !Compacts} : Type := {
  generic_UncheckedExtrinsic : Type;
  Preamble : Type;
  preamble : generic_UncheckedExtrinsic -> Preamble;
  function : generic_UncheckedExtrinsic -> Call;
  preamble_codec :: Codec Preamble;
  xt_codec :: Codec generic_UncheckedExtrinsic;
}.
Arguments generic_UncheckedExtrinsic Address Call Signature Extension {_ _ _ _}.

Definition xt_body `{UncheckedExtrinsics Address Call Signature Extension}
    (x : generic_UncheckedExtrinsic Address Call Signature Extension) : bytes :=
  scale_encode (preamble x) ++ scale_encode (function x).

Class UncheckedExtrinsicsOk (Address Call Signature Extension : Type)
    `{UncheckedExtrinsics Address Call Signature Extension} : Prop := {
  xt_roundtrips :: Roundtrips (generic_UncheckedExtrinsic Address Call Signature Extension);
  xt_fits (x : generic_UncheckedExtrinsic Address Call Signature Extension) :
    Z.of_nat (length (xt_body x)) <= vec_capacity;
  encode_xt (x : generic_UncheckedExtrinsic Address Call Signature Extension) :
    scale_encode x = compact (Z.of_nat (length (xt_body x))) ++ xt_body x;
}.

(** [OpaqueExtrinsic]: bytes nobody looks into, encoded as the vector they are. *)
Class OpaqueExtrinsics `{!Vecs} : Type := {
  OpaqueExtrinsic : Type;
  opaque_new : Vec byte -> OpaqueExtrinsic;
  opaque_codec :: Codec OpaqueExtrinsic;
}.
Class OpaqueExtrinsicsOk `{OpaqueExtrinsics} : Prop := {
  opaque_codec_ok :: CodecOk OpaqueExtrinsic;
  encode_opaque v : scale_encode (opaque_new v) = scale_encode v;
}.

(** [generic::Block]: a header and a vector of extrinsics, encoded in this order. *)
Class GenericBlocks (Header Xt : Type) `{!Codec Header, !Codec Xt, !Vecs} : Type := {
  generic_Block : Type;
  new_block : Header -> Vec Xt -> generic_Block;
  block_header : generic_Block -> Header;
  block_extrinsics : generic_Block -> Vec Xt;
  generic_block_codec :: Codec generic_Block;
}.
Arguments generic_Block Header Xt {_ _ _ _}.
Class GenericBlocksOk (Header Xt : Type) `{GenericBlocks Header Xt} : Prop := {
  header_new h (xs : Vec Xt) : block_header (new_block h xs) = h;
  extrinsics_new h (xs : Vec Xt) : block_extrinsics (new_block h xs) = xs;
  block_roundtrips :: Roundtrips (generic_Block Header Xt);
  encode_block (b : generic_Block Header Xt) :
    scale_encode b = scale_encode (block_header b) ++ scale_encode (block_extrinsics b);
}.

(** The other types of [sp_runtime] and [sp_core] the runtime names. *)
Class SpRuntime : Type := {
  MultiSignature : Type;
  (* the account identifier of the signer a signature verifies for *)
  AccountIdOf : Type -> Type;
  MultiAddress : Type -> Type -> Type;
  H256 : Type;
  BlakeTwo256 : Type;
  HashOutput : Type -> Type;
  generic_Header : Type -> Type -> Type;
}.

(** ** The runtime's types *)
Section types.
Context `{!SpRuntime}.

Definition Signature : Type := MultiSignature.
Definition AccountId : Type := AccountIdOf Signature.
Definition Balance : Type := uint 128.
Definition Nonce : Type := u32.
Definition Hash : Type := H256.
Definition BlockNumber : Type := u32.
Definition Address : Type := MultiAddress AccountId unit.
Definition Header : Type := generic_Header BlockNumber BlakeTwo256.

Context `{!Vecs, !Compacts}.
Context `{!Swarm.Config} {OtherCall : Type} {TxExtension : Type}.
Abbreviation RuntimeCall := (Runtime.RuntimeCall (OtherCall := OtherCall)).
Context `{!Codec RuntimeCall}.
Context `{!UncheckedExtrinsics Address RuntimeCall Signature TxExtension}.

Definition UncheckedExtrinsic : Type :=
  generic_UncheckedExtrinsic Address RuntimeCall Signature TxExtension.

Context `{!Codec Header} `{!GenericBlocks Header UncheckedExtrinsic}.
Definition Block : Type := generic_Block Header UncheckedExtrinsic.

(** [mod opaque] *)
Context `{!OpaqueExtrinsics} `{!GenericBlocks Header OpaqueExtrinsic}.
Definition opaque_Header : Type := generic_Header BlockNumber BlakeTwo256.
Definition opaque_Block : Type := generic_Block opaque_Header OpaqueExtrinsic.
Definition opaque_Hash : Type := HashOutput BlakeTwo256.

Context `{!VecsOk} `{!CodecOk Header} `{!OpaqueExtrinsicsOk}.
Context `{!UncheckedExtrinsicsOk Address RuntimeCall Signature TxExtension}.
Context `{!GenericBlocksOk Header UncheckedExtrinsic, !GenericBlocksOk Header OpaqueExtrinsic}.

(** An extrinsic, not looked into. *)
Lemma opaque_exists (x : UncheckedExtrinsic) :
  exists o : OpaqueExtrinsic, scale_encode o = scale_encode x.
Proof.
  destruct (vec_new_total (xt_body x) (xt_fits x)) as [v Hv]. exists (opaque_new v).
  apply vec_new_Some in Hv. rewrite encode_opaque, encode_vec, Hv, concat_bytes.
  exact (eq_sym (encode_xt x)).
Qed.

Lemma opaque_list (xs : list UncheckedExtrinsic) :
  exists os : list OpaqueExtrinsic,
    Forall2 (fun x o => scale_encode o = scale_encode x) xs os.
Proof.
  induction xs as [|x xs [os IH]]; [by exists []|].
  destruct (opaque_exists x) as [o Ho]. exists (o :: os). by constructor.
Qed.

Lemma encode_same {A B} `{!Codec A, !Codec B} (v : Vec A) (u : Vec B) :
  Forall2 (fun x o => scale_encode o = scale_encode x) (vec_list v) (vec_list u) ->
  scale_encode u = scale_encode v.
Proof.
  intros Hs. rewrite !encode_vec, (Forall2_length _ _ _ Hs). do 2 f_equal.
  induction Hs as [|x o xs os Ho _ IH]; [done|]. cbn. by rewrite Ho, <- IH.
Qed.

(** C12: The node need not know the runtime's formats.  The bytes of every block of this
    runtime decode, whatever follows, to exactly one opaque block, with the same
    header, so the same hash, and extrinsics of the same bytes; the opaque block
    encodes to the very bytes it came from, and from these the runtime reads the
    block it was. *)
Theorem opaque_block_same_bytes (b : Block) rest :
  exists o : opaque_Block,
    scale_decode (scale_encode b ++ rest) = Some (o, rest) /\
    block_header o = block_header b /\
    Forall2 (fun (x : UncheckedExtrinsic) (y : OpaqueExtrinsic) => scale_encode y = scale_encode x)
      (vec_list (block_extrinsics b)) (vec_list (block_extrinsics o)) /\
    scale_encode o = scale_encode b /\
    scale_decode (A := Block) (scale_encode o ++ rest) = Some (b, rest).
Proof.
  destruct (opaque_list (vec_list (block_extrinsics b))) as [os Hos].
  destruct (vec_new_total os) as [v Hv].
  { rewrite <- (Forall2_length _ _ _ Hos). apply vec_bound. }
  apply vec_new_Some in Hv. rewrite <- Hv in Hos.
  exists (new_block (block_header b) v : opaque_Block).
  assert (He : scale_encode (new_block (block_header b) v : opaque_Block) = scale_encode b).
  { unfold Block, opaque_Block, opaque_Header, Header in *.
    by rewrite !encode_block, header_new, extrinsics_new, (encode_same _ _ Hos). }
  split; [rewrite <- He; apply roundtrips|].
  split; [apply header_new|]. rewrite extrinsics_new. split; [done|]. split; [done|].
  rewrite He. apply roundtrips.
Qed.
End types.

(** ** What the bytes of a swarm transaction cost *)
Section lengths.
Context `{!SpRuntime, !Vecs, !Compacts, !CompactsOk} `{!Codec u32}.
Context {OtherCall TxExtension : Type} `{!OtherCalls OtherCall}.
#[local] Existing Instances Storage.location_codec Storage.task_codec Storage.robot_codec.
Context `{!BlockNumbers}.
Abbreviation RuntimeCall := (Runtime.RuntimeCall (OtherCall := OtherCall)).
Context `{!UncheckedExtrinsics Address RuntimeCall Signature TxExtension}.
Context `{!UncheckedExtrinsicsOk Address RuntimeCall Signature TxExtension}.
Context `{!Weights, !Perbills, !FeePolynomials, !LengthFees, !LengthFeesOk}.
Context (u32_len : forall n : u32, length (scale_encode n) = 4%nat).

(** The bytes of a call to the swarm pallet: two indices, then the argument. *)
Lemma swarm_call_len (c : Swarm.Call) :
  Z.of_nat (length (scale_encode (Runtime.CallSwarm c : RuntimeCall))) =
  match c with
  | Swarm.Call_register_robot _ | Swarm.Call_pull_next _ => 6
  | Swarm.Call_enqueue_command (Swarm.GoToLocation _) => 11
  | Swarm.Call_enqueue_command (Swarm.PerformTask _) => 7
  | Swarm.Call_enqueue_command (Swarm.Halt | Swarm.WaitForCommand) => 3
  end.
Proof.
  change (scale_encode (Runtime.CallSwarm c : RuntimeCall)) with
    (index_byte (Runtime.pallet_index Runtime.SwarmRobotPallet) :: scale_encode c).
  destruct c as [r|[l|t| |]|r]; cbn [length].
  - change (scale_encode (Swarm.Call_register_robot r)) with (x00 :: scale_encode (r : u32)).
    cbn [length]. by rewrite u32_len.
  - change (scale_encode (Swarm.Call_enqueue_command (Swarm.GoToLocation l))) with
      (x01 :: x00 :: scale_encode (Swarm.x l) ++ scale_encode (Swarm.y l)).
    cbn [length]. by rewrite length_app, !u32_len.
  - change (scale_encode (Swarm.Call_enqueue_command (Swarm.PerformTask t))) with
      (x01 :: x01 :: scale_encode (t : u32)).
    cbn [length]. by rewrite u32_len.
  - done.
  - done.
  - change (scale_encode (Swarm.Call_pull_next r)) with (x02 :: scale_encode (r : u32)).
    cbn [length]. by rewrite u32_len.
Qed.

(** C35: The byte fee of a transaction to the swarm pallet, exactly: ten MICRO_UNITs for
    each byte of its length prefix (one byte up to 63 bytes, two above), of its
    preamble and of its call, where a registration or a pull takes 6 bytes, a
    command to go to a location 11, a task 7, and one without argument 3. *)
Theorem swarm_transaction_fee x c :
  function x = Runtime.CallSwarm c ->
  let n := Z.of_nat (length (scale_encode (preamble x))) +
    match c with
    | Swarm.Call_register_robot _ | Swarm.Call_pull_next _ => 6
    | Swarm.Call_enqueue_command (Swarm.GoToLocation _) => 11
    | Swarm.Call_enqueue_command (Swarm.PerformTask _) => 7
    | Swarm.Call_enqueue_command (Swarm.Halt | Swarm.WaitForCommand) => 3
    end in
  n < 2 ^ 14 ->
  length_to_fee_of transaction_payment_config
    (Z.of_nat (length (scale_encode (x : UncheckedExtrinsic)))) =
  10 * MICRO_UNIT * ((if decide (n < 64) then 1 else 2) + n).
Proof.
  intros Hx n Hn.
  assert (Hbody : Z.of_nat (length (xt_body x)) = n).
  { unfold xt_body. rewrite length_app, Nat2Z.inj_add, Hx. by rewrite (swarm_call_len c). }
  assert (Hlen : Z.of_nat (length (scale_encode (x : UncheckedExtrinsic))) =
    (if decide (n < 64) then 1 else 2) + n).
  { unfold UncheckedExtrinsic. rewrite encode_xt, length_app, Nat2Z.inj_add, Hbody.
    by rewrite compact_len by lia. }
  rewrite Hlen. apply length_fee_exact. case_decide; lia.
Qed.
End lengths.
