(* ===== verification/Xcm.v ===== *)
(** * Cross-chain messages: who may execute what

    [runtime/src/configs/xcm_config.rs]: the barrier in front of the XCM executor,
    the accounts that remote locations own here, the dispatch origins they may
    act with, and the weight charged for a message.  The combinators are those of
    [staging_xcm_builder] and enter with their documented behaviour; which are
    used, on what and in which order is the runtime's. *)
From S2P Require Import Prelude Frame Constants Configs.

Local Open Scope Z_scope.

(** ** Locations

    [unpack] is the number of parents and the interior junctions. *)
Class XcmTypes : Type := {
  Location : Type;
  Junction : Type;
  BodyId : Type;
  NetworkId : Type;
  InteriorLocation : Type;
  unpack : Location -> Z * list Junction;
  BodyId_eq :: EqDecision BodyId;
  Executive : BodyId;
  plurality_id : Junction -> option BodyId;
  parent : Location;
  XcmAccount : Type;
  ProcessMessageError : Type;
  (* the message being checked, with the credit and the topic found so far *)
  XcmState : Type;
}.

Section locations.
Context `{XcmTypes}.

Definition RelayLocation : Location := parent.
Definition RelayNetwork : option NetworkId := None.

(** [ParentOrParentsExecutivePlurality::contains] *)
Definition ParentOrParentsExecutivePlurality (l : Location) : bool :=
  match unpack l with
  | (1, []) => true
  | (1, [j]) => match plurality_id j with Some b => bool_decide (b = Executive) | None => false end
  | _ => false
  end.

Definition Everything (_ : Location) : bool := true.
Definition Nothing (_ : Location) : bool := false.
End locations.

(** ** The barrier

    [ShouldExecute] lets a message pass or refuses it, and may note something in
    the state it is given; [DenyExecution] names a reason to refuse. *)
Definition ShouldExecute `{XcmTypes, Weights} : Type :=
  Location -> Weight -> M XcmState ProcessMessageError unit.
Definition DenyExecution `{XcmTypes, Weights} : Type :=
  Location -> Weight -> XcmState -> option ProcessMessageError.

Class Barriers `{XcmTypes, Weights} : Type := {
  TrailingSetTopicAsId : ShouldExecute -> ShouldExecute;
  DenyThenTry : DenyExecution -> ShouldExecute -> ShouldExecute;
  DenyRecursively : DenyExecution -> DenyExecution;
  DenyReserveTransferToRelayChain : DenyExecution;
  TakeWeightCredit : ShouldExecute;
  WithComputedOrigin : ShouldExecute -> InteriorLocation -> Z -> ShouldExecute;
  AllowTopLevelPaidExecutionFrom : (Location -> bool) -> ShouldExecute;
  AllowExplicitUnpaidExecutionFrom : (Location -> bool) -> ShouldExecute;
  any_of : list ShouldExecute -> ShouldExecute;
}.

(** What the combinators read of a message: [strip_topic] takes a trailing topic
    off; [has_credit] compares the credit with the weight; [compute_origin] walks
    the origin-changing instructions in front; [pays] and [asks_unpaid] say how
    the rest of the message begins. *)
Class BarriersOk `{Barriers} (strip_topic : XcmState -> XcmState)
    (has_credit : Weight -> XcmState -> Prop)
    (compute_origin : InteriorLocation -> Z -> Location -> XcmState -> option (Location * XcmState))
    (pays asks_unpaid : Weight -> XcmState -> Prop) : Prop := {
  trailing_topic b o w s : TrailingSetTopicAsId b o w s = b o w (strip_topic s);
  deny_first d b o w s e : d o w s = Some e -> DenyThenTry d b o w s = (Err e, s);
  then_try d b o w s : d o w s = None -> DenyThenTry d b o w s = b o w s;
  denied_at_top d o w s e : d o w s = Some e -> is_Some (DenyRecursively d o w s);
  credit_taken o w s : (TakeWeightCredit o w s).1 = Ok tt <-> has_credit w s;
  origin_computed b u n o w s o' s' :
    compute_origin u n o s = Some (o', s') -> WithComputedOrigin b u n o w s = b o' w s';
  origin_unknown b u n o w s :
    compute_origin u n o s = None -> exists e s', WithComputedOrigin b u n o w s = (Err e, s');
  paid_only f o w s :
    (AllowTopLevelPaidExecutionFrom f o w s).1 = Ok tt <-> f o = true /\ pays w s;
  unpaid_only f o w s :
    (AllowExplicitUnpaidExecutionFrom f o w s).1 = Ok tt <-> f o = true /\ asks_unpaid w s;
  any_of_nil o w s : (any_of (@nil ShouldExecute) o w s).1 <> Ok tt;
  any_of_first (b : ShouldExecute) (bs : list ShouldExecute) o w s :
    (b o w s).1 = Ok tt -> any_of (@cons ShouldExecute b bs) o w s = b o w s;
  any_of_next (b : ShouldExecute) (bs : list ShouldExecute) o w s :
    (b o w s).1 <> Ok tt -> any_of (@cons ShouldExecute b bs) o w s = any_of bs o w (b o w s).2;
}.

Section barrier.
Context `{Barriers} (UniversalLocation : InteriorLocation).

(** The two ways in for a message whose origin has been computed. *)
Definition paid_or_privileged : ShouldExecute :=
  any_of [AllowTopLevelPaidExecutionFrom Everything;
          AllowExplicitUnpaidExecutionFrom ParentOrParentsExecutivePlurality].

Definition Barrier : ShouldExecute :=
  TrailingSetTopicAsId
    (DenyThenTry (DenyRecursively DenyReserveTransferToRelayChain)
      (any_of [TakeWeightCredit;
               WithComputedOrigin paid_or_privileged UniversalLocation 8])).
End barrier.

(** ** Converters

    A tuple of converters tries them in order; the first that recognizes the
    location decides. *)
Section converters.
Context `{XcmTypes} {RuntimeOrigin OriginKind : Type}.
Definition ConvertLocation : Type := Location -> option XcmAccount.
Definition ConvertOrigin : Type := Location -> OriginKind -> option RuntimeOrigin.

Context (ParentIsPreset SiblingParachainConvertsVia : ConvertLocation).
Context (AccountId32Aliases : option NetworkId -> ConvertLocation).
Context (SovereignSignedViaLocation : ConvertLocation -> ConvertOrigin).
Context (RelayChainAsNative SiblingParachainAsNative : ConvertOrigin).
Context (SignedAccountId32AsNative : option NetworkId -> ConvertOrigin).
Context (XcmPassthrough : ConvertOrigin).

Fixpoint first_location (cs : list ConvertLocation) : ConvertLocation := fun l =>
  match cs with
  | [] => None
  | c :: cs => match c l with Some a => Some a | None => first_location cs l end
  end.
Fixpoint first_origin (cs : list ConvertOrigin) : ConvertOrigin := fun l k =>
  match cs with
  | [] => None
  | c :: cs => match c l k with Some a => Some a | None => first_origin cs l k end
  end.

Definition LocationToAccountId : ConvertLocation :=
  first_location [ParentIsPreset; SiblingParachainConvertsVia; AccountId32Aliases RelayNetwork].

Definition XcmOriginToTransactDispatchOrigin : ConvertOrigin :=
  first_origin [SovereignSignedViaLocation LocationToAccountId;
                RelayChainAsNative; SiblingParachainAsNative;
                SignedAccountId32AsNative RelayNetwork; XcmPassthrough].
End converters.

(** ** Weights of messages *)
Section weights.
Context `{Weights}.

Definition UnitWeightCost : Weight := from_parts 1_000_000_000 (64 * 1024).
Definition MaxInstructions : Z := 100.
Definition MaxAssetsIntoHolding : Z := 64.

(** [FixedWeightBounds]: the unit weight for each instruction, if there are not too
    many. *)
Class FixedWeights : Type :=
  fixed_weight : Weight -> Z -> Z -> option Weight.
Class FixedWeightsOk `{FixedWeights} : Prop := {
  fixed_weight_fits u limit n : 0 <= n <= limit ->
    fits 64 (ref_time u * n) -> fits 64 (proof_size u * n) ->
    fixed_weight u limit n = Some (from_parts (ref_time u * n) (proof_size u * n));
  fixed_weight_over u limit n : limit < n -> fixed_weight u limit n = None;
}.

(** [Weigher], on a message of [n] instructions. *)
Definition Weigher `{FixedWeights} (n : Z) : option Weight :=
  fixed_weight UnitWeightCost MaxInstructions n.
End weights.

(** ** Facts *)
Section facts.
Context `{BarriersOk} (UniversalLocation : InteriorLocation).

(** A location with free execution: the relay chain or its executive body. *)
Definition privileged (l : Location) : Prop :=
  unpack l = (1, []) \/
  exists j, unpack l = (1, [j]) /\ plurality_id j = Some Executive.

Lemma privileged_spec l : ParentOrParentsExecutivePlurality l = true <-> privileged l.
Proof.
  unfold ParentOrParentsExecutivePlurality, privileged.
  destruct (unpack l) as [[|[p|p|]|p] [|j [|k js]]]; try (destruct (plurality_id j) eqn:Hj);
    rewrite ?bool_decide_eq_true; split; intros; destruct_or?; destruct_and?; naive_solver.
Qed.

(** A pair of alternatives: the first, or the second in the state the first left. *)
Lemma any_of_pair (b c : ShouldExecute) o w s :
  (any_of [b; c] o w s).1 = Ok tt <->
  (b o w s).1 = Ok tt \/ (b o w s).1 <> Ok tt /\ (c o w (b o w s).2).1 = Ok tt.
Proof.
  destruct (decide ((b o w s).1 = Ok tt)) as [Hb|Hb]; [rewrite any_of_first by done; tauto|].
  rewrite any_of_next by done.
  destruct (decide ((c o w (b o w s).2).1 = Ok tt)) as [Hc|Hc]; [rewrite any_of_first by done; tauto|].
  rewrite any_of_next by done.
  pose proof (any_of_nil o w (c o w (b o w s).2).2). tauto.
Qed.

Lemma paid_or_privileged_spec o w s :
  (paid_or_privileged o w s).1 = Ok tt <->
  pays w s \/
  ~ pays w s /\ privileged o /\ asks_unpaid w (AllowTopLevelPaidExecutionFrom Everything o w s).2.
Proof.
  unfold paid_or_privileged. rewrite any_of_pair, paid_only, unpaid_only, privileged_spec.
  unfold Everything. tauto.
Qed.

(** C38: who gets through the barrier.  With its topic taken off, a message is
    executed exactly when the recursive filter finds no reserve transfer to the
    relay chain in it and either its weight is covered by credit, or its origin
    can be computed and the rest either pays for its execution, whoever sends it,
    or asks for free execution and comes from the relay chain or from the relay
    chain's executive body. *)
Theorem barrier_admits o w s :
  let s1 := strip_topic s in
  let s2 := (TakeWeightCredit o w s1).2 in
  (Barrier UniversalLocation o w s).1 = Ok tt <->
  DenyRecursively DenyReserveTransferToRelayChain o w s1 = None /\
  (has_credit w s1 \/
   ~ has_credit w s1 /\ exists o' s3, compute_origin UniversalLocation 8 o s2 = Some (o', s3) /\
     (pays w s3 \/
      ~ pays w s3 /\ privileged o' /\
      asks_unpaid w (AllowTopLevelPaidExecutionFrom Everything o' w s3).2)).
Proof.
  intros s1 s2. unfold Barrier. rewrite trailing_topic. fold s1.
  destruct (DenyRecursively _ o w s1) as [e|] eqn:Hd.
  { rewrite (deny_first _ _ _ _ _ e) by done. split; [done | by intros []]. }
  rewrite then_try, any_of_pair, credit_taken by done. fold s2.
  destruct (compute_origin UniversalLocation 8 o s2) as [[o' s3]|] eqn:Hc.
  - rewrite (origin_computed _ _ _ _ _ _ _ _ Hc), paid_or_privileged_spec.
    split; [intros [?|[? ?]]; eauto 10|].
    intros [_ [?|(? & ? & ? & [= <- <-] & ?)]]; auto.
  - destruct (origin_unknown paid_or_privileged UniversalLocation 8 o w s2 Hc) as (e & s' & ->).
    cbn. split; [intros [?|[_ ?]]; [auto | done]|].
    intros [_ [?|(_ & ? & ? & ? & _)]]; [auto | done].
Qed.

(** Nobody moves the relay chain's reserve: a message with a top-level reserve
    transfer to the relay chain is refused, whatever it pays and whoever sends it,
    the relay chain included. *)
Theorem reserve_transfer_refused o w s e :
  DenyReserveTransferToRelayChain o w (strip_topic s) = Some e ->
  (Barrier UniversalLocation o w s).1 <> Ok tt /\
  (Barrier UniversalLocation o w s).2 = strip_topic s.
Proof.
  intros He. unfold Barrier. rewrite trailing_topic.
  destruct (denied_at_top _ _ _ _ _ He) as [e' He'].
  by rewrite (deny_first _ _ _ _ _ e').
Qed.
End facts.

(** ** Origins of remote calls *)
Section origins.
Context `{XcmTypes} {RuntimeOrigin OriginKind : Type} `{EqDecision OriginKind}.
Context (SovereignAccount Native Superuser Xcm : OriginKind).
Context (kinds_differ : NoDup [SovereignAccount; Native; Superuser; Xcm]).
Context (Signed : XcmAccount -> RuntimeOrigin) (RelayChainOrigin : RuntimeOrigin).
Context (ParentIsPreset SiblingParachainConvertsVia : ConvertLocation).
Context (AccountId32Aliases : option NetworkId -> ConvertLocation).
Context (SovereignSignedViaLocation :
  ConvertLocation -> ConvertOrigin (RuntimeOrigin := RuntimeOrigin) (OriginKind := OriginKind)).
Context (RelayChainAsNative SiblingParachainAsNative XcmPassthrough :
  ConvertOrigin (RuntimeOrigin := RuntimeOrigin) (OriginKind := OriginKind)).
Context (SignedAccountId32AsNative : option NetworkId ->
  ConvertOrigin (RuntimeOrigin := RuntimeOrigin) (OriginKind := OriginKind)).

(** Each converter serves one kind of origin; the relay chain's serves its location. *)
Context (sovereign_spec : forall conv l k, SovereignSignedViaLocation conv l k =
  if decide (k = SovereignAccount) then Signed <$> conv l else None).
Context (relay_spec : forall l, unpack l = (1, []) -> RelayChainAsNative l Native = Some RelayChainOrigin).
Context (relay_native : forall l k, is_Some (RelayChainAsNative l k) -> k = Native).
Context (sibling_native : forall l k, is_Some (SiblingParachainAsNative l k) -> k = Native).
Context (signed_native : forall n l k, is_Some (SignedAccountId32AsNative n l k) -> k = Native).
Context (passthrough_xcm : forall l k, is_Some (XcmPassthrough l k) -> k = Xcm).


Lemma not_served {A B} (f : A -> B -> option RuntimeOrigin) a b (P : B -> Prop) :
  (forall a b, is_Some (f a b) -> P b) -> ~ P b -> f a b = None.
Proof. intros Hf Hb. apply eq_None_not_Some. by intros ?%Hf. Qed.

(** What a remote location may act as.  Nobody acts as a superuser.  Acting for
    its sovereign account, a location is the signer of the account it owns here,
    and nothing if it owns none; the relay chain acting natively is the relay
    chain's origin. *)
Theorem transact_origins l :
  let accounts :=
    LocationToAccountId ParentIsPreset SiblingParachainConvertsVia AccountId32Aliases in
  let origins :=
    XcmOriginToTransactDispatchOrigin ParentIsPreset SiblingParachainConvertsVia
      AccountId32Aliases SovereignSignedViaLocation RelayChainAsNative
      SiblingParachainAsNative SignedAccountId32AsNative XcmPassthrough in
  origins l Superuser = None /\
  origins l SovereignAccount = Signed <$> accounts l /\
  (unpack l = (1, []) -> origins l Native = Some RelayChainOrigin).
Proof.
  intros accounts origins. subst origins.
  assert (Hd : SovereignAccount <> Native /\ SovereignAccount <> Superuser /\
    SovereignAccount <> Xcm /\ Native <> Superuser /\ Superuser <> Xcm).
  { rewrite !NoDup_cons in kinds_differ. set_solver. }
  destruct Hd as (HSN & HSS & HSX & HNS & HSX').
  unfold XcmOriginToTransactDispatchOrigin, first_origin.
  assert (Hnone : forall k, k <> Native -> k <> Xcm ->
    RelayChainAsNative l k = None /\ SiblingParachainAsNative l k = None /\
    SignedAccountId32AsNative RelayNetwork l k = None /\ XcmPassthrough l k = None).
  { intros k HN HX. repeat split.
    - by apply (not_served _ _ _ _ relay_native).
    - by apply (not_served _ _ _ _ sibling_native).
    - by apply (not_served _ _ _ _ (signed_native RelayNetwork)).
    - by apply (not_served _ _ _ _ passthrough_xcm). }
  rewrite !sovereign_spec. fold accounts. split; [|split].
  - rewrite decide_False by congruence. destruct (Hnone Superuser) as (-> & -> & -> & ->); congruence.
  - rewrite decide_True by done. destruct (accounts l); [done|]. cbn.
    by destruct (Hnone SovereignAccount) as (-> & -> & -> & ->).
  - intros Hl. rewrite decide_False by congruence. by rewrite relay_spec.
Qed.
End origins.

(** ** Weights against the block *)
Section weight_facts.
Context `{WeightSharesOk} `{!WeightsOk} `{!PerbillsOk} `{!BlockLimits} `{!BlockLimitsOk}.
Context `{!FixedWeights} `{!FixedWeightsOk}.

Lemma weigher_spec n :
  0 <= n <= MaxInstructions ->
  Weigher n = Some (from_parts (1_000_000_000 * n) (65536 * n)) /\
  ref_time (from_parts (1_000_000_000 * n) (65536 * n)) = 1_000_000_000 * n /\
  proof_size (from_parts (1_000_000_000 * n) (65536 * n)) = 65536 * n.
Proof.
  unfold MaxInstructions. intros Hn.
  assert (Ht : ref_time UnitWeightCost = 1_000_000_000).
  { unfold UnitWeightCost. by rewrite ref_time_from_parts by solve_fits. }
  assert (Hp : proof_size UnitWeightCost = 65536).
  { unfold UnitWeightCost. by rewrite proof_size_from_parts by solve_fits. }
  assert (Hf : fits 64 (1_000_000_000 * n) /\ fits 64 (65536 * n)).
  { unfold fits. assert (umax 64 = 18446744073709551615) as -> by done. lia. }
  destruct Hf as [Hf1 Hf2]. split; [|by rewrite ref_time_from_parts, proof_size_from_parts].
  unfold Weigher, MaxInstructions. by rewrite fixed_weight_fits, Ht, Hp by (rewrite ?Ht, ?Hp; done).
Qed.

(** The longest message.  A message of up to 100 instructions is weighed, a
    longer one is not; the computation of every weighed message fits in what a
    block reserves for messages of its kind, with room for at least five such
    messages; its proof size fits exactly when it has at most one instruction
    per 256 KiB of the relay chain's proof limit, which for a limit below 25 MiB
    is a tighter bound than the 100. *)
Theorem message_weight_fits n pov :
  0 <= n -> fits 64 pov ->
  (is_Some (Weigher n) <-> n <= MaxInstructions) /\
  forall w, Weigher n = Some w ->
    5 * ref_time w <= ref_time (ReservedDmpWeight pov) /\
    (proof_size w <= proof_size (ReservedDmpWeight pov) <-> n <= pov / (256 * 1024)).
Proof.
  intros Hn Hpov. destruct (decide (n <= MaxInstructions)) as [Hle|Hgt].
  - destruct (weigher_spec n) as (Hw & Ht & Hp); [done|]. rewrite Hw.
    split; [split; [done | by eexists]|]. intros w [= <-]. rewrite Ht, Hp.
    unfold ReservedDmpWeight, MAX. rewrite ref_time_saturating_div, proof_size_saturating_div by done.
    rewrite max_block_time, max_block_proof by done. unfold MaxInstructions in *.
    change (2_000_000_000_000 / 4) with 500_000_000_000.
    split; [lia|]. change (256 * 1024) with (4 * 65536).
    rewrite <- Z.div_div by done. set (q := pov / 4).
    pose proof (Z.mul_div_le q 65536). pose proof (Z.mul_succ_div_gt q 65536). split; nia.
  - unfold Weigher. rewrite fixed_weight_over by lia.
    split; [split; [by intros [] | lia] | done].
Qed.
End weight_facts.
