(* ===== verification/XcmAssets.v ===== *)
(** * Cross-chain messages: assets, fees, routes

    [runtime/src/configs/xcm_config.rs], beyond the barrier and the converters of
    [Xcm.v]: which assets remote chains can bring in and where they are credited,
    what the execution of a message costs, where messages to other chains go, and
    what local accounts may do with the XCM pallet.  The combinators are those of
    [staging_xcm_builder] and [pallet_xcm] and enter with their documented
    behaviour. *)
From S2P Require Import Prelude Frame Constants Fees Configs Xcm.
From S2P Require Runtime.

Local Open Scope Z_scope.

(** ** Assets *)
Class XcmAssetTypes `{XcmTypes} : Type := {
  Asset : Type;
  asset_id : Asset -> Location;
  fungible : Asset -> option Z;
  Location_eq :: EqDecision Location;
  XcmError : Type;
  AssetNotFound : XcmError;
  AccountIdConversionFailed : XcmError;
}.

(** The currency: what [Balances] offers to the transactor. *)
Record Currency (W : Type) `{XcmAssetTypes} : Type := {
  mint_into : XcmAccount -> Z -> M W XcmError unit;
  burn_from : XcmAccount -> Z -> M W XcmError unit;
}.
Arguments mint_into {W _ _} _ _ _ _.
Arguments burn_from {W _ _} _ _ _ _.

Record AssetTransactor (W : Type) `{XcmAssetTypes} : Type := {
  deposit_asset : Asset -> Location -> M W XcmError unit;
  withdraw_asset : Asset -> Location -> M W XcmError unit;
}.
Arguments deposit_asset {W _ _} _ _ _ _.
Arguments withdraw_asset {W _ _} _ _ _ _.

Definition MatchesFungible `{XcmAssetTypes} : Type := Asset -> option Z.
Definition ContainsPair `{XcmAssetTypes} : Type := Asset -> Location -> bool.

Class AssetCombinators (W : Type) `{XcmAssetTypes} : Type := {
  IsConcrete : Location -> MatchesFungible;
  NativeAsset : ContainsPair;
  no_pair : ContainsPair;
  FungibleAdapter : Currency W -> MatchesFungible -> ConvertLocation -> AssetTransactor W;
}.

(** [IsConcrete]: the fungible asset with that id.  [NativeAsset]: an asset is trusted
    from the location that is its id.  [()] as a filter contains nothing.  The
    adapter moves the matched amount on the converted account. *)
Class AssetCombinatorsOk (W : Type) `{AssetCombinators W} : Prop := {
  is_concrete_spec l a : IsConcrete l a = if decide (asset_id a = l) then fungible a else None;
  native_asset_spec a o : NativeAsset a o = bool_decide (asset_id a = o);
  no_pair_spec a o : no_pair a o = false;
  deposit_unmatched cur m conv a l w :
    m a = None -> deposit_asset (FungibleAdapter cur m conv) a l w = (Err AssetNotFound, w);
  deposit_unowned cur m conv a l n w :
    m a = Some n -> conv l = None ->
    deposit_asset (FungibleAdapter cur m conv) a l w = (Err AccountIdConversionFailed, w);
  deposit_owned cur m conv a l n who w :
    m a = Some n -> conv l = Some who ->
    deposit_asset (FungibleAdapter cur m conv) a l w = mint_into cur who n w;
  withdraw_unmatched cur m conv a l w :
    m a = None -> withdraw_asset (FungibleAdapter cur m conv) a l w = (Err AssetNotFound, w);
  withdraw_unowned cur m conv a l n w :
    m a = Some n -> conv l = None ->
    withdraw_asset (FungibleAdapter cur m conv) a l w = (Err AccountIdConversionFailed, w);
  withdraw_owned cur m conv a l n who w :
    m a = Some n -> conv l = Some who ->
    withdraw_asset (FungibleAdapter cur m conv) a l w = burn_from cur who n w;
}.

(** ** Fees of messages

    A trader sells weight against the holdings of a message: [None] when they are
    too small, and what is left otherwise. *)
Definition Trader `{XcmTypes, Weights} : Type := Weight -> (Location -> Z) -> option (Location -> Z).

Class Traders `{XcmTypes, Weights} : Type :=
  UsingComponents : (Weight -> Z) -> Location -> Trader.
Class TradersOk `{XcmAssetTypes, Weights} `{!Traders} : Prop := {
  buy_enough to_fee id w h :
    to_fee w <= h id ->
    exists h', UsingComponents to_fee id w h = Some h' /\ h' id = h id - to_fee w /\
      forall id', id' <> id -> h' id' = h id';
  buy_too_little to_fee id w h : h id < to_fee w -> UsingComponents to_fee id w h = None;
}.

(** ** Routes to other chains *)
Inductive SendError : Type := NotApplicable | OtherSendError.

Class Routers `{XcmTypes} : Type := {
  ParaId : Type;
  parachain_id : Junction -> option ParaId;
  Route : Type;
  upward : Route;
  sideward : ParaId -> Route;
  ParentAsUmp : Location -> result Route SendError;
  XcmpQueue : Location -> result Route SendError;
  WithUniqueTopic : (Location -> result Route SendError) -> Location -> result Route SendError;
}.
Class RoutersOk `{Routers} : Prop := {
  ump_spec l :
    ParentAsUmp l = match unpack l with (1, []) => ROk upward | _ => RErr NotApplicable end;
  xcmp_spec l :
    XcmpQueue l =
    match unpack l with
    | (1, [j]) => match parachain_id j with Some p => ROk (sideward p) | None => RErr NotApplicable end
    | _ => RErr NotApplicable
    end;
  unique_topic_spec r l : WithUniqueTopic r l = r l;
}.

(** A tuple of routers: the first to which the destination applies. *)
Fixpoint first_route `{Routers} (rs : list (Location -> result Route SendError))
    (l : Location) : result Route SendError :=
  match rs with
  | [] => RErr NotApplicable
  | r :: rs => match r l with RErr NotApplicable => first_route rs l | o => o end
  end.

Definition XcmRouter `{Routers} : Location -> result Route SendError :=
  WithUniqueTopic (first_route [ParentAsUmp; XcmpQueue]).

(** ** The executor's configuration *)
Section executor.
Context {W : Type} `{XcmTypes, !XcmAssetTypes, !AssetCombinators W}.
Context `{!Weights, !Perbills, !FeePolynomials} `{!Barriers} `{!FixedWeights, !Traders, !Routers}.
Context {RuntimeOrigin OriginKind RuntimeCall : Type}.
Context (Balances : Currency W) (ThisLocation : InteriorLocation).
Context (ParentIsPreset SiblingParachainConvertsVia : ConvertLocation).
Context (AccountId32Aliases : option NetworkId -> ConvertLocation).
Context (SovereignSignedViaLocation :
  ConvertLocation -> ConvertOrigin (RuntimeOrigin := RuntimeOrigin) (OriginKind := OriginKind)).
Context (RelayChainAsNative SiblingParachainAsNative XcmPassthrough :
  ConvertOrigin (RuntimeOrigin := RuntimeOrigin) (OriginKind := OriginKind)).
Context (SignedAccountId32AsNative : option NetworkId ->
  ConvertOrigin (RuntimeOrigin := RuntimeOrigin) (OriginKind := OriginKind)).

Abbreviation accounts :=
  (LocationToAccountId ParentIsPreset SiblingParachainConvertsVia AccountId32Aliases).

(** The chain's own place: the parachain with the id [ParachainInfo] stores. *)
Definition UniversalLocation (Parachain : Z -> InteriorLocation) (parachain_id : Z) :
    InteriorLocation := Parachain parachain_id.

Definition LocalAssetTransactor : AssetTransactor W :=
  FungibleAdapter Balances (IsConcrete RelayLocation) accounts.

(** The fields of [xcm_executor::Config]: combinators, and the pallets that play the
    executor's parts; [None] is the [()] that plays none. *)
Record ExecutorConfig : Type := {
  XcmSender : Location -> result Route SendError;
  XcmEventEmitter : Runtime.pallet;
  AssetTransactor_ : AssetTransactor W;
  OriginConverter : ConvertOrigin (RuntimeOrigin := RuntimeOrigin) (OriginKind := OriginKind);
  IsReserve : ContainsPair;
  IsTeleporter : ContainsPair;
  UniversalLocation_ : InteriorLocation;
  Barrier_ : ShouldExecute;
  Weigher_ : Z -> option Weight;
  Trader_ : Trader;
  ResponseHandler : Runtime.pallet;
  AssetTrap : Runtime.pallet;
  AssetClaims : Runtime.pallet;
  SubscriptionService : Runtime.pallet;
  PalletInstancesInfo : list Runtime.pallet;
  MaxAssetsIntoHolding_ : Z;
  AssetLocker : option Runtime.pallet;
  AssetExchanger : option Runtime.pallet;
  FeeManager : option Runtime.pallet;
  MessageExporter : option Runtime.pallet;
  UniversalAliases : Location -> bool;
  SafeCallFilter : RuntimeCall -> bool;
  Aliasers : Location -> bool;
  HrmpNewChannelOpenRequestHandler : option Runtime.pallet;
  HrmpChannelAcceptedHandler : option Runtime.pallet;
  HrmpChannelClosingHandler : option Runtime.pallet;
  XcmRecorder : Runtime.pallet;
}.

Definition XcmConfig : ExecutorConfig := {|
  XcmSender := XcmRouter;
  XcmEventEmitter := Runtime.PolkadotXcm;
  AssetTransactor_ := LocalAssetTransactor;
  OriginConverter :=
    XcmOriginToTransactDispatchOrigin ParentIsPreset SiblingParachainConvertsVia
      AccountId32Aliases SovereignSignedViaLocation RelayChainAsNative SiblingParachainAsNative
      SignedAccountId32AsNative XcmPassthrough;
  IsReserve := NativeAsset;
  IsTeleporter := no_pair;
  UniversalLocation_ := ThisLocation;
  Barrier_ := Barrier ThisLocation;
  Weigher_ := Weigher;
  Trader_ := UsingComponents weight_to_fee RelayLocation;
  ResponseHandler := Runtime.PolkadotXcm;
  AssetTrap := Runtime.PolkadotXcm;
  AssetClaims := Runtime.PolkadotXcm;
  SubscriptionService := Runtime.PolkadotXcm;
  PalletInstancesInfo := Runtime.all_pallets;
  MaxAssetsIntoHolding_ := MaxAssetsIntoHolding;
  AssetLocker := None;
  AssetExchanger := None;
  FeeManager := None;
  MessageExporter := None;
  UniversalAliases := Nothing;
  SafeCallFilter := fun _ => true;
  Aliasers := Nothing;
  HrmpNewChannelOpenRequestHandler := None;
  HrmpChannelAcceptedHandler := None;
  HrmpChannelClosingHandler := None;
  XcmRecorder := Runtime.PolkadotXcm;
|}.
End executor.

(** ** The XCM pallet

    [pallet_xcm::Config], the choices that filter what its users may do: executing
    a local program, teleporting assets out and sending them to a reserve.  A
    filter refuses the (origin, payload) it does not contain, before any change. *)
Section pallet.
Context `{XcmTypes} {RuntimeOrigin Payload Assets : Type} {W E : Type}.
Context (SignedToAccountId32 : option NetworkId -> RuntimeOrigin -> option Location).

Definition LocalOriginToLocation : RuntimeOrigin -> option Location :=
  SignedToAccountId32 RelayNetwork.

Record PalletXcmConfig : Type := {
  SendXcmOrigin : RuntimeOrigin -> option Location;
  ExecuteXcmOrigin : RuntimeOrigin -> option Location;
  XcmExecuteFilter : Location * Payload -> bool;
  XcmTeleportFilter : Location * Assets -> bool;
  XcmReserveTransferFilter : Location * Assets -> bool;
  VERSION_DISCOVERY_QUEUE_SIZE : Z;
  MaxLockers : Z;
  MaxRemoteLockConsumers : Z;
}.

Definition pallet_xcm_config : PalletXcmConfig := {|
  SendXcmOrigin := LocalOriginToLocation;
  ExecuteXcmOrigin := LocalOriginToLocation;
  XcmExecuteFilter _ := false;
  XcmTeleportFilter _ := true;
  XcmReserveTransferFilter _ := false;
  VERSION_DISCOVERY_QUEUE_SIZE := 100;
  MaxLockers := 8;
  MaxRemoteLockConsumers := 0;
|}.
End pallet.

(** What the pallet's calls do first. *)
Class PalletXcm {RuntimeOrigin Payload Assets : Type} (W E : Type) `{XcmTypes} : Type := {
  BadOrigin : E;
  Filtered : E;
  xcm_execute : PalletXcmConfig (RuntimeOrigin := RuntimeOrigin) (Payload := Payload) (Assets := Assets) ->
    RuntimeOrigin -> Payload -> M W E unit;
  reserve_transfer_assets :
    PalletXcmConfig (RuntimeOrigin := RuntimeOrigin) (Payload := Payload) (Assets := Assets) ->
    RuntimeOrigin -> Assets -> M W E unit;
}.
Class PalletXcmOk {RuntimeOrigin Payload Assets W E : Type} `{XcmTypes}
    `{!PalletXcm (RuntimeOrigin := RuntimeOrigin) (Payload := Payload) (Assets := Assets) W E} : Prop := {
  execute_origin cfg o p w :
    ExecuteXcmOrigin cfg o = None -> xcm_execute cfg o p w = (Err BadOrigin, w);
  execute_filtered cfg o l p w :
    ExecuteXcmOrigin cfg o = Some l -> XcmExecuteFilter cfg (l, p) = false ->
    xcm_execute cfg o p w = (Err Filtered, w);
  reserve_origin cfg o a w :
    ExecuteXcmOrigin cfg o = None -> reserve_transfer_assets cfg o a w = (Err BadOrigin, w);
  reserve_filtered cfg o l a w :
    ExecuteXcmOrigin cfg o = Some l -> XcmReserveTransferFilter cfg (l, a) = false ->
    reserve_transfer_assets cfg o a w = (Err Filtered, w);
}.

(** ** Assets: facts *)
Section asset_facts.
Context {W : Type} `{AssetCombinatorsOk W}.
Context `{!Weights, !Perbills, !FeePolynomials} `{!Barriers} `{!FixedWeights, !Traders, !Routers}.
Context {RuntimeOrigin OriginKind RuntimeCall : Type}.
Context (Balances : Currency W) (ThisLocation : InteriorLocation).
Context (ParentIsPreset SiblingParachainConvertsVia : ConvertLocation).
Context (AccountId32Aliases : option NetworkId -> ConvertLocation).
Context (SovereignSignedViaLocation :
  ConvertLocation -> ConvertOrigin (RuntimeOrigin := RuntimeOrigin) (OriginKind := OriginKind)).
Context (RelayChainAsNative SiblingParachainAsNative XcmPassthrough :
  ConvertOrigin (RuntimeOrigin := RuntimeOrigin) (OriginKind := OriginKind)).
Context (SignedAccountId32AsNative : option NetworkId ->
  ConvertOrigin (RuntimeOrigin := RuntimeOrigin) (OriginKind := OriginKind)).

Abbreviation config :=
  (XcmConfig (RuntimeCall := RuntimeCall) Balances ThisLocation ParentIsPreset
    SiblingParachainConvertsVia AccountId32Aliases SovereignSignedViaLocation
    RelayChainAsNative SiblingParachainAsNative XcmPassthrough SignedAccountId32AsNative).
Abbreviation accounts :=
  (LocationToAccountId ParentIsPreset SiblingParachainConvertsVia AccountId32Aliases).

(** C20: Only the relay chain brings value here, and only its own token.  Whatever asset
    a remote location claims to have put in reserve or to teleport, if the
    executor trusts it and the asset can be credited at all, the asset is the
    fungible token of the relay chain and the location is the relay chain; the
    credit is the exact amount, on the account id the beneficiary converts to (whether
    or not that account existed before), and a beneficiary that converts to none is an
    error that changes nothing. *)
Theorem only_relay_brings_assets a o beneficiary w :
  IsReserve config a o = true \/ IsTeleporter config a o = true ->
  deposit_asset (AssetTransactor_ config) a beneficiary w <> (Err AssetNotFound, w) ->
  o = RelayLocation /\ asset_id a = RelayLocation /\
  exists n, fungible a = Some n /\
    deposit_asset (AssetTransactor_ config) a beneficiary w =
    match accounts beneficiary with
    | Some who => mint_into Balances who n w
    | None => (Err AccountIdConversionFailed, w)
    end.
Proof.
  cbn [IsReserve IsTeleporter AssetTransactor_ XcmConfig].
  rewrite native_asset_spec, no_pair_spec, bool_decide_eq_true. unfold LocalAssetTransactor.
  intros [<-|[=]] Hd. pose proof (is_concrete_spec RelayLocation a) as Hm.
  destruct (decide (asset_id a = RelayLocation)) as [Hid|Hid].
  - destruct (fungible a) as [n|] eqn:Hn; [|by rewrite deposit_unmatched in Hd].
    repeat split; [done..|]. exists n. split; [done|].
    destruct (accounts beneficiary) as [who|] eqn:Hw;
      [by apply deposit_owned | by eapply deposit_unowned].
  - by rewrite deposit_unmatched in Hd.
Qed.

(** Moving any other asset out fails likewise, before anything changes. *)
Theorem only_relay_token_withdrawn a l w :
  asset_id a <> RelayLocation ->
  withdraw_asset (AssetTransactor_ config) a l w = (Err AssetNotFound, w) /\
  deposit_asset (AssetTransactor_ config) a l w = (Err AssetNotFound, w).
Proof.
  intros Hid. cbn [AssetTransactor_ XcmConfig]. unfold LocalAssetTransactor.
  assert (IsConcrete RelayLocation a = None) by (by rewrite is_concrete_spec, decide_False).
  split; [by apply withdraw_unmatched | by apply deposit_unmatched].
Qed.

(** ** Prices *)
Context `{!WeightsOk, !PerbillsOk, !FeePolynomialsOk, !FixedWeightsOk, !TradersOk}.


(** ** Routes *)
Context `{!RoutersOk}.

(** A message for the relay chain goes upward, one for a sibling parachain sideward to
    that parachain, and nothing else is sent: not to this chain itself, not to
    locations inside another chain, not beyond the relay chain. *)
Theorem router_delivers l r :
  XcmSender config l = ROk r <->
  (unpack l = (1, []) /\ r = upward) \/
  (exists j p, unpack l = (1, [j]) /\ parachain_id j = Some p /\ r = sideward p).
Proof.
  cbn [XcmSender XcmConfig]. unfold XcmRouter. rewrite unique_topic_spec. cbn [first_route].
  rewrite ump_spec, xcmp_spec.
  destruct (unpack l) as [[|[?|?|]|?] [|j [|k js]]]; try destruct (parachain_id j) eqn:Hj;
    naive_solver.
Qed.
End asset_facts.

(** ** The XCM pallet: facts *)
Section pallet_facts.
Context `{XcmTypes} {RuntimeOrigin Payload Assets : Type} {W E : Type}.
Context `{!PalletXcm (RuntimeOrigin := RuntimeOrigin) (Payload := Payload) (Assets := Assets) W E}.
Context `{!PalletXcmOk}.
Context (SignedToAccountId32 : option NetworkId -> RuntimeOrigin -> option Location).
Abbreviation config := (pallet_xcm_config SignedToAccountId32).

(** No account runs an XCM program here or sends assets to a reserve through the XCM
    pallet: both calls fail for every origin and payload, before any change. *)
Theorem pallet_xcm_refuses o p a w :
  exists e e', xcm_execute config o p w = (Err e, w) /\
    reserve_transfer_assets config o a w = (Err e', w) /\
    (is_Some (LocalOriginToLocation SignedToAccountId32 o) -> e = Filtered /\ e' = Filtered).
Proof.
  destruct (LocalOriginToLocation SignedToAccountId32 o) as [l|] eqn:Ho.
  - exists Filtered, Filtered.
    rewrite (execute_filtered config o l p w), (reserve_filtered config o l a w) by done. done.
  - exists BadOrigin, BadOrigin.
    rewrite (execute_origin config o p w), (reserve_origin config o a w) by done.
    repeat split; try done; by destruct H0.
Qed.

(** A local account, as a location: what [SignedToAccountId32] writes and
    [AccountId32Aliases] reads. *)
Context (Signed : XcmAccount -> RuntimeOrigin).
Context (ParentIsPreset SiblingParachainConvertsVia : ConvertLocation).
Context (AccountId32Aliases : option NetworkId -> ConvertLocation).
Context (signed_location : forall n a, exists l,
  SignedToAccountId32 n (Signed a) = Some l /\ (unpack l).1 = 0 /\ AccountId32Aliases n l = Some a).
Context (parent_only : forall l, is_Some (ParentIsPreset l) -> (unpack l).1 = 1).
Context (sibling_only : forall l, is_Some (SiblingParachainConvertsVia l) -> (unpack l).1 = 1).

(** Local accounts survive the trip through locations: the location a signed origin
    sends messages as converts back to the account that signed, so what comes
    back for that location is credited to that account. *)
Theorem local_account_roundtrip a :
  LocalOriginToLocation SignedToAccountId32 (Signed a) ≫=
    LocationToAccountId ParentIsPreset SiblingParachainConvertsVia AccountId32Aliases = Some a.
Proof.
  unfold LocalOriginToLocation. destruct (signed_location RelayNetwork a) as (l & -> & Hl & Ha).
  cbn. assert (Hnot : forall c : ConvertLocation, (forall l, is_Some (c l) -> (unpack l).1 = 1) -> c l = None).
  { intros c Hc. apply eq_None_not_Some. intros Hs%Hc. lia. }
  by rewrite (Hnot _ parent_only), (Hnot _ sibling_only), Ha.
Qed.
End pallet_facts.
