(* ===== verification/Interaction.v ===== *)
(** * Programs that talk to a host

    The node is a sequence of calls into polkadot-sdk: what it does is the calls
    it makes, in which order, with which arguments, and what it does with the
    answers.  [prog Op E A] is such a program over a signature [Op] of calls:
    a finite tree that ends with a value, an error or a panic.  [interp] runs it
    against any host, keeping the trace of calls and answers. *)
From S2P Require Import Prelude.

Inductive prog (Op : Type -> Type) (E A : Type) : Type :=
| Done (a : A)
| Failed (e : E)
| Panicked
| Ask {X : Type} (o : Op X) (k : X -> prog Op E A).
Arguments Done {Op E A} _.
Arguments Failed {Op E A} _.
Arguments Panicked {Op E A}.
Arguments Ask {Op E A X} _ _.

Section prog.
Context {Op : Type -> Type}.

Fixpoint prog_bind {E A B} (p : prog Op E A) (f : A -> prog Op E B) : prog Op E B :=
  match p with
  | Done a => f a
  | Failed e => Failed e
  | Panicked => Panicked
  | Ask o k => Ask o (fun x => prog_bind (k x) f)
  end.

#[export] Instance prog_ret {E} : MRet (prog Op E) := fun A a => Done a.
#[export] Instance prog_mbind {E} : MBind (prog Op E) := fun A B f p => prog_bind p f.

#[export] Instance prog_fmap {E} : FMap (prog Op E) := fun A B f p => prog_bind p (Done ∘ f).

(** [ask]: a call that answers; [try]: a call whose error is returned, converted
    as the [?] operator (or a [map_err] before it) does; [unwrap]: [expect]. *)
Definition ask {E X} (o : Op X) : prog Op E X := Ask o Done.
Definition try {E F X} (conv : F -> E) (o : Op (result X F)) : prog Op E X :=
  Ask o (fun r => match r with ROk x => Done x | RErr e => Failed (conv e) end).
Definition unwrap {E X} (o : option X) : prog Op E X :=
  match o with Some x => Done x | None => Panicked end.
Definition of_result {E X} (r : result X E) : prog Op E X :=
  match r with ROk x => Done x | RErr e => Failed e end.

(** The error conversion of a whole sub-program. *)
Fixpoint convert {E F A} (conv : E -> F) (p : prog Op E A) : prog Op F A :=
  match p with
  | Done a => Done a
  | Failed e => Failed (conv e)
  | Panicked => Panicked
  | Ask o k => Ask o (fun x => convert conv (k x))
  end.

(** A program over one signature as a program over a larger one. *)
Fixpoint embed {Op' : Type -> Type} {E A} (f : forall X, Op X -> Op' X) (p : prog Op E A) :
    prog Op' E A :=
  match p with
  | Done a => Done a
  | Failed e => Failed e
  | Panicked => Panicked
  | Ask o k => Ask (f _ o) (fun x => embed f (k x))
  end.

(** ** Running *)

(** A call and its answer. *)
Record call : Type := Call { call_type : Type; call_op : Op call_type; call_answer : call_type }.

(** A host answers every call, in a state of its own. *)
Definition host (S : Type) : Type := forall X, Op X -> S -> X * S.

Fixpoint interp {S E A} (h : host S) (p : prog Op E A) (s : S) : list call * outcome E A :=
  match p with
  | Done a => ([], Ok a)
  | Failed e => ([], Err e)
  | Panicked => ([], Panic)
  | Ask o k =>
      let '(x, s) := h _ o s in
      let '(tr, r) := interp h (k x) s in
      (Call _ o x :: tr, r)
  end.

(** [behaves p tr r]: some host makes [p] leave the trace [tr] and end with [r]. *)
Inductive behaves {E A} : prog Op E A -> list call -> outcome E A -> Prop :=
| behaves_done a : behaves (Done a) [] (Ok a)
| behaves_failed e : behaves (Failed e) [] (Err e)
| behaves_panicked : behaves Panicked [] Panic
| behaves_ask {X} (o : Op X) k x tr r :
    behaves (k x) tr r -> behaves (Ask o k) (Call X o x :: tr) r.

Lemma interp_behaves {S E A} (h : host S) (p : prog Op E A) s :
  behaves p (interp h p s).1 (interp h p s).2.
Proof.
  revert s. induction p as [| | |X o k IH]; intros s; cbn; try constructor.
  destruct (h X o s) as [x s'] eqn:Hx. specialize (IH x s').
  destruct (interp h (k x) s'). by constructor.
Qed.

(** ** Specifications of programs

    [wp p Q]: for every host, the trace and the outcome of [p] satisfy [Q]. *)
Fixpoint wp {E A} (p : prog Op E A) (Q : list call -> outcome E A -> Prop) : Prop :=
  match p with
  | Done a => Q [] (Ok a)
  | Failed e => Q [] (Err e)
  | Panicked => Q [] Panic
  | Ask o k => forall x, wp (k x) (fun tr r => Q (Call _ o x :: tr) r)
  end.

Lemma wp_mono {E A} (p : prog Op E A) (Q Q' : list call -> outcome E A -> Prop) :
  (forall tr r, Q tr r -> Q' tr r) -> wp p Q -> wp p Q'.
Proof.
  revert Q Q'. induction p as [| | |X o k IH]; intros Q Q' HQ; cbn; auto.
  intros Hp x. eapply IH; [|apply Hp]. cbn. auto.
Qed.

Lemma wp_behaves {E A} (p : prog Op E A) Q tr r : wp p Q -> behaves p tr r -> Q tr r.
Proof. intros Hp Hb. revert Q Hp. induction Hb; intros Q Hp; cbn in *; auto. by apply (IHHb _ (Hp x)). Qed.

(** A specification holds of every run, and conversely. *)
Lemma wp_interp {S E A} (h : host S) (p : prog Op E A) Q s :
  wp p Q -> Q (interp h p s).1 (interp h p s).2.
Proof. intros Hp. eapply wp_behaves; [exact Hp | apply interp_behaves]. Qed.

Lemma wp_any {E A} (p : prog Op E A) : wp p (fun _ _ => True).
Proof. induction p; cbn; auto. Qed.

Lemma wp_bind {E A B} (p : prog Op E A) (f : A -> prog Op E B) Q :
  wp p (fun tr r =>
    match r with
    | Ok a => wp (f a) (fun tr' r' => Q (tr ++ tr') r')
    | Err e => Q tr (Err e)
    | Panic => Q tr Panic
    end) ->
  wp (p ≫= f) Q.
Proof.
  unfold mbind, prog_mbind. revert Q. induction p as [| | |X o k IH]; intros Q; cbn; auto.
Qed.

Lemma wp_convert {E F A} (conv : E -> F) (p : prog Op E A) Q :
  wp p (fun tr r => Q tr match r with Ok a => Ok a | Err e => Err (conv e) | Panic => Panic end) ->
  wp (convert conv p) Q.
Proof. revert Q. induction p as [| | |X o k IH]; intros Q; cbn; auto. Qed.
End prog.

(** What holds of a program's calls holds of the embedded program's. *)
Lemma wp_embed {Op Op' : Type -> Type} {E A} (f : forall X, Op X -> Op' X) (p : prog Op E A)
    (Q : list (@call Op') -> outcome E A -> Prop) :
  wp p (fun tr r => Q ((fun c => Call _ (f _ (call_op c)) (call_answer c)) <$> tr) r) ->
  wp (embed f p) Q.
Proof. revert Q. induction p as [| | |X o k IH]; intros Q; cbn; auto. Qed.
Arguments call Op : clear implicits.
Arguments host Op S : clear implicits.

(** ** Fail-fast programs

    [fault o x] is the error a program over [Op] owes its caller when the host
    answers [x] to [o]. *)
Section fail_fast.
Context {Op : Type -> Type} {E : Type} (fault : forall X, Op X -> X -> option E).

Definition faultless (c : call Op) : Prop := fault _ (call_op c) (call_answer c) = None.

(** A program is fail-fast when it stops at the first call that fails, returning
    that call's error: no later call is made and no error is made up or lost. *)
Definition fails_fast_run {A} (tr : list (call Op)) (r : outcome E A) : Prop :=
  match r with
  | Err e => exists tr' c, tr = tr' ++ [c] /\ Forall faultless tr' /\
               fault _ (call_op c) (call_answer c) = Some e
  | _ => Forall faultless tr
  end.

Class FailsFast {A} (p : prog Op E A) : Prop := fails_fast : wp p fails_fast_run.

(** One call that cannot fail; one call whose error is returned. *)
Class Total {X} (o : Op X) : Prop := total x : fault X o x = None.
Class Guards {X F} (conv : F -> E) (o : Op (result X F)) : Prop := {
  guards_ok x : fault _ o (ROk x) = None;
  guards_err e : fault _ o (RErr e) = Some (conv e);
}.

#[export] Instance ret_fails_fast {A} (a : A) : FailsFast (mret a).
Proof. cbn. constructor. Qed.
#[export] Instance ask_fails_fast {X} (o : Op X) : Total o -> FailsFast (ask o).
Proof. intros Ho x. cbn. repeat constructor. apply Ho. Qed.
#[export] Instance try_fails_fast {X F} (conv : F -> E) (o : Op (result X F)) :
  Guards conv o -> FailsFast (try conv o).
Proof.
  intros Ho [x|e]; cbn.
  - repeat constructor. apply guards_ok.
  - exists [], (Call _ o (RErr e)). split; [done|]. split; [constructor | apply guards_err].
Qed.
#[export] Instance unwrap_fails_fast {X} (o : option X) : FailsFast (unwrap o).
Proof. destruct o; constructor. Qed.
#[export] Instance bind_fails_fast {A B} (p : prog Op E A) (f : A -> prog Op E B) :
  FailsFast p -> (forall a, FailsFast (f a)) -> FailsFast (p ≫= f).
Proof.
  intros Hp Hf. apply wp_bind. eapply wp_mono; [|apply Hp].
  intros tr [a|e|] Htr; cbn; [|done..].
  eapply wp_mono; [|apply Hf]. intros tr' [b|e|] Htr'; cbn in *.
  - by apply Forall_app.
  - destruct Htr' as (t & c & -> & Ht & Hc). exists (tr ++ t), c.
    split; [by rewrite app_assoc|]. split; [by apply Forall_app | done].
  - by apply Forall_app.
Qed.
End fail_fast.

(** ** Order and content of calls *)
Section order.
Context {Op : Type -> Type} {E : Type}.

(** [Follows mark p plan Q]: the calls of [p], as far as [mark] shows them, go
    through [plan] from its start; all of it when [p] returns a value, which
    satisfies [Q]. *)
Definition marks {K} (mark : forall X, Op X -> list K) (tr : list (call Op)) : list K :=
  tr ≫= fun c => mark _ (call_op c).

Definition Follows {K A} (mark : forall X, Op X -> list K) (p : prog Op E A) (plan : list K)
    (Q : A -> Prop) : Prop :=
  wp p (fun tr r =>
    match r with
    | Ok a => marks mark tr = plan /\ Q a
    | _ => marks mark tr `prefix_of` plan
    end).

Lemma follows_ret {K A} (mark : forall X, Op X -> list K) (a : A) (Q : A -> Prop) :
  Q a -> Follows mark (mret a) [] Q.
Proof. by split. Qed.

Lemma follows_ask {K X} (mark : forall X, Op X -> list K) (o : Op X) k (Q : X -> Prop) :
  mark X o = [k] -> (forall x, Q x) -> Follows mark (ask o) [k] Q.
Proof. intros Hk HQ x. cbn. by rewrite Hk. Qed.

Lemma follows_try {K F X} (mark : forall X, Op X -> list K) (conv : F -> E) (o : Op (result X F)) k
    (Q : X -> Prop) :
  mark _ o = [k] -> (forall x, Q x) -> Follows mark (try conv o) [k] Q.
Proof. intros Hk HQ [x|e]; cbn; by rewrite Hk. Qed.

Lemma follows_unwrap {K X} (mark : forall X, Op X -> list K) (o : option X) (Q : X -> Prop) :
  (forall x, Q x) -> Follows mark (unwrap o) [] Q.
Proof. intros HQ. destruct o; cbn; [by split | done]. Qed.

Lemma follows_bind {K A B} (mark : forall X, Op X -> list K) (p : prog Op E A)
    (f : A -> prog Op E B) plan1 plan2 (Q : A -> Prop) (R : B -> Prop) :
  Follows mark p plan1 Q -> (forall a, Q a -> Follows mark (f a) plan2 R) ->
  Follows mark (p ≫= f) (plan1 ++ plan2) R.
Proof.
  intros Hp Hf. apply wp_bind. eapply wp_mono; [|exact Hp].
  intros tr [a|e|]; cbn; [|by apply prefix_app_r..].
  intros [<- Ha]. eapply wp_mono; [|apply (Hf a Ha)].
  unfold marks. intros tr' [b|e|]; cbn; rewrite bind_app; [by intros [-> ?] | by apply prefix_app..].
Qed.

(** One call, then the rest. *)
Lemma follows_bind_ask {K X B} (mark : forall X, Op X -> list K) (o : Op X) k
    (f : X -> prog Op E B) plan (R : B -> Prop) :
  mark X o = [k] -> (forall x, Follows mark (f x) plan R) ->
  Follows mark (ask o ≫= f) (k :: plan) R.
Proof.
  intros Hk Hf. apply (follows_bind mark _ _ [k] plan (fun _ => True)); [by apply follows_ask | auto].
Qed.

Lemma follows_bind_try {K X F B} (mark : forall X, Op X -> list K) (conv : F -> E)
    (o : Op (result X F)) k (f : X -> prog Op E B) plan (R : B -> Prop) :
  mark _ o = [k] -> (forall x, Follows mark (f x) plan R) ->
  Follows mark (try conv o ≫= f) (k :: plan) R.
Proof.
  intros Hk Hf. apply (follows_bind mark _ _ [k] plan (fun _ => True)); [by apply follows_try | auto].
Qed.

Lemma follows_bind_unwrap {K X B} (mark : forall X, Op X -> list K) (o : option X)
    (f : X -> prog Op E B) plan (R : B -> Prop) :
  (forall x, Follows mark (f x) plan R) -> Follows mark (unwrap o ≫= f) plan R.
Proof.
  intros Hf. apply (follows_bind mark _ _ [] plan (fun _ => True)); [by apply follows_unwrap | auto].
Qed.

Lemma follows_failed {K A} (mark : forall X, Op X -> list K) e plan (Q : A -> Prop) :
  Follows mark (Failed e) plan Q.
Proof. apply prefix_nil. Qed.

(** Calls that [mark] does not show. *)
Lemma follows_silent {K A} (mark : forall X, Op X -> list K) (p : prog Op E A) :
  wp p (fun tr _ => Forall (fun c => mark _ (call_op c) = []) tr) ->
  Follows mark p [] (fun _ => True).
Proof.
  intros Hp. eapply wp_mono; [|exact Hp]. cbn. intros tr r Htr.
  assert (marks mark tr = []) as ->; [|by destruct r].
  unfold marks. induction Htr as [|c tr Hc _ IH]; cbn; [done|]. by rewrite Hc, IH.
Qed.

Lemma follows_bind_silent {K A B} (mark : forall X, Op X -> list K) (p : prog Op E A)
    (f : A -> prog Op E B) plan (R : B -> Prop) :
  wp p (fun tr _ => Forall (fun c => mark _ (call_op c) = []) tr) ->
  (forall a, Follows mark (f a) plan R) -> Follows mark (p ≫= f) plan R.
Proof.
  intros Hp Hf. apply (follows_bind mark p f [] plan (fun _ => True)); [by apply follows_silent | auto].
Qed.

Lemma follows_bind_ask_silent {K X B} (mark : forall X, Op X -> list K) (o : Op X)
    (f : X -> prog Op E B) plan (R : B -> Prop) :
  mark X o = [] -> (forall x, Follows mark (f x) plan R) -> Follows mark (ask o ≫= f) plan R.
Proof. intros Hk. apply follows_bind_silent. intros x. by repeat constructor. Qed.

Lemma follows_bind_try_silent {K X F B} (mark : forall X, Op X -> list K) (conv : F -> E)
    (o : Op (result X F)) (f : X -> prog Op E B) plan (R : B -> Prop) :
  mark _ o = [] -> (forall x, Follows mark (f x) plan R) -> Follows mark (try conv o ≫= f) plan R.
Proof. intros Hk. apply follows_bind_silent. intros [x|e]; by repeat constructor. Qed.

(** [Calls P p]: every call [p] makes, with its answer, satisfies [P]. *)
Class Calls {A} (P : call Op -> Prop) (p : prog Op E A) : Prop :=
  calls : wp p (fun tr _ => Forall P tr).

#[export] Instance calls_ret {A} P (a : A) : Calls P (mret a).
Proof. constructor. Qed.
Lemma calls_ask {X} P (o : Op X) : (forall x, P (Call _ o x)) -> Calls P (ask o).
Proof. intros H x. cbn. by repeat constructor. Qed.
Lemma calls_try {X F} P (conv : F -> E) (o : Op (result X F)) :
  (forall x, P (Call _ o x)) -> Calls P (try conv o).
Proof. intros H [x|e]; cbn; by repeat constructor. Qed.
#[export] Instance calls_unwrap {X} P (o : option X) : Calls P (unwrap o).
Proof. destruct o; constructor. Qed.
#[export] Instance calls_bind {A B} P (p : prog Op E A) (f : A -> prog Op E B) :
  Calls P p -> (forall a, Calls P (f a)) -> Calls P (p ≫= f).
Proof.
  intros Hp Hf. apply wp_bind. eapply wp_mono; [|exact Hp].
  intros tr [a|e|] Htr; cbn; [|done..].
  eapply wp_mono; [|apply Hf]. intros tr' r Htr'. by apply Forall_app.
Qed.
Lemma calls_done_bind {A B} P (a : A) (f : A -> prog Op E B) :
  Calls P (f a) -> Calls P (Done a ≫= f).
Proof. done. Qed.

(** [AtMost n p]: whatever the host answers, [p] ends within [n] calls. *)
Definition AtMost {A} (n : nat) (p : prog Op E A) : Prop :=
  wp p (fun tr _ => (length tr <= n)%nat).

Lemma at_most_weaken {A} n m (p : prog Op E A) : (n <= m)%nat -> AtMost n p -> AtMost m p.
Proof. intros Hn. apply wp_mono. cbn. lia. Qed.
Lemma at_most_ret {A} n (a : A) : AtMost n (mret a).
Proof. cbn. lia. Qed.
Lemma at_most_failed {A} n e : AtMost (A := A) n (Failed e).
Proof. cbn. lia. Qed.
Lemma at_most_unwrap {X} n (o : option X) : AtMost n (unwrap o).
Proof. destruct o; cbn; lia. Qed.
Lemma at_most_ask {X} n (o : Op X) : AtMost (S n) (ask o).
Proof. intros x. cbn. lia. Qed.
Lemma at_most_try {X F} n (conv : F -> E) (o : Op (result X F)) : AtMost (S n) (try conv o).
Proof. intros [x|e]; cbn; lia. Qed.
Lemma at_most_bind {A B} n m (p : prog Op E A) (f : A -> prog Op E B) :
  AtMost n p -> (forall a, AtMost m (f a)) -> AtMost (n + m) (p ≫= f).
Proof.
  intros Hp Hf. apply wp_bind. eapply wp_mono; [|exact Hp].
  intros tr [a|e|] Htr; cbn in *; [|lia..].
  eapply wp_mono; [|apply Hf]. intros tr' r Htr'. cbn in *. rewrite length_app. lia.
Qed.
Lemma at_most_bind_ask {X B} n (o : Op X) (f : X -> prog Op E B) :
  (forall x, AtMost n (f x)) -> AtMost (S n) (ask o ≫= f).
Proof. apply (at_most_bind 1 n), at_most_ask. Qed.
Lemma at_most_bind_try {X F B} n (conv : F -> E) (o : Op (result X F)) (f : X -> prog Op E B) :
  (forall x, AtMost n (f x)) -> AtMost (S n) (try conv o ≫= f).
Proof. apply (at_most_bind 1 n), at_most_try. Qed.
Lemma at_most_bind_unwrap {X B} n (o : option X) (f : X -> prog Op E B) :
  (forall x, AtMost n (f x)) -> AtMost n (unwrap o ≫= f).
Proof. apply (at_most_bind 0 n), at_most_unwrap. Qed.

(** A program all of whose calls show on its plan makes no more calls than the plan
    has entries. *)
Lemma follows_at_most {K A} (mark : forall X, Op X -> list K) (p : prog Op E A) plan (Q : A -> Prop) :
  (forall X o, length (mark X o) = 1%nat) -> Follows mark p plan Q -> AtMost (length plan) p.
Proof.
  intros Hmark. apply wp_mono. intros tr r Hr.
  assert (Hlen : length (marks mark tr) = length tr).
  { clear Hr. unfold marks. induction tr as [|c tr IH]; [done|].
    cbn. rewrite length_app, Hmark. cbn. by f_equal. }
  rewrite <- Hlen. destruct r as [a|e|]; [by destruct Hr as [-> _] | by apply prefix_length..].
Qed.

(** What a call shows, where it shows something. *)
Definition agrees {K} (f : call Op -> option K) (k : K) (c : call Op) : Prop :=
  match f c with Some k' => k' = k | None => True end.

(** [PanicsOnlyIf K p]: when [p] panics, one of its calls was answered as [K]
    says; [steady] programs never panic. *)
Definition PanicsOnlyIf {A} (K : call Op -> Prop) (p : prog Op E A) : Prop :=
  wp p (fun tr r => r = Panic -> Exists K tr).
Class Steady {A} (p : prog Op E A) : Prop := steady : PanicsOnlyIf (fun _ => False) p.

#[export] Instance ret_steady {A} (a : A) : Steady (mret a).
Proof. done. Qed.
#[export] Instance ask_steady {X} (o : Op X) : Steady (ask o).
Proof. done. Qed.
#[export] Instance try_steady {X F} (conv : F -> E) (o : Op (result X F)) : Steady (try conv o).
Proof. by intros [x|e]. Qed.

Lemma panics_bind {A B} K (p : prog Op E A) (f : A -> prog Op E B) :
  PanicsOnlyIf K p -> (forall a, PanicsOnlyIf K (f a)) -> PanicsOnlyIf K (p ≫= f).
Proof.
  intros Hp Hf. apply wp_bind. eapply wp_mono; [|exact Hp].
  intros tr [a|e|] Htr; cbn; [|done|auto].
  eapply wp_mono; [|apply Hf]. intros tr' r Htr' Hr. apply Exists_app. auto.
Qed.

#[export] Instance bind_steady {A B} (p : prog Op E A) (f : A -> prog Op E B) :
  Steady p -> (forall a, Steady (f a)) -> Steady (p ≫= f).
Proof. apply panics_bind. Qed.

Lemma steady_panics {A} K (p : prog Op E A) : Steady p -> PanicsOnlyIf K p.
Proof.
  intros Hp. eapply wp_mono; [|exact Hp]. cbn. intros tr r Hr Hpanic.
  eapply Exists_impl; [by apply Hr | done].
Qed.

(** After a call answered as [K] says, anything goes. *)
Lemma panics_try {X F B} K (conv : F -> E) (o : Op (result X F)) (f : X -> prog Op E B) :
  (forall x, K (Call _ o (ROk x)) \/ PanicsOnlyIf K (f x)) ->
  PanicsOnlyIf K (try conv o ≫= f).
Proof.
  intros Hf [x|e]; cbn; [|done]. destruct (Hf x) as [HK|Hx].
  - eapply wp_mono; [|exact (wp_any (f x))]. intros tr r _ _. by left.
  - eapply wp_mono; [|exact Hx]. cbn. intros tr r Hr Hp. right. auto.
Qed.
End order.

(** [follows_walk] goes through a program call by call, along its plan. *)
Ltac follows_walk := cbn [app]; repeat
  lazymatch goal with
  | |- Follows _ (mret _) [] _ => apply follows_ret
  | |- Follows _ (Failed _) _ _ => apply follows_failed
  | |- Follows _ (ask _) _ _ => apply follows_ask; [reflexivity|]
  | |- Follows _ (try _ _) _ _ => apply follows_try; [reflexivity|]
  | |- Follows _ (ask _ ≫= _) _ _ =>
      first [ apply follows_bind_ask_silent; [reflexivity|intros ?]
            | apply follows_bind_ask; [reflexivity|intros ?] ]
  | |- Follows _ (try _ _ ≫= _) _ _ =>
      first [ apply follows_bind_try_silent; [reflexivity|intros ?]
            | apply follows_bind_try; [reflexivity|intros ?] ]
  | |- Follows _ (unwrap _ ≫= _) _ _ => apply follows_bind_unwrap; intros ?
  end.

(** [calls_walk] goes through a program and leaves the calls to be judged. *)
Ltac calls_walk := repeat
  lazymatch goal with
  | |- Calls _ (mret _) => apply calls_ret
  | |- Calls _ (unwrap _) => apply calls_unwrap
  | |- Calls _ (ask _) => apply calls_ask; intros ?
  | |- Calls _ (try _ _) => apply calls_try; intros ?
  | |- Calls _ (_ ≫= _) => apply calls_bind; [|intros ?]
  | |- Calls _ _ => case_match
  end.

(** [count_walk] goes through a program and spends a budget of calls. *)
Ltac count_walk := repeat
  lazymatch goal with
  | |- AtMost _ (mret _) => apply at_most_ret
  | |- AtMost _ (Failed _) => apply at_most_failed
  | |- AtMost _ (unwrap _) => apply at_most_unwrap
  | |- AtMost _ (ask _) => apply at_most_ask
  | |- AtMost _ (try _ _) => apply at_most_try
  | |- AtMost _ (ask _ ≫= _) => apply at_most_bind_ask; intros ?
  | |- AtMost _ (try _ _ ≫= _) => apply at_most_bind_try; intros ?
  | |- AtMost _ (unwrap _ ≫= _) => apply at_most_bind_unwrap; intros ?
  end.
