(* ===== verification/NodeHost.v ===== *)
(** * The node's view of polkadot-sdk

    The types and functions of polkadot-sdk, cumulus and polkadot that the node
    uses, as parameters, and the calls it makes into them, as a signature [Op] for
    the programs of [Interaction.v].  Pure accessors and constructors are fields of
    [Sdk]; what starts, spawns, connects, reads or prints is a call of [Op]. *)
From S2P Require Import Prelude Interaction.

Local Open Scope Z_scope.

(** The extension fields of a chain specification ([node/src/chain_spec.rs]). *)
Record Extensions : Type := { relay_chain : string; para_id : Z }.

#[export] Instance Extensions_eq_dec : EqDecision Extensions.
Proof. solve_decision. Defined.

(** ** Types and pure functions *)
Class Sdk : Type := {
  (* configuration *)
  Configuration : Type;
  TelemetryEndpoints : Type;
  HeapAllocStrategy : Type;
  WasmExecutionMethod : Type;
  PoolOptions : Type;
  Registry : Type;
  DatabaseSource : Type;
  Path : Type;
  NetworkConfiguration : Type;
  DynSpec : Type;
  TokioHandle : Type;
  telemetry_endpoints : Configuration -> option TelemetryEndpoints;
  endpoints_is_empty : TelemetryEndpoints -> bool;
  default_heap_pages : Configuration -> option Z;
  wasm_method : Configuration -> WasmExecutionMethod;
  max_runtime_instances : Configuration -> Z;
  runtime_cache_size : Configuration -> Z;
  is_authority : Configuration -> bool;
  transaction_pool_options : Configuration -> PoolOptions;
  prometheus_registry : Configuration -> option Registry;
  network_config : Configuration -> NetworkConfiguration;
  offchain_worker_enabled : Configuration -> bool;
  chain_spec : Configuration -> DynSpec;
  database : Configuration -> DatabaseSource;
  database_path : DatabaseSource -> option Path;
  base_path_of : Configuration -> Path;
  path_join : Path -> string -> Path;
  tokio_handle : Configuration -> TokioHandle;
  get_extension : DynSpec -> option Extensions;
  prepare_node_config : Configuration -> Configuration;
  (* the wasm executor *)
  ExecutorBuilder : Type;
  Executor : Type;
  DEFAULT_HEAP_ALLOC_STRATEGY : HeapAllocStrategy;
  Static_extra_pages : Z -> HeapAllocStrategy;
  executor_builder : ExecutorBuilder;
  with_execution_method : WasmExecutionMethod -> ExecutorBuilder -> ExecutorBuilder;
  with_onchain_heap_alloc_strategy : HeapAllocStrategy -> ExecutorBuilder -> ExecutorBuilder;
  with_offchain_heap_alloc_strategy : HeapAllocStrategy -> ExecutorBuilder -> ExecutorBuilder;
  with_max_runtime_instances : Z -> ExecutorBuilder -> ExecutorBuilder;
  with_runtime_cache_size : Z -> ExecutorBuilder -> ExecutorBuilder;
  build_executor : ExecutorBuilder -> Executor;
  (* services *)
  Client : Type;
  Backend : Type;
  KeystoreContainer : Type;
  Keystore : Type;
  keystore_of : KeystoreContainer -> Keystore;
  TaskManager : Type;
  TelemetryWorker : Type;
  TelemetryWorkerHandle : Type;
  Telemetry : Type;
  TelemetryHandle : Type;
  worker_handle : TelemetryWorker -> TelemetryWorkerHandle;
  telemetry_handle : Telemetry -> TelemetryHandle;
  Pool : Type;
  ParachainBlockImport : Type;
  block_import_new : Client -> Backend -> ParachainBlockImport;
  ImportQueue : Type;
  ImportQueueService : Type;
  import_queue_service : ImportQueue -> ImportQueueService;
  CollatorOptions : Type;
  CollatorPair : Type;
  RelayChainInterface : Type;
  NetConfig : Type;
  full_network_configuration : NetworkConfiguration -> option Registry -> NetConfig;
  Network : Type;
  SystemRpcTx : Type;
  TxHandlerController : Type;
  SyncService : Type;
  OffchainDb : Type;
  offchain_storage : Backend -> option OffchainDb;
  OffchainWorkers : Type;
  OverseerHandle : Type;
  Hash : Type;
  Code : Type;
  CodeHash : Type;
  BlockchainError : Type;
  code_at : Client -> Hash -> result Code BlockchainError;
  validation_code_hash : Code -> CodeHash;
  Proposer : Type;
  proposer_new : TaskManager -> Client -> Pool -> option Registry -> option TelemetryHandle -> Proposer;
  CollatorService : Type;
  (* hardware benchmarks *)
  HwBench : Type;
  HardwareFailures : Type;
  check_hardware : HwBench -> bool -> result unit HardwareFailures;
  (* rpc *)
  RpcModule : Type;
  RpcMethods : Type;
  RpcError : Type;
  RpcHandlers : Type;
  rpc_module_new : RpcModule;
  rpc_system : Client -> Pool -> RpcMethods;
  rpc_transaction_payment : Client -> RpcMethods;
  rpc_merge : RpcModule -> RpcMethods -> result RpcModule RpcError;
  (* errors *)
  ServiceError : Type;
  TelemetryError : Type;
  RelayChainError : Type;
  OffchainError : Type;
  service_from_telemetry : TelemetryError -> ServiceError;
  service_from_offchain : OffchainError -> ServiceError;
  service_application : RelayChainError -> ServiceError;
}.

(** ** What the node hands over

    The parameter structs of the calls below, with the fields the node fills in. *)
Section params.
Context `{Sdk}.

(** The block announcement closure: it forwards to the sync service. *)
Inductive AnnounceBlock : Type := announce_with (s : SyncService).

(** The duration constants are in milliseconds. *)
Definition from_millis (n : Z) : Z := n.
Definition from_secs (n : Z) : Z := n * 1000.

Inductive DARecoveryProfile : Type := Collator | FullNode.
Inductive CollatorSybilResistance : Type := Resistant | Unresistant.

Record CollatorServiceParams : Type := {
  cs_client : Client; cs_task_manager : TaskManager; cs_announce_block : AnnounceBlock;
}.

Record AuraParams : Type := {
  block_import : ParachainBlockImport;
  para_client : Client;
  para_backend : Backend;
  relay_client : RelayChainInterface;
  code_hash_provider : Hash -> option CodeHash;
  aura_keystore : Keystore;
  collator_key : CollatorPair;
  aura_para_id : Z;
  overseer_handle : OverseerHandle;
  aura_relay_chain_slot_duration : Z;
  proposer : Proposer;
  collator_service : CollatorServiceParams;
  authoring_duration : Z;
  reinitialize : bool;
  max_pov_percentage : option Z;
}.

Record PoolParams : Type := {
  pool_task_manager : TaskManager; pool_client : Client; pool_is_validator : bool;
  pool_options : PoolOptions; pool_registry : option Registry;
}.

Record ImportQueueParams : Type := {
  iq_client : Client; iq_block_import : ParachainBlockImport;
  iq_task_manager : TaskManager; iq_registry : option Registry;
  iq_telemetry : option TelemetryHandle;
}.

Record BuildNetworkParams : Type := {
  bn_config : Configuration; bn_net_config : NetConfig; bn_client : Client;
  bn_pool : Pool; bn_para_id : Z; bn_relay : RelayChainInterface;
  bn_import_queue : ImportQueue; bn_sybil : CollatorSybilResistance;
}.

Record OffchainOptions : Type := {
  ow_client : Client; ow_keystore : option Keystore; ow_db : option OffchainDb;
  ow_pool : option Pool; ow_network : Network; ow_is_validator : bool;
  ow_enable_http : bool;
}.

Record SpawnTasksParams : Type := {
  st_rpc_builder : unit -> result RpcModule RpcError;
  st_client : Client; st_pool : Pool; st_config : Configuration; st_keystore : Keystore;
  st_backend : Backend; st_network : Network; st_sync : SyncService;
  st_system_rpc : SystemRpcTx; st_tx_handler : TxHandlerController;
  st_telemetry : option Telemetry;
}.

Record RelayTasksParams : Type := {
  rt_client : Client; rt_announce : AnnounceBlock; rt_para_id : Z;
  rt_relay : RelayChainInterface; rt_profile : DARecoveryProfile;
  rt_import_queue : ImportQueueService; rt_slot_duration : Z;
  rt_recovery_handle : OverseerHandle; rt_sync : SyncService;
}.

(** The tasks the node spawns itself. *)
Inductive task : Type :=
| telemetry_run (w : TelemetryWorker)
| offchain_run (o : OffchainWorkers) (c : Client)
| initialize_hwbench_telemetry (t : TelemetryHandle) (b : HwBench)
| aura_run (p : AuraParams).

(** ** The calls of the service *)
Inductive Op : Type -> Type :=
| TelemetryWorker_new (buffer : Z) : Op (result TelemetryWorker TelemetryError)
| new_telemetry (w : TelemetryWorkerHandle) (e : TelemetryEndpoints) : Op Telemetry
| new_full_parts (c : Configuration) (t : option TelemetryHandle) (e : Executor)
    (record_import : bool) :
    Op (result (Client * Backend * KeystoreContainer * TaskManager) ServiceError)
| spawn (essential : bool) (tm : TaskManager) (name : string) (group : option string)
    (t : task) : Op unit
| build_pool (p : PoolParams) : Op Pool
| fully_verifying_import_queue (p : ImportQueueParams) : Op ImportQueue
| build_relay_chain_interface (polkadot para : Configuration)
    (w : option TelemetryWorkerHandle) (tm : TaskManager) (o : CollatorOptions)
    (b : option HwBench) :
    Op (result (RelayChainInterface * option CollatorPair) RelayChainError)
| build_network (p : BuildNetworkParams) :
    Op (result (Network * SystemRpcTx * TxHandlerController * SyncService) ServiceError)
| OffchainWorkers_new (o : OffchainOptions) : Op (result OffchainWorkers OffchainError)
| spawn_tasks (tm : TaskManager) (p : SpawnTasksParams) : Op (result RpcHandlers ServiceError)
| print_hwbench (b : HwBench) : Op unit
| warn_hardware (f : HardwareFailures) : Op unit
| get_overseer_handle (r : RelayChainInterface) : Op (result OverseerHandle RelayChainError)
| start_relay_chain_tasks (tm : TaskManager) (p : RelayTasksParams) : Op (result unit ServiceError).

(** The service error each failed call stands for. *)
Definition service_fault (X : Type) (o : Op X) : X -> option ServiceError :=
  match o in Op X return X -> option ServiceError with
  | TelemetryWorker_new _ => fun r =>
      match r with ROk _ => None | RErr e => Some (service_from_telemetry e) end
  | new_full_parts _ _ _ _ => fun r => match r with ROk _ => None | RErr e => Some e end
  | build_relay_chain_interface _ _ _ _ _ _ => fun r =>
      match r with ROk _ => None | RErr e => Some (service_application e) end
  | build_network _ => fun r => match r with ROk _ => None | RErr e => Some e end
  | OffchainWorkers_new _ => fun r =>
      match r with ROk _ => None | RErr e => Some (service_from_offchain e) end
  | spawn_tasks _ _ => fun r => match r with ROk _ => None | RErr e => Some e end
  | get_overseer_handle _ => fun r =>
      match r with ROk _ => None | RErr e => Some (service_application e) end
  | start_relay_chain_tasks _ _ => fun r => match r with ROk _ => None | RErr e => Some e end
  | _ => fun _ => None
  end.

End params.
