(* ===== verification/Service.v ===== *)
(** * Starting the node's services

    [node/src/service.rs] and [node/src/rpc.rs]: the partial components shared by
    every chain operation, and the full parachain node built on them. *)
From S2P Require Import Prelude Interaction NodeHost.

Local Open Scope Z_scope.

Section service.
Context `{Sdk}.

(** ** [rpc.rs] *)
Record FullDeps : Type := { deps_client : Client; deps_pool : Pool }.

Definition create_full (deps : FullDeps) : result RpcModule RpcError :=
  let module := rpc_module_new in
  match rpc_merge module (rpc_system (deps_client deps) (deps_pool deps)) with
  | RErr e => RErr e
  | ROk module => rpc_merge module (rpc_transaction_payment (deps_client deps))
  end.

(** ** Partial components *)
Record Service : Type := {
  s_client : Client;
  s_backend : Backend;
  s_import_queue : ImportQueue;
  s_keystore_container : KeystoreContainer;
  s_task_manager : TaskManager;
  s_transaction_pool : Pool;
  s_other : ParachainBlockImport * option Telemetry * option TelemetryWorkerHandle;
}.

Definition build_import_queue (client : Client) (block_import : ParachainBlockImport)
    (config : Configuration) (telemetry : option TelemetryHandle)
    (task_manager : TaskManager) : prog Op ServiceError ImportQueue :=
  ask (fully_verifying_import_queue {|
    iq_client := client; iq_block_import := block_import;
    iq_task_manager := task_manager; iq_registry := prometheus_registry config;
    iq_telemetry := telemetry |}).

(** The telemetry worker and its first telemetry, when endpoints are configured. *)
Definition new_telemetry_worker (config : Configuration) :
    prog Op ServiceError (option (TelemetryWorker * Telemetry)) :=
  match telemetry_endpoints config with
  | Some endpoints =>
      if endpoints_is_empty endpoints then mret None else
      worker ← try service_from_telemetry (TelemetryWorker_new 16);
      telemetry ← ask (new_telemetry (worker_handle worker) endpoints);
      mret (Some (worker, telemetry))
  | None => mret None
  end.

Definition heap_pages (config : Configuration) : HeapAllocStrategy :=
  match default_heap_pages config with
  | None => DEFAULT_HEAP_ALLOC_STRATEGY
  | Some h => Static_extra_pages (as_u32 h)
  end.

Definition parachain_executor (config : Configuration) : Executor :=
  build_executor
    (with_runtime_cache_size (runtime_cache_size config)
    (with_max_runtime_instances (max_runtime_instances config)
    (with_offchain_heap_alloc_strategy (heap_pages config)
    (with_onchain_heap_alloc_strategy (heap_pages config)
    (with_execution_method (wasm_method config) executor_builder))))).

Definition new_partial (config : Configuration) : prog Op ServiceError Service :=
  telemetry ← new_telemetry_worker config;
  let executor := parachain_executor config in
  parts ← try id (new_full_parts config (telemetry_handle ∘ snd <$> telemetry) executor true);
  let '(client, backend, keystore_container, task_manager) := parts in
  let telemetry_worker_handle := worker_handle ∘ fst <$> telemetry in
  telemetry ←
    match telemetry with
    | Some (worker, telemetry) =>
        ask (spawn false task_manager "telemetry" None (telemetry_run worker));;
        mret (Some telemetry)
    | None => mret None
    end;
  transaction_pool ← ask (build_pool {|
    pool_task_manager := task_manager; pool_client := client;
    pool_is_validator := is_authority config;
    pool_options := transaction_pool_options config;
    pool_registry := prometheus_registry config |});
  let block_import := block_import_new client backend in
  import_queue ← build_import_queue client block_import config
    (telemetry_handle <$> telemetry) task_manager;
  mret {|
    s_backend := backend; s_client := client; s_import_queue := import_queue;
    s_keystore_container := keystore_container; s_task_manager := task_manager;
    s_transaction_pool := transaction_pool;
    s_other := (block_import, telemetry, telemetry_worker_handle) |}.

(** ** Consensus *)
Definition start_consensus (client : Client) (backend : Backend)
    (block_import : ParachainBlockImport) (prometheus_registry : option Registry)
    (telemetry : option TelemetryHandle) (task_manager : TaskManager)
    (relay_chain_interface : RelayChainInterface) (transaction_pool : Pool)
    (keystore : Keystore) (relay_chain_slot_duration : Z) (para_id : Z)
    (collator_key : CollatorPair) (overseer_handle : OverseerHandle)
    (announce_block : AnnounceBlock) : prog Op ServiceError unit :=
  let proposer :=
    proposer_new task_manager client transaction_pool prometheus_registry telemetry in
  let collator_service := {|
    cs_client := client; cs_task_manager := task_manager;
    cs_announce_block := announce_block |} in
  let params := {|
    block_import := block_import;
    para_client := client;
    para_backend := backend;
    relay_client := relay_chain_interface;
    code_hash_provider := fun block_hash =>
      match code_at client block_hash with
      | ROk c => Some (validation_code_hash c)
      | RErr _ => None
      end;
    aura_keystore := keystore;
    collator_key := collator_key;
    aura_para_id := para_id;
    overseer_handle := overseer_handle;
    aura_relay_chain_slot_duration := relay_chain_slot_duration;
    proposer := proposer;
    collator_service := collator_service;
    authoring_duration := from_millis 2000;
    reinitialize := false;
    max_pov_percentage := None;
  |} in
  ask (spawn true task_manager "aura" None (aura_run params));;
  mret tt.

(** ** The parachain node *)
Definition start_offchain_workers (config : Configuration) (params : Service)
    (network : Network) : prog Op ServiceError unit :=
  if offchain_worker_enabled config then
    offchain_workers ← try service_from_offchain (OffchainWorkers_new {|
      ow_client := s_client params;
      ow_keystore := Some (keystore_of (s_keystore_container params));
      ow_db := offchain_storage (s_backend params);
      ow_pool := Some (s_transaction_pool params);
      ow_network := network;
      ow_is_validator := is_authority config;
      ow_enable_http := false |});
    ask (spawn false (s_task_manager params) "offchain-workers-runner" (Some "offchain-work")
      (offchain_run offchain_workers (s_client params)))
  else mret tt.

Definition report_hwbench (task_manager : TaskManager) (validator : bool)
    (telemetry : option Telemetry) (hwbench : option HwBench) : prog Op ServiceError unit :=
  match hwbench with
  | None => mret tt
  | Some hwbench =>
      ask (print_hwbench hwbench);;
      match check_hardware hwbench false with
      | RErr err => if validator then ask (warn_hardware err) else mret tt
      | ROk _ => mret tt
      end;;
      match telemetry with
      | Some telemetry =>
          ask (spawn false task_manager "telemetry_hwbench" None
            (initialize_hwbench_telemetry (telemetry_handle telemetry) hwbench))
      | None => mret tt
      end
  end.

Definition start_parachain_node (parachain_config polkadot_config : Configuration)
    (collator_options : CollatorOptions) (para_id : Z) (hwbench : option HwBench) :
    prog Op ServiceError (TaskManager * Client) :=
  let parachain_config := prepare_node_config parachain_config in
  params ← new_partial parachain_config;
  let '(block_import, telemetry, telemetry_worker_handle) := s_other params in
  let prometheus_registry := prometheus_registry parachain_config in
  let net_config :=
    full_network_configuration (network_config parachain_config) prometheus_registry in
  let client := s_client params in
  let backend := s_backend params in
  let task_manager := s_task_manager params in
  relay ← try service_application (build_relay_chain_interface polkadot_config
    parachain_config telemetry_worker_handle task_manager collator_options hwbench);
  let '(relay_chain_interface, collator_key) := relay in
  let validator := is_authority parachain_config in
  let transaction_pool := s_transaction_pool params in
  let import_queue_service := import_queue_service (s_import_queue params) in
  net ← try id (build_network {|
    bn_config := parachain_config; bn_net_config := net_config; bn_client := client;
    bn_pool := transaction_pool; bn_para_id := para_id; bn_relay := relay_chain_interface;
    bn_import_queue := s_import_queue params; bn_sybil := Resistant |});
  let '(network, system_rpc_tx, tx_handler_controller, sync_service) := net in
  start_offchain_workers parachain_config params network;;
  let rpc_builder (_ : unit) :=
    create_full {| deps_client := client; deps_pool := transaction_pool |} in
  _rpc ← try id (spawn_tasks task_manager {|
    st_rpc_builder := rpc_builder; st_client := client; st_pool := transaction_pool;
    st_config := parachain_config;
    st_keystore := keystore_of (s_keystore_container params);
    st_backend := backend; st_network := network; st_sync := sync_service;
    st_system_rpc := system_rpc_tx; st_tx_handler := tx_handler_controller;
    st_telemetry := telemetry |});
  report_hwbench task_manager validator telemetry hwbench;;
  let announce_block := announce_with sync_service in
  let relay_chain_slot_duration := from_secs 6 in
  overseer_handle ← try service_application (get_overseer_handle relay_chain_interface);
  try id (start_relay_chain_tasks task_manager {|
    rt_client := client; rt_announce := announce_block; rt_para_id := para_id;
    rt_relay := relay_chain_interface;
    rt_profile := if validator then Collator else FullNode;
    rt_import_queue := import_queue_service;
    rt_slot_duration := relay_chain_slot_duration;
    rt_recovery_handle := overseer_handle; rt_sync := sync_service |});;
  (if validator then
     collator_key ← unwrap collator_key;
     start_consensus client backend block_import prometheus_registry
       (telemetry_handle <$> telemetry) task_manager relay_chain_interface
       transaction_pool (keystore_of (s_keystore_container params))
       relay_chain_slot_duration para_id collator_key overseer_handle announce_block
   else mret tt);;
  mret (task_manager, client).
End service.
