(* ===== verification/ServiceProps.v ===== *)
(** * Guarantees of the node's start-up

    For every host: the order of the start-up calls, the handling of their
    errors, the one panic, and the agreement of the arguments that several calls
    share, with each other and with the runtime. *)
From S2P Require Import Prelude Frame Constants Interaction NodeHost Service.

Local Open Scope Z_scope.

(** ** The order of a start-up *)
Inductive stage : Type :=
| TelemetryStarted | TelemetryOpened | PartsBuilt | PoolBuilt | ImportQueueBuilt
| RelayChainReached | NetworkBuilt | OffchainWorkersBuilt | RpcAndTasksSpawned
| HwbenchPrinted | HardwareWarned | OverseerFound | RelayTasksStarted
| Spawned (essential : bool) (name : string).

#[export] Instance stage_eq_dec : EqDecision stage.
Proof. solve_decision. Defined.

Section stages.
Context `{Sdk}.

Definition stage_of (X : Type) (o : Op X) : list stage :=
  match o with
  | TelemetryWorker_new _ => [TelemetryStarted]
  | new_telemetry _ _ => [TelemetryOpened]
  | new_full_parts _ _ _ _ => [PartsBuilt]
  | spawn e _ n _ _ => [Spawned e n]
  | build_pool _ => [PoolBuilt]
  | fully_verifying_import_queue _ => [ImportQueueBuilt]
  | build_relay_chain_interface _ _ _ _ _ _ => [RelayChainReached]
  | build_network _ => [NetworkBuilt]
  | OffchainWorkers_new _ => [OffchainWorkersBuilt]
  | spawn_tasks _ _ => [RpcAndTasksSpawned]
  | print_hwbench _ => [HwbenchPrinted]
  | warn_hardware _ => [HardwareWarned]
  | get_overseer_handle _ => [OverseerFound]
  | start_relay_chain_tasks _ _ => [RelayTasksStarted]
  end.

(** Telemetry runs when there are endpoints. *)
Definition telemetry_enabled (c : Configuration) : bool :=
  match telemetry_endpoints c with Some e => negb (endpoints_is_empty e) | None => false end.

Definition when (b : bool) (l : list stage) : list stage := if b then l else [].

Definition partial_plan (c : Configuration) : list stage :=
  when (telemetry_enabled c) [TelemetryStarted; TelemetryOpened] ++ [PartsBuilt] ++
  when (telemetry_enabled c) [Spawned false "telemetry"] ++ [PoolBuilt; ImportQueueBuilt].

Definition below_reference (b : HwBench) : bool :=
  match check_hardware b false with RErr _ => true | ROk _ => false end.

Definition hwbench_plan (c : Configuration) (b : option HwBench) : list stage :=
  match b with
  | None => []
  | Some b => [HwbenchPrinted] ++ when (below_reference b && is_authority c) [HardwareWarned] ++
              when (telemetry_enabled c) [Spawned false "telemetry_hwbench"]
  end.

Definition node_plan (c : Configuration) (b : option HwBench) : list stage :=
  partial_plan c ++ [RelayChainReached; NetworkBuilt] ++
  when (offchain_worker_enabled c) [OffchainWorkersBuilt; Spawned false "offchain-workers-runner"] ++
  [RpcAndTasksSpawned] ++ hwbench_plan c b ++ [OverseerFound; RelayTasksStarted] ++
  when (is_authority c) [Spawned true "aura"].

Lemma new_telemetry_worker_follows c :
  Follows stage_of (new_telemetry_worker c)
    (when (telemetry_enabled c) [TelemetryStarted; TelemetryOpened])
    (fun t => bool_decide (is_Some t) = telemetry_enabled c).
Proof.
  unfold new_telemetry_worker, telemetry_enabled.
  destruct (telemetry_endpoints c) as [e|]; [destruct (endpoints_is_empty e)|];
    cbn [negb when]; by follows_walk.
Qed.

(** The telemetry of the partial components exists when it is enabled. *)
Definition has_telemetry (c : Configuration) (s : Service) : Prop :=
  bool_decide (is_Some (s_other s).1.2) = telemetry_enabled c.

Lemma new_partial_follows c :
  Follows stage_of (new_partial c) (partial_plan c) (has_telemetry c).
Proof.
  unfold new_partial, partial_plan, build_import_queue.
  eapply follows_bind; [apply new_telemetry_worker_follows|]. intros telemetry Ht.
  follows_walk. destruct x as [[[client backend] keystore] tm].
  eapply (follows_bind _ _ _ _ _ (fun t => bool_decide (is_Some t) = telemetry_enabled c)).
  - destruct telemetry as [[worker telemetry]|]; rewrite <- Ht; cbn [bool_decide when]; by follows_walk.
  - intros t Ht'. by follows_walk.
Qed.

Lemma start_offchain_workers_follows c p n :
  Follows stage_of (start_offchain_workers c p n)
    (when (offchain_worker_enabled c) [OffchainWorkersBuilt; Spawned false "offchain-workers-runner"])
    (fun _ => True).
Proof.
  unfold start_offchain_workers. destruct (offchain_worker_enabled c); cbn [when]; by follows_walk.
Qed.

Lemma report_hwbench_follows c tm t b :
  bool_decide (is_Some t) = telemetry_enabled c ->
  Follows stage_of (report_hwbench tm (is_authority c) t b) (hwbench_plan c b) (fun _ => True).
Proof.
  intros Ht. unfold report_hwbench, hwbench_plan, below_reference.
  destruct b as [b|]; [|by apply follows_ret]. follows_walk.
  eapply (follows_bind _ _ _ _ _ (fun _ => True)).
  - destruct (check_hardware b false), (is_authority c); cbn [andb when]; by follows_walk.
  - intros [] _. rewrite <- Ht. destruct t; cbn; by follows_walk.
Qed.

Lemma start_parachain_node_follows pc rc opts pid b :
  Follows stage_of (start_parachain_node pc rc opts pid b)
    (node_plan (prepare_node_config pc) b) (fun _ => True).
Proof.
  unfold start_parachain_node, node_plan. set (c := prepare_node_config pc).
  eapply follows_bind; [apply new_partial_follows|]. intros s Hs.
  unfold has_telemetry in Hs. destruct (s_other s) as [[bi t] wh]; cbn in Hs.
  follows_walk. destruct x as [relay key]. follows_walk. destruct x as [[[net rpc] txc] sync].
  eapply follows_bind; [apply start_offchain_workers_follows|]. intros _ _. follows_walk.
  eapply follows_bind; [by apply report_hwbench_follows|]. intros _ _. follows_walk.
  rewrite <- (app_nil_r (when _ [Spawned true "aura"])).
  eapply (follows_bind _ _ _ _ [] (fun _ => True)); [|by intros; apply follows_ret].
  destruct (is_authority c); cbn [when]; by follows_walk.
Qed.

(** Every call is a stage, so no start-up makes more calls than its plan has. *)
Lemma stage_of_one X (o : Op X) : length (stage_of X o) = 1%nat.
Proof. by destruct o. Qed.

Lemma new_partial_at_most c : AtMost 6 (new_partial c).
Proof.
  eapply at_most_weaken; [|eapply follows_at_most; [apply stage_of_one | apply new_partial_follows]].
  unfold partial_plan. destruct (telemetry_enabled c); cbn; lia.
Qed.

Lemma start_parachain_node_at_most pc rc opts pid b :
  AtMost 17 (start_parachain_node pc rc opts pid b).
Proof.
  eapply at_most_weaken;
    [|eapply follows_at_most; [apply stage_of_one | apply start_parachain_node_follows]].
  unfold node_plan, partial_plan, hwbench_plan. rewrite !length_app.
  destruct (telemetry_enabled _), (offchain_worker_enabled _), b as [b|], (is_authority _);
    try destruct (below_reference b); cbn; lia.
Qed.
End stages.

(** ** Guarantees *)
Section guarantees.
Context `{Sdk} {S : Type} (h : host Op S).
Implicit Types (pc rc : Configuration) (opts : CollatorOptions) (b : option HwBench) (s : S).

(** C14: the order of a start-up is fixed.  Whatever the host answers, the calls of
    [start_parachain_node] go through the plan of its configuration from its
    start, and through all of it when the node comes up: components first, then
    the relay chain, the network, the optional offchain workers, RPC, the relay
    chain tasks, and last, for an authority and for nobody else, the essential
    [aura] task that authors blocks. *)
Theorem startup_order pc rc opts pid b s :
  let '(tr, r) := interp h (start_parachain_node pc rc opts pid b) s in
  match r with
  | Ok _ => marks stage_of tr = node_plan (prepare_node_config pc) b
  | _ => marks stage_of tr `prefix_of` node_plan (prepare_node_config pc) b
  end.
Proof.
  pose proof (wp_interp h _ _ s (start_parachain_node_follows pc rc opts pid b)) as Hw.
  destruct (interp _ _ _) as [tr [a|e|]]; cbn in *; [apply Hw | done..].
Qed.

#[local] Hint Extern 1 (Guards _ _ _) => (split; intros; reflexivity) : typeclass_instances.
#[local] Hint Extern 1 (Total _ _) => (intros ?; reflexivity) : typeclass_instances.

#[export] Instance new_partial_fails_fast c : FailsFast service_fault (new_partial c).
Proof.
  unfold new_partial, new_telemetry_worker, build_import_queue.
  repeat first [ apply _ | apply bind_fails_fast; [|intros ?] | case_match ].
Qed.

#[export] Instance start_parachain_node_fails_fast pc rc opts pid b :
  FailsFast service_fault (start_parachain_node pc rc opts pid b).
Proof.
  unfold start_parachain_node, start_offchain_workers, report_hwbench, start_consensus.
  repeat first [ apply _ | apply bind_fails_fast; [|intros ?] | case_match ].
Qed.

(** C18: a start-up fails fast and says why.  If it returns an error, the last call
    it made failed with that error (a relay chain or telemetry error in its
    service wrapping) and every call before succeeded; if it returns the node or
    panics, no call failed. *)
Theorem startup_fails_fast pc rc opts pid b s :
  let '(tr, r) := interp h (start_parachain_node pc rc opts pid b) s in
  fails_fast_run service_fault tr r.
Proof.
  pose proof (wp_interp h _ _ s (start_parachain_node_fails_fast pc rc opts pid b)) as Hw.
  by destruct (interp _ _ _).
Qed.
(** The relay chain answered without a collator key. *)
Definition keyless (c : call Op) : Prop :=
  exists polkadot para w tm o b relay,
    c = Call _ (build_relay_chain_interface polkadot para w tm o b) (ROk (relay, None)).

#[local] Hint Extern 2 (Steady (match _ with _ => _ end)) => case_match : typeclass_instances.

#[export] Instance new_partial_steady c : Steady (new_partial c).
Proof. unfold new_partial, new_telemetry_worker, build_import_queue. repeat (apply bind_steady; [|intros ?]); repeat case_match; apply _. Qed.

Lemma start_parachain_node_panics pc rc opts pid b :
  PanicsOnlyIf (fun c => keyless c /\ is_authority (prepare_node_config pc) = true)
    (start_parachain_node pc rc opts pid b).
Proof.
  unfold start_parachain_node. apply panics_bind; [apply steady_panics, _|]. intros s.
  destruct (s_other s) as [[bi t] wh].
  apply panics_try. intros [relay key].
  destruct key as [k|]; [|destruct (is_authority (prepare_node_config pc))].
  2:{ left. split; [|done]. repeat eexists. }
  all: right; apply steady_panics; unfold start_offchain_workers, report_hwbench, start_consensus.
  all: repeat first [ apply bind_steady; [|intros ?] | case_match ]; apply _.
Qed.

(** C27: a start-up has exactly one way to panic: the node is an authority and the
    relay chain interface came without a collator key.  A full node never
    panics, and an authority that gets its key does not either. *)
Theorem startup_panics_only_keyless pc rc opts pid b s :
  let '(tr, r) := interp h (start_parachain_node pc rc opts pid b) s in
  r = Panic -> is_authority (prepare_node_config pc) = true /\ Exists keyless tr.
Proof.
  pose proof (wp_interp h _ _ s (start_parachain_node_panics pc rc opts pid b)) as Hw.
  destruct (interp _ _ _) as [tr r]; cbn in *. intros Hr. specialize (Hw Hr).
  split; [apply Exists_exists in Hw as (? & _ & _ & ?); done|].
  eapply Exists_impl; [exact Hw | by intros ? []].
Qed.

(** ** Arguments that several calls share *)

(** The role a call is told, where it is told one. *)
Definition told_role (c : call Op) : option bool :=
  match call_op c with
  | build_pool p => Some (pool_is_validator p)
  | OffchainWorkers_new o => Some (ow_is_validator o)
  | start_relay_chain_tasks _ p =>
      Some match rt_profile p with Collator => true | FullNode => false end
  | spawn _ _ _ _ (aura_run _) => Some true
  | warn_hardware _ => Some true
  | _ => None
  end.

(** The parachain a call is told. *)
Definition para_of (X : Type) (o : Op X) : option Z :=
  match o with
  | build_network p => Some (bn_para_id p)
  | start_relay_chain_tasks _ p => Some (rt_para_id p)
  | spawn _ _ _ _ (aura_run p) => Some (aura_para_id p)
  | _ => None
  end.
Definition told_para (c : call Op) : option Z := para_of _ (call_op c).

Ltac walk_start := unfold start_parachain_node, new_partial, new_telemetry_worker,
  build_import_queue, start_offchain_workers, report_hwbench, start_consensus; calls_walk.

(** The node plays one role.  The transaction pool, the offchain workers and
    the recovery profile of the relay chain tasks are told the role of the
    prepared configuration, and only an authority authors blocks or is warned
    about its hardware. *)
Theorem startup_role_consistent pc rc opts pid b s :
  Forall (agrees told_role (is_authority (prepare_node_config pc)))
    (interp h (start_parachain_node pc rc opts pid b) s).1.
Proof.
  apply (wp_interp h _ (fun tr _ => Forall _ tr)).
  change (Calls (agrees told_role (is_authority (prepare_node_config pc)))
    (start_parachain_node pc rc opts pid b)).
  walk_start; unfold agrees, told_role; cbn; try done; by destruct (is_authority _).
Qed.

Lemma start_parachain_node_para pc rc opts pid b :
  Calls (agrees told_para pid) (start_parachain_node pc rc opts pid b).
Proof. by walk_start. Qed.

(** The node serves one parachain: the network, the relay chain tasks and the
    block author are told the para id it was started with. *)
Theorem startup_para_consistent pc rc opts pid b s :
  Forall (agrees told_para pid) (interp h (start_parachain_node pc rc opts pid b) s).1.
Proof.
  apply (wp_interp h _ (fun tr _ => Forall _ tr)). apply start_parachain_node_para.
Qed.

(** The slot of the relay chain and the authoring time a call is told, in
    milliseconds. *)
Definition told_slot (c : call Op) : option Z :=
  match call_op c with
  | start_relay_chain_tasks _ p => Some (rt_slot_duration p)
  | spawn _ _ _ _ (aura_run p) => Some (aura_relay_chain_slot_duration p)
  | _ => None
  end.
Definition told_authoring (c : call Op) : option Z :=
  match call_op c with
  | spawn _ _ _ _ (aura_run p) => Some (authoring_duration p)
  | _ => None
  end.

(** The node's clock is the runtime's.  The relay chain slot the node's tasks
    and its block author use is the one the runtime's consensus hook is compiled
    with, and the time the author may compute is exactly the computation a block
    of this runtime may hold, and less than a block's slot. *)
Theorem startup_timing_matches_runtime `{WeightsOk} pc rc opts pid b s pov :
  fits 64 pov ->
  let tr := (interp h (start_parachain_node pc rc opts pid b) s).1 in
  Forall (agrees told_slot RELAY_CHAIN_SLOT_DURATION_MILLIS) tr /\
  Forall (fun c => forall d, told_authoring c = Some d ->
    d * WEIGHT_REF_TIME_PER_MILLIS = ref_time (MAXIMUM_BLOCK_WEIGHT pov) /\ d < SLOT_DURATION) tr.
Proof.
  intros Hpov tr. split; subst tr; apply (wp_interp h _ (fun tr _ => Forall _ tr)).
  - change (Calls (agrees told_slot RELAY_CHAIN_SLOT_DURATION_MILLIS)
      (start_parachain_node pc rc opts pid b)). by walk_start.
  - rewrite max_block_time, per_millis by done.
    change (Calls (fun c => forall d, told_authoring c = Some d ->
      d * 1_000_000_000 = 2_000_000_000_000 /\ d < SLOT_DURATION)
      (start_parachain_node pc rc opts pid b)).
    walk_start; unfold told_authoring; cbn; try done; by intros d [= <-].
Qed.
End guarantees.
