(* ===== verification/ChainSpec.v ===== *)
(** * The node's built-in chain specifications

    [node/src/chain_spec.rs]: the development and the local network, each naming
    one of the runtime's genesis presets ([Genesis.v]). *)
From S2P Require Import Prelude Constants Genesis NodeHost.
From S2P Require PalletConfigs.
From stdpp Require Import pretty.

Local Open Scope Z_scope.

Definition RELAY_CHAIN : string := "rococo-local".

(** The JSON values of the chain properties. *)
Inductive property : Type := PString (s : string) | PNumber (n : Z).

Inductive ChainType : Type := Development | Local.

Section chain_spec.
Context `{Sdk, GenesisHost}.

(** [Extensions::try_get]: the extension of a specification, where it has one. *)
Definition try_get (spec : DynSpec) : option Extensions := get_extension spec.

(** What the builder of [sc_chain_spec] is given before [build]. *)
Record spec_settings {Wasm : Type} : Type := {
  wasm_binary : Wasm;
  extensions : Extensions;
  spec_name : string;
  spec_id : string;
  chain_type : ChainType;
  genesis_preset : PresetId;
  protocol_id : option string;
  properties : gmap string property;
}.

(** The runtime's compiled code, where the build made it, and the builder. *)
Context {Wasm ChainSpec : Type} (WASM_BINARY : option Wasm).
Context (build : spec_settings (Wasm := Wasm) -> ChainSpec).

Definition spec_properties : gmap string property :=
  <["ss58Format" := PNumber 42]>
  (<["tokenDecimals" := PNumber 12]>
  (<["tokenSymbol" := PString "UNIT"]> ∅)).

(** The settings, and the specification; [None] is the panic of
    [WASM_BINARY.expect]. *)
Definition development_settings (wasm : Wasm) : spec_settings := {|
  wasm_binary := wasm;
  extensions := {| relay_chain := RELAY_CHAIN; para_id := PARACHAIN_ID |};
  spec_name := "Development";
  spec_id := "dev";
  chain_type := Development;
  genesis_preset := DEV_RUNTIME_PRESET;
  protocol_id := None;
  properties := spec_properties |}.

Definition development_chain_spec : option ChainSpec :=
  wasm ← WASM_BINARY; Some (build (development_settings wasm)).

Definition local_settings (wasm : Wasm) : spec_settings := {|
  wasm_binary := wasm;
  extensions := {| relay_chain := RELAY_CHAIN; para_id := PARACHAIN_ID |};
  spec_name := "Local Testnet";
  spec_id := "local_testnet";
  chain_type := Local;
  genesis_preset := LOCAL_TESTNET_RUNTIME_PRESET;
  protocol_id := Some "template-local";
  properties := spec_properties |}.

Definition local_chain_spec : option ChainSpec :=
  wasm ← WASM_BINARY; Some (build (local_settings wasm)).
End chain_spec.

Section facts.
Context `{GenesisHostOk} {Wasm : Type}.
Implicit Types wasm : Wasm.

(** The built-in specifications fit the runtime they ship: each names a preset
    the runtime serves, carries the para id of that preset's genesis state, and
    announces the runtime's address format and as many decimals as its currency
    unit has zeros; the two are told apart by id, type and preset. *)
Theorem builtin_specs_fit_runtime wasm s :
  s = development_settings wasm \/ s = local_settings wasm ->
  genesis_preset s ∈ preset_names /\
  para_id (extensions s) = parachain_id development_config_genesis /\
  para_id (extensions s) = parachain_id local_testnet_genesis /\
  (exists d, properties s !! "tokenDecimals" = Some (PNumber d) /\ UNIT = 10 ^ d) /\
  properties s !! "ss58Format" = Some (PNumber PalletConfigs.SS58Prefix) /\
  spec_id (development_settings wasm) <> spec_id (local_settings wasm) /\
  genesis_preset (development_settings wasm) <> genesis_preset (local_settings wasm).
Proof.
  intros Hs. unfold preset_names.
  split; [destruct Hs as [-> | ->]; cbn; set_solver|].
  split; [by destruct Hs as [-> | ->]|]. split; [by destruct Hs as [-> | ->]|].
  split; [exists 12; by destruct Hs as [-> | ->]|].
  split; [by destruct Hs as [-> | ->]|].
  split; [done | apply presets_differ].
Qed.
End facts.
