(* ===== verification/Build.v ===== *)
(** * Build scripts

    [node/build.rs] and [runtime/build.rs]: what building the node and the runtime asks
    of the build tools, for every set of features. *)
From S2P Require Import Prelude Constants Genesis NodeHost Interaction ChainSpec.

Local Open Scope Z_scope.

(** [substrate_wasm_builder]: a build may embed the hash of the runtime's metadata, which
    covers the symbol and the decimals of the currency. *)
Class WasmBuilders : Type := {
  WasmBuilder : Type;
  init_with_defaults : WasmBuilder;
  enable_metadata_hash : string -> Z -> WasmBuilder -> WasmBuilder;
  metadata_hash : WasmBuilder -> option (string * Z);
}.
Class WasmBuildersOk `{WasmBuilders} : Prop := {
  default_metadata_hash : metadata_hash init_with_defaults = None;
  enabled_metadata_hash s d b : metadata_hash (enable_metadata_hash s d b) = Some (s, d);
}.

Section build.
Context `{WasmBuilders}.

(** The calls into the build tools. *)
Inductive BuildOp : Type -> Type :=
| generate_cargo_keys : BuildOp unit
| rerun_if_git_head_changed : BuildOp unit
| wasm_build (b : WasmBuilder) : BuildOp unit
| wasm_build_using_defaults : BuildOp unit.

(** [node/build.rs] *)
Definition node_build_main {E} : prog BuildOp E unit :=
  ask generate_cargo_keys;;
  ask rerun_if_git_head_changed.

(** [runtime/build.rs]: one [main] for each combination of the two features. *)
Record features : Type := { std : bool; feature_metadata_hash : bool }.
Definition runtime_build_main {E} (f : features) : prog BuildOp E unit :=
  if std f && feature_metadata_hash f then
    ask (wasm_build (enable_metadata_hash "UNIT" 12 init_with_defaults))
  else if std f && negb (feature_metadata_hash f) then
    ask wasm_build_using_defaults
  else mret tt.

(** What a call has built, where it builds the runtime. *)
Definition built {X} (o : BuildOp X) : option WasmBuilder :=
  match o with
  | wasm_build b => Some b
  | wasm_build_using_defaults => Some init_with_defaults
  | _ => None
  end.

Lemma interp_ask {S E X} (h : host BuildOp S) (o : BuildOp X) s :
  (interp h (ask o : prog BuildOp E X) s).1 = [Call X o (h X o s).1].
Proof. cbn. by destruct (h X o s). Qed.

(** The node's script announces the version's keys, then asks to be run again when the
    version changes, whatever the tools answer. *)
Theorem node_build_calls {S E} (h : host BuildOp S) s : exists a b,
  interp h (node_build_main (E := E)) s =
    ([Call _ generate_cargo_keys a; Call _ rerun_if_git_head_changed b], Ok b).
Proof.
  cbn. destruct (h unit generate_cargo_keys s) as [a s1].
  destruct (h unit rerun_if_git_head_changed s1) as [b s2]. eauto.
Qed.

(** The runtime is built once, and only by a build with the standard library.  A
    release build, and no other, embeds the hash of the metadata, of the symbol and
    the decimals that both chain specifications of the node announce, and whose unit
    is the runtime's: the wallets [CheckMetadataHash] protects show the amounts the
    chain means. *)
Theorem release_metadata_matches `{!WasmBuildersOk} `{GenesisHost} {S E Wasm : Type}
    (h : host BuildOp S) f s (wasm : Wasm) settings :
  settings = development_settings wasm \/ settings = local_settings wasm ->
  if std f then
    exists b X (o : BuildOp X) a,
      (interp h (runtime_build_main (E := E) f) s).1 = [Call X o a] /\ built o = Some b /\
      if feature_metadata_hash f then
        exists symbol decimals, metadata_hash b = Some (symbol, decimals) /\
          properties settings !! "tokenSymbol" = Some (PString symbol) /\
          properties settings !! "tokenDecimals" = Some (PNumber decimals) /\
          UNIT = 10 ^ decimals
      else metadata_hash b = None
  else (interp h (runtime_build_main (E := E) f) s).1 = [].
Proof.
  intros Hs. destruct f as [[] []]; cbn [std feature_metadata_hash]; [| |done..].
  - exists (enable_metadata_hash "UNIT" 12 init_with_defaults).
    eexists _, (wasm_build _), _. split; [by apply interp_ask|]. split; [done|].
    exists "UNIT"%string, 12. split; [apply enabled_metadata_hash|].
    by destruct Hs as [-> | ->].
  - exists init_with_defaults.
    eexists _, wasm_build_using_defaults, _. split; [by apply interp_ask|]. split; [done|].
    apply default_metadata_hash.
Qed.
End build.
