(* ===== verification/Apis.v ===== *)
(** * The runtime APIs

    [runtime/src/apis.rs]: what the node can ask the runtime.  Most methods hand
    their arguments to a pallet or to the executive of polkadot-sdk, which enter as
    classes of operations; the answers the runtime decides itself (its version, its
    slot duration, its genesis presets, the fees, the errors it turns into panics)
    are related to the models of the other files. *)
From S2P Require Import Prelude Frame Constants Fees Genesis Configs PalletConfigs.
From S2P Require NodeHost ChainSpec Runtime.

Local Open Scope Z_scope.

(** ** What the APIs call

    The executive, the pallets and the helpers of polkadot-sdk.  Operations that run
    the runtime act on the chain state; the others read it. *)
Class ExecutiveOps (W E : Type) : Type := {
  Block : Type;
  Header : Type;
  Extrinsic : Type;
  Hash : Type;
  ExtrinsicInclusionMode : Type;
  ApplyExtrinsicResult : Type;
  TransactionSource : Type;
  TransactionValidity : Type;
  InherentData : Type;
  CheckInherentsResult : Type;
  TryRuntimeError : Type;
  UpgradeCheckSelect : Type;
  TryStateSelect : Type;
  Executive_execute_block : Block -> M W E unit;
  Executive_initialize_block : Header -> M W E ExtrinsicInclusionMode;
  Executive_apply_extrinsic : Extrinsic -> M W E ApplyExtrinsicResult;
  Executive_finalize_block : M W E Header;
  Executive_validate_transaction : TransactionSource -> Extrinsic -> Hash -> M W E TransactionValidity;
  Executive_offchain_worker : Header -> M W E unit;
  create_extrinsics : InherentData -> M W E (list Extrinsic);
  check_extrinsics : InherentData -> Block -> M W E CheckInherentsResult;
  TryWeight : Type;
  Executive_try_runtime_upgrade : UpgradeCheckSelect -> M W E (result TryWeight TryRuntimeError);
  Executive_try_execute_block :
    Block -> bool -> bool -> TryStateSelect -> M W E (result TryWeight TryRuntimeError);
}.

Class PalletOps (W : Type) `{Weights} : Type := {
  AuthorityId : Type;
  Nonce : Type;
  Account : Type;
  Slot : Type;
  IncludedHash : Type;
  CollationInfo : Type;
  CollationHeader : Type;
  KeyTypeId : Type;
  RawBytes : Type;
  Authorities : W -> list AuthorityId;
  account_nonce : Account -> W -> Nonce;
  ParachainSystem_collect_collation_info : CollationHeader -> W -> CollationInfo;
  SessionKeys_generate : option RawBytes -> W -> RawBytes * W;
  SessionKeys_decode_into_raw_public_keys : RawBytes -> option (list (RawBytes * KeyTypeId));
  OpaqueMetadata : Type;
  Runtime_metadata : OpaqueMetadata;
  Runtime_metadata_at_version : Z -> option OpaqueMetadata;
  Runtime_metadata_versions : list Z;
  ViewFunctionId : Type;
  ViewFunctionDispatchError : Type;
  Runtime_execute_view_function :
    ViewFunctionId -> RawBytes -> W -> result RawBytes ViewFunctionDispatchError;
}.

(** The transaction payment pallet, over the configuration the runtime gives it.  Its
    fee of a weight is that of at most a block's weight. *)
Class PaymentOps (W : Type) `{Weights} : Type := {
  Uxt : Type;
  Call : Type;
  RuntimeDispatchInfo : Type;
  FeeDetails : Type;
  query_info : TransactionPaymentConfig -> Uxt -> Z -> W -> RuntimeDispatchInfo;
  query_fee_details : TransactionPaymentConfig -> Uxt -> Z -> W -> FeeDetails;
  query_call_info : TransactionPaymentConfig -> Call -> Z -> W -> RuntimeDispatchInfo;
  query_call_fee_details : TransactionPaymentConfig -> Call -> Z -> W -> FeeDetails;
  payment_weight_to_fee : TransactionPaymentConfig -> Weight -> Weight -> Z;
  payment_length_to_fee : TransactionPaymentConfig -> Z -> Z;
}.
Class PaymentOpsOk (W : Type) `{PaymentOps W} : Prop := {
  payment_weight_spec cfg max_block w : exists v,
    ref_time v = Z.min (ref_time w) (ref_time max_block) /\
    payment_weight_to_fee cfg max_block w = weight_to_fee_of cfg v;
  payment_length_spec cfg n : payment_length_to_fee cfg n = length_to_fee_of cfg n;
}.

(** ** Versions *)
Section version.
Context {ApisVec : Type} (RUNTIME_API_VERSIONS : ApisVec).

Record RuntimeVersion : Type := {
  rv_spec_name : string;
  rv_impl_name : string;
  authoring_version : Z;
  spec_version : Z;
  impl_version : Z;
  rv_apis : ApisVec;
  transaction_version : Z;
  system_version : Z;
}.

Definition VERSION : RuntimeVersion := {|
  rv_spec_name := "parachain-template-runtime";
  rv_impl_name := "parachain-template-runtime";
  authoring_version := 1;
  spec_version := 1;
  impl_version := 0;
  rv_apis := RUNTIME_API_VERSIONS;
  transaction_version := 1;
  system_version := 1;
|}.

Record NativeVersion {Authors : Type} : Type := {
  runtime_version : RuntimeVersion;
  can_author_with : Authors;
}.
Definition native_version {Authors : Type} (none : Authors) : NativeVersion :=
  {| runtime_version := VERSION; can_author_with := none |}.

(** [Version] of [configs/mod.rs], which the system pallet reports. *)
Definition Version : RuntimeVersion := VERSION.

(** [Core::version] *)
Definition Core_version : RuntimeVersion := VERSION.
End version.

(** ** The methods that hand over *)
Section delegations.
Context {W E : Type} `{!ExecutiveOps W E} `{!Weights} `{!PalletOps W}.

Definition Core_execute_block (block : Block) : M W E unit := Executive_execute_block block.
Definition Core_initialize_block (header : Header) : M W E ExtrinsicInclusionMode :=
  Executive_initialize_block header.

Definition Metadata_metadata : OpaqueMetadata := Runtime_metadata.
Definition Metadata_metadata_at_version (version : Z) : option OpaqueMetadata :=
  Runtime_metadata_at_version version.
Definition Metadata_metadata_versions : list Z := Runtime_metadata_versions.

Definition execute_view_function (id : ViewFunctionId) (input : RawBytes) :
    M W E (result RawBytes ViewFunctionDispatchError) :=
  gets (Runtime_execute_view_function id input).

Definition BlockBuilder_apply_extrinsic (extrinsic : Extrinsic) : M W E ApplyExtrinsicResult :=
  Executive_apply_extrinsic extrinsic.
Definition BlockBuilder_finalize_block : M W E Header := Executive_finalize_block.
Definition BlockBuilder_inherent_extrinsics (data : InherentData) : M W E (list Extrinsic) :=
  create_extrinsics data.
Definition BlockBuilder_check_inherents (block : Block) (data : InherentData) :
    M W E CheckInherentsResult := check_extrinsics data block.

Definition validate_transaction (source : TransactionSource) (tx : Extrinsic) (block_hash : Hash) :
    M W E TransactionValidity := Executive_validate_transaction source tx block_hash.
Definition offchain_worker (header : Header) : M W E unit := Executive_offchain_worker header.

Definition generate_session_keys (seed : option RawBytes) : M W E RawBytes := fun w =>
  let '(keys, w') := SessionKeys_generate seed w in (Ok keys, w').
Definition decode_session_keys (encoded : RawBytes) : option (list (RawBytes * KeyTypeId)) :=
  SessionKeys_decode_into_raw_public_keys encoded.

Definition AccountNonceApi_account_nonce (account : Account) : M W E Nonce :=
  gets (account_nonce account).
Definition collect_collation_info (header : CollationHeader) : M W E CollationInfo :=
  gets (ParachainSystem_collect_collation_info header).

(** ** Consensus *)
Definition impl_slot_duration : Z := SLOT_DURATION.
Definition AuraApi_slot_duration : Z := impl_slot_duration.
Definition AuraApi_authorities : M W E (list AuthorityId) := gets Authorities.

(** [FixedVelocityConsensusHook], by its three parameters. *)
Context (FixedVelocityConsensusHook_can_build_upon : Z -> Z -> Z -> IncludedHash -> Slot -> W -> bool).

Definition ConsensusHook_can_build_upon : IncludedHash -> Slot -> W -> bool :=
  FixedVelocityConsensusHook_can_build_upon
    RELAY_CHAIN_SLOT_DURATION_MILLIS BLOCK_PROCESSING_VELOCITY UNINCLUDED_SEGMENT_CAPACITY.
Definition impl_can_build_upon (included_hash : IncludedHash) (slot : Slot) : W -> bool :=
  ConsensusHook_can_build_upon included_hash slot.
Definition AuraUnincludedSegmentApi_can_build_upon (included_hash : IncludedHash) (slot : Slot) :
    M W E bool := gets (impl_can_build_upon included_hash slot).

(** ** Trying an upgrade or a block

    [unwrap]: an error becomes a panic. *)
Definition unwrap {A X : Type} (r : result A X) : M W E A :=
  match r with ROk a => mret a | RErr _ => panic end.

Definition TryRuntime_on_runtime_upgrade `{!Perbills, !WeightShares, !BlockLimits}
    (MAX_POV_SIZE : Z) (checks : UpgradeCheckSelect) : M W E (TryWeight * Weight) :=
  r ← Executive_try_runtime_upgrade checks;
  weight ← unwrap r;
  limits ← expect (RuntimeBlockWeights MAX_POV_SIZE);
  mret (weight, max_block limits).

Definition TryRuntime_execute_block (block : Block) (state_root_check signature_check : bool)
    (select : TryStateSelect) : M W E TryWeight :=
  r ← Executive_try_execute_block block state_root_check signature_check select;
  unwrap r.
End delegations.

(** ** Fees

    [TransactionPaymentApi] and [TransactionPaymentCallApi]: both ask the payment
    pallet. *)
Section payment.
Context {W E : Type} `{!Weights, !Perbills, !FeePolynomials, !LengthFees} `{!PaymentOps W}.
Context `{!WeightShares, !BlockLimits}.
Context (MAX_POV_SIZE : Z).

(** [TransactionPayment::weight_to_fee] caps the weight by the largest block of
    [RuntimeBlockWeights]. *)
Definition TransactionPayment_weight_to_fee (w : Weight) : M W E Z :=
  limits ← expect (RuntimeBlockWeights MAX_POV_SIZE);
  mret (payment_weight_to_fee transaction_payment_config (max_block limits) w).

Definition TransactionPaymentApi_query_info (uxt : Uxt) (len : Z) : M W E RuntimeDispatchInfo :=
  gets (query_info transaction_payment_config uxt len).
Definition TransactionPaymentApi_query_fee_details (uxt : Uxt) (len : Z) : M W E FeeDetails :=
  gets (query_fee_details transaction_payment_config uxt len).
Definition TransactionPaymentApi_query_weight_to_fee (w : Weight) : M W E Z :=
  TransactionPayment_weight_to_fee w.
Definition TransactionPaymentApi_query_length_to_fee (len : Z) : Z :=
  payment_length_to_fee transaction_payment_config len.

Definition TransactionPaymentCallApi_query_call_info (call : Call) (len : Z) :
    M W E RuntimeDispatchInfo := gets (query_call_info transaction_payment_config call len).
Definition TransactionPaymentCallApi_query_call_fee_details (call : Call) (len : Z) :
    M W E FeeDetails := gets (query_call_fee_details transaction_payment_config call len).
Definition TransactionPaymentCallApi_query_weight_to_fee (w : Weight) : M W E Z :=
  TransactionPayment_weight_to_fee w.
Definition TransactionPaymentCallApi_query_length_to_fee (len : Z) : Z :=
  payment_length_to_fee transaction_payment_config len.

Context `{!WeightsOk, !PerbillsOk, !FeePolynomialsOk, !LengthFeesOk, !PaymentOpsOk W}.
Context `{!WeightSharesOk, !BlockLimitsOk}.

Lemma weight_fee_answer bw w st :
  fits 64 MAX_POV_SIZE -> RuntimeBlockWeights MAX_POV_SIZE = Some bw -> fits 64 (ref_time w) ->
  exists f, TransactionPayment_weight_to_fee w st = (Ok f, st) /\
    2 * Z.abs (1000 * f - 8 * Z.min (ref_time w) 2_000_000_000_000) <= 1000.
Proof.
  intros Hp Hb Hw. unfold TransactionPayment_weight_to_fee. rewrite Hb. cbn [expect].
  rewrite bind_ret_l, run_ret, (built_max_block _ Hp _ Hb).
  destruct (payment_weight_spec transaction_payment_config (MAXIMUM_BLOCK_WEIGHT MAX_POV_SIZE) w)
    as (v & Hv & Hf). unfold MAX. rewrite Hf. rewrite max_block_time in Hv by done. eexists. split; [done|].
  rewrite <- Hv. apply weight_to_fee_near. unfold fits in *. rewrite Hv. lia.
Qed.

(** C34: What wallets are told.  The fee of a weight is 8/1000 of its computation time, to
    the nearest unit, and never more than the 16 MILLI_UNITs of a full block, whatever
    the weight.  So the base weight of an extrinsic costs one MICRO_UNIT: a hundredth of
    the 1/10 MILLI_UNIT that the comment on the polynomial names.  The fee of a length is
    ten MICRO_UNITs per byte; and the two APIs give the same answers. *)
Theorem fee_queries bw w len st :
  fits 64 MAX_POV_SIZE -> RuntimeBlockWeights MAX_POV_SIZE = Some bw ->
  fits 64 (ref_time w) -> 0 <= len < 2 ^ 32 ->
  (exists f, TransactionPaymentApi_query_weight_to_fee w st = (Ok f, st) /\
     2 * Z.abs (1000 * f - 8 * Z.min (ref_time w) 2_000_000_000_000) <= 1000 /\
     f <= 16 * MILLI_UNIT) /\
  TransactionPaymentApi_query_weight_to_fee ExtrinsicBaseWeight st = (Ok MICRO_UNIT, st) /\
  100 * MICRO_UNIT = MILLI_UNIT / 10 /\
  TransactionPaymentApi_query_length_to_fee len = 10 * MICRO_UNIT * len /\
  TransactionPaymentCallApi_query_weight_to_fee w st = TransactionPaymentApi_query_weight_to_fee w st /\
  TransactionPaymentCallApi_query_length_to_fee len = TransactionPaymentApi_query_length_to_fee len.
Proof.
  intros Hp Hb Hw Hlen. unfold TransactionPaymentCallApi_query_weight_to_fee,
    TransactionPaymentCallApi_query_length_to_fee, TransactionPaymentApi_query_weight_to_fee,
    TransactionPaymentApi_query_length_to_fee.
  destruct (weight_fee_answer bw w st Hp Hb Hw) as (f & Hf & Hnear).
  destruct (weight_fee_answer bw ExtrinsicBaseWeight st Hp Hb) as (g & Hg & Hbase);
    [rewrite base_weight_time; solve_fits|].
  rewrite base_weight_time in Hbase.
  split; [exists f; split; [done|]; split; [done|]; unfold MILLI_UNIT; lia|].
  split; [rewrite Hg; do 2 f_equal; unfold MICRO_UNIT; lia|]. split; [done|].
  rewrite payment_length_spec, length_fee_exact by done. done.
Qed.
End payment.

(** ** Genesis

    [build_state] and [get_preset] of [genesis_builder_helper]: the second answers the
    default configuration when it is asked for no preset, and asks the runtime's
    function otherwise. *)
Class GenesisHelpers (W E : Type) `{GenesisHost} : Type := {
  build_state : Bytes -> M W E (result unit string);
  default_config_json : Bytes;
  get_preset_helper : option PresetId -> (PresetId -> M W E (option Bytes)) -> M W E (option Bytes);
}.
Class GenesisHelpersOk (W E : Type) `{GenesisHelpers W E} : Prop := {
  helper_default f : get_preset_helper None f = mret (Some default_config_json);
  helper_named id f : get_preset_helper (Some id) f = f id;
}.

Section genesis.
Context {W E : Type} `{GenesisHelpers W E}.
Context (json_patch : GenesisPatch -> Value) (to_string : Value -> option Bytes).

Definition GenesisBuilder_build_state (config : Bytes) : M W E (result unit string) :=
  build_state config.
Definition GenesisBuilder_get_preset (id : option PresetId) : M W E (option Bytes) :=
  get_preset_helper id (get_preset json_patch to_string).
Definition GenesisBuilder_preset_names : list PresetId := preset_names.

Context `{!GenesisHelpersOk W E} `{!GenesisHostOk}.

(** C37: The node's networks start.  Asked for the preset a built-in chain specification
    names, the runtime answers with the serialization of a well-formed genesis of
    the parachain that specification connects to; asked for any name it does not
    list it answers nothing, asked for no name the default configuration; and no
    request panics when serialization works. *)
Theorem node_genesis_served {Wasm : Type} (wasm : Wasm) s id (w : W) :
  (forall v, is_Some (to_string v)) ->
  s = ChainSpec.development_settings wasm \/ s = ChainSpec.local_settings wasm ->
  (exists g b, GenesisBuilder_get_preset (Some (ChainSpec.genesis_preset s)) w = (Ok (Some b), w) /\
     to_string (json_patch g) = Some b /\ genesis_ok g /\
     parachain_id g = NodeHost.para_id (ChainSpec.extensions s)) /\
  (id ∉ GenesisBuilder_preset_names -> GenesisBuilder_get_preset (Some id) w = (Ok None, w)) /\
  GenesisBuilder_get_preset None w = (Ok (Some default_config_json), w).
Proof.
  intros Hser Hs. unfold GenesisBuilder_get_preset, GenesisBuilder_preset_names.
  rewrite helper_default, !helper_named. pose proof presets_differ as Hne.
  split; [|split; [|done]].
  - destruct (Hser (json_patch development_config_genesis)) as [b Hb].
    exists development_config_genesis, b. split; [|split; [exact Hb|]].
    + destruct Hs as [-> | ->]; unfold get_preset; cbn [ChainSpec.genesis_preset
        ChainSpec.development_settings ChainSpec.local_settings];
        [rewrite (decide_False (P := DEV_RUNTIME_PRESET = LOCAL_TESTNET_RUNTIME_PRESET)) by done|];
        rewrite decide_True by done; change local_testnet_genesis with development_config_genesis;
        by rewrite Hb.
    + split; [apply development_ok | by destruct Hs as [-> | ->]].
  - intros Hid. unfold get_preset, preset_names in *.
    rewrite !not_elem_of_cons in Hid. destruct Hid as (Hd & Hl & _).
    by rewrite !decide_False.
Qed.
End genesis.

(** ** The unincluded segment

    [segment]: the number of blocks built and not yet included by the relay chain.
    An author asks the runtime before it builds. *)
Section unincluded.
Context {W E : Type} `{!Weights} `{!PalletOps W}.
Context (hook : Z -> Z -> Z -> IncludedHash -> Slot -> W -> bool) (segment : W -> Z).
(** the hook lets nobody build on a full segment *)
Context (hook_capacity : forall d v c h s w, hook d v c h s w = true -> segment w < c).

Inductive authoring : W -> W -> Prop :=
| author h s w w' :
    AuraUnincludedSegmentApi_can_build_upon (E := E) hook h s w = (Ok true, w) ->
    segment w' = segment w + 1 -> authoring w w'
| include w w' : segment w' <= segment w -> authoring w w'.

(** Whatever is built and included in whatever order, at most three blocks wait for
    inclusion, as long as every author asks the runtime first. *)
Theorem segment_bounded w w' :
  rtc authoring w w' -> segment w <= UNINCLUDED_SEGMENT_CAPACITY ->
  segment w' <= UNINCLUDED_SEGMENT_CAPACITY.
Proof.
  induction 1 as [w|w v w' Hstep _ IH]; [done|]. intros Hw. apply IH.
  destruct Hstep as [h s w v Hask Hv|w v Hv]; [|lia].
  injection Hask as Hask. apply hook_capacity in Hask. lia.
Qed.
End unincluded.

(** ** Trying an upgrade or a block: facts *)
Section try_runtime.
Context {W E : Type} `{!ExecutiveOps W E} `{!Weights, !Perbills, !WeightShares, !BlockLimits}.
Context `{!WeightSharesOk, !WeightsOk, !PerbillsOk, !BlockLimitsOk}.
Context (pov : Z) (pov_fits : fits 64 pov).

(** The try-runtime entry points turn every error of the executive into a panic and
    nothing else: they return exactly when the executive accepts, with its weight,
    an upgrade together with the two seconds and the proof size of a full block. *)
Theorem try_runtime_panics_on_error checks block rc sc sel w :
  is_Some (RuntimeBlockWeights pov) ->
  (forall e w1, Executive_try_runtime_upgrade checks w = (Ok (RErr e), w1) ->
     TryRuntime_on_runtime_upgrade pov checks w = (Panic, w1)) /\
  (forall x w1, Executive_try_runtime_upgrade checks w = (Ok (ROk x), w1) ->
     TryRuntime_on_runtime_upgrade pov checks w = (Ok (x, MAXIMUM_BLOCK_WEIGHT pov), w1)) /\
  (forall e w1, Executive_try_execute_block block rc sc sel w = (Ok (RErr e), w1) ->
     TryRuntime_execute_block block rc sc sel w = (Panic, w1)) /\
  (forall x w1, Executive_try_execute_block block rc sc sel w = (Ok (ROk x), w1) ->
     TryRuntime_execute_block block rc sc sel w = (Ok x, w1)).
Proof.
  intros [bw Hbw]. unfold TryRuntime_on_runtime_upgrade, TryRuntime_execute_block.
  repeat split; intros; rust_run;
    match goal with H : _ = (_, _) |- _ => rewrite H end; try done.
  rewrite Hbw. cbn [unwrap expect]. rust_run. by rewrite (built_max_block pov pov_fits bw Hbw).
Qed.
End try_runtime.

(** ** Benchmarks

    [runtime/src/benchmarks.rs]: the pallets with benchmarks, by crate name. *)
Definition benchmarks : list (string * Runtime.pallet) :=
  [("frame_system", Runtime.System); ("pallet_balances", Runtime.Balances);
   ("pallet_session", Runtime.Session); ("pallet_timestamp", Runtime.Timestamp);
   ("pallet_message_queue", Runtime.MessageQueue); ("pallet_sudo", Runtime.Sudo);
   ("pallet_collator_selection", Runtime.CollatorSelection);
   ("cumulus_pallet_parachain_system", Runtime.ParachainSystem);
   ("cumulus_pallet_xcmp_queue", Runtime.XcmpQueue);
   ("cumulus_pallet_weight_reclaim", Runtime.WeightReclaim)].

Definition benchmark_metadata {BenchmarkList StorageInfo : Type}
    (list_benchmark : string -> bool -> BenchmarkList) (storage_info : list StorageInfo)
    (extra : bool) : list BenchmarkList * list StorageInfo :=
  ((fun b => list_benchmark b.1 extra) <$> benchmarks, storage_info).

(** The hooks of the system pallet's benchmark of [set_code]: the parachain system pallet
    is told the length of the new code, cut to 32 bits, and must have reported in its
    last event that it stored it. *)
Section set_code.
Context {W E Byte BenchmarkError Event : Type}.
Context (initialize_for_set_code_benchmark : Z -> M W E unit).
Context (assert_last_event : Event -> M W E unit) (ValidationFunctionStored : Event).

Definition setup_set_code_requirements (code : list Byte) :
    M W E (result unit BenchmarkError) :=
  initialize_for_set_code_benchmark (Z.of_nat (length code) mod 2 ^ 32);;
  mret (ROk tt).
Definition verify_set_code : M W E unit := assert_last_event ValidationFunctionStored.

(** For any code a block can hold the pallet is told its length exactly. *)
Lemma setup_exact code w :
  Z.of_nat (length code) < 2 ^ 32 ->
  setup_set_code_requirements code w =
  (initialize_for_set_code_benchmark (Z.of_nat (length code));; mret (ROk tt)) w.
Proof. intros Hc. unfold setup_set_code_requirements. by rewrite Z.mod_small by lia. Qed.
End set_code.

Section benchmarking.
Context {BenchmarkConfig BenchmarkBatch : Type}.
(** [add_benchmark!] runs the benchmarks of a pallet the configuration asks for. *)
Context (config_pallet : BenchmarkConfig -> string).
Context (run_benchmark : BenchmarkConfig -> string -> result BenchmarkBatch string).

Fixpoint add_benchmarks (listed : list (string * Runtime.pallet)) (config : BenchmarkConfig)
    (batches : list BenchmarkBatch) : result (list BenchmarkBatch) string :=
  match listed with
  | [] => ROk batches
  | (name, _) :: listed =>
      if bool_decide (name = config_pallet config) then
        match run_benchmark config name with
        | ROk b => add_benchmarks listed config (batches ++ [b])
        | RErr e => RErr e
        end
      else add_benchmarks listed config batches
  end.

Definition dispatch_benchmark (config : BenchmarkConfig) : result (list BenchmarkBatch) string :=
  match add_benchmarks benchmarks config [] with
  | RErr e => RErr e
  | ROk batches =>
      match batches with
      | [] => RErr "Benchmark not found for this pallet."%string
      | _ => ROk batches
      end
  end.

Lemma add_benchmarks_unlisted listed config batches :
  config_pallet config ∉ listed.*1 -> add_benchmarks listed config batches = ROk batches.
Proof.
  induction listed as [|[name p] listed IH]; [done|]. cbn. rewrite not_elem_of_cons. intros [Hn Hl].
  rewrite bool_decide_false by congruence. auto.
Qed.

Lemma add_benchmarks_listed listed config batches :
  NoDup listed.*1 -> config_pallet config ∈ listed.*1 ->
  add_benchmarks listed config batches =
  match run_benchmark config (config_pallet config) with
  | ROk b => ROk (batches ++ [b])
  | RErr e => RErr e
  end.
Proof.
  induction listed as [|[name p] listed IH]; cbn; [by intros _ ?%elem_of_nil|].
  rewrite NoDup_cons, elem_of_cons. intros [Hn Hd] Hin. case_bool_decide as Hc.
  - subst. destruct (run_benchmark _ _); [|done]. by apply add_benchmarks_unlisted.
  - apply IH; [done|]. naive_solver.
Qed.

(** A benchmark request is answered with the one batch of a listed pallet, or the
    error of running it; a request for any other pallet is an error, and the two
    pallets of this repository are not listed. *)
Theorem benchmark_dispatch config :
  dispatch_benchmark config =
    (if bool_decide (config_pallet config ∈ benchmarks.*1) then
       match run_benchmark config (config_pallet config) with ROk b => ROk [b] | RErr e => RErr e end
     else RErr "Benchmark not found for this pallet."%string) /\
  (forall b, b ∈ benchmarks -> b.2 <> Runtime.SwarmRobotPallet /\ b.2 <> Runtime.TemplatePallet).
Proof.
  split.
  - unfold dispatch_benchmark. case_bool_decide as Hc.
    + rewrite add_benchmarks_listed; [by destruct (run_benchmark _ _)| |done].
      apply (bool_decide_unpack _). by vm_compute.
    + by rewrite add_benchmarks_unlisted.
  - apply Forall_forall. by repeat constructor.
Qed.
End benchmarking.
