(* ===== verification/Authoring.v ===== *)
(** * Building a block

    [runtime/src/apis.rs]: an author builds a block by asking the runtime: it opens the
    block ([Core::initialize_block]), applies transactions one by one
    ([BlockBuilder::apply_extrinsic]) and closes it ([BlockBuilder::finalize_block]).
    Everybody else executes the finished block ([Core::execute_block]), the relay
    chain behind the check of the author's seal.  The APIs of [Apis.v] are joined here
    to the executive of [Executive.v] and [Blocks.v], and the two ways are proved to
    agree. *)
From S2P Require Import Prelude Frame.
From S2P Require Swarm SwarmSpec SwarmProps Template TemplateProps Runtime Chain.
From S2P Require Apis.
From S2P Require Import Executive Blocks.

Local Open Scope Z_scope.

#[local] Existing Instances SwarmSpec.state_equiv SwarmSpec.state_equivalence.

(** ** Opening and closing a block

    What [execute_block] does at the start and the end of a block, in terms of what an
    author asks for.  A header has an opening part, which is there before the block is
    built (the parent, the number, the pre-runtime digest with the slot): it is all
    that initialization looks at, the state remembers it while the block is built, and
    finalization answers with a header that has it.  A block to import must have its
    inherents first and nothing else when the runtime says so, and the header that
    finalization computes. *)
Class BlockAuthoring (W Tx E R : Type) `{BlockExecutives W Tx E R} : Type := {
  Header_eq :: EqDecision Header;
  InclusionMode : Type;
  Opening : Type;
  opening : Header -> Opening;
  opened : W -> Opening;
  initialize : Header -> M W E InclusionMode;
  initial_checks : InclusionMode -> Block -> W -> bool;
  finalize : M W E Header;
}.
Class BlockAuthoringOk (W Tx E R : Type) `{BlockAuthoring W Tx E R}
    {Y : Type} `{!BlockHooks W Header Y} : Prop := {
  initialize_opening h h' w :
    opening h = opening h' -> initialize h w = initialize h' w /\ opening_raw h w = opening_raw h' w;
  initialize_opened h w m w1 :
    initialize h w = (Ok m, w1) -> opening_raw h w = false -> opened w1 = opening h;
  finalize_opened w h w1 :
    finalize w = (Ok h, w1) -> closing_raw w = false -> opening h = opened w;
  initialize_block_spec b w :
    initialize_block b w =
    (m ← initialize (header b); ok ← gets (initial_checks m b);
     if (ok : bool) then mret tt else panic) w;
  finish_block_spec b w :
    finish_block b w = (h ← finalize; if decide (h = header b) then mret tt else panic) w;
}.

(** The parts of the executive that no block passes through. *)
Class ExecutiveRest (W Tx E Blk Hdr : Type) : Type := {
  Hash : Type;
  TransactionSource : Type;
  TransactionValidity : Type;
  InherentData : Type;
  CheckInherentsResult : Type;
  TryRuntimeError : Type;
  UpgradeCheckSelect : Type;
  TryStateSelect : Type;
  TryWeight : Type;
  rest_validate_transaction : TransactionSource -> Tx -> Hash -> M W E TransactionValidity;
  rest_offchain_worker : Hdr -> M W E unit;
  rest_create_extrinsics : InherentData -> M W E (list Tx);
  rest_check_extrinsics : InherentData -> Blk -> M W E CheckInherentsResult;
  rest_try_runtime_upgrade : UpgradeCheckSelect -> M W E (result TryWeight TryRuntimeError);
  rest_try_execute_block :
    Blk -> bool -> bool -> TryStateSelect -> M W E (result TryWeight TryRuntimeError);
}.

Section authoring.
Context {W : Type} `{FrameSystem, !StorageLayer W}.
Context `{!Swarm.Config} `{!BoundedVec Swarm.Command} `{!Swarm.SwarmStorage W}.
Context `{!BlockNumbers} `{!Template.TemplateStorage W}.
Context `{!IntoDispatchError Swarm.Error} `{!IntoDispatchError Template.Error}.
Context {OtherCall : Type} (other_dispatch : OriginFor -> OtherCall -> M W DispatchError unit).
Context `{!Runtime.OtherPallets (W := W) (OtherCall := OtherCall)}.
Context {Tx E : Type} `{!TransactionExtensions W Tx E (outcome DispatchError unit)}.
Abbreviation Call := (OriginFor * Runtime.RuntimeCall (OtherCall := OtherCall))%type.
Abbreviation Result := (outcome DispatchError unit).
Context `{!Executives W Tx E DispatchError Call}.
Context `{!BlockExecutives W Tx E Result} `{!BlockAuthoring W Tx E Result}.
Context `{!BlockHooks W Header (OriginFor * Runtime.OwnCall)}.
Context `{!ParachainBlocks W Tx E Result} `{!ExecutiveRest W Tx E Block Header}.

(** [Executive], as [apis.rs] imports it from [lib.rs]. *)
#[export] Instance runtime_executive : Apis.ExecutiveOps W E := {|
  Apis.Block := Block;
  Apis.Header := Header;
  Apis.Extrinsic := Tx;
  Apis.Hash := Hash;
  Apis.ExtrinsicInclusionMode := InclusionMode;
  Apis.ApplyExtrinsicResult := Result;
  Apis.TransactionSource := TransactionSource;
  Apis.TransactionValidity := TransactionValidity;
  Apis.InherentData := InherentData;
  Apis.CheckInherentsResult := CheckInherentsResult;
  Apis.TryRuntimeError := TryRuntimeError;
  Apis.UpgradeCheckSelect := UpgradeCheckSelect;
  Apis.TryStateSelect := TryStateSelect;
  Apis.Executive_execute_block := Executive_execute_block other_dispatch;
  Apis.Executive_initialize_block := initialize;
  Apis.Executive_apply_extrinsic := apply_extrinsic other_dispatch;
  Apis.Executive_finalize_block := finalize;
  Apis.Executive_validate_transaction := rest_validate_transaction;
  Apis.Executive_offchain_worker := rest_offchain_worker;
  Apis.create_extrinsics := rest_create_extrinsics;
  Apis.check_extrinsics := rest_check_extrinsics;
  Apis.TryWeight := TryWeight;
  Apis.Executive_try_runtime_upgrade := rest_try_runtime_upgrade;
  Apis.Executive_try_execute_block := rest_try_execute_block;
|}.
Abbreviation Core_execute_block := (Apis.Core_execute_block (ExecutiveOps0 := runtime_executive)).
Abbreviation Core_initialize_block :=
  (Apis.Core_initialize_block (ExecutiveOps0 := runtime_executive)).
Abbreviation BlockBuilder_apply_extrinsic :=
  (Apis.BlockBuilder_apply_extrinsic (ExecutiveOps0 := runtime_executive)).
Abbreviation BlockBuilder_finalize_block :=
  (Apis.BlockBuilder_finalize_block (ExecutiveOps0 := runtime_executive)).

(** ** Authors

    Offered transactions, in order.  One that applies is in the block.  One that does
    not is left out and what it did is dropped, for an author calls the runtime in a
    transaction of its own; and it may leave out any, when time or space run out. *)
Inductive offers : list Tx -> W -> list Tx -> list Result -> W -> Prop :=
| offers_none w : offers [] w [] [] w
| offers_taken t ts w r w1 us rs w' :
    BlockBuilder_apply_extrinsic t w = (Ok r, w1) -> offers ts w1 us rs w' ->
    offers (t :: ts) w (t :: us) (r :: rs) w'
| offers_left t ts w us rs w' : offers ts w us rs w' -> offers (t :: ts) w us rs w'.

(** An author that opens a block with the header [h], offers [ts] and closes it has
    built [b] and ends in [w'], and nothing in the block came to write raw keys.  Putting
    inherents first and obeying the mode is its duty. *)
Definition authored (h : Header) (ts : list Tx) (w : W) (b : Block) (rs : list Result) (w' : W) :
    Prop :=
  exists mode w1 w2,
    Core_initialize_block h w = (Ok mode, w1) /\
    initial_checks mode b w1 = true /\
    offers ts w1 (extrinsics b) rs w2 /\
    BlockBuilder_finalize_block w2 = (Ok (header b), w') /\
    opening_raw h w || txs_raw other_dispatch (extrinsics b) w1 || closing_raw w2 = false.

Context `{!TransactionExtensionsOk W Tx E Result} `{!ExecutivesOk W Tx E DispatchError Call}.
Context `{!BlockExecutivesOk W Tx E Result} `{!BlockAuthoringOk W Tx E Result}.
Context `{!ParachainBlocksOk W Tx E Result}.
Context `{!StorageLayerOk W} `{!Swarm.SwarmStorageOk W} `{!Template.TemplateStorageOk W}.
Context `{!BoundedVecOk Swarm.Command Swarm.MaxGlobalCommands}.

(** ** The opening stays

    Nothing between the opening and the closing of a block writes its number, its
    parent or its pre-runtime digest, short of raw writes: not the extensions, not the
    other pallets, not the storage of the two pallets. *)
Definition same_opening (w v : W) : Prop := opened v = opened w.
#[export] Instance same_opening_preorder : PreOrder same_opening.
Proof. split; [by intros w|]. intros u v w Hu Hv. unfold same_opening in *. congruence. Qed.

Class OpeningApart : Prop := {
  extensions_keep_opened : ExtensionsKeep same_opening;
  other_keeps_opened o c w :
    Runtime.raw_writes o c w = false -> same_opening w (other_dispatch o c w).2;
  robots_keep_opened r u w : same_opening w (sm_insert Swarm.RegisteredRobots r u w);
  queue_keeps_opened q w : same_opening w (sv_put Swarm.GlobalCommandQueue q w);
  swarm_event_keeps_opened e w : same_opening w (es_deposit Swarm.SwarmEvents e w);
  something_keeps_opened v w : same_opening w (sv_put Template.Something v w);
  template_event_keeps_opened e w : same_opening w (es_deposit Template.TemplateEvents e w);
}.
Context `{!OpeningApart}.

Lemma dispatch_keeps_opened x w :
  Runtime.call_writes_raw x w = false ->
  same_opening w (Runtime.runtime_dispatch other_dispatch x w).2.
Proof.
  destruct x as [o [c|c|c]]; intros Hraw; [..|by apply other_keeps_opened].
  - rewrite (Runtime.runtime_dispatch_template other_dispatch o c w).
    apply (Template.template_dispatch_invariant (same_opening w)); [..|done].
    + intros s v Hv. etrans; [exact Hv|]. apply something_keeps_opened.
    + intros e v Hv. etrans; [exact Hv|]. apply template_event_keeps_opened.
  - rewrite (Runtime.runtime_dispatch_swarm_call other_dispatch o c w).
    apply (Swarm.swarm_dispatch_invariant (same_opening w)); [..|done].
    + intros r u v Hv. etrans; [exact Hv|]. apply robots_keep_opened.
    + intros q v Hv. etrans; [exact Hv|]. apply queue_keeps_opened.
    + intros e v Hv. etrans; [exact Hv|]. apply swarm_event_keeps_opened.
Qed.

Lemma applied_keeps_opened t w r w' :
  BlockBuilder_apply_extrinsic t w = (Ok r, w') ->
  Runtime.call_writes_raw (tx_call t) (dispatched_in t w) = false -> same_opening w w'.
Proof.
  intros Ha Hraw. apply (apply_extrinsic_Ok other_dispatch t w r w') in Ha.
  destruct (applied_around other_dispatch same_opening t w r w' extensions_keep_opened Ha) as [Hin Hout].
  etrans; [exact Hin|]. etrans; [|exact Hout]. by apply dispatch_keeps_opened.
Qed.

Lemma offers_keep_opened ts w us rs w' :
  offers ts w us rs w' -> txs_raw other_dispatch us w = false -> opened w' = opened w.
Proof.
  induction 1 as [| t ts w r w1 us rs w' Ha _ IH |]; intros Hraw; [done| |auto].
  cbn [txs_raw] in Hraw. apply orb_false_iff in Hraw as [Ht Hraw].
  pose proof (applied_keeps_opened _ _ _ _ Ha Ht) as Hw.
  change (apply_extrinsic (Tx := Tx) other_dispatch t w = (Ok r, w1)) in Ha. rewrite Ha in Hraw.
  etrans; [by apply IH | exact Hw].
Qed.

(** ** What is offered and what is in the block *)
Lemma offers_apply ts w us rs w' :
  offers ts w us rs w' -> apply_each BlockBuilder_apply_extrinsic us w = (Ok rs, w').
Proof.
  induction 1 as [| t ts w r w1 us rs w' Ha _ IH |]; [done| |done].
  apply apply_each_cons. eauto 10.
Qed.

Lemma apply_offers us w rs w' :
  apply_each BlockBuilder_apply_extrinsic us w = (Ok rs, w') -> offers us w us rs w'.
Proof.
  revert w rs. induction us as [|u us IH]; intros w rs Hus.
  { injection Hus as <- <-. constructor. }
  apply apply_each_cons in Hus as (r & rs' & w1 & -> & Hu & Hus). econstructor; eauto.
Qed.

Lemma offers_sublist ts w us rs w' : offers ts w us rs w' -> us `sublist_of` ts.
Proof. induction 1; by constructor. Qed.

Lemma import_eq_authored (b : Block) w w' :
  (Core_execute_block b w = (Ok tt, w') /\ block_raw other_dispatch b w = false) <->
  exists h ts rs, authored h ts w b rs w'.
Proof.
  unfold Apis.Core_execute_block; cbn [Apis.Executive_execute_block runtime_executive].
  unfold Executive_execute_block, block_raw. rewrite execute_block_spec. split.
  - intros [([] & w1 & Hi & Hb)%run_bind_Ok Hraw]. rewrite Hi in Hraw. cbn [snd] in Hraw.
    apply run_bind_Ok in Hb as (rs & w2 & Ht & Hf). rewrite Ht in Hraw. cbn [snd] in Hraw.
    rewrite initialize_block_spec in Hi. apply run_bind_Ok in Hi as (m & v & Hi & Hc).
    rewrite run_bind, run_gets in Hc. destruct (initial_checks m b v) eqn:Hm; [|done].
    injection Hc as ->.
    rewrite finish_block_spec in Hf. apply run_bind_Ok in Hf as (h & v' & Hf & Hh).
    destruct (decide (h = header b)) as [->|]; [|done]. injection Hh as ->.
    exists (header b), (extrinsics b), rs, m, w1, w2. split; [done|]. split; [done|].
    split; [by apply apply_offers|]. by split.
  - intros (h & ts & rs & m & w1 & w2 & Hi & Hc & Ho & Hf & Hraw).
    unfold Apis.Core_initialize_block, Apis.BlockBuilder_finalize_block in *.
    cbn [Apis.Executive_initialize_block Apis.Executive_finalize_block runtime_executive] in *.
    apply orb_false_iff in Hraw as [[Hr1 Hr2]%orb_false_iff Hr3].
    assert (opening (header b) = opening h) as Hopen.
    { rewrite (finalize_opened _ _ _ Hf Hr3), (offers_keep_opened _ _ _ _ _ Ho Hr2).
      by apply (initialize_opened h w m). }
    destruct (initialize_opening _ _ w Hopen) as [Hinit Hraw].
    assert (Hib : initialize_block b w = (Ok tt, w1)).
    { by rewrite initialize_block_spec, run_bind, Hinit, Hi, run_bind, run_gets, Hc. }
    apply offers_apply in Ho.
    change (apply_each (apply_extrinsic other_dispatch) (extrinsics b) w1 = (Ok rs, w2)) in Ho.
    rewrite run_bind, Hib. cbn [snd]. rewrite run_bind, Ho. cbn [snd].
    rewrite Hraw, Hr1, Hr2, Hr3. split; [|done].
    rewrite finish_block_spec, run_bind, Hf. by rewrite decide_True.
Qed.

(** What an author is answered and where it ends depends on the block alone. *)
Lemma authored_det h ts h' ts' w b rs rs' w1 w2 :
  authored h ts w b rs w1 -> authored h' ts' w b rs' w2 -> rs = rs' /\ w1 = w2.
Proof.
  intros (m & v1 & v2 & Hi & _ & Ho & Hf & Hraw) (m' & v1' & v2' & Hi' & _ & Ho' & Hf' & Hraw').
  apply orb_false_iff in Hraw as [[Hr1 Hr2]%orb_false_iff Hr3].
  apply orb_false_iff in Hraw' as [[Hr1' Hr2']%orb_false_iff Hr3'].
  assert (opening h = opening h') as Hopen.
  { rewrite <- (initialize_opened _ _ _ _ Hi Hr1), <- (initialize_opened _ _ _ _ Hi' Hr1').
    rewrite <- (offers_keep_opened _ _ _ _ _ Ho Hr2), <- (offers_keep_opened _ _ _ _ _ Ho' Hr2').
    by rewrite <- (finalize_opened _ _ _ Hf Hr3), <- (finalize_opened _ _ _ Hf' Hr3'). }
  unfold Apis.Core_initialize_block in Hi, Hi'; cbn in Hi, Hi'.
  destruct (initialize_opening _ _ w Hopen) as [Hinit _]. rewrite Hinit in Hi.
  rewrite Hi in Hi'. injection Hi' as <- <-. apply offers_apply in Ho, Ho'.
  rewrite Ho in Ho'. injection Ho' as <- <-. rewrite Hf in Hf'. by injection Hf' as <-.
Qed.

(** Authors and importers agree.  A block executes without raw writes, ending in a given
    state, exactly if an author that asks the runtime's APIs in the parent state could
    have built it, ending in that state: whatever header it opened the block with and
    whatever transactions it was offered.  The block's transactions are among those
    offered, in their order, and all authors of a block got the same answers to them: a
    node that imports the block ends where its author did. *)
Theorem import_iff_authored (b : Block) w w' :
  ((Core_execute_block b w = (Ok tt, w') /\ block_raw other_dispatch b w = false) <->
   exists h ts rs, authored h ts w b rs w') /\
  (forall h ts rs, authored h ts w b rs w' -> extrinsics b `sublist_of` ts) /\
  (forall h ts rs h' ts' rs' w1, authored h ts w b rs w' -> authored h' ts' w b rs' w1 ->
     rs = rs' /\ w' = w1).
Proof.
  split; [apply import_eq_authored|]. split.
  - intros h ts rs (m & w1 & w2 & _ & _ & Ho & _). by apply offers_sublist in Ho.
  - intros h ts rs h' ts' rs' w1. apply authored_det.
Qed.

(** ** Chains of authored blocks

    Every author starts where the last one ended, and an authority of that state seals
    what it built. *)
Inductive authored_chain : W -> list Block -> W -> Prop :=
| chain_here w : authored_chain w [] w
| chain_next h ts w b rs w1 s sealed bs w' :
    authored h ts w b rs w1 -> remove_seal sealed = Some (s, b) -> seal_verifies s b w = true ->
    authored_chain w1 bs w' -> authored_chain w (sealed :: bs) w'.

Lemma executor_iff_authored (sealed : Block) w w' :
  (BlockExecutor Core_execute_block sealed w = (Ok tt, w') /\ sealed_raw other_dispatch sealed w = false) <->
  exists h ts b rs s, authored h ts w b rs w' /\ remove_seal sealed = Some (s, b) /\
    seal_verifies s b w = true.
Proof.
  unfold sealed_raw. rewrite block_executor_spec.
  destruct (remove_seal sealed) as [[s b]|];
    [|split; [by intros [? _]|]; by intros (? & ? & ? & ? & ? & _ & ? & _)].
  destruct (seal_verifies s b w) eqn:Hv;
    [|split; [by intros [? _]|]; intros (? & ? & ? & ? & ? & _ & ? & ?); congruence].
  split.
  - intros (h & ts & rs & Ha)%import_eq_authored. eauto 10.
  - intros (h & ts & b' & rs & s' & Ha & [= <- <-] & _). apply import_eq_authored. eauto.
Qed.

Lemma executed_iff_chain (bs : list Block) w w' :
  ((exists us, apply_each (BlockExecutor Core_execute_block) bs w = (Ok us, w')) /\
   blocks_raw other_dispatch bs w = false) <->
  authored_chain w bs w'.
Proof.
  split.
  - intros [[us Hbs] Hraw]. revert w us Hbs Hraw.
    induction bs as [|sealed bs IH]; intros w us Hbs Hraw.
    { injection Hbs as _ <-. constructor. }
    apply apply_each_cons in Hbs as ([] & us' & w1 & _ & Hb & Hbs).
    cbn [blocks_raw] in Hraw. apply orb_false_iff in Hraw as [Hr Hraw].
    destruct (proj1 (executor_iff_authored sealed w w1) (conj Hb Hr))
      as (h & ts & b & rs & s & Ha & Hs & Hv).
    change (BlockExecutor (Executive_execute_block other_dispatch) sealed w = (Ok tt, w1)) in Hb.
    rewrite Hb in Hraw. econstructor; eauto.
  - induction 1 as [w|h ts w b rs w1 s sealed bs w' Ha Hs Hv _ [[us IH] IHr]];
      [split; [by exists []|done]|].
    destruct (proj2 (executor_iff_authored sealed w w1)) as [Hb Hr]; [by eauto 10|].
    split.
    + exists (tt :: us). apply apply_each_cons. by exists tt, us, w1.
    + cbn [blocks_raw]. rewrite Hr.
      change (BlockExecutor (Executive_execute_block other_dispatch) sealed w = (Ok tt, w1)) in Hb.
      by rewrite Hb.
Qed.

Context (bn_val : BlockNumber -> Z) `{!Runtime.StorageApart bn_val}.
Context `{!Runtime.OtherPalletsOk other_dispatch bn_val} `{!HooksOk other_dispatch bn_val}.

(** C7: What the network accepts is what its authors make.  Sealed blocks execute one
    after the other behind the seal check, with nobody writing raw keys in them, exactly
    if they are a chain of blocks that authors could have built through the APIs without
    raw writes, each starting where the last ended, and authorities sealed; so no honest
    author's block is refused, and a candidate the relay chain validates is such a chain
    unless raw keys are written in it.  And such a chain delivers: under the events its
    blocks log, the commands waiting before followed by those enqueued are, in order,
    those delivered, all to registered robots, followed by those still waiting. *)
Theorem accepted_iff_authored (bs : list Block) w w' :
  (((exists us, apply_each (BlockExecutor Core_execute_block) bs w = (Ok us, w')) /\
    blocks_raw other_dispatch bs w = false) <->
   authored_chain w bs w') /\
  (forall p v, validate_block other_dispatch p = Some v ->
     blocks_raw other_dispatch (params_blocks p) (params_state p) = false ->
     exists w2, authored_chain (params_state p) (params_blocks p) w2) /\
  (authored_chain w bs w' -> exists es, sealed_blocks other_dispatch w bs es w' /\
     Swarm.queue w ++ omap SwarmProps.enqueued es =
       omap SwarmProps.pulled es ++ Swarm.queue w' /\
     Forall (SwarmProps.event_ok (Swarm.registered w')) es).
Proof.
  split; [apply executed_iff_chain|]. split.
  - intros p v Hp Hraw. unfold validate_block in Hp. apply validate_spec in Hp as (us & w2 & Hp).
    exists w2. apply executed_iff_chain. eauto.
  - intros [[us Hbs] Hraw]%executed_iff_chain.
    apply (sealed_blocks_exist other_dispatch) in Hbs as [es Hes].
    exists es. split; [done|].
    by destruct (sealed_blocks_ok other_dispatch bn_val _ _ _ _ Hes Hraw).
Qed.
End authoring.
