(* ===== verification/Kinematics.v ===== *)
(** * How the client moves robots

    [swarmbase-ui/app/lib/utils.ts] and the three movements of
    [swarmbase-ui/app/page.tsx]: straight to the target for one robot, a potential
    field or a flock for several.  Numbers are IEEE binary64, the numbers of
    JavaScript, in the executable form of the standard library; [Math.hypot], which
    the language leaves to the implementation, is a parameter. *)
From S2P Require Import Prelude.
From Stdlib Require Import Floats.SpecFloat.

Local Open Scope Z_scope.

(** ** Numbers *)
Definition number : Type := spec_float.
Definition num (n : Z) : number := binary_normalize 53 1024 n 0 false.
Definition NaN : number := S754_nan.

Declare Scope js_scope.
Delimit Scope js_scope with js.
Bind Scope js_scope with number.
Infix "+" := (SFadd 53 1024) : js_scope.
Infix "-" := (SFsub 53 1024) : js_scope.
Infix "*" := (SFmul 53 1024) : js_scope.
Infix "/" := (SFdiv 53 1024) : js_scope.
Infix "<?" := SFltb : js_scope.
Infix "=?" := SFeqb : js_scope.

(** A literal that is no integer: the number nearest to the quotient. *)
Definition lit (n d : Z) : number := (num n / num d)%js.

(** [Math.min]: the first of two numbers that is not larger, no number if one is none. *)
Definition is_NaN (a : number) : bool := match a with S754_nan => true | _ => false end.
Definition math_min (a b : number) : number :=
  if is_NaN a || is_NaN b then NaN
  else if SFltb a b then a
  else if SFltb b a then b
  else match a with S754_zero true => a | _ => b end.

(** [a || b]: zeros and NaN are false. *)
Definition or_else (a b : number) : number :=
  match a with S754_zero _ | S754_nan => b | _ => a end.

Class MathHypot : Type := hypot : number -> number -> number.
(** what the language promises of it, as far as it is used here *)
Class MathHypotOk `{MathHypot} : Prop := {
  hypot_NaN a b : is_NaN a = true \/ is_NaN b = true ->
    (forall s, a <> S754_infinity s) -> (forall s, b <> S754_infinity s) -> hypot a b = NaN;
  hypot_zero s s' : hypot (S754_zero s) (S754_zero s') = S754_zero false;
}.

(** ** [utils.ts] *)
Record Vec : Type := { vx : number; vy : number }.
Inductive SwarmType : Type := Potential | Boids.
Record Robot : Type := { robot_id : Z; position : Vec; velocity : Vec }.

Section moves.
Context `{MathHypot}.
Local Open Scope js_scope.

Definition sub (a b : Vec) : Vec := {| vx := vx a - vx b; vy := vy a - vy b |}.
Definition add (a b : Vec) : Vec := {| vx := vx a + vx b; vy := vy a + vy b |}.
Definition scale (a : Vec) (s : number) : Vec := {| vx := vx a * s; vy := vy a * s |}.
Definition norm (a : Vec) : number := hypot (vx a) (vy a).
Definition normalize (a : Vec) : Vec :=
  let n := or_else (norm a) (num 1) in {| vx := vx a / n; vy := vy a / n |}.
Definition limit (v : Vec) (max : number) : Vec :=
  let n := norm v in if max <? n then scale v (max / n) else v.

Definition zero : Vec := {| vx := num 0; vy := num 0 |}.

(** ** The robots of the page

    [setRobots] is given a function of the state.  The state is an array of robots, but
    a function may answer with something else: [directSeek] answers with a single
    robot where it has nothing to do.  [None]: the function throws a [TypeError], as
    on the position of a robot that is not there, or [map] of no array. *)
Inductive Robots : Type := Array (rs : list Robot) | NotArray (r : Robot).

Definition directSeek (cx cy : number) (rs : Robots) : option Robots :=
  let maxSpeed := num 5 in
  match rs with
  | Array (r :: _) =>
      let dx := cx - vx (position r) in
      let dy := cy - vy (position r) in
      let d := hypot dx dy in
      if d =? num 0 then Some (NotArray r)
      else
        let ux := dx / d in
        let uy := dy / d in
        let vx' := ux * maxSpeed in
        let vy' := uy * maxSpeed in
        Some (Array [{| robot_id := robot_id r;
                        velocity := {| vx := vx'; vy := vy' |};
                        position := {| vx := vx (position r) + vx'; vy := vy (position r) + vy' |} |}])
  | Array [] | NotArray _ => None
  end.

(** One robot of a potential field: pulled to the goal, pushed by its neighbours. *)
Definition attraction (cx cy : number) (r : Robot) : Vec :=
  let stoppingDist := num 5 in
  let attGain := lit 1 10 in
  let maxSpeed := num 5 in
  let dx := cx - vx (position r) in
  let dy := cy - vy (position r) in
  let distToGoal := hypot dx dy in
  if stoppingDist <? distToGoal then
    let dir := {| vx := dx / distToGoal; vy := dy / distToGoal |} in
    let speed := math_min (distToGoal * attGain) maxSpeed in
    {| vx := vx dir * speed; vy := vy dir * speed |}
  else zero.

Definition repulsion (arr : list Robot) (r : Robot) : Vec :=
  let sepDist := num 20 in
  let repGain := num 300 in
  foldl (fun fRep o =>
    if bool_decide (robot_id o = robot_id r) then fRep
    else
      let rx := vx (position r) - vx (position o) in
      let ry := vy (position r) - vy (position o) in
      let d := hypot rx ry in
      if (num 0 <? d) && (d <? sepDist) then
        let str := repGain / (d * d) in
        {| vx := vx fRep + rx / d * str; vy := vy fRep + ry / d * str |}
      else fRep) zero arr.

Definition potential_step (cx cy : number) (arr : list Robot) (r : Robot) : Robot :=
  let damping := lit 8 10 in
  let fAtt := attraction cx cy r in
  let fRep := repulsion arr r in
  let vx' := (vx fAtt + vx fRep) * damping in
  let vy' := (vy fAtt + vy fRep) * damping in
  {| robot_id := robot_id r;
     position := {| vx := vx (position r) + vx'; vy := vy (position r) + vy' |};
     velocity := velocity r |}.

Definition moveToPotentialField (cx cy : number) (rs : Robots) : option Robots :=
  match rs with
  | Array arr => Some (Array (potential_step cx cy arr <$> arr))
  | NotArray _ => None
  end.

(** What a robot of a flock gathers from its neighbours. *)
Record gathered : Type := {
  g_sep : Vec; g_align : Vec; g_coh : Vec; countAlign : Z; countCoh : Z }.

Definition gather (rs : list Robot) (r : Robot) : gathered :=
  let visionRadius := num 50 in
  let sepRadius := num 20 in
  foldl (fun g o =>
    if bool_decide (robot_id o = robot_id r) then g
    else
      let ox := vx (position o) - vx (position r) in
      let oy := vy (position o) - vy (position r) in
      let d := hypot ox oy in
      let g :=
        if d <? visionRadius then
          {| g_sep := g_sep g;
             g_align := {| vx := vx (g_align g) + vx (velocity o);
                           vy := vy (g_align g) + vy (velocity o) |};
             countAlign := Z.succ (countAlign g);
             g_coh := {| vx := vx (g_coh g) + vx (position o);
                         vy := vy (g_coh g) + vy (position o) |};
             countCoh := Z.succ (countCoh g) |}
        else g in
      if (num 0 <? d) && (d <? sepRadius) then
        {| g_sep := {| vx := vx (g_sep g) - (vx (position o) - vx (position r)) / d;
                       vy := vy (g_sep g) - (vy (position o) - vy (position r)) / d |};
           g_align := g_align g; countAlign := countAlign g;
           g_coh := g_coh g; countCoh := countCoh g |}
      else g)
    {| g_sep := zero; g_align := zero; g_coh := zero; countAlign := 0; countCoh := 0 |} rs.

(** Full speed in a direction, less the velocity, limited: the steering of every rule. *)
Definition steer (v : Vec) (r : Robot) : Vec :=
  let maxSpeed := num 4 in
  let maxForce := lit 1 10 in
  let v := normalize v in
  let v := {| vx := vx v * maxSpeed; vy := vy v * maxSpeed |} in
  let v := {| vx := vx v - vx (velocity r); vy := vy v - vy (velocity r) |} in
  limit v maxForce.

Definition seeking (cx cy : number) (r : Robot) : Vec :=
  let maxSpeed := num 4 in
  let maxForce := lit 1 10 in
  let dx := cx - vx (position r) in
  let dy := cy - vy (position r) in
  let dGoal := hypot dx dy in
  if num 0 <? dGoal then
    let seek := {| vx := dx / dGoal * maxSpeed; vy := dy / dGoal * maxSpeed |} in
    let seek := {| vx := vx seek - vx (velocity r); vy := vy seek - vy (velocity r) |} in
    limit seek maxForce
  else zero.

Definition boids_step (cx cy : number) (rs : list Robot) (r : Robot) : Robot :=
  let sepWeight := lit 15 10 in
  let alignWeight := num 1 in
  let seekWeight := lit 12 10 in
  let cohesionWeight := num 1 in
  let maxSpeed := num 4 in
  let seek := seeking cx cy r in
  let g := gather rs r in
  let sep := steer (g_sep g) r in
  let align :=
    if Z.ltb 0 (countAlign g) then
      steer {| vx := vx (g_align g) / num (countAlign g);
               vy := vy (g_align g) / num (countAlign g) |} r
    else g_align g in
  let coh :=
    if Z.ltb 0 (countCoh g) then
      let coh := {| vx := vx (g_coh g) / num (countCoh g);
                    vy := vy (g_coh g) / num (countCoh g) |} in
      steer {| vx := vx coh - vx (position r); vy := vy coh - vy (position r) |} r
    else g_coh g in
  let accel :=
    {| vx := vx sep * sepWeight + vx align * alignWeight + vx coh * cohesionWeight
             + vx seek * seekWeight;
       vy := vy sep * sepWeight + vy align * alignWeight + vy coh * cohesionWeight
             + vy seek * seekWeight |} in
  let v := limit {| vx := vx (velocity r) + vx accel; vy := vy (velocity r) + vy accel |} maxSpeed in
  {| robot_id := robot_id r;
     velocity := v;
     position := {| vx := vx (position r) + vx v; vy := vy (position r) + vy v |} |}.

Definition moveToBoids (cx cy : number) (rs : Robots) : option Robots :=
  match rs with
  | Array rs => Some (Array (boids_step cx cy rs <$> rs))
  | NotArray _ => None
  end.
End moves.
