(* ===== verification/Client.v ===== *)
(** * The web client

    [swarmbase-ui/app/page.tsx]: the page registers robots, sends the clicks of the
    canvas as commands, pulls one command for every command of its own that was
    finalized, and moves the robots it draws to the target of the last pull it saw on
    chain.  Its handlers, callbacks and effects are functions of a state here, and the
    page, its transactions on their way and the chain they reach are one transition
    system. *)
From S2P Require Import Prelude Frame Configs Kinematics.
From S2P Require Swarm.
From Stdlib Require Import Strings.Ascii.

Local Open Scope Z_scope.

#[local] Existing Instance swarm_config.

(** ** Values of the chain as the page reads them

    [toHuman] of a value of the chain: a string, or an object with its properties in
    order.  [property]: the value of a property, if it has it; of a string, its
    characters are its properties. *)
Inductive human : Type :=
| HString (s : string)
| HObject (fields : list (string * human)).

Definition property (h : human) (k : string) : option human :=
  match h with
  | HObject fields => snd <$> find (fun f => bool_decide (f.1 = k)) fields
  | HString s =>
      match s with
      | String c _ => if bool_decide (k = "0"%string) then Some (HString (String c "")) else None
      | EmptyString => None
      end
  end.

(** [Object.keys(h)[0]] *)
Definition first_key (h : human) : option string :=
  match h with
  | HObject fields => fst <$> head fields
  | HString s => match s with String _ _ => Some "0"%string | EmptyString => None end
  end.

(** [a || b], where a value that is absent or an empty string is false. *)
Definition human_or (a b : option human) : option human :=
  match a with None | Some (HString "") => b | _ => a end.

(** [Number(s)], for the strings that can come here: digits, with separators when the
    chain formats a number of a thousand and more, or the name of a command. *)
Definition digit (c : ascii) : option Z :=
  let n := Z.of_nat (nat_of_ascii c) in
  if bool_decide (48 <= n <= 57) then Some (n - 48) else None.
Fixpoint digits (acc : Z) (s : string) : option Z :=
  match s with
  | EmptyString => Some acc
  | String c s => d ← digit c; digits (10 * acc + d) s
  end.
Definition to_number (h : option human) : number :=
  match h with
  | Some (HString s) => from_option num NaN (digits 0 s)
  | _ => NaN
  end.

(** The command of a [CommandPulled] event, as the page takes its coordinates; [None]:
    there is nothing to take them from, and the handler throws. *)
Definition coordinates (cmd : human) : option (number * number) :=
  let coords := human_or (property cmd "GoToLocation")
    (k ← first_key cmd; property cmd k) in
  (fun c => (to_number (property c "x"), to_number (property c "y"))) <$> coords.

(** [@polkadot/types]: an enum prints as an object with its variant, or as the name of a
    variant without data; a struct as an object; a [u32] in digits, grouped by commas
    from a thousand on.  What it makes of an argument that is [undefined] is left open. *)
Class PolkadotTypes : Type := {
  toHuman : Swarm.Command -> human;
  formatNumber : Z -> string;
  (* what the argument of a transaction becomes that is [undefined] *)
  undefined_u32 : option u32;
}.
Class PolkadotTypesOk `{PolkadotTypes} : Prop := {
  human_goto c :
    toHuman (Swarm.GoToLocation c) =
    HObject [("GoToLocation"%string,
      HObject [("x"%string, HString (formatNumber (uval (Swarm.x c))));
               ("y"%string, HString (formatNumber (uval (Swarm.y c))))])];
  human_task t :
    toHuman (Swarm.PerformTask t) =
    HObject [("PerformTask"%string, HString (formatNumber (uval t)))];
  human_halt : toHuman Swarm.Halt = HString "Halt";
  human_wait : toHuman Swarm.WaitForCommand = HString "WaitForCommand";
  format_plain n : 0 <= n < 1000 -> digits 0 (formatNumber n) = Some n;
  format_grouped n : 1000 <= n -> digits 0 (formatNumber n) = None;
}.

(** ** The page

    [robots] is the state after all queued updates, [robotsRef] the one last rendered,
    which the handlers of that render hold too.  [timer]: the interval of the movement,
    with the target and the movement its effect captured and the frames it ran.
    [dirty]: a dependency of that effect changed since the last render.  [crashed]: an
    update threw, and the page is gone. *)
Inductive log_entry (Err : Type) : Type :=
| Connected
| Moving (id : Z) (x y : number)
| Registering (id : option Z)
| RegisterFailed (e : Err)
| RegisteredInBlock
| CommandFailed (e : Err)
| SendingToRobots
| PullFailed
| PullError (e : Err)
| FinishedCommand.
Arguments Connected {_}.
Arguments Moving {_} _ _ _.
Arguments Registering {_} _.
Arguments RegisterFailed {_} _.
Arguments RegisteredInBlock {_}.
Arguments CommandFailed {_} _.
Arguments SendingToRobots {_}.
Arguments PullFailed {_}.
Arguments PullError {_} _.
Arguments FinishedCommand {_}.

Record timer_state : Type := { t_target : Vec; t_swarm : SwarmType; t_frame : Z }.

Record page (Err : Type) : Type := Page {
  ready : bool;
  robots : Robots;
  robotsRef : Robots;
  loading : bool;
  events : list (log_entry Err);
  swarmType : SwarmType;
  target : option Vec;
  timer : option timer_state;
  dirty : bool;
  crashed : bool;
}.
Arguments Page {_} _ _ _ _ _ _ _ _ _ _.
Arguments ready {_} _.
Arguments robots {_} _.
Arguments robotsRef {_} _.
Arguments loading {_} _.
Arguments events {_} _.
Arguments swarmType {_} _.
Arguments target {_} _.
Arguments timer {_} _.
Arguments dirty {_} _.
Arguments crashed {_} _.

Definition initial_page {Err} : page Err :=
  Page false (Array []) (Array []) false [] Boids None None false false.

Section setters.
Context {Err : Type}.
Implicit Types p : page Err.

Definition setReady p : page Err :=
  Page true (robots p) (robotsRef p) (loading p) (events p) (swarmType p) (target p) (timer p)
    (dirty p) (crashed p).
Definition setLoading (b : bool) p : page Err :=
  Page (ready p) (robots p) (robotsRef p) b (events p) (swarmType p) (target p) (timer p)
    (dirty p) (crashed p).
Definition updateEvents (e : log_entry Err) p : page Err :=
  Page (ready p) (robots p) (robotsRef p) (loading p) (events p ++ [e]) (swarmType p) (target p)
    (timer p) (dirty p) (crashed p).
Definition setSwarmType (t : SwarmType) p : page Err :=
  Page (ready p) (robots p) (robotsRef p) (loading p) (events p) t (target p) (timer p) true
    (crashed p).
Definition setTarget (v : Vec) p : page Err :=
  Page (ready p) (robots p) (robotsRef p) (loading p) (events p) (swarmType p) (Some v) (timer p)
    true (crashed p).
Definition setTimer (t : option timer_state) p : page Err :=
  Page (ready p) (robots p) (robotsRef p) (loading p) (events p) (swarmType p) (target p) t
    (dirty p) (crashed p).
Definition setRobots (f : Robots -> option Robots) p : page Err :=
  match f (robots p) with
  | Some rs =>
      Page (ready p) rs (robotsRef p) (loading p) (events p) (swarmType p) (target p) (timer p)
        true (crashed p)
  | None =>
      Page (ready p) (robots p) (robotsRef p) (loading p) (events p) (swarmType p) (target p)
        (timer p) (dirty p) true
  end.

(** ** Effects *)

(** The effects of a render: [robotsRef] follows [robots], and the interval starts anew. *)
Definition commit p : page Err :=
  Page (ready p) (robots p) (robots p) (loading p) (events p) (swarmType p) (target p)
    (if dirty p then
       (fun v => {| t_target := v; t_swarm := swarmType p; t_frame := 0 |}) <$> target p
     else timer p)
    false (crashed p).

(** The connection to the chain is there. *)
Definition connected p : page Err := updateEvents Connected (setReady p).

Context `{MathHypot}.

(** One frame of the movement. *)
Definition move_once (t : timer_state) p : page Err :=
  let x := vx (t_target t) in
  let y := vy (t_target t) in
  match robotsRef p with
  | Array [_] => setRobots (directSeek x y) p
  | _ =>
      match t_swarm t with
      | Boids => setRobots (moveToBoids x y) p
      | Potential => setRobots (moveToPotentialField x y) p
      end
  end.
Definition tick p : page Err :=
  match timer p with
  | None => p
  | Some t =>
      let p := move_once t p in
      let frame := t_frame t + 1 in
      setTimer (if bool_decide (120 <= frame) then None
                else Some {| t_target := t_target t; t_swarm := t_swarm t; t_frame := frame |}) p
  end.

(** ** The subscription to the chain's events *)
Context `{PolkadotTypes}.

Definition onMoveCommand (x y : number) p : page Err := setTarget {| vx := x; vy := y |} p.

(** One record: [None] where the handler throws, and the rest is not looked at. *)
Definition on_event (e : Swarm.Event) p : option (page Err) :=
  match e with
  | Swarm.CommandPulled id cmd _ =>
      xy ← coordinates (toHuman cmd);
      Some (onMoveCommand xy.1 xy.2 (updateEvents (Moving (uval id) xy.1 xy.2) p))
  | Swarm.CommandEnqueued _ => Some p
  end.
Fixpoint on_events (es : list Swarm.Event) p : page Err :=
  match es with
  | [] => p
  | e :: es => match on_event e p with Some p => on_events es p | None => p end
  end.

(** The subscription is there from the connection on, while the page is. *)
Definition deliver (es : list Swarm.Event) p : page Err :=
  if ready p && negb (crashed p) then on_events es p else p.
End setters.

(** ** The page and the chain

    A transaction carries what its callbacks hold: the robots of the render its handler
    comes from.  A status is reported to the callback when the transaction is in a
    block and again when the block is final. *)
Inductive tx : Type :=
| TxRegister (id : u32)
| TxEnqueue (x y : u32) (closure : Robots)
| TxPull (id : u32).
Inductive status : Type := InBlock | Finalized.

Definition call_of (t : tx) : Swarm.Call :=
  match t with
  | TxRegister id => Swarm.Call_register_robot (id : Swarm.RobotId)
  | TxEnqueue x y _ =>
      Swarm.Call_enqueue_command (Swarm.GoToLocation (Swarm.Build_Coordinate x y : Swarm.Location))
  | TxPull id => Swarm.Call_pull_next (id : Swarm.RobotId)
  end.

Section system.
Context {W : Type} `{FrameSystem} `{!BoundedVec Swarm.Command} `{!Swarm.SwarmStorage W}.
Context `{!IntoDispatchError Swarm.Error}.
Context `{MathHypot, PolkadotTypes}.
(** the signer of [initPolkadot] *)
Context (alice : OriginFor).

Abbreviation Page := (page DispatchError).

Record sys : Type := Sys {
  ui : Page;
  chain : W;
  submitting : list tx;
  pool : list tx;
  included : list (tx * outcome DispatchError unit);
}.

(** *** Handlers *)

(** [robots.length], and what it becomes as the id of a transaction; [None]: making the
    transaction throws. *)
Definition robots_length (rs : Robots) : option Z :=
  match rs with Array rs => Some (Z.of_nat (length rs)) | NotArray _ => None end.
Definition length_id (rs : Robots) : option u32 :=
  match robots_length rs with Some n => to_uint 32 n | None => undefined_u32 end.

Definition add_robot (rs : Robots) : option Robots :=
  match rs with
  | Array rs => Some (Array (rs ++ [{| robot_id := Z.of_nat (length rs);
                                       position := Kinematics.zero;
                                       velocity := Kinematics.zero |}]))
  | NotArray _ => None
  end.

(** [registerRobot], up to the submission and after it. *)
Definition registerRobot (s : sys) : sys :=
  if ready (ui s) then
    let p := setLoading true (ui s) in
    match length_id (robotsRef (ui s)) with
    | Some id =>
        Sys (updateEvents (Registering (robots_length (robotsRef (ui s)))) p) (chain s) (submitting s ++ [TxRegister id])
          (pool s) (included s)
    | None => Sys p (chain s) (submitting s) (pool s) (included s)
    end
  else s.
Definition registerRobot_submitted (p : Page) : Page := setRobots add_robot p.
Definition registerRobot_status (r : outcome DispatchError unit) (st : status) (p : Page) : Page :=
  match r with
  | Err e => setLoading false (updateEvents (RegisterFailed e) p)
  | _ =>
      match st with
      | Finalized => setLoading false (updateEvents RegisteredInBlock p)
      | InBlock => p
      end
  end.

(** [commandPull], by the robots it holds; and the callback of its transaction. *)
Definition commandPull (closure : Robots) (s : sys) : sys :=
  if ready (ui s) then
    match closure with
    | Array [] => s
    | Array (r :: _) =>
        let p := updateEvents SendingToRobots (ui s) in
        match to_uint 32 (robot_id r) with
        | Some id => Sys p (chain s) (submitting s ++ [TxPull id]) (pool s) (included s)
        | None => Sys p (chain s) (submitting s) (pool s) (included s)
        end
    | NotArray _ =>
        Sys (updateEvents SendingToRobots (ui s)) (chain s) (submitting s) (pool s) (included s)
    end
  else s.
Definition commandPull_status (r : outcome DispatchError unit) (st : status) (p : Page) : Page :=
  match r with
  | Err e => setLoading false (updateEvents (PullError e) (updateEvents PullFailed p))
  | _ =>
      match st with
      | Finalized => setLoading false (updateEvents FinishedCommand p)
      | InBlock => p
      end
  end.

(** [handleCanvasClick], the callback of its transaction, and its [catch]. *)
Definition handleCanvasClick (x y : u32) (s : sys) : sys :=
  if ready (ui s) then
    Sys (setLoading true (ui s)) (chain s)
      (submitting s ++ [TxEnqueue x y (robotsRef (ui s))]) (pool s) (included s)
  else s.
Definition handleCanvasClick_status (closure : Robots) (r : outcome DispatchError unit)
    (st : status) (s : sys) : sys :=
  match r with
  | Err e =>
      Sys (setLoading false (updateEvents (CommandFailed e) (ui s))) (chain s) (submitting s)
        (pool s) (included s)
  | _ => match st with Finalized => commandPull closure s | InBlock => s end
  end.

(** *** Transactions on their way *)
Definition submitted (t : tx) (p : Page) : Page :=
  match t with TxRegister _ => registerRobot_submitted p | _ => p end.
Definition rejected (t : tx) (p : Page) : Page :=
  match t with TxEnqueue _ _ _ => setLoading false p | _ => p end.
Definition on_status (t : tx) (r : outcome DispatchError unit) (st : status) (s : sys) : sys :=
  match t with
  | TxRegister _ =>
      Sys (registerRobot_status r st (ui s)) (chain s) (submitting s) (pool s) (included s)
  | TxEnqueue _ _ closure => handleCanvasClick_status closure r st s
  | TxPull _ =>
      Sys (commandPull_status r st (ui s)) (chain s) (submitting s) (pool s) (included s)
  end.

(** The events a call adds to the log, which the subscription delivers. *)
Definition new_events (w w' : W) : list Swarm.Event := drop (length (Swarm.log w)) (Swarm.log w').

(** Steps that are the page's are taken while it is there; what is on its way arrives
    anyway, and other accounts use the chain too. *)
Inductive step : sys -> sys -> Prop :=
| step_connected s : crashed (ui s) = false ->
    step s (Sys (connected (ui s)) (chain s) (submitting s) (pool s) (included s))
| step_register s : crashed (ui s) = false -> step s (registerRobot s)
| step_click x y s : crashed (ui s) = false -> step s (handleCanvasClick x y s)
| step_swarm_type t s : crashed (ui s) = false ->
    step s (Sys (setSwarmType t (ui s)) (chain s) (submitting s) (pool s) (included s))
| step_commit s : crashed (ui s) = false ->
    step s (Sys (commit (ui s)) (chain s) (submitting s) (pool s) (included s))
| step_tick s : crashed (ui s) = false ->
    step s (Sys (tick (ui s)) (chain s) (submitting s) (pool s) (included s))
| step_submit p w l1 t l2 q i :
    step (Sys p w (l1 ++ t :: l2) q i) (Sys (submitted t p) w (l1 ++ l2) (q ++ [t]) i)
| step_reject p w l1 t l2 q i :
    step (Sys p w (l1 ++ t :: l2) q i) (Sys (rejected t p) w (l1 ++ l2) q i)
| step_include p w b l1 t l2 i :
    step (Sys p w b (l1 ++ t :: l2) i)
      (let '(r, w') := Swarm.dispatch alice (call_of t) w in
       Sys (deliver (new_events w w') p) w' b (l1 ++ l2) (i ++ [(t, r)]))
| step_dropped p w b l1 t l2 i : step (Sys p w b (l1 ++ t :: l2) i) (Sys p w b (l1 ++ l2) i)
| step_in_block p w b q l1 t r l2 :
    step (Sys p w b q (l1 ++ (t, r) :: l2))
      (on_status t r InBlock (Sys p w b q (l1 ++ (t, r) :: l2)))
| step_finalized p w b q l1 t r l2 :
    step (Sys p w b q (l1 ++ (t, r) :: l2)) (on_status t r Finalized (Sys p w b q (l1 ++ l2)))
| step_foreign p w b q i o c :
    (forall r, c <> Swarm.Call_pull_next r) ->
    step (Sys p w b q i)
      (let w' := (Swarm.dispatch o c w).2 in Sys (deliver (new_events w w') p) w' b q i).
End system.
