(* ===== verification/ClientProps.v ===== *)
(** * What the web client does

    [swarmbase-ui/app/page.tsx], by the model of [Client.v] over the swarm pallet of
    [Swarm.v]: what the page makes of a pulled command, that it pulls at most once for
    every command it enqueued and what follows for a queue that was not empty, and
    where its movements lose robots. *)
From S2P Require Import Prelude Frame Configs Kinematics Client.
From S2P Require Swarm SwarmSpec SwarmProps.
From Stdlib Require Import Floats.SpecFloat.

Local Open Scope Z_scope.

#[local] Existing Instances swarm_config SwarmSpec.state_equiv SwarmSpec.state_equivalence.

(** ** A pulled command *)
Section events.
Context {Err : Type} `{PolkadotTypesOk} `{MathHypot}.
Implicit Types p : page Err.

(** A number as the page reads it back: exactly, while the chain prints it without
    separators. *)
Definition read_back (n : Z) : number := if decide (n < 1000) then num n else NaN.

Lemma to_number_format n : 0 <= n -> to_number (Some (HString (formatNumber n))) = read_back n.
Proof.
  intros Hn. unfold to_number, read_back. destruct (decide (n < 1000)).
  - by rewrite format_plain by lia.
  - by rewrite format_grouped by lia.
Qed.

(** The target the page takes from a command. *)
Definition target_of (c : Swarm.Command) : Vec :=
  match c with
  | Swarm.GoToLocation l =>
      {| vx := read_back (uval (Swarm.x l)); vy := read_back (uval (Swarm.y l)) |}
  | _ => {| vx := NaN; vy := NaN |}
  end.

Lemma property_first k v fs : property (HObject ((k, v) :: fs)) k = Some v.
Proof. cbn. by rewrite bool_decide_true. Qed.
Lemma property_next k k' v fs :
  k' <> k -> property (HObject ((k', v) :: fs)) k = property (HObject fs) k.
Proof. intros Hk. cbn. by rewrite bool_decide_false. Qed.
Lemma string_property s k : k <> "0"%string -> property (HString s) k = None.
Proof. intros Hk. destruct s; [done|]. cbn. by rewrite bool_decide_false. Qed.

Lemma coordinates_of c :
  coordinates (toHuman c) = Some (vx (target_of c), vy (target_of c)).
Proof.
  destruct c as [l|t| |]; unfold coordinates.
  - rewrite human_goto, property_first. cbn [human_or fmap option_fmap option_map].
    rewrite property_first, property_next, property_first by done.
    by rewrite !to_number_format by apply uval_fits.
  - rewrite human_task, property_next by done. cbn [first_key head fmap option_fmap option_map].
    change (human_or (property (HObject []) "GoToLocation")) with (fun b : option human => b).
    cbn [fst]. unfold mbind, option_bind. rewrite property_first.
    cbn [fmap option_fmap option_map]. by rewrite !string_property by done.
  - by rewrite human_halt.
  - by rewrite human_wait.
Qed.

(** C30: What the page makes of a pull.  The handler of a [CommandPulled] event never
    throws; it moves the target to the coordinates of the command, exactly, if the
    command goes to a location whose coordinates are both below a thousand (the
    canvas is 800 by 600).  A coordinate of a thousand or more becomes no number, since
    the chain prints it with separators, and so do both for a command to halt, to wait
    or to perform a task, which have none. *)
Theorem pulled_command_targets id c l p :
  exists p', on_event (Swarm.CommandPulled id c l) p = Some p' /\
    target p' = Some (target_of c) /\ robots p' = robots p /\
    (forall x y, c = Swarm.GoToLocation (Swarm.Build_Coordinate x y) ->
       uval x < 1000 -> uval y < 1000 ->
       target p' = Some {| vx := num (uval x); vy := num (uval y) |}) /\
    ((forall xy, c <> Swarm.GoToLocation xy) -> target p' = Some {| vx := NaN; vy := NaN |}).
Proof.
  cbn. rewrite coordinates_of. cbn. eexists. split; [done|].
  split; [by destruct (target_of c)|]. split; [done|]. split.
  - intros x y -> Hx Hy. cbn. unfold read_back. by rewrite !decide_True.
  - intros Hc. by destruct c as [xy| | |]; [destruct (Hc xy)|..].
Qed.
End events.

(** ** Movements *)
Section movements.
Context {Err : Type} `{MathHypotOk}.
Implicit Types p : page Err.

Lemma NaN_sub_l a : SFsub 53 1024 NaN a = NaN.
Proof. by destruct a. Qed.
Lemma NaN_sub_r a : SFsub 53 1024 a NaN = NaN.
Proof. by destruct a. Qed.
Lemma NaN_add_l a : SFadd 53 1024 NaN a = NaN.
Proof. by destruct a. Qed.
Lemma NaN_add_r a : SFadd 53 1024 a NaN = NaN.
Proof. by destruct a. Qed.
Lemma NaN_mul_l a : SFmul 53 1024 NaN a = NaN.
Proof. by destruct a. Qed.
Lemma NaN_div_l a : SFdiv 53 1024 NaN a = NaN.
Proof. by destruct a. Qed.

Definition finite (a : number) : bool :=
  match a with S754_zero _ | S754_finite _ _ _ => true | _ => false end.

Lemma finite_sub_self a : finite a = true -> exists s, SFsub 53 1024 a a = S754_zero s.
Proof.
  destruct a as [[]| | |[] m e]; intros Ha; try discriminate Ha; cbn [SFsub].
  1, 2: by eexists.
  all: eexists; unfold SFsub; cbv zeta; cbn [SpecFloat.cond_Zopp negb].
  all: rewrite ?Z.sub_diag; try reflexivity.
Qed.
Lemma hypot_NaN_NaN : hypot NaN NaN = NaN.
Proof. apply hypot_NaN; [by left | done..]. Qed.

(** A robot that is nowhere. *)
Definition nowhere : Vec := {| vx := NaN; vy := NaN |}.
Definition lost (r : Robot) : Prop := position r = nowhere.
Definition first_lost (rs : Robots) : Prop := exists r rs', rs = Array (r :: rs') /\ lost r.

Lemma seek_nowhere r rs cx cy :
  (cx = NaN /\ cy = NaN) \/ lost r ->
  exists r', directSeek cx cy (Array (r :: rs)) = Some (Array [r']) /\ lost r'.
Proof.
  intros Hn. cbn [directSeek].
  assert (E : SFsub 53 1024 cx (vx (position r)) = NaN /\ SFsub 53 1024 cy (vy (position r)) = NaN)
    by (destruct Hn as [[-> ->]| ->]; rewrite ?NaN_sub_l, ?NaN_sub_r; done).
  destruct E as [-> ->]. rewrite hypot_NaN_NaN. cbn [SFeqb SFcompare NaN].
  eexists. split; [done|]. unfold lost, nowhere; cbn [position].
  by rewrite NaN_div_l, NaN_mul_l, !NaN_add_r.
Qed.

(** Once lost, whatever the movement and the target, a robot stays lost. *)
Lemma lost_stays cx cy rs :
  first_lost rs ->
  (exists rs', directSeek cx cy rs = Some rs' /\ first_lost rs') /\
  (exists rs', moveToBoids cx cy rs = Some rs' /\ first_lost rs') /\
  (exists rs', moveToPotentialField cx cy rs = Some rs' /\ first_lost rs') /\
  (exists rs', add_robot rs = Some rs' /\ first_lost rs').
Proof.
  intros (r & rs' & -> & Hr). split; [|split; [|split]].
  - destruct (seek_nowhere r rs' cx cy) as (r' & -> & Hl); [by right|]. eexists. split; [done|].
    by exists r', [].
  - eexists. split; [done|]. eexists _, _. split; [done|].
    unfold lost, boids_step; cbn [position]. rewrite Hr. cbn [vx vy nowhere].
    by rewrite !NaN_add_l.
  - eexists. split; [done|]. eexists _, _. split; [done|].
    unfold lost, potential_step; cbn [position]. rewrite Hr. cbn [vx vy nowhere].
    by rewrite !NaN_add_l.
  - eexists. split; [done|]. by exists r, (rs' ++ [{| robot_id := Z.of_nat (length (r :: rs'));
      position := Kinematics.zero; velocity := Kinematics.zero |}]).
Qed.

(** ** Robots keep their numbers *)
Definition ids (rs : Robots) : option (list Z) :=
  match rs with Array rs => Some (robot_id <$> rs) | NotArray _ => None end.

(** Both movements of a swarm move every robot of the page and neither lose nor renumber
    one; a new robot gets the next number, the number its registration was sent with if
    the page was rendered in between; but the movement of a lone robot, run before a
    second one is rendered, drops the second. *)
Theorem movements_keep_ids cx cy rs :
  (exists rs', moveToBoids cx cy (Array rs) = Some rs' /\ ids rs' = ids (Array rs)) /\
  (exists rs', moveToPotentialField cx cy (Array rs) = Some rs' /\ ids rs' = ids (Array rs)) /\
  (exists rs', add_robot (Array rs) = Some rs' /\
     ids rs' = Some ((robot_id <$> rs) ++ [Z.of_nat (length rs)])) /\
  (forall r r2 rs', rs = r :: r2 :: rs' -> is_Some (directSeek cx cy (Array rs)) /\
     forall rs1, directSeek cx cy (Array rs) = Some (Array rs1) -> length rs1 = 1%nat).
Proof.
  split; [|split; [|split]].
  - eexists. split; [done|]. cbn. by rewrite <- list_fmap_compose.
  - eexists. split; [done|]. cbn. by rewrite <- list_fmap_compose.
  - eexists. split; [done|]. cbn. by rewrite fmap_app.
  - intros r r2 rs' ->. cbn [directSeek]. destruct (SFeqb _ _); [by split|].
    split; [done|]. intros rs1 Hs. by injection Hs as <-.
Qed.

(** The movement does not end after its 120 frames: every frame that moved the robots is
    rendered, and the render starts the interval anew at frame zero. *)
Theorem movement_restarts p t v :
  crashed p = false -> timer p = Some t -> target p = Some v -> crashed (tick p) = false ->
  timer (commit (tick p)) = Some {| t_target := v; t_swarm := swarmType p; t_frame := 0 |}.
Proof.
  intros Hc Ht Hv. unfold tick. rewrite Ht. unfold move_once.
  assert (Hset : forall f, crashed (setRobots f p) = false ->
    dirty (setRobots f p) = true /\ target (setRobots f p) = Some v /\
    swarmType (setRobots f p) = swarmType p).
  { intros f. unfold setRobots. by destruct (f (robots p)). }
  destruct (robotsRef p) as [[|? []]|]; destruct (t_swarm t); cbn [crashed setTimer];
    intros Hm; apply Hset in Hm as (Hd & Hv' & Hs); unfold commit;
    cbn [dirty setTimer timer target swarmType]; by rewrite Hd, Hv', Hs.
Qed.

(** ** Arriving *)

(** C31: A lone robot that arrives takes the page down.  When the only robot of the page is
    exactly at the target, the next frame replaces the array of robots by the robot
    itself; once that is rendered, the frame after it throws and the page is gone. *)
Theorem seek_arrival_crashes p t r :
  robots p = Array [r] -> robotsRef p = Array [r] -> timer p = Some t ->
  target p = Some (t_target t) -> t_target t = position r ->
  finite (vx (position r)) = true -> finite (vy (position r)) = true ->
  robots (tick p) = NotArray r /\ crashed (tick p) = crashed p /\
  crashed (tick (commit (tick p))) = true.
Proof.
  intros Hr Hc Ht Htar Hat Hx Hy.
  assert (Hseek : directSeek (vx (t_target t)) (vy (t_target t)) (Array [r]) = Some (NotArray r)).
  { cbn [directSeek]. rewrite Hat. destruct (finite_sub_self _ Hx) as [s ->].
    destruct (finite_sub_self _ Hy) as [s' ->]. by rewrite hypot_zero. }
  assert (Hm : tick p = setTimer (if bool_decide (120 <= t_frame t + 1) then None
      else Some {| t_target := t_target t; t_swarm := t_swarm t; t_frame := t_frame t + 1 |})
    (Page (ready p) (NotArray r) (Array [r]) (loading p) (events p) (swarmType p) (target p)
      (timer p) true (crashed p))).
  { unfold tick. rewrite Ht. unfold move_once. rewrite Hc. unfold setRobots.
    rewrite Hr, Hseek, Hc, Ht. done. }
  rewrite Hm. split; [done|]. split; [done|].
  unfold tick, commit, setTimer. cbn [dirty target swarmType timer]. rewrite Htar.
  cbn [fmap option_fmap option_map timer]. unfold move_once; cbn [robotsRef robots t_swarm].
  by destruct (swarmType p).
Qed.
End movements.

(** ** The page and the chain *)
Section system.
Context {W : Type} `{FrameSystem} `{!BoundedVec Swarm.Command} `{!Swarm.SwarmStorage W}.
Context `{!IntoDispatchError Swarm.Error}.
Context `{MathHypot, PolkadotTypes}.
Context `{!Swarm.SwarmStorageOk W} `{!BoundedVecOk Swarm.Command Swarm.MaxGlobalCommands}.
Context (alice : OriginFor) (who : AccountId) (alice_signs : ensure_signed alice = ROk who).
Implicit Types s : sys (W := W).

(** *** What the page owes the queue

    The pulls that are on their way, and the commands in a block whose callback has yet
    to pull. *)
Definition pulls (t : tx) : Z := match t with TxPull _ => 1 | _ => 0 end.
Definition will_pull (tr : tx * outcome DispatchError unit) : Z :=
  match tr with (TxEnqueue _ _ _, Err _) => 0 | (TxEnqueue _ _ _, _) => 1 | _ => 0 end.
Fixpoint total {A} (f : A -> Z) (l : list A) : Z :=
  match l with [] => 0 | a :: l => f a + total f l end.
Definition owed s : Z :=
  total pulls (submitting s) + total pulls (pool s) + total will_pull (included s).
Definition waiting s : Z := Z.of_nat (length (Swarm.queue (chain s))).

Lemma total_app {A} (f : A -> Z) l l' : total f (l ++ l') = total f l + total f l'.
Proof. induction l as [|a l IH]; cbn; [lia|]. rewrite IH. lia. Qed.
Lemma total_nonneg {A} (f : A -> Z) l : (forall a, 0 <= f a) -> 0 <= total f l.
Proof. intros Hf. induction l as [|a l IH]; cbn; [lia|]. specialize (Hf a). lia. Qed.
Lemma pulls_nonneg t : 0 <= pulls t.
Proof. destruct t; cbn; lia. Qed.
Lemma will_pull_nonneg tr : 0 <= will_pull tr.
Proof. destruct tr as [[] []]; cbn; lia. Qed.
Lemma owed_nonneg s : 0 <= owed s.
Proof.
  pose proof (total_nonneg pulls (submitting s) pulls_nonneg).
  pose proof (total_nonneg pulls (pool s) pulls_nonneg).
  pose proof (total_nonneg will_pull (included s) will_pull_nonneg). unfold owed. lia.
Qed.

(** What a call leaves in the queue and in the log, by its answer. *)
Lemma dispatch_leaves o c w :
  let w' := (Swarm.dispatch o c w).2 in
  match (Swarm.dispatch o c w).1 with
  | Ok _ =>
      match c with
      | Swarm.Call_register_robot _ => Swarm.queue w' = Swarm.queue w /\ new_events w w' = []
      | Swarm.Call_enqueue_command cmd =>
          Swarm.queue w' = Swarm.queue w ++ [cmd] /\
          Z.of_nat (length (Swarm.queue w)) < Swarm.MaxGlobalCommands
      | Swarm.Call_pull_next _ => exists cmd, Swarm.queue w = cmd :: Swarm.queue w'
      end
  | Err _ => w' = w
  | Panic => False
  end.
Proof.
  cbn zeta. destruct (ensure_signed o) as [who'|e] eqn:Ho;
    [|by rewrite (Swarm.dispatch_unsigned o c w e Ho)].
  destruct c as [r|cmd|r]; cbn [Swarm.dispatch].
  - rewrite (Swarm.register_robot_run o who' r w Ho). cbn [fst snd].
    destruct (SwarmSpec.view_insert w r) as (_ & Hq & Hl & _). split; [exact Hq|].
    unfold new_events. cbn [SwarmSpec.history SwarmSpec.view SwarmSpec.enlist] in Hl.
    rewrite Hl. apply drop_all.
  - destruct (Z.lt_ge_cases (Z.of_nat (length (Swarm.queue w))) Swarm.MaxGlobalCommands) as [Hl|Hl].
    + destruct (Swarm.enqueue_command_room o who' cmd w Ho Hl) as (q & Hq & ->). cbn [fst snd].
      split; [|done]. rewrite <- Hq.
      by destruct (SwarmSpec.view_put_deposit w q (Swarm.CommandEnqueued cmd)) as (_ & ? & _).
    + by rewrite (Swarm.enqueue_command_full o who' cmd w Ho Hl).
  - destruct (Swarm.registered w r) eqn:Hr;
      [|by rewrite (Swarm.pull_next_unregistered o who' r w Ho Hr)].
    destruct (Swarm.queue w) as [|cmd cs] eqn:Hq;
      [by rewrite (Swarm.pull_next_empty o who' r w Ho Hr Hq)|].
    destruct (Swarm.pull_next_head o who' r w cmd cs Ho Hr Hq) as (q & <- & ->). cbn [fst snd].
    exists cmd. f_equal.
    by destruct (SwarmSpec.view_put_deposit w q (Swarm.CommandPulled r cmd (Swarm.coordinate_of cmd)))
      as (_ & ? & _).
Qed.

Lemma new_events_self w : new_events w w = [].
Proof. apply drop_all. Qed.

(** *** Steps

    What is common to the page's own steps: nothing in flight, or a transaction more
    that pulls nothing. *)
Lemma commandPull_owed closure s :
  chain (commandPull closure s) = chain s /\ target (ui (commandPull closure s)) = target (ui s) /\
  owed (commandPull closure s) <= owed s + 1.
Proof.
  unfold commandPull, owed.
  destruct (ready (ui s)); [|by split; [|split; [|lia]]].
  destruct closure as [[|r rs]|r]; [by split; [|split; [|lia]]| |by split; [|split; [|cbn; lia]]].
  destruct (to_uint 32 (robot_id r)); (split; [done|split; [done|]]);
    cbn [submitting pool included]; rewrite ?total_app; cbn [total pulls]; lia.
Qed.

(** The updates of the page that touch no transaction and no target. *)
Lemma setRobots_target f (p : page DispatchError) : target (setRobots f p) = target p.
Proof. unfold setRobots. by destruct (f (robots p)). Qed.
Lemma tick_target (p : page DispatchError) : target (tick p) = target p.
Proof.
  unfold tick. destruct (timer p) as [t|]; [|done]. cbn [setTimer target]. unfold move_once.
  destruct (robotsRef p) as [[|? []]|]; destruct (t_swarm t); apply setRobots_target.
Qed.
Lemma submitted_target t (p : page DispatchError) : target (submitted t p) = target p.
Proof. destruct t; [apply setRobots_target | done..]. Qed.

(** Every step but the inclusion of transactions keeps the chain and the target, and
    owes no more. *)
Definition quiet s s' : Prop :=
  chain s' = chain s /\ target (ui s') = target (ui s) /\ owed s' <= owed s.

Lemma owed_included p w b q l1 t r l2 :
  owed (Sys p w b q (l1 ++ (t, r) :: l2)) = owed (Sys p w b q (l1 ++ l2)) + will_pull (t, r).
Proof. unfold owed; cbn [submitting pool included]. rewrite !total_app. cbn [total]. lia. Qed.

Lemma on_status_in_block p w b q l1 t r l2 :
  let s := Sys p w b q (l1 ++ (t, r) :: l2) in quiet s (on_status t r InBlock s).
Proof.
  destruct t as [id|x y closure|id]; destruct r as [[]|e|]; cbn; split; try done; split; try done;
    unfold owed; cbn [submitting pool included]; lia.
Qed.

Lemma on_status_finalized p w b q l1 t r l2 :
  quiet (Sys p w b q (l1 ++ (t, r) :: l2)) (on_status t r Finalized (Sys p w b q (l1 ++ l2))).
Proof.
  unfold quiet. rewrite owed_included. pose proof (will_pull_nonneg (t, r)) as Hn.
  destruct t as [id|x y closure|id].
  - destruct r as [[]|e|]; (split; [done|split; [done|]]);
      unfold owed in *; cbn [on_status submitting pool included]; lia.
  - cbn [on_status].
    destruct (commandPull_owed closure (Sys p w b q (l1 ++ l2))) as (Hc & Ht & Ho).
    destruct r as [[]|e|]; cbn [handleCanvasClick_status will_pull] in *; [by auto| |by auto].
    split; [done|split; [done|]]. unfold owed; cbn [submitting pool included]. lia.
  - destruct r as [[]|e|]; (split; [done|split; [done|]]);
      unfold owed in *; cbn [on_status submitting pool included]; lia.
Qed.

(** A step is quiet, or a transaction of the page or of another account is included. *)
Lemma step_quiet s s' :
  step alice s s' ->
  quiet s s' \/
  (exists p w b l1 t l2 i, s = Sys p w b (l1 ++ t :: l2) i /\
     let '(r, w') := Swarm.dispatch alice (call_of t) w in
     s' = Sys (deliver (new_events w w') p) w' b (l1 ++ l2) (i ++ [(t, r)])) \/
  (exists p w b q i o c, (forall r, c <> Swarm.Call_pull_next r) /\ s = Sys p w b q i /\
     let w' := (Swarm.dispatch o c w).2 in s' = Sys (deliver (new_events w w') p) w' b q i).
Proof.
  assert (Hself : forall p s, target p = target (ui s) ->
    quiet s (Sys p (chain s) (submitting s) (pool s) (included s))).
  { intros p s0 Hp. split; [done|]. split; [done|]. unfold owed; cbn [submitting pool included]. lia. }
  intros [s0|s0|x y s0|ty s0|s0|s0|p w l1 t l2 q i|p w l1 t l2 q i|p w b l1 t l2 i|p w b l1 t l2 i
    |p w b q l1 t r l2|p w b q l1 t r l2|p w b q i o c Hc].
  - left. by apply Hself.
  - left. unfold registerRobot. destruct (ready (ui s0)); [|by destruct s0; apply Hself].
    destruct (length_id _); [|by apply Hself]. split; [done|]. split; [done|].
    unfold owed; cbn [submitting pool included]. rewrite total_app. cbn [total pulls]. lia.
  - left. unfold handleCanvasClick. destruct (ready (ui s0)); [|by destruct s0; apply Hself].
    split; [done|]. split; [done|].
    unfold owed; cbn [submitting pool included]. rewrite total_app. cbn [total pulls]. lia.
  - left. by apply Hself.
  - left. by apply Hself.
  - left. apply Hself, tick_target.
  - left. split; [done|]. split; [apply submitted_target|].
    unfold owed; cbn [submitting pool included]. rewrite !total_app. cbn [total]. lia.
  - left. split; [done|]. split; [by destruct t|].
    unfold owed; cbn [submitting pool included]. rewrite !total_app. cbn [total].
    pose proof (pulls_nonneg t). lia.
  - right. left. eexists _, _, _, _, _, _, _. split; [done|]. by destruct (Swarm.dispatch _ _ _).
  - left. split; [done|]. split; [done|].
    unfold owed; cbn [submitting pool included]. rewrite !total_app. cbn [total].
    pose proof (pulls_nonneg t). lia.
  - left. apply on_status_in_block.
  - left. apply on_status_finalized.
  - right. right. exists p, w, b, q, i, o, c. split; [exact Hc|]. by split.
Qed.

(** What is in the queue beyond what the page owes it never gets less. *)
Lemma step_surplus s s' : step alice s s' -> waiting s - owed s <= waiting s' - owed s'.
Proof.
  intros [(Hc & _ & Ho)|[(p & w & b & l1 & t & l2 & i & -> & Hs)
    |(p & w & b & q & i & o & c & Hc & -> & Hs)]]%step_quiet.
  - unfold waiting. rewrite Hc. lia.
  - pose proof (dispatch_leaves alice (call_of t) w) as Hd. cbn zeta in Hd.
    destruct (Swarm.dispatch alice (call_of t) w) as [r w']. subst s'. cbn [fst snd] in Hd.
    unfold waiting, owed; cbn [chain submitting pool included].
    rewrite !total_app. cbn [total]. pose proof (pulls_nonneg t).
    destruct r as [u|e|], t as [id|x y closure|id]; cbn [call_of] in Hd; cbn [pulls will_pull];
      try done; try (subst w'; lia).
    + destruct Hd as [-> _]. lia.
    + destruct Hd as [-> _]. rewrite length_app; cbn [length]. lia.
    + destruct Hd as [cmd ->]. cbn [length]. lia.
  - pose proof (dispatch_leaves o c w) as Hd. cbn zeta in Hd, Hs. subst s'.
    unfold waiting, owed; cbn [chain submitting pool included].
    destruct (Swarm.dispatch o c w) as [[u|e|] w']; cbn [fst snd] in *; [|subst; lia|done].
    destruct c as [id|cmd|id]; [| |by destruct (Hc id)].
    + destruct Hd as [-> _]. lia.
    + destruct Hd as [-> _]. rewrite length_app; cbn [length]. lia.
Qed.

Lemma surplus s s' : rtc (step alice) s s' -> waiting s - owed s <= waiting s' - owed s'.
Proof. induction 1 as [|s1 s2 s3 Hs _ IH]; [lia|]. apply step_surplus in Hs. lia. Qed.

(** With the queue full and nothing owed to it, nothing happens any more. *)
Lemma step_stuck s s' :
  step alice s s' -> owed s = 0 -> Swarm.MaxGlobalCommands <= waiting s ->
  owed s' = 0 /\ Swarm.queue (chain s') = Swarm.queue (chain s) /\
  target (ui s') = target (ui s).
Proof.
  pose proof (owed_nonneg s') as Hn'.
  intros [(Hc & Ht & Ho)|[(p & w & b & l1 & t & l2 & i & -> & Hs)
    |(p & w & b & q & i & o & c & Hc & -> & Hs)]]%step_quiet Hz Hfull.
  - rewrite Hc. split; [lia | done].
  - unfold waiting in Hfull; cbn [chain] in Hfull.
    pose proof (dispatch_leaves alice (call_of t) w) as Hd. cbn zeta in Hd.
    destruct (Swarm.dispatch alice (call_of t) w) as [r w']. subst s'. cbn [fst snd] in Hd.
    unfold owed in *; cbn [ui chain submitting pool included] in *.
    rewrite !total_app in *. cbn [total] in *.
    pose proof (total_nonneg pulls b pulls_nonneg). pose proof (total_nonneg pulls l1 pulls_nonneg).
    pose proof (total_nonneg pulls l2 pulls_nonneg).
    pose proof (total_nonneg will_pull i will_pull_nonneg).
    destruct r as [u|e|]; [| |done].
    + destruct t as [id|x y closure|id]; cbn [call_of pulls will_pull] in *; [|lia|lia].
      destruct Hd as [-> ->]. split; [lia|]. split; [done|].
      unfold deliver. by destruct (_ && _).
    + subst w'. rewrite new_events_self. unfold deliver.
      split; [destruct t; cbn [pulls will_pull] in *; lia|]. split; [done|]. by destruct (_ && _).
  - unfold waiting in Hfull; cbn [chain] in Hfull.
    pose proof (dispatch_leaves o c w) as Hd. cbn zeta in Hd, Hs. subst s'.
    cbn [ui chain]. unfold owed in *; cbn [submitting pool included] in *. split; [done|].
    destruct (Swarm.dispatch o c w) as [[u|e|] w']; cbn [fst snd] in *; [| |done].
    + destruct c as [id|cmd|id]; [|lia|by destruct (Hc id)].
      destruct Hd as [-> ->]. split; [done|]. unfold deliver. by destruct (_ && _).
    + subst w'. rewrite new_events_self. unfold deliver. split; [done|]. by destruct (_ && _).
Qed.

(** C28: The page never catches up.  However its robots are registered, its clicks come and
    its transactions are delayed, reordered, rejected or dropped, and whatever other
    accounts register and enqueue, as long as none of them pulls: from a moment with
    nothing of the page's on its way the queue never gets shorter, and is longer by as
    many commands as the page has pulls on their way or still to send, for the page pulls
    at most once for every command it enqueued.  So a command that once came in while the
    page had no robot delays all its clicks for good; and once the queue is full with no
    pull on its way, no click ever moves a robot again: the queue and the target stay as
    they are. *)
Theorem backlog_never_drains s s' :
  rtc (step alice) s s' ->
  (submitting s = [] -> pool s = [] -> included s = [] ->
   (length (Swarm.queue (chain s)) + Z.to_nat (owed s') <= length (Swarm.queue (chain s')))%nat) /\
  (owed s = 0 -> Swarm.MaxGlobalCommands <= Z.of_nat (length (Swarm.queue (chain s))) ->
   Swarm.queue (chain s') = Swarm.queue (chain s) /\ target (ui s') = target (ui s)).
Proof.
  intros Hr. split.
  - intros Hs Hp Hi. pose proof (surplus s s' Hr) as Hw. pose proof (owed_nonneg s') as Hn.
    assert (Hz : owed s = 0) by (unfold owed; by rewrite Hs, Hp, Hi).
    unfold waiting in Hw. lia.
  - induction Hr as [s|s1 s2 s3 Hs _ IH]; [done|]. intros Hz Hf.
    destruct (step_stuck s1 s2 Hs Hz Hf) as (Hz' & Hq & Ht).
    destruct IH as [-> ->]; [done | by rewrite Hq | done].
Qed.

(** *** One click *)
Lemma commit_new_events w w' q e :
  Swarm.recording w = true -> SwarmSpec.view w' ≡ SwarmSpec.commit q e (SwarmSpec.view w) ->
  Swarm.queue w' = q /\ new_events w w' = [e] /\ Swarm.recording w' = true /\
  forall r, Swarm.registered w' r = Swarm.registered w r.
Proof.
  intros Hrec (Hr & Hq & Hh & Hl). cbn in *. rewrite Hrec in Hh. split; [done|].
  split; [|split; [congruence | done]]. unfold new_events. rewrite Hh. by rewrite drop_app_length.
Qed.

Lemma enqueue_works cmd w :
  Swarm.recording w = true -> Z.of_nat (length (Swarm.queue w)) < Swarm.MaxGlobalCommands ->
  exists w', Swarm.dispatch alice (Swarm.Call_enqueue_command cmd) w = (Ok tt, w') /\
    Swarm.queue w' = Swarm.queue w ++ [cmd] /\ new_events w w' = [Swarm.CommandEnqueued cmd] /\
    Swarm.recording w' = true /\ forall r, Swarm.registered w' r = Swarm.registered w r.
Proof.
  intros Hrec Hl. destruct (Swarm.enqueue_command_room alice who cmd w alice_signs Hl) as (q & Hq & Hd).
  eexists. split; [exact Hd|]. rewrite <- Hq. by apply commit_new_events, SwarmSpec.view_put_deposit.
Qed.

Lemma pull_works id cmd cs w :
  Swarm.recording w = true -> Swarm.registered w id = true -> Swarm.queue w = cmd :: cs ->
  exists w', Swarm.dispatch alice (Swarm.Call_pull_next id) w = (Ok tt, w') /\
    Swarm.queue w' = cs /\
    new_events w w' = [Swarm.CommandPulled id cmd (Swarm.coordinate_of cmd)] /\
    Swarm.recording w' = true /\ forall r, Swarm.registered w' r = Swarm.registered w r.
Proof.
  intros Hrec Hr Hq. destruct (Swarm.pull_next_head alice who id w cmd cs alice_signs Hr Hq)
    as (q & Hs & Hd).
  eexists. split; [exact Hd|]. rewrite <- Hs. by apply commit_new_events, SwarmSpec.view_put_deposit.
Qed.

(** A transaction followed through: submitted, included, finalized. *)
Lemma flow_through t p w r w' :
  Swarm.dispatch alice (call_of t) w = (r, w') ->
  rtc (step alice) (Sys p w [t] [] [])
    (on_status t r Finalized (Sys (deliver (new_events w w') (submitted t p)) w' [] [] [])).
Proof.
  intros Hd.
  eapply rtc_l; [apply (step_submit alice p w [] t [] [] [])|].
  eapply rtc_l; [apply (step_include alice (submitted t p) w [] [] t [] [])|].
  rewrite Hd. apply rtc_once.
  apply (step_finalized alice (deliver (new_events w w') (submitted t p)) w' [] [] [] t r []).
Qed.

Definition click_command (x y : u32) : Swarm.Command :=
  Swarm.GoToLocation (Swarm.Build_Coordinate x y : Swarm.Location).

Context `{!PolkadotTypesOk}.

Lemma deliver_enqueued cmd (p : page DispatchError) : deliver [Swarm.CommandEnqueued cmd] p = p.
Proof. unfold deliver. by destruct (_ && _). Qed.
Lemma deliver_pulled id cmd l (p : page DispatchError) :
  ready p = true -> crashed p = false ->
  deliver [Swarm.CommandPulled id cmd l] p =
  onMoveCommand (vx (target_of cmd)) (vy (target_of cmd))
    (updateEvents (Moving (uval id) (vx (target_of cmd)) (vy (target_of cmd))) p).
Proof.
  intros Hr Hc. unfold deliver. rewrite Hr, Hc. cbn [andb negb on_events on_event].
  by rewrite coordinates_of.
Qed.

(** C29: A click moves the robots to the oldest command.  On a connected page whose first
    robot is registered on chain and with room in the queue, a click can be followed
    through, each transaction of it submitted, included and finalized, to a state where
    nothing is on its way, the page no longer loads, the queue has the click at its end
    and has lost its first command, and the target is that of the first command: of the
    click itself exactly if nothing was waiting. *)
Theorem click_moves_to_oldest x y s r rs id c cs :
  ready (ui s) = true -> crashed (ui s) = false -> robotsRef (ui s) = Array (r :: rs) ->
  to_uint 32 (robot_id r) = Some id -> Swarm.registered (chain s) id = true ->
  Swarm.recording (chain s) = true ->
  Z.of_nat (length (Swarm.queue (chain s))) < Swarm.MaxGlobalCommands ->
  submitting s = [] -> pool s = [] -> included s = [] ->
  Swarm.queue (chain s) ++ [click_command x y] = c :: cs ->
  exists s', rtc (step alice) s s' /\
    submitting s' = [] /\ pool s' = [] /\ included s' = [] /\
    Swarm.queue (chain s') = cs /\ loading (ui s') = false /\
    target (ui s') = Some (target_of c) /\
    (Swarm.queue (chain s) = [] -> uval x < 1000 -> uval y < 1000 ->
     target (ui s') = Some {| vx := num (uval x); vy := num (uval y) |}).
Proof.
  intros Hready Hcr Hrobots Hid Hreg Hrec Hroom Hsub Hpool Hinc Hcs.
  destruct s as [p w b q i]. cbn [ui chain submitting pool included] in *. subst b q i.
  destruct (enqueue_works (click_command x y) w Hrec Hroom) as (w1 & Hd1 & Hq1 & He1 & Hrec1 & Hreg1).
  rewrite <- Hreg1 in Hreg. rewrite Hcs in Hq1.
  destruct (pull_works id c cs w1 Hrec1 Hreg Hq1) as (w2 & Hd2 & Hq2 & He2 & _ & _).
  pose (p1 := setLoading true p).
  pose (p2 := updateEvents SendingToRobots p1).
  pose (p3 := onMoveCommand (vx (target_of c)) (vy (target_of c))
    (updateEvents (Moving (uval id) (vx (target_of c)) (vy (target_of c))) p2)).
  assert (Ht : target p3 = Some (target_of c)) by (by destruct (target_of c)).
  pose proof (step_click alice x y (Sys p w [] [] []) Hcr) as C1.
  unfold handleCanvasClick in C1; cbn [ui chain submitting pool included] in C1.
  rewrite Hready, Hrobots in C1.
  pose proof (flow_through (TxEnqueue x y (Array (r :: rs))) p1 w _ _ Hd1) as F1.
  rewrite He1, deliver_enqueued in F1. cbn [on_status handleCanvasClick_status] in F1.
  unfold commandPull in F1; cbn [ui chain submitting pool included] in F1.
  change (ready (submitted _ p1)) with (ready p) in F1. rewrite Hready, Hid in F1.
  pose proof (flow_through (TxPull id) p2 w1 _ _ Hd2) as F2.
  rewrite He2, deliver_pulled in F2 by done.
  exists (Sys (commandPull_status (Ok tt) Finalized p3) w2 [] [] []).
  split; [exact (transitivity (rtc_l _ _ _ _ C1 F1) F2)|].
  repeat (split; [done|]). intros Hq Hx Hy. rewrite Hq in Hcs. injection Hcs as <- _.
  change (target p3 = Some {| vx := num (uval x); vy := num (uval y) |}). rewrite Ht.
  cbn. unfold read_back. by rewrite !decide_True.
Qed.

(** *** A robot that is nowhere *)
Context `{!MathHypotOk}.

Lemma setRobots_lost f (p : page DispatchError) :
  (exists rs', f (robots p) = Some rs' /\ first_lost rs') -> first_lost (robots (setRobots f p)).
Proof. intros (rs' & Hf & Hl). unfold setRobots. by rewrite Hf. Qed.

Lemma tick_lost (p : page DispatchError) : first_lost (robots p) -> first_lost (robots (tick p)).
Proof.
  intros Hl. unfold tick. destruct (timer p) as [t|]; [|done]. cbn [setTimer robots].
  destruct (lost_stays (vx (t_target t)) (vy (t_target t)) _ Hl) as (Hs & Hb & Hp & _).
  unfold move_once. destruct (robotsRef p) as [[|? []]|]; destruct (t_swarm t); by apply setRobots_lost.
Qed.

Lemma on_events_robots es (p : page DispatchError) : robots (on_events es p) = robots p.
Proof.
  revert p. induction es as [|e es IH]; intros p; [done|]. cbn [on_events].
  destruct e as [c|id c l]; cbn [on_event]; [apply IH|].
  rewrite coordinates_of. cbn. rewrite IH. done.
Qed.
Lemma deliver_robots es (p : page DispatchError) : robots (deliver es p) = robots p.
Proof. unfold deliver. destruct (_ && _); [apply on_events_robots | done]. Qed.

Lemma commandPull_robots closure s : robots (ui (commandPull closure s)) = robots (ui s).
Proof.
  unfold commandPull. destruct (ready (ui s)); [|done]. destruct closure as [[|r rs]|r]; [done| |done].
  by destruct (to_uint 32 (robot_id r)).
Qed.
Lemma on_status_robots t r st s : robots (ui (on_status t r st s)) = robots (ui s).
Proof.
  destruct t as [id|x y closure|id]; destruct r as [u|e|], st; try done; apply commandPull_robots.
Qed.

Lemma step_lost s s' : step alice s s' -> first_lost (robots (ui s)) -> first_lost (robots (ui s')).
Proof.
  intros [s0|s0|x y s0|ty s0|s0|s0|p w l1 t l2 q i|p w l1 t l2 q i|p w b l1 t l2 i|p w b l1 t l2 i
    |p w b q l1 t r l2|p w b q l1 t r l2|p w b q i o c Hc] Hl; try exact Hl.
  - unfold registerRobot. destruct (ready (ui s0)); [|done]. by destruct (length_id _).
  - unfold handleCanvasClick. by destruct (ready (ui s0)).
  - by apply tick_lost.
  - destruct t; [|done..]. apply setRobots_lost.
    by destruct (lost_stays (num 0) (num 0) _ Hl) as (_ & _ & _ & Ha).
  - by destruct t.
  - destruct (Swarm.dispatch alice (call_of t) w). cbn [ui]. by rewrite deliver_robots.
  - by rewrite on_status_robots.
  - by rewrite on_status_robots.
  - cbn [ui]. by rewrite deliver_robots.
Qed.

(** C32: A command without a location loses a lone robot.  When the page sees the pull of a
    command to halt, to wait or to perform a task, the first frame after the next render
    moves its only robot nowhere, and there it stays, whatever the user, the chain and
    the page do afterwards, new commands included. *)
Theorem halt_loses_lone_robot (p : page DispatchError) r id c l :
  robots p = Array [r] -> (forall xy, c <> Swarm.GoToLocation xy) ->
  exists p', on_event (Swarm.CommandPulled id c l) p = Some p' /\
    first_lost (robots (tick (commit p'))) /\
    forall s s', first_lost (robots (ui s)) -> rtc (step alice) s s' -> first_lost (robots (ui s')).
Proof.
  intros Hr Hc. cbn [on_event]. rewrite coordinates_of. cbn [mbind option_bind fst snd].
  eexists. split; [done|]. split.
  - assert (Htar : target_of c = {| vx := NaN; vy := NaN |})
      by (by destruct c as [xy| | |]; [destruct (Hc xy)|..]).
    rewrite Htar. unfold tick, commit. cbn [dirty timer target onMoveCommand setTarget fmap
      option_fmap option_map vx vy swarmType updateEvents robots robotsRef setTimer t_target].
    unfold move_once; cbn [robotsRef t_target vx vy]. rewrite Hr. apply setRobots_lost.
    destruct (seek_nowhere r [] NaN NaN) as (r' & Hs & Hl); [by left|].
    exists (Array [r']). cbn [robots]. split; [exact Hs|]. by exists r', [].
  - intros s s' Hl Hs. induction Hs as [|s1 s2 s3 H12 _ IH]; [done|]. apply IH.
    by apply (step_lost s1).
Qed.
End system.
