(* ===== verification/Cli.v ===== *)
(** * The node's command line

    [node/src/cli.rs] and the trait implementations of [node/src/command.rs]: the
    sub-commands, the relay chain's command line derived from the parachain's
    configuration, and the calls the command makes. *)
From S2P Require Import Prelude Interaction NodeHost.

Local Open Scope Z_scope.

(** ** The CLI crates *)
Class SdkCli `{Sdk} : Type := {
  BuildSpecCmd : Type;
  CheckBlockCmd : Type;
  ExportBlocksCmd : Type;
  ExportStateCmd : Type;
  ImportBlocksCmd : Type;
  RevertCmd : Type;
  PurgeChainCmd : Type;
  ExportGenesisHeadCommand : Type;
  ExportGenesisWasmCommand : Type;
  PalletCmd : Type;
  BlockCmd : Type;
  StorageCmd : Type;
  MachineCmd : Type;
  OtherBenchmarkCmd : Type;
  wasm_command_chain : ExportGenesisWasmCommand -> option string;
  RunCmd : Type;
  NormalizedRunCmd : Type;
  normalize : RunCmd -> NormalizedRunCmd;
  run_collator_options : RunCmd -> CollatorOptions;
  Wasm : Type;
  GenericChainSpec : Type;
  boxed : GenericChainSpec -> DynSpec;
  Db : Type;
  Storage : Type;
  expose_db : Backend -> Db;
  expose_storage : Backend -> Storage;
  Runner : Type;
  CliError : Type;
  IoError : Type;
  cli_from_string : string -> CliError;
  cli_from_service : ServiceError -> CliError;
  cli_input : string -> CliError;
  display_error : CliError -> string;
  (* the relay chain's command and its settings *)
  PolkadotRunCmd : Type;
  executable_name : string;
  SharedParams : Type;
  ImportParams : Type;
  NetworkParams : Type;
  KeystoreParams : Type;
  RpcEndpoint : Type;
  PrometheusConfig : Type;
  Role : Type;
  RpcMethodsPolicy : Type;
  TelemetryConfig : Type;
  shared_base_path : SharedParams -> result (option Path) CliError;
}.

(** ** [CliConfiguration]: the settings a command answers for

    The methods of the trait that the relay chain command overrides. *)
Record CliConfiguration `{SdkCli} (T : Type) : Type := {
  shared_params : T -> SharedParams;
  import_params : T -> option ImportParams;
  network_params : T -> option NetworkParams;
  keystore_params : T -> option KeystoreParams;
  base_path : T -> result (option Path) CliError;
  rpc_addr : T -> Z -> result (option (list RpcEndpoint)) CliError;
  prometheus_config : T -> Z -> DynSpec -> result (option PrometheusConfig) CliError;
  chain_id : T -> bool -> result string CliError;
  role : T -> bool -> result Role CliError;
  transaction_pool : T -> bool -> result PoolOptions CliError;
  trie_cache_maximum_size : T -> result (option Z) CliError;
  rpc_methods : T -> result RpcMethodsPolicy CliError;
  rpc_max_connections : T -> result Z CliError;
  rpc_cors : T -> bool -> result (option (list string)) CliError;
  default_heap_pages_of : T -> result (option Z) CliError;
  force_authoring : T -> result bool CliError;
  disable_grandpa : T -> result bool CliError;
  max_runtime_instances_of : T -> result (option Z) CliError;
  announce_block : T -> result bool CliError;
  telemetry_endpoints_of : T -> DynSpec -> result (option TelemetryEndpoints) CliError;
  node_name : T -> result string CliError;
}.
Arguments shared_params {_ _ T} _ _.
Arguments import_params {_ _ T} _ _.
Arguments network_params {_ _ T} _ _.
Arguments keystore_params {_ _ T} _ _.
Arguments base_path {_ _ T} _ _.
Arguments rpc_addr {_ _ T} _ _ _.
Arguments prometheus_config {_ _ T} _ _ _ _.
Arguments chain_id {_ _ T} _ _ _.
Arguments role {_ _ T} _ _ _.
Arguments transaction_pool {_ _ T} _ _ _.
Arguments trie_cache_maximum_size {_ _ T} _ _.
Arguments rpc_methods {_ _ T} _ _.
Arguments rpc_max_connections {_ _ T} _ _.
Arguments rpc_cors {_ _ T} _ _ _.
Arguments default_heap_pages_of {_ _ T} _ _.
Arguments force_authoring {_ _ T} _ _.
Arguments disable_grandpa {_ _ T} _ _.
Arguments max_runtime_instances_of {_ _ T} _ _.
Arguments announce_block {_ _ T} _ _.
Arguments telemetry_endpoints_of {_ _ T} _ _ _.
Arguments node_name {_ _ T} _ _.

Section cli.
Context `{SdkCli}.

(** ** Sub-commands

    [frame_benchmarking_cli::BenchmarkCmd], with the variants the node does not
    name together in the last constructor. *)
Inductive BenchmarkCmd : Type :=
| Benchmark_Pallet (cmd : PalletCmd)
| Benchmark_Block (cmd : BlockCmd)
| Benchmark_Storage (cmd : StorageCmd)
| Benchmark_Machine (cmd : MachineCmd)
| Benchmark_Other (cmd : OtherBenchmarkCmd).

Inductive Subcommand : Type :=
| BuildSpec (cmd : BuildSpecCmd)
| CheckBlock (cmd : CheckBlockCmd)
| ExportBlocks (cmd : ExportBlocksCmd)
| ExportState (cmd : ExportStateCmd)
| ImportBlocks (cmd : ImportBlocksCmd)
| Revert (cmd : RevertCmd)
| PurgeChain (cmd : PurgeChainCmd)
| ExportGenesisHead (cmd : ExportGenesisHeadCommand)
| ExportGenesisWasm (cmd : ExportGenesisWasmCommand)
| Benchmark (cmd : BenchmarkCmd).

Record Cli : Type := {
  subcommand : option Subcommand;
  run_cmd : RunCmd;
  no_hardware_benchmarks : bool;
  relay_chain_args : list string;
}.

(** ** The relay chain's command line *)
Record RelayChainCli : Type := {
  rc_base : PolkadotRunCmd;
  rc_chain_id : option string;
  rc_base_path : option Path;
}.

(** ** The calls of the command *)

(** What a command is run with: the body of each sub-command. *)
Inductive job : Type :=
| BuildSpec_run (cmd : BuildSpecCmd) (spec : DynSpec) (network : NetworkConfiguration)
| CheckBlock_run (cmd : CheckBlockCmd) (c : Client) (q : ImportQueue)
| ExportBlocks_run (cmd : ExportBlocksCmd) (c : Client) (d : DatabaseSource)
| ExportState_run (cmd : ExportStateCmd) (c : Client) (spec : DynSpec)
| ImportBlocks_run (cmd : ImportBlocksCmd) (c : Client) (q : ImportQueue)
| Revert_run (cmd : RevertCmd) (c : Client) (b : Backend) (aux_revert : option unit)
| PurgeChain_run (cmd : PurgeChainCmd) (config polkadot_config : Configuration)
| ExportGenesisHead_run (cmd : ExportGenesisHeadCommand) (c : Client)
| ExportGenesisWasm_run (cmd : ExportGenesisWasmCommand) (spec : DynSpec)
| Pallet_run (cmd : PalletCmd) (spec : option DynSpec)
| Block_run (cmd : BlockCmd) (c : Client)
| Storage_run (cmd : StorageCmd) (config : Configuration) (c : Client) (d : Db) (s : Storage)
| Machine_run (cmd : MachineCmd) (config : Configuration).

(** What a runner is created for. *)
Inductive runnable : Type :=
| run_subcommand (s : Subcommand)
| run_node (r : NormalizedRunCmd).

Inductive CliOp : Type -> Type :=
| service {X : Type} (o : Op X) : CliOp X
| create_runner (r : runnable) : CliOp (result Runner CliError)
| from_json_file (path : string) : CliOp (result GenericChainSpec string)
| parse_polkadot (args : list string) : CliOp PolkadotRunCmd
| create_configuration (cli : RelayChainCli) (tokio : TokioHandle) :
    CliOp (result Configuration CliError)
| create_dir_all (p : Path) : CliOp (result unit IoError)
| gather_hwbench (p : option Path) : CliOp HwBench
| info_collating (yes : bool) : CliOp unit
| run_job (j : job) : CliOp (result unit CliError)
| block_on (j : job) (tm : TaskManager) : CliOp (result unit CliError)
| wait_until_exit (tm : TaskManager) : CliOp (result unit CliError).

(** [RelayChainCli::new] *)
Definition RelayChainCli_new (para_config : Configuration) (relay_chain_args : list string) :
    prog CliOp CliError RelayChainCli :=
  let extension := get_extension (chain_spec para_config) in
  let chain_id := relay_chain <$> extension in
  let base_path := path_join (base_path_of para_config) "polkadot" in
  base ← ask (parse_polkadot relay_chain_args);
  mret {| rc_base_path := Some base_path; rc_chain_id := chain_id; rc_base := base |}.

(** [DefaultConfigurationValues for RelayChainCli] *)
Definition p2p_listen_port : Z := 30334.
Definition rpc_listen_port : Z := 9945.
Definition prometheus_listen_port : Z := 9616.

(** [CliConfiguration for RelayChainCli], over the settings of [polkadot_cli]'s own
    command: all of them are its, but for the base path and the chain, which fall
    back to the parachain's. *)
Definition relay_configuration (base : CliConfiguration PolkadotRunCmd) :
    CliConfiguration RelayChainCli := {|
  shared_params c := shared_params base (rc_base c);
  import_params c := import_params base (rc_base c);
  network_params c := network_params base (rc_base c);
  keystore_params c := keystore_params base (rc_base c);
  base_path c :=
    match shared_base_path (shared_params base (rc_base c)) with
    | ROk (Some p) => ROk (Some p)
    | ROk None => ROk (rc_base_path c)
    | RErr e => RErr e
    end;
  rpc_addr c := rpc_addr base (rc_base c);
  prometheus_config c := prometheus_config base (rc_base c);
  chain_id c is_dev :=
    match chain_id base (rc_base c) is_dev with
    | ROk id => ROk (if String.eqb id "" then default ""%string (rc_chain_id c) else id)
    | RErr e => RErr e
    end;
  role c := role base (rc_base c);
  transaction_pool c := transaction_pool base (rc_base c);
  trie_cache_maximum_size c := trie_cache_maximum_size base (rc_base c);
  rpc_methods c := rpc_methods base (rc_base c);
  rpc_max_connections c := rpc_max_connections base (rc_base c);
  rpc_cors c := rpc_cors base (rc_base c);
  default_heap_pages_of c := default_heap_pages_of base (rc_base c);
  force_authoring c := force_authoring base (rc_base c);
  disable_grandpa c := disable_grandpa base (rc_base c);
  max_runtime_instances_of c := max_runtime_instances_of base (rc_base c);
  announce_block c := announce_block base (rc_base c);
  telemetry_endpoints_of c := telemetry_endpoints_of base (rc_base c);
  node_name c := node_name base (rc_base c);
|}.

(** [init] of the relay chain's command line: [unreachable!]. *)
Definition relay_init (c : RelayChainCli) : prog CliOp CliError unit := Panicked.
End cli.
