(* ===== verification/Command.v ===== *)
(** * Running a command

    [node/src/command.rs]: the chain specifications by name, and what each
    sub-command runs. *)
From S2P Require Import Prelude Genesis Interaction NodeHost Service.
From S2P Require Import ChainSpec Cli.

Local Open Scope Z_scope.

(** ** [sc_cli::Runner]

    A runner holds a configuration and hands it to the closure it is given.
    [sync_run] is done when the closure is; [async_run] then drives the future
    (the job) the closure returned, [run_node_until_exit] keeps the node alive. *)
Class Runners `{SdkCli} : Type := {
  runner_config : Runner -> Configuration;
  sync_run : Runner -> (Configuration -> prog CliOp CliError unit) -> prog CliOp CliError unit;
  async_run : Runner -> (Configuration -> prog CliOp CliError (job * TaskManager)) ->
    prog CliOp CliError unit;
  run_node_until_exit : Runner -> (Configuration -> prog CliOp CliError TaskManager) ->
    prog CliOp CliError unit;
}.

Class RunnersOk `{Runners} : Prop := {
  sync_run_spec r f : sync_run r f = f (runner_config r);
  async_run_spec r f :
    async_run r f = (x ← f (runner_config r); try id (block_on x.1 x.2));
  run_node_until_exit_spec r f :
    run_node_until_exit r f = (tm ← f (runner_config r); try id (wait_until_exit tm));
}.

Section command.
Context `{GenesisHost, Runners}.
Context (WASM_BINARY : option Wasm) (build : spec_settings (Wasm := Wasm) -> GenericChainSpec).
(** [cfg!(feature = "runtime-benchmarks")] *)
Context (runtime_benchmarks : bool).

(** ** Chain specifications by name *)
Definition load_spec (id : string) : prog CliOp string DynSpec :=
  if String.eqb id "dev" then
    boxed <$> unwrap (development_chain_spec WASM_BINARY build)
  else if String.eqb id "template-rococo" then
    boxed <$> unwrap (local_chain_spec WASM_BINARY build)
  else if String.eqb id "" || String.eqb id "local" then
    boxed <$> unwrap (local_chain_spec WASM_BINARY build)
  else
    spec ← try (fun e => e) (from_json_file id);
    mret (boxed spec).

(** ** What the two command lines say of themselves

    [SubstrateCli for Cli] and [for RelayChainCli]: the same identity; chains are looked
    up in this program and in the relay chain's. *)
Context (SUBSTRATE_CLI_IMPL_VERSION CARGO_PKG_AUTHORS : string).
Context (polkadot_load_spec : list string -> string -> prog CliOp string DynSpec).

Record SubstrateCli : Type := {
  impl_name : string;
  impl_version : string;
  description : string;
  author : string;
  support_url : string;
  copyright_start_year : Z;
  cli_load_spec : string -> prog CliOp string DynSpec;
}.

Definition newline : string := String (Ascii.ascii_of_nat 10) "".
Definition cli_description : string :=
  "Parachain Collator Template" +:+ newline +:+ newline +:+
  "The command-line arguments provided first will be passed to the parachain node, " +:+
  "while the arguments provided after -- will be passed to the relay chain node." +:+
  newline +:+ newline +:+ executable_name +:+ " <parachain-args> -- <relay-chain-args>".

Definition Cli_SubstrateCli : SubstrateCli := {|
  impl_name := "Parachain Collator Template";
  impl_version := SUBSTRATE_CLI_IMPL_VERSION;
  description := cli_description;
  author := CARGO_PKG_AUTHORS;
  support_url := "https://github.com/paritytech/polkadot-sdk/issues/new";
  copyright_start_year := 2020;
  cli_load_spec := load_spec |}.

Definition RelayChainCli_SubstrateCli : SubstrateCli := {|
  impl_name := "Parachain Collator Template";
  impl_version := SUBSTRATE_CLI_IMPL_VERSION;
  description := cli_description;
  author := CARGO_PKG_AUTHORS;
  support_url := "https://github.com/paritytech/polkadot-sdk/issues/new";
  copyright_start_year := 2020;
  cli_load_spec := polkadot_load_spec [executable_name] |}.

(** ** Sub-commands *)

(** A service program inside a command. *)
Definition in_service {A} (p : prog Op ServiceError A) : prog CliOp CliError A :=
  convert cli_from_service (embed (@service _ _) p).

(** The macro [construct_async_run!]. *)
Definition construct_async_run (cmd : Subcommand) (code : Service -> Configuration -> job) :
    prog CliOp CliError unit :=
  runner ← try id (create_runner (run_subcommand cmd));
  async_run runner (fun config =>
    components ← in_service (new_partial config);
    mret (code components config, s_task_manager components)).

(** The relay chain's arguments and configuration, from the parachain's. *)
Definition relay_chain_args_of (cli : Cli) : list string :=
  executable_name :: relay_chain_args cli.

Definition relay_configuration_for (polkadot_cli : RelayChainCli) (config : Configuration) :
    prog CliOp CliError Configuration :=
  try (fun err => cli_from_string ("Relay chain argument error: " +:+ display_error err))
    (create_configuration polkadot_cli (tokio_handle config)).

Definition not_enabled : string :=
  "Benchmarking wasn't enabled when building the node. You can enable it with `--features runtime-benchmarks`.".
Definition storage_not_enabled : string :=
  "Compile with --features=runtime-benchmarks to enable storage benchmarks.".

Definition run_benchmark (runner : Runner) (cmd : BenchmarkCmd) : prog CliOp CliError unit :=
  match cmd with
  | Benchmark_Pallet cmd =>
      if runtime_benchmarks then
        sync_run runner (fun config => try id (run_job (Pallet_run cmd (Some (chain_spec config)))))
      else Failed (cli_from_string not_enabled)
  | Benchmark_Block cmd =>
      sync_run runner (fun config =>
        partials ← in_service (new_partial config);
        try id (run_job (Block_run cmd (s_client partials))))
  | Benchmark_Storage cmd =>
      if runtime_benchmarks then
        sync_run runner (fun config =>
          partials ← in_service (new_partial config);
          let db := expose_db (s_backend partials) in
          let storage := expose_storage (s_backend partials) in
          try id (run_job (Storage_run cmd config (s_client partials) db storage)))
      else Failed (cli_input storage_not_enabled)
  | Benchmark_Machine cmd =>
      sync_run runner (fun config => try id (run_job (Machine_run cmd config)))
  | Benchmark_Other _ => Failed (cli_from_string "Benchmarking sub-command unsupported")
  end.

(** The node itself: the closure given to [run_node_until_exit]. *)
Definition run_hwbench (cli : Cli) (config : Configuration) : prog CliOp CliError (option HwBench) :=
  if negb (no_hardware_benchmarks cli) then
    match database_path (database config) with
    | Some path =>
        _ignored ← ask (create_dir_all path);
        b ← ask (gather_hwbench (Some path));
        mret (Some b)
    | None => mret None
    end
  else mret None.

Definition start_node (cli : Cli) (collator_options : CollatorOptions) (config : Configuration) :
    prog CliOp CliError TaskManager :=
  hwbench ← run_hwbench cli config;
  para_id ← of_result (ok_or (para_id <$> try_get (chain_spec config))
    (cli_from_string "Could not find parachain ID in chain-spec."));
  polkadot_cli ← RelayChainCli_new config (relay_chain_args_of cli);
  polkadot_config ← relay_configuration_for polkadot_cli config;
  ask (info_collating (is_authority config));;
  r ← in_service (start_parachain_node config polkadot_config collator_options para_id hwbench);
  mret r.1.

Definition run (cli : Cli) : prog CliOp CliError unit :=
  match subcommand cli with
  | Some (BuildSpec cmd) =>
      runner ← try id (create_runner (run_subcommand (BuildSpec cmd)));
      sync_run runner (fun config =>
        try id (run_job (BuildSpec_run cmd (chain_spec config) (network_config config))))
  | Some (CheckBlock cmd) =>
      construct_async_run (CheckBlock cmd) (fun components _ =>
        CheckBlock_run cmd (s_client components) (s_import_queue components))
  | Some (ExportBlocks cmd) =>
      construct_async_run (ExportBlocks cmd) (fun components config =>
        ExportBlocks_run cmd (s_client components) (database config))
  | Some (ExportState cmd) =>
      construct_async_run (ExportState cmd) (fun components config =>
        ExportState_run cmd (s_client components) (chain_spec config))
  | Some (ImportBlocks cmd) =>
      construct_async_run (ImportBlocks cmd) (fun components _ =>
        ImportBlocks_run cmd (s_client components) (s_import_queue components))
  | Some (Revert cmd) =>
      construct_async_run (Revert cmd) (fun components _ =>
        Revert_run cmd (s_client components) (s_backend components) None)
  | Some (PurgeChain cmd) =>
      runner ← try id (create_runner (run_subcommand (PurgeChain cmd)));
      sync_run runner (fun config =>
        polkadot_cli ← RelayChainCli_new config (relay_chain_args_of cli);
        polkadot_config ← relay_configuration_for polkadot_cli config;
        try id (run_job (PurgeChain_run cmd config polkadot_config)))
  | Some (ExportGenesisHead cmd) =>
      runner ← try id (create_runner (run_subcommand (ExportGenesisHead cmd)));
      sync_run runner (fun config =>
        partials ← in_service (new_partial config);
        try id (run_job (ExportGenesisHead_run cmd (s_client partials))))
  | Some (ExportGenesisWasm cmd) =>
      runner ← try id (create_runner (run_subcommand (ExportGenesisWasm cmd)));
      sync_run runner (fun _config =>
        spec ← convert cli_from_string (load_spec (default ""%string (wasm_command_chain cmd)));
        try id (run_job (ExportGenesisWasm_run cmd spec)))
  | Some (Benchmark cmd) =>
      runner ← try id (create_runner (run_subcommand (Benchmark cmd)));
      run_benchmark runner cmd
  | None =>
      runner ← try id (create_runner (run_node (normalize (run_cmd cli))));
      let collator_options := run_collator_options (run_cmd cli) in
      run_node_until_exit runner (start_node cli collator_options)
  end.

(** [main.rs]: the binary runs the command line it was given. *)
Definition main (cli : Cli) : prog CliOp CliError unit := run cli.
End command.
