(* ===== verification/CommandProps.v ===== *)
(** * Guarantees of the command line

    What a command runs, which chain it runs on, how the relay chain's settings
    follow the parachain's, and how many calls a command line makes at most. *)
From S2P Require Import Prelude Genesis Interaction NodeHost Service ServiceProps.
From S2P Require Import ChainSpec Cli Command.

Local Open Scope Z_scope.

Section guarantees.
Context `{GenesisHost, Runners}.
Context (WASM_BINARY : option Wasm) (build : spec_settings (Wasm := Wasm) -> GenericChainSpec).
Context (runtime_benchmarks : bool).
Abbreviation load_spec := (load_spec WASM_BINARY build).
Abbreviation run := (run WASM_BINARY build runtime_benchmarks).

(** Chains by name.  [dev] is the development network; [local],
    [template-rococo] and no name at all are the local network, without touching
    the file system; any other name is the path of a JSON specification, whose
    error is returned as it is. *)
Theorem load_spec_by_name {S} (h : host CliOp S) s wasm id :
  WASM_BINARY = Some wasm ->
  let '(tr, r) := interp h (load_spec id) s in
  if decide (id = "dev"%string) then
    tr = [] /\ r = Ok (boxed (build (development_settings wasm)))
  else if decide (id ∈ ["template-rococo"; ""; "local"]%string) then
    tr = [] /\ r = Ok (boxed (build (local_settings wasm)))
  else exists answer, tr = [Call _ (from_json_file id) answer] /\
    r = match answer with ROk spec => Ok (boxed spec) | RErr e => Err e end.
Proof.
  intros Hw. unfold Command.load_spec, development_chain_spec, local_chain_spec. rewrite Hw.
  destruct (String.eqb_spec id "dev") as [->|Hd]; [done|].
  destruct (decide (id = "dev"%string)) as [?|_]; [done|].
  destruct (String.eqb_spec id "template-rococo") as [->|Ht]; [done|].
  destruct (String.eqb_spec id "") as [->|He]; [done|].
  destruct (String.eqb_spec id "local") as [->|Hl]; [done|].
  destruct (decide (id ∈ _)) as [Hin|_]; [set_solver|]. cbn.
  destruct (h _ (from_json_file id) s) as [[spec|e] s']; cbn; eexists; split; done.
Qed.

(** ** What a command runs *)

(** The sub-command a job is the body of. *)
Definition job_source (j : job) : Subcommand :=
  match j with
  | BuildSpec_run cmd _ _ => BuildSpec cmd
  | CheckBlock_run cmd _ _ => CheckBlock cmd
  | ExportBlocks_run cmd _ _ => ExportBlocks cmd
  | ExportState_run cmd _ _ => ExportState cmd
  | ImportBlocks_run cmd _ _ => ImportBlocks cmd
  | Revert_run cmd _ _ _ => Revert cmd
  | PurgeChain_run cmd _ _ => PurgeChain cmd
  | ExportGenesisHead_run cmd _ => ExportGenesisHead cmd
  | ExportGenesisWasm_run cmd _ => ExportGenesisWasm cmd
  | Pallet_run cmd _ => Benchmark (Benchmark_Pallet cmd)
  | Block_run cmd _ => Benchmark (Benchmark_Block cmd)
  | Storage_run cmd _ _ _ _ => Benchmark (Benchmark_Storage cmd)
  | Machine_run cmd _ => Benchmark (Benchmark_Machine cmd)
  end.

(** The command a call carries out; [None] is the node itself. *)
Definition ran (X : Type) (o : CliOp X) : list (option Subcommand) :=
  match o with
  | run_job j | block_on j _ => [Some (job_source j)]
  | wait_until_exit _ => [None]
  | _ => []
  end.

Lemma in_service_calls {A} (P : call CliOp -> Prop) (p : prog Op ServiceError A) :
  wp p (fun tr _ => Forall (fun c => P (Call _ (service (call_op c)) (call_answer c))) tr) ->
  wp (in_service p) (fun tr _ => Forall P tr).
Proof.
  intros Hp. unfold in_service. apply wp_convert, wp_embed. eapply wp_mono; [|exact Hp].
  cbn. intros tr _. by rewrite Forall_fmap.
Qed.

Lemma follows_in_service {A B} (p : prog Op ServiceError A) (f : A -> prog CliOp CliError B)
    plan (R : B -> Prop) :
  (forall a, Follows ran (f a) plan R) -> Follows ran (in_service p ≫= f) plan R.
Proof.
  apply follows_bind_silent. apply (in_service_calls (fun c => ran _ (call_op c) = [])).
  eapply wp_mono; [|apply wp_any]. intros tr _ _. by apply Forall_true.
Qed.

Lemma relay_cli_silent config args :
  wp (RelayChainCli_new config args) (fun tr _ => Forall (fun c => ran _ (call_op c) = []) tr).
Proof. intros x. by repeat constructor. Qed.

Context `{!RunnersOk}.

Lemma async_run_follows cmd code :
  (forall s c, job_source (code s c) = cmd) ->
  Follows ran (construct_async_run cmd code) [Some cmd] (fun _ => True).
Proof.
  intros Hcode. unfold construct_async_run. follows_walk. rewrite async_run_spec.
  eapply (follows_bind _ _ _ [] [_] (fun x => job_source x.1 = cmd)).
  - apply follows_in_service. intros s. apply follows_ret, Hcode.
  - intros [j tm] Hj. apply follows_try; [cbn in *; by rewrite Hj | done].
Qed.

Lemma load_spec_silent id :
  wp (load_spec id) (fun tr _ => Forall (fun c => ran _ (call_op c) = []) tr).
Proof.
  unfold Command.load_spec, development_chain_spec, local_chain_spec.
  destruct WASM_BINARY; repeat case_match; cbn; try done; intros []; by repeat constructor.
Qed.

Lemma convert_silent {E F A} (conv : E -> F) (p : prog CliOp E A) :
  wp p (fun tr _ => Forall (fun c => ran _ (call_op c) = []) tr) ->
  wp (convert conv p) (fun tr _ => Forall (fun c => ran _ (call_op c) = []) tr).
Proof. intros Hp. by apply wp_convert. Qed.

Lemma run_benchmark_follows r cmd :
  Follows ran (run_benchmark runtime_benchmarks r cmd) [Some (Benchmark cmd)] (fun _ => True).
Proof.
  destruct cmd; cbn [run_benchmark]; rewrite ?sync_run_spec;
    try destruct runtime_benchmarks; rewrite ?sync_run_spec; follows_walk; try done.
  all: apply follows_in_service; intros s; by follows_walk.
Qed.

Lemma start_node_silent cli o config :
  wp (start_node cli o config) (fun tr _ => Forall (fun c => ran _ (call_op c) = []) tr).
Proof.
  change (Calls (fun c => ran _ (call_op c) = []) (start_node cli o config)).
  unfold start_node, run_hwbench, relay_configuration_for.
  repeat lazymatch goal with
  | |- Calls _ (in_service _) => apply in_service_calls; eapply wp_mono; [|apply wp_any];
      intros ? _ _; by apply Forall_true
  | |- Calls _ (RelayChainCli_new _ _) => apply relay_cli_silent
  | |- Calls _ (of_result ?r) => destruct r; constructor
  | |- Calls _ _ => progress calls_walk
  end; done.
Qed.

Lemma run_follows cli : Follows ran (run cli) [subcommand cli] (fun _ => True).
Proof.
  unfold Command.run. destruct (subcommand cli) as [[]|];
    try (by apply async_run_follows); follows_walk; rewrite ?sync_run_spec; follows_walk; try done.
  - apply follows_bind_silent; [apply relay_cli_silent|]. intros c. unfold relay_configuration_for.
    by follows_walk.
  - apply follows_in_service. intros s. by follows_walk.
  - apply follows_bind_silent; [apply convert_silent, load_spec_silent|]. intros spec. by follows_walk.
  - apply run_benchmark_follows.
  - rewrite run_node_until_exit_spec.
    apply follows_bind_silent; [apply start_node_silent|]. intros tm. by follows_walk.
Qed.

(** C15: a command line runs its own command and nothing else.  For every host, the
    bodies executed are at most one, the one of the sub-command given (the node
    when there is none), and exactly that one when the program succeeds; in
    particular a benchmark the build does not support never succeeds. *)
Theorem run_executes_its_command {S} (h : host CliOp S) cli s :
  let '(tr, r) := interp h (run cli) s in
  match r with
  | Ok _ => marks ran tr = [subcommand cli]
  | _ => marks ran tr `prefix_of` [subcommand cli]
  end.
Proof.
  pose proof (wp_interp h _ _ s (run_follows cli)) as Hw.
  destruct (interp _ _ _) as [tr [a|e|]]; cbn in *; [apply Hw | done..].
Qed.

(** ** Termination *)
Lemma in_service_at_most {A} n (p : prog Op ServiceError A) : AtMost n p -> AtMost n (in_service p).
Proof.
  intros Hp. unfold in_service. apply wp_convert, wp_embed. eapply wp_mono; [|exact Hp].
  cbn. intros tr _. by rewrite length_fmap.
Qed.

Lemma bind_service_at_most {A B} n m (p : prog Op ServiceError A) (f : A -> prog CliOp CliError B) :
  AtMost n p -> (forall a, AtMost m (f a)) -> AtMost (n + m) (in_service p ≫= f).
Proof. intros Hp. by apply at_most_bind, in_service_at_most. Qed.

Lemma run_hwbench_at_most cli config : AtMost 2 (run_hwbench cli config).
Proof.
  unfold run_hwbench. destruct (negb _); [|by count_walk]. destruct (database_path _); by count_walk.
Qed.

Lemma start_node_at_most cli o config : AtMost 22 (start_node cli o config).
Proof.
  unfold start_node, relay_configuration_for, RelayChainCli_new.
  apply (at_most_bind 2 20); [apply run_hwbench_at_most|]. intros hw.
  apply (at_most_bind 0 20); [by destruct (ok_or _ _); cbn; lia|]. intros pid.
  apply (at_most_bind 1 19); [by count_walk|]. intros c. count_walk.
  apply (at_most_weaken (17 + 0)); [done|].
  apply bind_service_at_most; [apply start_parachain_node_at_most|]. intros r. by count_walk.
Qed.

Lemma load_spec_at_most id : AtMost 1 (load_spec id).
Proof.
  unfold Command.load_spec, development_chain_spec, local_chain_spec.
  destruct WASM_BINARY; repeat case_match; try (cbn; lia); by count_walk.
Qed.
Lemma async_run_at_most cmd code : AtMost 8 (construct_async_run cmd code).
Proof.
  unfold construct_async_run. count_walk. rewrite async_run_spec.
  apply (at_most_bind 6 1); [|intros z; by count_walk].
  apply (bind_service_at_most 6 0); [apply new_partial_at_most|]. intros s. by count_walk.
Qed.

Lemma run_benchmark_at_most r cmd : AtMost 7 (run_benchmark runtime_benchmarks r cmd).
Proof.
  destruct cmd; cbn [run_benchmark]; rewrite ?sync_run_spec;
    try destruct runtime_benchmarks; rewrite ?sync_run_spec; count_walk.
  all: apply (bind_service_at_most 6 1); [apply new_partial_at_most|]; intros s; by count_walk.
Qed.

Lemma run_at_most cli : AtMost 24 (run cli).
Proof.
  unfold Command.run. destruct (subcommand cli) as [[]|];
    try (apply (at_most_weaken 8); [lia | apply async_run_at_most]);
    count_walk; rewrite ?sync_run_spec; count_walk.
  - unfold RelayChainCli_new, relay_configuration_for.
    apply (at_most_bind 1 22); [by count_walk|]. intros c. by count_walk.
  - apply (bind_service_at_most 6 17); [apply new_partial_at_most|]. intros s. by count_walk.
  - apply (at_most_bind 1 22); [apply wp_convert, load_spec_at_most|]. intros spec. by count_walk.
  - apply (at_most_weaken 7); [lia | apply run_benchmark_at_most].
  - rewrite run_node_until_exit_spec.
    apply (at_most_bind 22 1); [apply start_node_at_most|]. intros tm. by count_walk.
Qed.

(** How long a command line can take.  Whatever the host answers, the program ends, in a
    value, an error or a panic, after at most 24 calls into polkadot-sdk: at most
    17 to bring up a node, and at most 7 to find its configuration and to run the
    command's one body. *)
Theorem run_terminates {S} (h : host CliOp S) cli s :
  (length (interp h (run cli) s).1 <= 24)%nat.
Proof. apply (wp_interp h _ (fun tr _ => (length tr <= 24)%nat)), run_at_most. Qed.

(** ** The chain the node serves *)

(** The calls made before a chain is chosen. *)
Definition preliminary (c : call CliOp) : Prop :=
  match call_op c with
  | create_runner _ | create_dir_all _ | gather_hwbench _ => True
  | _ => False
  end.

Lemma run_without_para cli :
  subcommand cli = None ->
  (forall r, get_extension (chain_spec (runner_config r)) = None) ->
  wp (run cli) (fun tr r =>
    Forall preliminary tr /\
    (r = Err (cli_from_string "Could not find parachain ID in chain-spec.") \/
     exists runnable e, tr = [Call _ (create_runner runnable) (RErr e)] /\ r = Err e)).
Proof.
  intros Hs Hx. unfold Command.run. rewrite Hs. apply wp_bind. intros [runner|e]; cbn -[mbind].
  2:{ split; [by repeat constructor|]. right. eauto. }
  rewrite run_node_until_exit_spec. apply wp_bind. unfold start_node. apply wp_bind.
  unfold try_get. rewrite Hx. unfold run_hwbench.
  destruct (no_hardware_benchmarks cli), (database_path _); cbn; intros;
    (split; [by repeat constructor | by left]).
Qed.

(** A node whose chain specification names no parachain does not start: it
    reports so (or that no runner could be made), having touched neither the
    relay chain's configuration nor any service. *)
Theorem node_needs_para_id {S} (h : host CliOp S) cli s :
  subcommand cli = None ->
  (forall r, get_extension (chain_spec (runner_config r)) = None) ->
  let '(tr, r) := interp h (run cli) s in
  Forall preliminary tr /\
  (r = Err (cli_from_string "Could not find parachain ID in chain-spec.") \/
   exists runnable e, tr = [Call _ (create_runner runnable) (RErr e)] /\ r = Err e).
Proof.
  intros Hs Hx. pose proof (wp_interp h _ _ s (run_without_para cli Hs Hx)) as Hw.
  by destruct (interp _ _ _).
Qed.

Definition told_para_cli (c : call CliOp) : option Z :=
  match call_op c with service o => para_of _ o | _ => None end.

Lemma run_para cli pid :
  subcommand cli = None ->
  (forall r e, get_extension (chain_spec (runner_config r)) = Some e -> para_id e = pid) ->
  Calls (agrees told_para_cli pid) (run cli).
Proof.
  intros Hs Hx. unfold Command.run. rewrite Hs. apply calls_bind; [by calls_walk|]. intros runner.
  rewrite run_node_until_exit_spec. apply calls_bind; [|intros ?; by calls_walk].
  unfold start_node, try_get, run_hwbench, relay_configuration_for, RelayChainCli_new.
  apply calls_bind; [by calls_walk|]. intros b.
  destruct (get_extension _) as [e|] eqn:He; cbn [fmap option_fmap option_map ok_or of_result];
    [|constructor].
  apply calls_done_bind. rewrite (Hx _ _ He).
  apply calls_bind; [by calls_walk|]. intros rcli.
  apply calls_bind; [by calls_walk|]. intros rc.
  apply calls_bind; [by calls_walk|]. intros _.
  apply calls_bind; [|by intros; calls_walk].
  apply in_service_calls. eapply wp_mono; [|apply (start_parachain_node_para _ _ _ pid)]. done.
Qed.

(** C36: the node serves the parachain its chain specification names: every service
    call that is told a para id is told the one of the specification. *)
Theorem node_serves_spec_para {S} (h : host CliOp S) cli pid s :
  subcommand cli = None ->
  (forall r e, get_extension (chain_spec (runner_config r)) = Some e -> para_id e = pid) ->
  Forall (agrees told_para_cli pid) (interp h (run cli) s).1.
Proof.
  intros Hs Hx. apply (wp_interp h _ (fun tr _ => Forall _ tr)). by apply run_para.
Qed.

(** The relay chain's settings fall back to the parachain's: its files go below
    the parachain's directory unless a base path is given on its own command
    line (whose errors are kept), and its chain is the one the parachain's
    specification names unless one is given; its role and every other setting are
    those of its own command line. *)
Theorem relay_settings_fall_back {S} (h : host CliOp S) base config args s :
  let '(tr, r) := interp h (RelayChainCli_new config args) s in
  exists c own, r = Ok c /\ tr = [Call _ (parse_polkadot args) own] /\
    base_path (relay_configuration base) c =
      match shared_base_path (shared_params base own) with
      | ROk None => ROk (Some (path_join (base_path_of config) "polkadot"))
      | given => given
      end /\
    (forall is_dev, chain_id (relay_configuration base) c is_dev =
      match chain_id base own is_dev with
      | ROk "" => ROk (default "" (relay_chain <$> get_extension (chain_spec config)))
      | given => given
      end) /\
    (forall is_dev, role (relay_configuration base) c is_dev = role base own is_dev).
Proof.
  cbn. destruct (h _ (parse_polkadot args) s) as [own s']; cbn.
  eexists _, own. split; [done|]. split; [done|]. cbn. split; [|split; [|done]].
  - by destruct (shared_base_path _) as [[]|].
  - intros is_dev. by destruct (chain_id base own is_dev) as [[|??]|].
Qed.
End guarantees.
