(* ===== verification/Reference.v ===== *)
(** * Reference instances

    Concrete operations for every interface of [Frame.v], [Configs.v] and
    [Genesis.v], with proofs of their laws.  They are not the code of polkadot-sdk:
    they show that the laws the components are verified under can hold together,
    and they make the components run. *)
From S2P Require Import Prelude Frame Constants Fees Genesis Configs.
From S2P Require Swarm SwarmSpec Template TemplateProps Runtime.

Local Open Scope Z_scope.

(** ** Origins, accounts, errors *)
Inductive dispatch_error : Type := BadOrigin | ModuleError (index error : Z).

#[export] Instance ref_system : FrameSystem := {|
  OriginFor := option Z;
  AccountId := Z;
  DispatchError := dispatch_error;
  ensure_signed o := match o with Some who => ROk who | None => RErr BadOrigin end;
|}.

#[export] Instance ref_swarm_error : IntoDispatchError Swarm.Error := fun e =>
  ModuleError (Runtime.pallet_index Runtime.SwarmRobotPallet)
    match e with Swarm.InvalidRobotId => 0 | Swarm.QueueFull => 1 | Swarm.QueueEmpty => 2 end.
#[export] Instance ref_template_error : IntoDispatchError Template.Error := fun e =>
  ModuleError (Runtime.pallet_index Runtime.TemplatePallet)
    match e with Template.NoneValue => 0 | Template.StorageOverflow => 1 end.

(** ** Bounded vectors: a list that refuses to grow beyond the bound *)
#[export] Instance ref_bounded_vec : BoundedVec Swarm.Command := {|
  bvec := list Swarm.Command;
  bv_default := [];
  bv_slice l := l;
  bv_try_push a l :=
    if Z.of_nat (length l) <? MaxGlobalCommands then (ROk tt, l ++ [a]) else (RErr a, l);
  bv_remove i l := (fun a => (a, delete i l)) <$> l !! i;
|}.

#[export] Instance ref_bounded_vec_ok : BoundedVecOk Swarm.Command Swarm.MaxGlobalCommands.
Proof.
  split; cbn [bv_default bv_slice bv_try_push bv_remove ref_bounded_vec Swarm.MaxGlobalCommands
    swarm_config bvec]; try done.
  - intros a b Hb. rewrite (proj2 (Z.ltb_lt _ _)) by done. done.
  - intros a b Hb. rewrite (proj2 (Z.ltb_ge _ _)) by done. done.
  - intros i b c Hc. rewrite Hc. cbn. eauto.
  - intros i b Hi. by rewrite Hi.
Qed.

(** ** Block numbers: [u32] *)
#[export] Instance ref_numbers : BlockNumbers := {|
  BlockNumber := u32;
  bn_from_u32 n := n;
  bn_checked_add := uint_checked_add;
  bn_one := #1;
|}.

#[export] Instance ref_numbers_ok : BlockNumbersOk (@uval 32) (umax 32).
Proof.
  split; try done.
  - apply _.
  - apply uval_fits.
  - intros n m k. apply uint_checked_add_Some.
  - intros n m. apply uint_checked_add_None.
Qed.

(** ** A chain state *)
Inductive runtime_event : Type :=
| SwarmEvent (e : Swarm.Event)
| TemplateEvent (e : Template.Event).

Record world : Type := {
  w_robots : gset u32;
  w_queue : list Swarm.Command;
  w_something : option Template.CompositeStruct;
  w_events : list runtime_event;
  w_number : Z;
}.

Definition with_robots f (w : world) := {| w_robots := f (w_robots w); w_queue := w_queue w;
  w_something := w_something w; w_events := w_events w; w_number := w_number w |}.
Definition with_queue q (w : world) := {| w_robots := w_robots w; w_queue := q;
  w_something := w_something w; w_events := w_events w; w_number := w_number w |}.
Definition with_something v (w : world) := {| w_robots := w_robots w; w_queue := w_queue w;
  w_something := Some v; w_events := w_events w; w_number := w_number w |}.
Definition with_event e (w : world) := {| w_robots := w_robots w; w_queue := w_queue w;
  w_something := w_something w;
  w_events := if w_number w =? 0 then w_events w else w_events w ++ [e]; w_number := w_number w |}.

Definition swarm_event (e : runtime_event) : option Swarm.Event :=
  match e with SwarmEvent e => Some e | _ => None end.
Definition template_event (e : runtime_event) : option Template.Event :=
  match e with TemplateEvent e => Some e | _ => None end.

#[export] Instance ref_swarm_storage : Swarm.SwarmStorage world := {|
  Swarm.RegisteredRobots := {|
    sm_contains_key r w := bool_decide (r ∈ w_robots w);
    sm_insert r (_ : unit) := with_robots (union {[r]}) |};
  Swarm.GlobalCommandQueue := {| sv_get := w_queue; sv_put := with_queue |};
  Swarm.SwarmEvents := {|
    es_deposit e := with_event (SwarmEvent e);
    es_log w := omap swarm_event (w_events w);
    es_recording w := negb (w_number w =? 0) |};
|}.

#[export] Instance ref_template_storage : Template.TemplateStorage world := {|
  Template.Something := {| sv_get := w_something; sv_put := with_something |};
  Template.TemplateEvents := {|
    es_deposit e := with_event (TemplateEvent e);
    es_log w := omap template_event (w_events w);
    es_recording w := negb (w_number w =? 0) |};
|}.

Lemma omap_deposit {A} (sel : runtime_event -> option A) e w :
  omap sel (w_events (with_event e w)) =
  if w_number w =? 0 then omap sel (w_events w)
  else omap sel (w_events w) ++ match sel e with Some a => [a] | None => [] end.
Proof. cbn. case_match; [done|]. rewrite omap_app. cbn. by case_match. Qed.

Lemma contains_insert (R : gset u32) k k' :
  bool_decide (k' ∈ ({[k]} ∪ R)) = bool_decide (k = k') || bool_decide (k' ∈ R).
Proof.
  apply eq_bool_prop_intro. rewrite orb_True, !bool_decide_spec, elem_of_union, elem_of_singleton.
  naive_solver.
Qed.

#[export] Instance ref_swarm_storage_ok : Swarm.SwarmStorageOk world.
Proof.
  split; try (by intros ? ?); try (by intros ? ? ?).
  - intros k k' v w. apply contains_insert.
  - split.
    + intros e w. cbn -[w_events with_event]. rewrite omap_deposit. cbn. by destruct (w_number w =? 0).
    + by intros e w.
Qed.

#[export] Instance ref_template_storage_ok : Template.TemplateStorageOk world.
Proof.
  split; try (by intros ? ?).
  split.
  - intros e w. cbn -[w_events with_event]. rewrite omap_deposit. cbn. by destruct (w_number w =? 0).
  - by intros e w.
Qed.

#[export] Instance ref_layer : StorageLayer world := fun m w =>
  match m w with (Ok a, w') => (Ok a, w') | (Err e, _) => (Err e, w) | (Panic, _) => (Panic, w) end.
#[export] Instance ref_layer_ok : StorageLayerOk world.
Proof. split; [intros m w w' H | intros m w e w' H]; unfold with_storage_layer, ref_layer; by rewrite H. Qed.

Lemma deposit_apart {A} (sel : runtime_event -> option A) e w :
  sel e = None -> omap sel (w_events (with_event e w)) = omap sel (w_events w).
Proof. intros H. rewrite omap_deposit, H, app_nil_r. by case_match. Qed.

#[export] Instance ref_storage_apart : Runtime.StorageApart (W := world) (@uval 32).
Proof.
  split; try done.
  - intros e w. repeat split. apply (deposit_apart swarm_event (TemplateEvent e)); done.
  - intros e w. unfold TemplateProps.view, TemplateProps.log; cbn -[w_events with_event].
    f_equal. apply (deposit_apart template_event (SwarmEvent e)); done.
Qed.

(** ** Weights: pairs of integers *)
Record weight : Type := { wt_time : Z; wt_proof : Z }.

#[export] Instance ref_weights : Weights := {|
  Weight := weight;
  from_parts r p := {| wt_time := r; wt_proof := p |};
  ref_time := wt_time;
  proof_size := wt_proof;
  weight_saturating_add v w := {|
    wt_time := saturating_add 64 (wt_time v) (wt_time w);
    wt_proof := saturating_add 64 (wt_proof v) (wt_proof w) |};
  weight_add v w := {| wt_time := wt_time v + wt_time w; wt_proof := wt_proof v + wt_proof w |};
  weight_sub v w := {| wt_time := wt_time v - wt_time w; wt_proof := wt_proof v - wt_proof w |};
  weight_saturating_div v n := {| wt_time := wt_time v / n; wt_proof := wt_proof v / n |};
  WEIGHT_REF_TIME_PER_SECOND := 1_000_000_000_000;
  WEIGHT_REF_TIME_PER_MILLIS := 1_000_000_000;
  WEIGHT_REF_TIME_PER_MICROS := 1_000_000;
  WEIGHT_REF_TIME_PER_NANOS := 1_000;
|}.
#[export] Instance ref_weights_ok : WeightsOk.
Proof. split; try done. intros [] []; cbn. by intros -> ->. Qed.

#[export] Instance ref_db_weights : DbWeights := {|
  db_reads d n := from_parts (saturating_mul 64 (read d) n) 0;
  db_writes d n := from_parts (saturating_mul 64 (write d) n) 0;
  db_reads_writes d r w :=
    from_parts (saturating_add 64 (saturating_mul 64 (read d) r) (saturating_mul 64 (write d) w)) 0;
|}.
#[export] Instance ref_db_weights_ok : DbWeightsOk.
Proof. by split. Qed.

(** ** Parts per billion *)
#[export] Instance ref_perbills : Perbills := {|
  Perbill := Z;
  parts p := Z.max 0 (Z.min BILLION p);
  from_percent n := n * 10_000_000;
  from_rational p q := p * BILLION / q;
  perbill_mul p n := (Z.max 0 (Z.min BILLION p) * n + BILLION / 2) / BILLION;
|}.
#[export] Instance ref_perbills_ok : PerbillsOk.
Proof.
  split; cbn [parts from_percent from_rational perbill_mul ref_perbills].
  - unfold BILLION. lia.
  - unfold BILLION. lia.
  - intros p q k Hp Hq Hk. rewrite Hk, Z.div_mul by lia. unfold BILLION in *. nia.
  - intros p n Hn. remember (Z.max 0 (Z.min BILLION p) * n) as a.
    unfold BILLION in *. change (1_000_000_000 / 2) with 500_000_000.
    pose proof (Z.div_mod (a + 500_000_000) 1_000_000_000).
    pose proof (Z.mod_pos_bound (a + 500_000_000) 1_000_000_000). lia.
Qed.

#[export] Instance ref_shares : WeightShares := fun p w =>
  from_parts (perbill_mul p (ref_time w)) (perbill_mul p (proof_size w)).
#[export] Instance ref_shares_ok : WeightSharesOk.
Proof. by intros p w. Qed.

(** The polynomial is summed in 128 bits, saturating, term by term. *)
#[export] Instance ref_polynomials : FeePolynomials := fun cs t =>
  foldl (fun acc c =>
    let w := t ^ degree c in
    let frac := perbill_mul (coeff_frac c) w in
    let integer := saturating_mul 128 (coeff_integer c) w in
    if negative c then saturating_sub (saturating_sub acc frac) integer
    else saturating_add 128 (saturating_add 128 acc frac) integer) 0 cs.
#[export] Instance ref_polynomials_ok : FeePolynomialsOk.
Proof.
  intros c t Hd Hn Ht Hc. unfold evaluate, ref_polynomials; cbn [foldl].
  rewrite Hd, Hn, Z.pow_1_r. f_equal. unfold fits in Ht.
  pose proof (perbill_mul_le (coeff_frac c) t). assert (umax 64 < umax 128) by done.
  rewrite saturating_add_exact; lia.
Qed.

(** ** Block limits *)
Inductive dispatch_class : Type := normal_class | operational_class | mandatory_class.
#[export] Instance dispatch_class_eq : EqDecision dispatch_class.
Proof. solve_decision. Defined.

Definition weight_max (v w : weight) : weight :=
  {| wt_time := Z.max (wt_time v) (wt_time w); wt_proof := Z.max (wt_proof v) (wt_proof w) |}.

(** The largest of the classes' totals. *)
Definition largest_total (limits : dispatch_class -> WeightsPerClass) : option weight :=
  union_with (fun v w => Some (weight_max v w)) (max_total (limits normal_class))
    (union_with (fun v w => Some (weight_max v w)) (max_total (limits operational_class))
       (max_total (limits mandatory_class))).

#[export] Instance ref_limits : BlockLimits := {|
  DispatchClass := dispatch_class;
  Normal := normal_class;
  Operational := operational_class;
  all_classes := [normal_class; operational_class; mandatory_class];
  Builder := dispatch_class -> WeightsPerClass;
  builder c := {| base_extrinsic := from_parts 0 0;
    max_total := match c with mandatory_class => None | _ => Some (from_parts 0 0) end;
    reserved := match c with mandatory_class => None | _ => Some (from_parts 0 0) end |};
  base_block _ b := b;
  for_class cs f b c := if decide (c ∈ cs) then f (b c) else b c;
  avg_block_initialization _ b := b;
  per_class b := b;
  BlockWeights := dispatch_class -> WeightsPerClass;
  build_or_panic b := Some b;
  class_weights b := b;
  max_block b := default (from_parts 0 0) (largest_total b);
  BlockLength := Z;
  max_with_normal_ratio n _ := n;
|}.

Lemma largest_total_spec (b : dispatch_class -> WeightsPerClass) c m :
  max_total (b c) = Some m ->
  (forall c' m', max_total (b c') = Some m' -> weight_le m' m) ->
  largest_total b = Some m.
Proof.
  intros Hc Hle. unfold largest_total.
  pose proof (Hle normal_class) as Hn. pose proof (Hle operational_class) as Ho.
  pose proof (Hle mandatory_class) as Hm. unfold weight_le in *.
  destruct c; rewrite Hc;
    repeat match goal with
    | |- context [max_total ?x] => destruct (max_total x) as [[??]|] eqn:?
    end; cbn in *;
    repeat match goal with H : forall _, Some ?x = Some _ -> _ |- _ => specialize (H x eq_refl) end;
    f_equal; destruct m; unfold weight_max; cbn in *; f_equal; lia.
Qed.

#[export] Instance ref_limits_ok : BlockLimitsOk.
Proof.
  split; try done.
  - apply (bool_decide_unpack _). by vm_compute.
  - apply (bool_decide_unpack _). by vm_compute.
  - intros []; apply (bool_decide_unpack _); by vm_compute.
  - by intros [].
  - intros b bw c Hb. by injection Hb as <-.
  - intros b bw c m Hb Hc Hle. injection Hb as <-. cbn. by rewrite (largest_total_spec b c m).
Qed.

(** ** The development keyring and the genesis builder *)
Inductive keyring : Type := alice | bob | charlie.

#[export] Instance ref_genesis : GenesisHost := {|
  Account := Z;
  AuraId := Z;
  Keyring := keyring;
  Alice := alice;
  Bob := bob;
  well_known := [alice; bob; charlie];
  to_account_id k := match k with alice => 1 | bob => 2 | charlie => 3 end;
  aura_public k := match k with alice => 101 | bob => 102 | charlie => 103 end;
  XCM_VERSION := 5;
  PresetId := string;
  DEV_RUNTIME_PRESET := "development";
  LOCAL_TESTNET_RUNTIME_PRESET := "local_testnet";
  Value := Z;
  Bytes := string;
|}.
#[export] Instance ref_genesis_ok : GenesisHostOk.
Proof.
  split; try done.
  - change (NoDup [1; 2; 3]). apply (bool_decide_unpack _). by vm_compute.
  - by left.
  - by right; left.
Qed.
