(* ===== verification/StorageReference.v ===== *)
(** * Reference instances of the codecs and of the raw store

    Concrete base codecs, vectors that cannot hold more than their bound, a store
    that is a function from keys to values, and hashes that keep the first sixteen
    bytes: instances of the interfaces of [Codec.v] and [Storage.v], which show that
    their laws can hold together and make the storage layout run. *)
From S2P Require Import Prelude Frame Configs Codec Storage Reference.
From S2P Require Swarm Template Runtime.
From Stdlib Require Import Strings.Byte.

Local Open Scope Z_scope.

#[local] Existing Instance Runtime.pallet_eq_dec.

(** ** Integers, little-endian *)
Definition le_digit (i : nat) (n : Z) : byte := index_byte (n / 256 ^ Z.of_nat i mod 256).
Definition le4 (n : Z) : bytes := [le_digit 0 n; le_digit 1 n; le_digit 2 n; le_digit 3 n].
Definition un_le4 (a b c d : byte) : Z :=
  byte_index a + 256 * (byte_index b + 256 * (byte_index c + 256 * byte_index d)).

Lemma un_le4_le4 n : fits 32 n -> un_le4 (le_digit 0 n) (le_digit 1 n) (le_digit 2 n) (le_digit 3 n) = n.
Proof.
  unfold fits, umax, un_le4, le_digit. intros Hn.
  rewrite !byte_index_byte by (unfold fits, umax;
    match goal with |- _ <= ?a mod 256 <= _ => pose proof (Z.mod_pos_bound a 256) end; lia).
  change (256 ^ Z.of_nat 0) with 1. change (256 ^ Z.of_nat 1) with 256.
  change (256 ^ Z.of_nat 2) with (256 * 256). change (256 ^ Z.of_nat 3) with (256 * 256 * 256).
  rewrite Z.div_1_r, <- !Z.div_div by lia.
  assert (n / 256 / 256 / 256 < 256) by (rewrite !Z.div_div by lia; apply Z.div_lt_upper_bound; lia).
  pose proof (Z.div_mod n 256). pose proof (Z.div_mod (n / 256) 256).
  pose proof (Z.div_mod (n / 256 / 256) 256). pose proof (Z.div_pos n 256).
  pose proof (Z.div_pos (n / 256) 256). pose proof (Z.div_pos (n / 256 / 256) 256).
  rewrite (Z.mod_small (n / 256 / 256 / 256)) by lia. lia.
Qed.

Lemma le4_un_le4 a b c d : le4 (un_le4 a b c d) = [a; b; c; d].
Proof.
  unfold le4, un_le4, le_digit.
  pose proof (byte_index_fits a) as Ha. pose proof (byte_index_fits b) as Hb.
  pose proof (byte_index_fits c) as Hc. pose proof (byte_index_fits d) as Hd.
  unfold fits, umax in *. change (2 ^ 8 - 1) with 255 in *.
  change (256 ^ Z.of_nat 0) with 1. change (256 ^ Z.of_nat 1) with 256.
  change (256 ^ Z.of_nat 2) with (256 * 256). change (256 ^ Z.of_nat 3) with (256 * 256 * 256).
  rewrite Z.div_1_r, <- !Z.div_div by lia.
  assert (E : forall x y, 0 <= x <= 255 -> (x + 256 * y) / 256 = y)
    by (intros x y Hx; rewrite Z.mul_comm, Z.div_add, Z.div_small by lia; lia).
  assert (M : forall x y, 0 <= x <= 255 -> (x + 256 * y) mod 256 = x)
    by (intros x y Hx; rewrite Z.mul_comm, Z.mod_add, Z.mod_small by lia; lia).
  rewrite !E, !M by lia. rewrite (Z.mod_small (byte_index d)) by lia. by rewrite !index_byte_index.
Qed.

Lemma un_le4_fits a b c d : fits 32 (un_le4 a b c d).
Proof.
  pose proof (byte_index_fits a). pose proof (byte_index_fits b).
  pose proof (byte_index_fits c). pose proof (byte_index_fits d).
  unfold fits, umax, un_le4 in *. lia.
Qed.

#[export] Instance u32_codec : Codec u32 := {|
  scale_encode n := le4 (uval n);
  scale_decode bs :=
    match bs with
    | a :: b :: c :: d :: rest => (fun n => (n, rest)) <$> to_uint 32 (un_le4 a b c d)
    | _ => None
    end;
|}.

#[export] Instance u32_codec_ok : CodecOk u32.
Proof.
  intros n bs rest. unfold scale_decode, scale_encode, u32_codec. split.
  - destruct bs as [|a [|b [|c [|d bs]]]]; try done.
    destruct (to_uint _ _) as [m|] eqn:Hm; [|done]. intros [= <- <-].
    apply to_uint_Some in Hm. by rewrite Hm, le4_un_le4.
  - intros ->. cbn [app le4]. rewrite un_le4_le4 by apply uval_fits. by rewrite to_uint_uval.
Qed.

#[export] Instance u32_max_len : MaxEncodedLen u32 := 4.
#[export] Instance u32_len_ok : MaxEncodedLenOk u32.
Proof. by intros n. Qed.

(** ** Compact lengths: one byte below 64, two below [2^14] *)
#[export] Instance ref_compact : Compacts := fun n =>
  if decide (n < 64) then [index_byte (4 * n)]
  else [index_byte ((4 * n + 1) mod 256); index_byte ((4 * n + 1) / 256)].
#[export] Instance ref_compact_ok : CompactsOk.
Proof. intros n _. unfold compact, ref_compact. by case_decide. Qed.

Definition read_compact : Decoder Z :=
  a ← read_byte;
  if decide (byte_index a mod 4 = 0) then mret (byte_index a / 4)
  else if decide (byte_index a mod 4 = 1) then
    b ← read_byte;
    let n := (byte_index a + 256 * byte_index b) / 4 in
    if decide (64 <= n) then mret n else invalid
  else invalid.

Lemma read_compact_compact n rest :
  0 <= n < 2 ^ 14 -> read_compact (compact n ++ rest) = Some (n, rest).
Proof.
  intros Hn. unfold compact, ref_compact, read_compact.
  case_decide as Hs; cbn [app]; unfold mbind, Decoder_bind, mret, Decoder_ret; cbn [read_byte].
  - rewrite byte_index_byte by (unfold fits, umax; lia).
    rewrite decide_True by (rewrite Z.mul_comm; apply Z.mod_mul; lia).
    by rewrite Z.mul_comm, Z.div_mul by lia.
  - pose proof (Z.div_mod (4 * n + 1) 256). pose proof (Z.mod_pos_bound (4 * n + 1) 256).
    pose proof (Z.div_lt_upper_bound (4 * n + 1) 256 256). pose proof (Z.div_pos (4 * n + 1) 256).
    rewrite !byte_index_byte by (unfold fits, umax; lia).
    assert (E : (4 * n + 1) mod 256 mod 4 = 1).
    { replace (4 * n + 1) with (1 + n * 4) by lia. rewrite Z.mod_mod_divide by (by exists 64).
      by rewrite Z.mod_add by lia. }
    rewrite decide_False, decide_True by (rewrite E; lia).
    cbn [read_byte]. rewrite byte_index_byte by (unfold fits, umax; lia). replace ((4 * n + 1) mod 256 + 256 * ((4 * n + 1) / 256)) with (1 + n * 4) by lia.
    rewrite Z.div_add by lia. change (1 / 4) with 0. cbn [Z.add]. by rewrite decide_True by lia.
Qed.

Lemma compact_read_compact bs n rest :
  read_compact bs = Some (n, rest) -> 0 <= n < 2 ^ 14 /\ bs = compact n ++ rest.
Proof.
  unfold read_compact. intros Hd. apply decode_bind_Some in Hd as (a & mid & Ha & Hd). decode_inv.
  pose proof (byte_index_fits a) as Hf. unfold fits, umax in Hf. change (2 ^ 8 - 1) with 255 in Hf.
  pose proof (Z.div_mod (byte_index a) 4). case_decide as H0; [|case_decide as H1; [|done]].
  - decode_inv. unfold compact, ref_compact. rewrite decide_True by lia.
    replace (4 * (byte_index a / 4)) with (byte_index a) by lia.
    rewrite index_byte_index. split; [lia | done].
  - apply decode_bind_Some in Hd as (b & mid' & Hb & Hd). decode_inv.
    pose proof (byte_index_fits b) as Hg. unfold fits, umax in Hg. change (2 ^ 8 - 1) with 255 in Hg.
    set (m := byte_index a + 256 * byte_index b) in *.
    assert (Hm : 4 * (m / 4) + 1 = m).
    { unfold m. pose proof (Z.div_mod m 4).
      replace (byte_index a + 256 * byte_index b) with (byte_index a + byte_index b * 64 * 4) by lia.
      rewrite Z.div_add by lia. lia. }
    case_decide; [|done]. decode_inv. unfold compact, ref_compact. rewrite decide_False by lia.
    rewrite Hm. unfold m. rewrite (Z.mul_comm 256), Z.mod_add, Z.div_add by lia.
    rewrite (Z.mod_small (byte_index a)), (Z.div_small (byte_index a)) by lia. rewrite Z.add_0_l. rewrite !index_byte_index.
    split; [|done]. change (2 ^ 14) with 16384. unfold m in Hm.
    rewrite (Z.mul_comm 256) in Hm. lia.
Qed.

(** ** Vectors *)
Fixpoint read_many {A} `{!Codec A} (n : nat) : Decoder (list A) :=
  match n with
  | O => mret []
  | S n => a ← scale_decode; l ← read_many n; mret (a :: l)
  end.

Lemma read_many_Some `{CodecOk A} n bs (l : list A) rest :
  read_many n bs = Some (l, rest) <-> length l = n /\ bs = concat (scale_encode <$> l) ++ rest.
Proof.
  revert bs l rest. induction n as [|n IH]; intros bs l rest; cbn [read_many].
  { rewrite decode_ret_Some. destruct l; naive_solver. }
  rewrite decode_bind_Some. split.
  - intros (a & mid & Ha & Hd). apply scale_inverts in Ha as ->.
    apply decode_bind_Some in Hd as (l' & mid' & Hl & Hd). apply IH in Hl as [Hl ->]. decode_inv.
    cbn. by rewrite <- app_assoc.
  - destruct l as [|a l]; [by intros []|]. intros [[= Hl] ->]. cbn. rewrite <- app_assoc.
    eexists _, _. split; [apply scale_decode_encode|]. apply decode_bind_Some. eexists _, _.
    split; [by apply IH | done].
Qed.

(** Lists with a property that keeps them short: the part of the list codec that
    accepts them. *)
Section short_lists.
Context {A : Type} (P : list A -> Prop) `{!forall l, Decision (P l)}.

Definition to_short (l : list A) : option (dsig P) :=
  match decide (P l) with left H => Some (dexist l H) | right _ => None end.

Lemma to_short_Some l v : to_short l = Some v <-> `v = l.
Proof.
  unfold to_short. destruct (decide (P l)) as [Hl|Hl].
  - split; [by intros [= <-]|]. intros E. f_equal. apply dsig_eq. by rewrite E.
  - split; [done|]. intros <-. by destruct Hl; apply (proj2_dsig v).
Qed.

Definition short_codec `{!Codec A} : Codec (dsig P) := {|
  scale_encode v := compact (Z.of_nat (length (`v))) ++ concat (scale_encode <$> `v);
  scale_decode := n ← read_compact; l ← read_many (Z.to_nat n);
    match to_short l with Some v => mret v | None => invalid end;
|}.

Lemma short_codec_ok `{CodecOk A} :
  (forall l, P l -> Z.of_nat (length l) < 2 ^ 14) -> @CodecOk (dsig P) short_codec.
Proof.
  intros Hshort v bs rest. unfold scale_decode at 1, scale_encode at 1, short_codec.
  pose proof (Hshort _ (proj2_dsig v)) as Hw. split.
  - intros Hd. apply decode_bind_Some in Hd as (n & mid & Hn & Hd).
    apply compact_read_compact in Hn as [Hn ->].
    apply decode_bind_Some in Hd as (l & mid' & Hl & Hd). apply read_many_Some in Hl as [Hl ->].
    destruct (to_short l) as [v'|] eqn:E; [|done]. apply to_short_Some in E. decode_inv.
    rewrite Hl, Z2Nat.id by lia. by rewrite <- app_assoc.
  - intros ->. rewrite <- app_assoc. apply decode_bind_Some. eexists _, _.
    split; [apply read_compact_compact; lia|]. apply decode_bind_Some. eexists _, _.
    split; [apply read_many_Some; by rewrite Nat2Z.id|].
    by rewrite (proj2 (to_short_Some (`v) v) eq_refl).
Qed.
End short_lists.

(** A bounded vector: a list together with its bound. *)
Definition within (l : list Swarm.Command) : Prop := Z.of_nat (length l) <= MaxGlobalCommands.
#[export] Instance within_dec l : Decision (within l).
Proof. unfold within. apply _. Defined.
Definition bounded : Type := dsig within.

Lemma within_length l : within l <-> Z.of_nat (length l) <= MaxGlobalCommands.
Proof. done. Qed.

Lemma within_nil : within [].
Proof. vm_compute. discriminate. Qed.

Definition to_bounded (l : list Swarm.Command) : option bounded := to_short within l.

Lemma to_bounded_Some l b : to_bounded l = Some b <-> `b = l.
Proof. apply to_short_Some. Qed.

#[export] Instance bounded_vec : BoundedVec Swarm.Command := {|
  bvec := bounded;
  bv_default := dexist [] within_nil;
  bv_slice b := `b;
  bv_try_push a b :=
    match to_bounded (`b ++ [a]) with Some b' => (ROk tt, b') | None => (RErr a, b) end;
  bv_remove i b := a ← `b !! i; b' ← to_bounded (delete i (`b)); Some (a, b');
|}.

#[export] Instance bounded_vec_ok : BoundedVecOk Swarm.Command Swarm.MaxGlobalCommands.
Proof.
  split; cbn [bv_default bv_slice bv_try_push bv_remove bounded_vec bvec];
    change Swarm.MaxGlobalCommands with MaxGlobalCommands; [done|..].
  - intros a b Hb. destruct (to_bounded _) as [b'|] eqn:E; [by apply to_bounded_Some in E|].
    unfold to_bounded, to_short in E. destruct (decide _) as [|Hn]; [done|]. destruct Hn.
    apply within_length. rewrite length_app. cbn [length]. lia.
  - intros a b Hb. destruct (to_bounded _) as [b'|] eqn:E; [|done].
    apply to_bounded_Some in E. pose proof (proj1 (within_length _) (proj2_dsig b')) as Hw.
    rewrite E, length_app in Hw. cbn [length] in Hw. lia.
  - intros i b c Hc. rewrite Hc. cbn. destruct (to_bounded _) as [b'|] eqn:E.
    + apply to_bounded_Some in E. eauto.
    + unfold to_bounded, to_short in E. destruct (decide _) as [|Hn]; [done|]. destruct Hn.
      pose proof (proj1 (within_length _) (proj2_dsig b)) as Hw. apply within_length.
      rewrite length_delete by eauto. lia.
  - intros i b Hi. by rewrite Hi.
Qed.

#[export] Instance bounded_codec : Codec (bvec Swarm.Command) := short_codec within.

#[export] Instance bounded_vec_codec : BoundedVecCodec Swarm.Command.
Proof.
  split; [|done]. refine (short_codec_ok within _). intros l Hl. apply (proj1 (within_length l)) in Hl.
  assert (MaxGlobalCommands < 2 ^ 14) by done. lia.
Qed.

(** ** Other pallets: one, a call without arguments in [Sudo] *)
#[export] Instance ref_other_calls : OtherCalls unit := {|
  other_pallet _ := Runtime.Sudo;
  other_encode _ := [];
  other_decode p := if decide (p = Runtime.Sudo) then mret tt else invalid;
|}.
#[export] Instance ref_other_calls_ok : OtherCallsOk unit.
Proof.
  split; [|intros p [] bs rest; cbn; by case_decide|done]. by intros [] rest.
Qed.

(** ** Hashes: the first sixteen bytes, padded *)
Definition first16 (bs : bytes) : bytes := take 16 (bs ++ replicate 16 x00).
#[export] Instance ref_hashers : StorageHashers := {|
  twox_128 := first16; blake2_128 := first16;
|}.
#[export] Instance ref_hashers_ok : StorageHashersOk.
Proof.
  assert (Hlen : forall bs, length (first16 bs) = 16%nat).
  { intros bs. unfold first16. rewrite length_take, length_app, length_replicate. lia. }
  split; [done..| |by vm_compute].
  intros p q E. apply (inj (fun o => o)).
  assert (Hd : forall p, find (fun q => bool_decide (first16 (name_bytes (pallet_name p)) =
    first16 (name_bytes (pallet_name q)))) Runtime.all_pallets = Some p) by by intros [].
  pose proof (Hd p) as Hp. pose proof (Hd q) as Hq. unfold twox_128, ref_hashers in E.
  rewrite E, Hq in Hp. by injection Hp as ->.
Qed.

(** ** The store *)
Record store : Type := {
  st_get : bytes -> option bytes;
  st_events : list (RuntimeEvent Z);
  st_number : Z;
}.

#[export] Instance ref_raw : RawStorage store := {|
  raw_get k w := st_get w k;
  raw_put k v w := {|
    st_get k' := if decide (k = k') then Some v else st_get w k';
    st_events := st_events w; st_number := st_number w |};
|}.
#[export] Instance ref_raw_ok : RawStorageOk store.
Proof. by intros k k' v w. Qed.

Definition ref_events : EventSink store (RuntimeEvent Z) := {|
  es_deposit e w := {| st_get := st_get w; st_number := st_number w;
    st_events := if st_number w =? 0 then st_events w else st_events w ++ [e] |};
  es_log := st_events;
  es_recording w := negb (st_number w =? 0);
|}.
#[export] Instance ref_events_ok : EventSinkOk ref_events.
Proof. split; [|done]. intros e w. cbn. by destruct (st_number w =? 0). Qed.
#[export] Instance ref_events_apart : SystemEventsApart ref_events.
Proof. by split. Qed.

#[export] Instance store_layer : StorageLayer store := fun m w =>
  match m w with (Ok a, w') => (Ok a, w') | (Err e, _) => (Err e, w) | (Panic, _) => (Panic, w) end.
#[export] Instance store_layer_ok : StorageLayerOk store.
Proof. split; [intros m w w' H | intros m w e w' H]; unfold with_storage_layer, store_layer; by rewrite H. Qed.
