(* ===== verification/NodeReference.v ===== *)
(** * A host for the node

    Instances of the node's interfaces ([NodeHost.v], [Cli.v], [Command.v]) and
    hosts that answer its calls, so that the node's theorems can be applied.
    Handles are strings that say what they are a handle of. *)
From S2P Require Import Prelude Genesis Reference Interaction NodeHost Service.
From S2P Require Import ChainSpec Cli Command.

Local Open Scope Z_scope.

(** What the node reads of a configuration. *)
Record settings : Type := {
  set_telemetry : option (list string);
  set_heap_pages : option Z;
  set_authority : bool;
  set_offchain : bool;
  set_spec : option Extensions;
  set_database : option string;
  set_base_path : string;
}.

#[export] Instance ref_sdk : Sdk := {|
  Configuration := settings;
  TelemetryEndpoints := list string;
  HeapAllocStrategy := option Z;
  WasmExecutionMethod := unit;
  PoolOptions := unit;
  Registry := unit;
  DatabaseSource := option string;
  Path := string;
  NetworkConfiguration := string;
  DynSpec := option Extensions;
  TokioHandle := unit;
  telemetry_endpoints := set_telemetry;
  endpoints_is_empty l := match l with [] => true | _ => false end;
  default_heap_pages := set_heap_pages;
  wasm_method _ := tt;
  max_runtime_instances _ := 8;
  runtime_cache_size _ := 2;
  is_authority := set_authority;
  transaction_pool_options _ := tt;
  prometheus_registry _ := None;
  network_config _ := "network"%string;
  offchain_worker_enabled := set_offchain;
  chain_spec := set_spec;
  database := set_database;
  database_path d := d;
  base_path_of := set_base_path;
  path_join p q := (p +:+ "/" +:+ q)%string;
  tokio_handle _ := tt;
  get_extension e := e;
  prepare_node_config c := c;
  ExecutorBuilder := list string;
  Executor := list string;
  DEFAULT_HEAP_ALLOC_STRATEGY := None;
  Static_extra_pages := Some;
  executor_builder := [];
  with_execution_method _ b := b;
  with_onchain_heap_alloc_strategy _ b := b;
  with_offchain_heap_alloc_strategy _ b := b;
  with_max_runtime_instances _ b := b;
  with_runtime_cache_size _ b := b;
  build_executor b := b;
  Client := string;
  Backend := string;
  KeystoreContainer := string;
  Keystore := string;
  keystore_of k := k;
  TaskManager := string;
  TelemetryWorker := string;
  TelemetryWorkerHandle := string;
  Telemetry := string;
  TelemetryHandle := string;
  worker_handle w := w;
  telemetry_handle t := t;
  Pool := string;
  ParachainBlockImport := string;
  block_import_new _ _ := "block import"%string;
  ImportQueue := string;
  ImportQueueService := string;
  import_queue_service q := q;
  CollatorOptions := unit;
  CollatorPair := string;
  RelayChainInterface := string;
  NetConfig := unit;
  full_network_configuration _ _ := tt;
  Network := string;
  SystemRpcTx := unit;
  TxHandlerController := unit;
  SyncService := string;
  OffchainDb := string;
  offchain_storage b := Some b;
  OffchainWorkers := string;
  OverseerHandle := string;
  Hash := Z;
  Code := string;
  CodeHash := string;
  BlockchainError := unit;
  code_at _ _ := RErr tt;
  validation_code_hash c := c;
  Proposer := unit;
  proposer_new _ _ _ _ _ := tt;
  CollatorService := unit;
  HwBench := Z;
  HardwareFailures := string;
  check_hardware b _ := if b <? 100 then RErr "too slow"%string else ROk tt;
  RpcModule := list string;
  RpcMethods := string;
  RpcError := string;
  RpcHandlers := unit;
  rpc_module_new := [];
  rpc_system _ _ := "system"%string;
  rpc_transaction_payment _ := "payment"%string;
  rpc_merge m n := if decide (n ∈ m) then RErr n else ROk (m ++ [n]);
  ServiceError := string;
  TelemetryError := string;
  RelayChainError := string;
  OffchainError := string;
  service_from_telemetry e := ("telemetry: " +:+ e)%string;
  service_from_offchain e := ("offchain: " +:+ e)%string;
  service_application e := ("application: " +:+ e)%string;
|}.

(** A host that answers every service call; the relay chain gives the collator key
    [key]; [relay_up] says whether it can be reached. *)
Definition answer_service (relay_up : bool) (key : option string) (X : Type) (o : Op X) : X :=
  match o in Op X return X with
  | TelemetryWorker_new _ => ROk "worker"%string
  | new_telemetry _ _ => "telemetry"%string
  | new_full_parts _ _ _ _ =>
      ROk ("client"%string, "backend"%string, "keystore"%string, "tasks"%string)
  | spawn _ _ _ _ _ => tt
  | build_pool _ => "pool"%string
  | fully_verifying_import_queue _ => "queue"%string
  | build_relay_chain_interface _ _ _ _ _ _ =>
      if relay_up then ROk ("relay"%string, key) else RErr "no relay chain"%string
  | build_network _ => ROk ("network"%string, tt, tt, "sync"%string)
  | OffchainWorkers_new _ => ROk "workers"%string
  | spawn_tasks _ _ => ROk tt
  | print_hwbench _ => tt
  | warn_hardware _ => tt
  | get_overseer_handle _ => ROk "overseer"%string
  | start_relay_chain_tasks _ _ => ROk tt
  end.

Definition service_host (relay_up : bool) (key : option string) : host Op unit :=
  fun X o s => (answer_service relay_up key X o, s).

(** ** The command line *)
#[export] Instance ref_cli : SdkCli := {|
  BuildSpecCmd := unit; CheckBlockCmd := unit; ExportBlocksCmd := unit; ExportStateCmd := unit;
  ImportBlocksCmd := unit; RevertCmd := unit; PurgeChainCmd := unit;
  ExportGenesisHeadCommand := unit; ExportGenesisWasmCommand := option string;
  PalletCmd := unit; BlockCmd := unit; StorageCmd := unit; MachineCmd := unit;
  OtherBenchmarkCmd := unit;
  wasm_command_chain c := c;
  RunCmd := unit; NormalizedRunCmd := unit; normalize _ := tt; run_collator_options _ := tt;
  Wasm := string;
  GenericChainSpec := Extensions;
  boxed e := Some e;
  Db := unit; Storage := unit; expose_db _ := tt; expose_storage _ := tt;
  Runner := settings;
  CliError := string;
  IoError := unit;
  cli_from_string s := s;
  cli_from_service e := ("service: " +:+ e)%string;
  cli_input s := s;
  display_error e := e;
  PolkadotRunCmd := list string;
  executable_name := "node"%string;
  SharedParams := list string; ImportParams := unit; NetworkParams := unit; KeystoreParams := unit;
  RpcEndpoint := unit; PrometheusConfig := unit; Role := bool; RpcMethodsPolicy := unit;
  TelemetryConfig := unit;
  shared_base_path _ := ROk None;
|}.

#[export] Instance ref_runners : Runners := {|
  runner_config r := r;
  sync_run r f := f r;
  async_run r f := x ← f r; try id (block_on x.1 x.2);
  run_node_until_exit r f := tm ← f r; try id (wait_until_exit tm);
|}.
#[export] Instance ref_runners_ok : RunnersOk.
Proof. by split. Qed.

(** A host for commands: every runner gets the settings [c]. *)
Definition answer_cli (c : settings) (X : Type) (o : CliOp X) : X :=
  match o in CliOp X return X with
  | service o => answer_service true (Some "key"%string) _ o
  | create_runner _ => ROk c
  | from_json_file _ => RErr "no such file"%string
  | parse_polkadot args => args
  | create_configuration _ _ => ROk c
  | create_dir_all _ => ROk tt
  | gather_hwbench _ => 50
  | info_collating _ => tt
  | run_job _ => ROk tt
  | block_on _ _ => ROk tt
  | wait_until_exit _ => ROk tt
  end.

Definition cli_host (c : settings) : host CliOp unit := fun X o s => (answer_cli c X o, s).

(** The settings of [polkadot_cli]'s command line: nothing was given. *)
Definition ref_configuration : CliConfiguration (list string) := {|
  shared_params l := l;
  import_params _ := None; network_params _ := None; keystore_params _ := None;
  base_path _ := ROk None;
  rpc_addr _ _ := ROk None; prometheus_config _ _ _ := ROk None;
  chain_id _ _ := ROk ""%string; role _ _ := ROk false;
  transaction_pool _ _ := ROk tt; trie_cache_maximum_size _ := ROk None;
  rpc_methods _ := ROk tt; rpc_max_connections _ := ROk 100; rpc_cors _ _ := ROk None;
  default_heap_pages_of _ := ROk None; force_authoring _ := ROk false;
  disable_grandpa _ := ROk false; max_runtime_instances_of _ := ROk None;
  announce_block _ := ROk true; telemetry_endpoints_of _ _ := ROk None;
  node_name _ := ROk "relay"%string;
|}.
