(* ===== verification/Witness.v ===== *)
(** * Witnesses

    Each theorem with hypotheses, applied to the instances of [Reference.v] at a
    concrete input where the hypotheses hold. *)
From S2P Require Import Prelude Frame Constants Fees Genesis Configs Reference.
From S2P Require Swarm SwarmSpec SwarmProps Template TemplateProps TemplateTests TemplateWeights Runtime Chain Capacity.
From stdpp Require Import pretty.

Local Open Scope Z_scope.

#[local] Existing Instances SwarmSpec.state_equiv SwarmSpec.state_equivalence.

(** ** The swarm pallet *)
Module SwarmDemo.
Import Swarm SwarmSpec SwarmProps.

(** Block one, nothing registered, nothing queued. *)
Definition start : world :=
  {| w_robots := ∅; w_queue := []; w_something := None; w_events := []; w_number := 1 |}.
Definition goto : Command := GoToLocation {| x := #3; y := #4 |}.
Definition operator : OriginFor := Some 1.
Definition robot : OriginFor := Some 2.

Definition mission : list (OriginFor * Call) :=
  [(operator, Call_register_robot #7); (operator, Call_enqueue_command goto);
   (operator, Call_enqueue_command Halt); (robot, Call_pull_next #7);
   (robot, Call_pull_next #9); (None : OriginFor, Call_enqueue_command Halt);
   (robot, Call_pull_next #7); (robot, Call_pull_next #7)].

Definition answers : list (outcome DispatchError unit) :=
  [Ok tt; Ok tt; Ok tt; Ok tt; Err (ModuleError 51 0); Err BadOrigin; Ok tt;
   Err (ModuleError 51 2)].

Example mission_answers : (run mission start).1 = answers.
Proof. by vm_compute. Qed.

(** The state with one robot and [n] commands queued. *)
Definition loaded (n : nat) : world :=
  {| w_robots := {[ #7 ]}; w_queue := replicate n Halt; w_something := None;
     w_events := []; w_number := 1 |}.

Lemma run_refines_witness :
  (spec_run mission (view start)).1 = answers /\
  view (run mission start).2 ≡ (spec_run mission (view start)).2.
Proof. destruct (run_refines mission start) as [<- H]. split; [by vm_compute | exact H]. Defined.

Lemma fifo_exactly_once_witness :
  recording start = true /\
  exists es, log (run mission start).2 = [] ++ es /\
    [] ++ omap accepted (zip mission answers) = omap pulled es ++ [] /\
    omap enqueued es = [goto; Halt] /\ omap puller es = [ #7; #7 ] /\
    Forall (event_ok (registered (run mission start).2)) es.
Proof. split; [reflexivity|]. exact (fifo_exactly_once mission start eq_refl). Defined.

Lemma queue_bounded_witness :
  Z.of_nat (length (queue (loaded 64))) <= Swarm.MaxGlobalCommands /\
  Z.of_nat (length (queue (run mission (loaded 64)).2)) <= Swarm.MaxGlobalCommands.
Proof.
  assert (H : Z.of_nat (length (queue (loaded 64))) <= Swarm.MaxGlobalCommands) by (by vm_compute).
  split; [exact H | exact (queue_bounded mission (loaded 64) H)].
Defined.

Lemma registry_grows_witness :
  registered (run mission start).2 #7 = true <->
  registered start #7 = true \/ exists o, is_signed o /\ (o, Call_register_robot #7) ∈ mission.
Proof. exact (registry_grows mission start #7). Defined.

Lemma succeeds_iff_witness :
  (dispatch robot (Call_pull_next #7) (loaded 2)).1 = Ok tt <->
  is_signed robot /\ accepts (Call_pull_next #7) (loaded 2).
Proof. exact (succeeds_iff robot (Call_pull_next #7) (loaded 2)). Defined.

Lemma never_panics_witness : (dispatch robot (Call_pull_next #7) (loaded 1)).1 <> Panic.
Proof. exact (never_panics robot (Call_pull_next #7) (loaded 1)). Defined.

Lemma error_is_noop_witness :
  dispatch robot (Call_pull_next #9) (loaded 1) = (Err (into InvalidRobotId), loaded 1) /\
  loaded 1 = loaded 1.
Proof.
  assert (H : dispatch robot (Call_pull_next #9) (loaded 1) = (Err (into InvalidRobotId), loaded 1))
    by (change (pull_next robot (#9 : RobotId) (loaded 1) = (Err (into InvalidRobotId), loaded 1));
        eapply pull_next_unregistered; by vm_compute).
  split; [exact H | exact (error_is_noop _ _ _ _ _ H)].
Defined.

Lemma pulls_drain_queue_witness :
  is_signed robot /\ registered (loaded 3) #7 = true /\ length (queue (loaded 3)) = 3%nat /\
  let cs := replicate (length (queue (loaded 3))) (robot, Call_pull_next #7) in
  (run cs (loaded 3)).1 = replicate (length (queue (loaded 3))) (Ok tt) /\
  queue (run cs (loaded 3)).2 = [].
Proof.
  assert (Ho : is_signed robot) by (by eexists).
  assert (Hr : registered (loaded 3) #7 = true) by (by vm_compute).
  split; [exact Ho|]. split; [exact Hr|]. split; [reflexivity|].
  exact (pulls_drain_queue robot #7 (loaded 3) Ho Hr).
Defined.

Lemma enqueues_fill_queue_witness :
  is_signed operator /\ Z.of_nat (length (queue (loaded 62))) + Z.of_nat 2 = Swarm.MaxGlobalCommands /\
  let ks := [goto; Halt; goto] in
  let cs := (fun c => (operator, Call_enqueue_command c)) <$> ks in
  (run cs (loaded 62)).1 =
    replicate (2 `min` length ks) (Ok tt) ++ replicate (length ks - 2) (Err (into QueueFull)) /\
  queue (run cs (loaded 62)).2 = queue (loaded 62) ++ take 2 ks.
Proof.
  assert (Ho : is_signed operator) by (by eexists).
  assert (Hn : Z.of_nat (length (queue (loaded 62))) + Z.of_nat 2 = Swarm.MaxGlobalCommands)
    by (vm_compute; reflexivity).
  split; [exact Ho|]. split; [exact Hn|].
  exact (enqueues_fill_queue operator [goto; Halt; goto] (loaded 62) 2 Ho Hn).
Defined.

(** A state that shows the same to the pallet, with another pallet's value set. *)
Definition start' : world := with_something {| Template.block_number := #9 |} start.

Lemma run_observational_witness :
  view start ≡ view start' /\
  (run mission start).1 = (run mission start').1 /\
  view (run mission start).2 ≡ view (run mission start').2.
Proof.
  assert (H : view start ≡ view start') by (by repeat split).
  split; [exact H | exact (run_observational mission start start' H)].
Defined.

Lemma registration_commutes_witness :
  Call_pull_next #7 <> Call_pull_next #8 /\
  let reg v := (dispatch operator (Call_register_robot #8) v).2 in
  (dispatch robot (Call_pull_next #7) (reg (loaded 2))).1 =
    (dispatch robot (Call_pull_next #7) (loaded 2)).1 /\
  view (dispatch robot (Call_pull_next #7) (reg (loaded 2))).2 ≡
    view (reg (dispatch robot (Call_pull_next #7) (loaded 2)).2).
Proof.
  assert (H : Call_pull_next #7 <> Call_pull_next #8) by (intros [= ?]).
  split; [exact H|].
  exact (registration_commutes operator robot #8 (Call_pull_next #7) (loaded 2) H).
Defined.

Lemma register_robot_silent_witness : log (register_robot operator #8 (loaded 1)).2 = log (loaded 1).
Proof. exact (register_robot_silent operator #8 (loaded 1)). Defined.

Lemma signer_agnostic_witness :
  is_signed operator /\ is_signed robot /\
  dispatch operator (Call_pull_next #7) (loaded 1) = dispatch robot (Call_pull_next #7) (loaded 1).
Proof.
  assert (Ho : is_signed operator) by (by eexists). assert (Hr : is_signed robot) by (by eexists).
  split; [exact Ho|]. split; [exact Hr|].
  exact (signer_agnostic operator robot (Call_pull_next #7) (loaded 1) Ho Hr).
Defined.
End SwarmDemo.

(** ** The template pallet *)
Module TemplateDemo.
Import Template TemplateProps.

Definition start : world := SwarmDemo.start.
Definition user : OriginFor := Some 1.
Definition almost_full : u32 := #4294967294.
Definition script : list (OriginFor * Call) :=
  [(user, Call_cause_error); (user, Call_do_something almost_full); (user, Call_cause_error);
   (user, Call_cause_error); (None : OriginFor, Call_cause_error)].
Definition answers : list (outcome DispatchError unit) :=
  [Err (ModuleError 50 0); Ok tt; Ok tt; Err (ModuleError 50 1); Err BadOrigin].

Example script_answers : (run script start).1 = answers.
Proof. by vm_compute. Qed.

Lemma template_run_refines_witness :
  (run script start).1 = (spec_run (umax 32) script (view uval start)).1 /\
  view uval (run script start).2 = (spec_run (umax 32) script (view uval start)).2.
Proof. exact (template_run_refines uval (umax 32) script start). Defined.

Lemma template_error_is_noop_witness :
  dispatch user Call_cause_error start = (Err (into NoneValue), start) /\ start = start.
Proof.
  assert (H : dispatch user Call_cause_error start = (Err (into NoneValue), start))
    by reflexivity.
  split; [exact H | exact (template_error_is_noop _ _ _ _ _ H)].
Defined.

Lemma increments_until_overflow_witness :
  is_signed user /\ uval almost_full + Z.of_nat 1 = umax 32 /\
  let cs := (user, Call_do_something almost_full) :: replicate 3 (user, Call_cause_error) in
  (run cs start).1 = Ok tt :: replicate (3 `min` 1) (Ok tt) ++
                     replicate (3 - 1) (Err (into StorageOverflow)) /\
  stored uval (run cs start).2 = Some (uval almost_full + Z.of_nat (3 `min` 1)).
Proof.
  assert (Ho : is_signed user) by (by eexists).
  assert (Hn : uval almost_full + Z.of_nat 1 = umax 32) by reflexivity.
  split; [exact Ho|]. split; [exact Hn|].
  exact (increments_until_overflow uval (umax 32) user almost_full 3 1 start Ho Hn).
Defined.

Lemma declared_weight_falls_short_witness :
  TemplateWeights.small_db RocksDbWeight /\
  ref_time (TemplateWeights.measured_weight (TemplateWeights.SubstrateWeight RocksDbWeight)
    Call_cause_error) -
  ref_time (TemplateWeights.declared_weight RocksDbWeight Call_cause_error) = 5_990_000 /\
  proof_size (TemplateWeights.measured_weight (TemplateWeights.SubstrateWeight RocksDbWeight)
    Call_cause_error) -
  proof_size (TemplateWeights.declared_weight RocksDbWeight Call_cause_error) = 1489.
Proof.
  assert (H : TemplateWeights.small_db RocksDbWeight) by (vm_compute; repeat split; discriminate).
  split; [exact H|].
  exact (TemplateWeights.declared_weight_falls_short RocksDbWeight Call_cause_error H).
Defined.
(** A genesis that is the state itself; the root is the stored number. *)
#[local] Instance demo_host : TemplateTests.TestHost world := {|
  TemplateTests.GenesisConfig := unit;
  TemplateTests.genesis_default := tt;
  TemplateTests.GenesisStorage := world;
  TemplateTests.build_storage _ := ROk start;
  TemplateTests.test_state w := w;
|}.
#[local] Instance demo_host_ok : TemplateTests.TestHostOk world.
Proof. split. by exists start. Qed.
#[local] Instance demo_error_eq : EqDecision (DispatchError : Type).
Proof. change (EqDecision dispatch_error). solve_decision. Defined.
#[local] Instance demo_number_eq : EqDecision BlockNumber.
Proof. change (EqDecision (uint 32)). apply _. Defined.
Definition root (w : world) : option Z := stored uval w.

(** The tests are not vacuous: once a number is stored, the second one fails. *)
Example test_can_fail :
  (TemplateTests.correct_error_for_none_value root Some (1 : AccountId) SwarmDemo.start').1 = Panic.
Proof. by vm_compute. Qed.

Lemma template_tests_pass_witness :
  (forall who, ensure_signed (Some who) = ROk who) /\
  TemplateTests.execute_with (TemplateTests.it_works_for_default_value Some (1 : AccountId)) =
    Ok tt /\
  TemplateTests.execute_with
    (TemplateTests.correct_error_for_none_value root Some (1 : AccountId)) = Ok tt /\
  TemplateTests.benchmark_test_suite Some (2 : AccountId) = [Ok tt; Ok tt] /\
  forall w, (TemplateTests.bench_do_something Some (2 : AccountId) w).1 = Ok tt /\
            (TemplateTests.bench_cause_error Some (2 : AccountId) w).1 = Ok tt.
Proof.
  assert (H : forall who : AccountId, ensure_signed (Some who : OriginFor) = ROk who) by done.
  split; [exact H|].
  exact (TemplateTests.template_tests_pass root Some (1 : AccountId) (2 : AccountId) H
    uval (umax 32)).
Defined.
End TemplateDemo.

(** ** The composed runtime *)
Module RuntimeDemo.
Import Runtime.

Definition start : world := SwarmDemo.start.
Definition user : OriginFor := Some 1.

(** Calls of other pallets: one that always fails; one of [Sudo], which dispatches a call
    of the swarm pallet in the name of a user; and one that writes raw keys. *)
Inductive other_call : Type := fails | sudo_as | kill_storage.
Definition nested : OwnCall := OwnSwarm (Swarm.Call_enqueue_command Swarm.WaitForCommand).
Definition other (_ : OriginFor) (c : other_call) : M world DispatchError unit :=
  match c with
  | fails => throw BadOrigin
  | sudo_as => with_storage_layer (Swarm.dispatch user (Swarm.Call_enqueue_command Swarm.WaitForCommand))
  | kill_storage => modify (fun w => {| w_robots := w_robots start; w_queue := w_queue start;
      w_something := w_something w; w_events := w_events w; w_number := w_number w |})
  end.
#[local] Instance ref_other : OtherPallets (W := world) (OtherCall := other_call) := {|
  other_mandatory _ := false;
  nested_calls _ c _ := match c with sudo_as => [(user, nested)] | _ => [] end;
  raw_writes _ c _ := match c with kill_storage => true | _ => false end;
|}.
#[local] Instance ref_other_ok : OtherPalletsOk other (@uval 32 : @BlockNumber ref_numbers -> Z).
Proof.
  intros o [| |] w Hraw; [constructor| |discriminate Hraw].
  apply (unfolds_own other _ (user, nested)). constructor.
Qed.

Definition block : list (OriginFor * RuntimeCall (OtherCall := other_call)) :=
  [(user, CallSwarm (Swarm.Call_register_robot (#7 : Swarm.RobotId)));
   (user, CallTemplate (Template.Call_do_something #5)); (user, CallOther fails);
   (user, CallOther sudo_as);
   (user, CallSwarm (Swarm.Call_enqueue_command Swarm.Halt));
   (user, CallTemplate Template.Call_cause_error);
   (user, CallSwarm (Swarm.Call_pull_next (#7 : Swarm.RobotId)))].

Example block_answers :
  (run_block other block start).1 = [Ok tt; Ok tt; Err BadOrigin; Ok tt; Ok tt; Ok tt; Ok tt].
Proof. by vm_compute. Qed.

(** The pull takes the nested command, which came first. *)
Example block_leaves :
  (if Swarm.queue (run_block other block start).2 is [Swarm.Halt] then true else false) = true.
Proof. by vm_compute. Qed.

(** With a raw write between them the pull after an enqueue fails: no schedule of the
    pallet's own calls explains it. *)
Example raw_write_loses_command :
  (run_block other
    [(user, CallSwarm (Swarm.Call_register_robot (#7 : Swarm.RobotId)));
     (user, CallSwarm (Swarm.Call_enqueue_command Swarm.Halt)); (user, CallOther kill_storage);
     (user, CallSwarm (Swarm.Call_pull_next (#7 : Swarm.RobotId)))] start).1 =
  [Ok tt; Ok tt; Ok tt; Err (ModuleError 51 0)].
Proof. by vm_compute. Qed.

Lemma storage_layer_redundant_witness :
  (forall c : Swarm.Call, with_storage_layer (Swarm.dispatch user c) start = Swarm.dispatch user c start) /\
  (forall c : Template.Call,
     with_storage_layer (Template.dispatch user c) start = Template.dispatch user c start).
Proof. exact (storage_layer_redundant user start). Defined.

Definition schedule_here : list (bool * (OriginFor * Swarm.Call)) :=
  [(true, (user, Swarm.Call_register_robot (#7 : Swarm.RobotId)));
   (false, (user, Swarm.Call_enqueue_command Swarm.WaitForCommand));
   (true, (user, Swarm.Call_enqueue_command Swarm.Halt));
   (true, (user, Swarm.Call_pull_next (#7 : Swarm.RobotId)))].

Lemma swarm_isolated_witness :
  block_writes_raw other block start = false /\
  answers swarm_call block (run_block other block start).1 =
    direct_answers schedule_here (SwarmSpec.spec_run schedule_here.*2 (SwarmSpec.view start)).1 /\
  SwarmSpec.view (run_block other block start).2 ≡
    (SwarmSpec.spec_run schedule_here.*2 (SwarmSpec.view start)).2.
Proof.
  assert (H : block_writes_raw other block start = false) by reflexivity.
  destruct (swarm_isolated other (@uval 32 : @BlockNumber ref_numbers -> Z) block start H)
    as (_ & Ha & Hv & _).
  split; [exact H|]. split; [exact Ha | exact Hv].
Defined.

Lemma template_isolated_witness :
  block_writes_raw other block start = false /\
  TemplateProps.view uval (run_block other block start).2 =
    (TemplateProps.spec_run (umax 32) (omap template_call block) (TemplateProps.view uval start)).2.
Proof.
  assert (H : block_writes_raw other block start = false) by reflexivity.
  split; [exact H|]. exact (proj2 (proj2 (template_isolated other uval (umax 32) block start H))).
Defined.

(** A life of two blocks: a command is enqueued in the first; in the second another
    pallet enqueues one, and the first is pulled. *)
Definition block1 : world := SwarmDemo.loaded 0.
Definition enqueue : OriginFor * RuntimeCall (OtherCall := other_call) :=
  (user, CallSwarm (Swarm.Call_enqueue_command Swarm.Halt)).
Definition by_sudo : OriginFor * RuntimeCall (OtherCall := other_call) := (user, CallOther sudo_as).
Definition pull : OriginFor * RuntimeCall (OtherCall := other_call) :=
  (user, CallSwarm (Swarm.Call_pull_next (#7 : Swarm.RobotId))).
Definition after_enqueue : world := (runtime_dispatch other enqueue block1).2.
Definition block2 : world := {| w_robots := w_robots after_enqueue; w_queue := w_queue after_enqueue;
  w_something := None; w_events := []; w_number := 2 |}.
Definition after_nested : world := (runtime_dispatch other by_sudo block2).2.
Definition after_pull : world := (runtime_dispatch other pull after_nested).2.
Definition deeds : list Swarm.Event :=
  [Swarm.CommandEnqueued Swarm.Halt; Swarm.CommandEnqueued Swarm.WaitForCommand;
   Swarm.CommandPulled (#7 : Swarm.RobotId) Swarm.Halt None].

Lemma lifetime_delivery_witness :
  Chain.chain_life other block1 deeds after_pull /\
  Swarm.queue block1 ++ omap SwarmProps.enqueued deeds =
    omap SwarmProps.pulled deeds ++ Swarm.queue after_pull /\
  Forall (SwarmProps.event_ok (Swarm.registered after_pull)) deeds.
Proof.
  assert (H : Chain.chain_life other block1 deeds after_pull).
  { refine (Chain.life_step other block1 [Swarm.CommandEnqueued Swarm.Halt] after_enqueue
      (tail deeds) after_pull _ _).
    { exact (Chain.step_call other enqueue block1 _ eq_refl eq_refl eq_refl). }
    refine (Chain.life_step other after_enqueue [] block2 (tail deeds) after_pull _ _).
    { apply Chain.step_block. by repeat split. }
    refine (Chain.life_step other block2 [Swarm.CommandEnqueued Swarm.WaitForCommand]
      after_nested (tail (tail deeds)) after_pull _ _).
    { exact (Chain.step_call other by_sudo block2 _ eq_refl eq_refl eq_refl). }
    refine (Chain.life_step other after_nested (tail (tail deeds)) after_pull [] after_pull _
      (Chain.life_here other after_pull)).
    exact (Chain.step_call other pull after_nested _ eq_refl eq_refl eq_refl). }
  split; [exact H|].
  destruct (Chain.lifetime_delivery other (@uval 32 : @BlockNumber ref_numbers -> Z)
    block1 deeds after_pull H) as (Hq & He & _).
  split; [exact Hq | exact He].
Defined.

Lemma swarm_weight_below_database_witness :
  (Swarm.dispatch user (Swarm.Call_pull_next (#7 : Swarm.RobotId)) after_nested).1 = Ok tt /\
  10_000 * Swarm.declared_weight (Swarm.Call_pull_next (#7 : Swarm.RobotId)) <=
    database_time user (Swarm.Call_pull_next (#7 : Swarm.RobotId)) after_nested.
Proof.
  assert (H : (Swarm.dispatch user (Swarm.Call_pull_next (#7 : Swarm.RobotId)) after_nested).1 = Ok tt)
    by (by vm_compute).
  split; [exact H | exact (swarm_weight_below_database user _ after_nested H)].
Defined.
End RuntimeDemo.

(** ** Constants, fees, limits, genesis *)
Module ConfigDemo.

Definition pov : Z := 5 * 1024 * 1024.

Lemma weights_are_sane_witness :
  block_weights_sane = true /\ extrinsic_weights_sane = true /\
  rocksdb_sane = true /\ paritydb_sane = true.
Proof. exact weights_are_sane. Defined.

Lemma weight_to_fee_is_linear_witness :
  fits 64 (ref_time ExtrinsicBaseWeight) /\
  2 * Z.abs (1000 * weight_to_fee ExtrinsicBaseWeight - 8 * ref_time ExtrinsicBaseWeight) <= 1000.
Proof.
  assert (H : fits 64 (ref_time ExtrinsicBaseWeight)) by solve_fits.
  split; [exact H | exact (weight_to_fee_is_linear ExtrinsicBaseWeight H)].
Defined.

Lemma weight_to_fee_monotone_witness :
  ref_time ExtrinsicBaseWeight + 125 <= ref_time BlockExecutionWeight /\
  weight_to_fee ExtrinsicBaseWeight <= weight_to_fee BlockExecutionWeight.
Proof.
  assert (H1 : fits 64 (ref_time ExtrinsicBaseWeight)) by solve_fits.
  assert (H2 : fits 64 (ref_time BlockExecutionWeight)) by solve_fits.
  assert (H3 : ref_time ExtrinsicBaseWeight + 125 <= ref_time BlockExecutionWeight)
    by (vm_compute; discriminate).
  split; [exact H3 | exact (weight_to_fee_monotone _ _ H1 H2 H3)].
Defined.

Lemma base_extrinsic_fee_witness :
  fits 64 pov /\
  weight_to_fee ExtrinsicBaseWeight = MICRO_UNIT /\
  100 * weight_to_fee ExtrinsicBaseWeight = MILLI_UNIT / 10 /\
  weight_to_fee (MAXIMUM_BLOCK_WEIGHT pov) = 16 * MILLI_UNIT.
Proof.
  assert (H : fits 64 pov) by solve_fits. split; [exact H | exact (base_extrinsic_fee pov H)].
Defined.

Definition built : BlockWeights := block_weights_builder pov.

Lemma block_limits_witness :
  fits 64 pov /\ RuntimeBlockWeights pov = Some built /\
  max_block built = MAX pov /\ max_total (class_weights built mandatory_class) = None.
Proof.
  assert (H : fits 64 pov) by solve_fits.
  assert (Hb : RuntimeBlockWeights pov = Some built) by reflexivity.
  destruct (block_limits pov H built Hb) as (_ & _ & Hother & Hmax).
  split; [exact H|]. split; [exact Hb|]. split; [exact Hmax|]. by apply Hother.
Defined.

(** A full block: 11999 registrations, charged 1.49999 s, taking 2.69 s. *)
Definition registrations : list (OriginFor * Swarm.Call) :=
  replicate (Z.to_nat 11999) (Some 1 : OriginFor, Swarm.Call_register_robot (#7 : Swarm.RobotId)).

Lemma registrations_succeed n w :
  Forall (eq (Ok tt)) (Swarm.run (replicate n
    (Some 1 : OriginFor, Swarm.Call_register_robot (#7 : Swarm.RobotId))) w).1.
Proof.
  revert w. induction n as [|n IH]; intros w; [constructor|]. cbn [replicate].
  unfold Swarm.run. rewrite run_all_cons. constructor; [reflexivity | apply IH].
Qed.

Example registrations_take :
  Capacity.total_taken 0 registrations SwarmDemo.start = 2_699_775_000_000.
Proof. by vm_compute. Qed.

Lemma full_block_overruns_witness :
  Capacity.total_charged 0 registrations <= 1_500_000_000_000 /\
  ref_time (max_block built) < Capacity.total_taken 0 registrations SwarmDemo.start.
Proof.
  assert (H : fits 64 pov) by solve_fits.
  assert (Hb : RuntimeBlockWeights pov = Some built) by reflexivity.
  pose (m := perbill_mul_weight NORMAL_DISPATCH_RATIO (MAX pov)).
  assert (Hm : max_total (class_weights built Normal) = Some m) by reflexivity.
  assert (Hc : Capacity.total_charged 0 registrations <= ref_time m <
    Capacity.total_charged 0 registrations + (125_010_000 + 0))
    by (split; [vm_compute; discriminate | vm_compute; reflexivity]).
  assert (Hq : Forall (eq (Ok tt)) (Swarm.run registrations SwarmDemo.start).1)
    by exact (registrations_succeed _ _).
  split; [vm_compute; discriminate|].
  exact (proj2 (Capacity.full_block_overruns pov built m 0 registrations SwarmDemo.start H Hb Hm Hq
    ltac:(lia)) Hc ltac:(lia)).
Defined.

Lemma message_budgets_fit_witness :
  exists mq, MessageQueueServiceWeight pov = Some mq /\
  100 * (ref_time (ReservedXcmpWeight pov) + ref_time (ReservedDmpWeight pov) + ref_time mq)
    <= 85 * ref_time (MAX pov) + 100.
Proof.
  assert (H : fits 64 pov) by solve_fits.
  exists (perbill_mul_weight (from_percent 35) (max_block built)).
  split; [reflexivity|].
  exact (message_budgets_fit pov H _ eq_refl ref_time (or_introl eq_refl)).
Defined.

Lemma session_times_witness :
  Period * MILLI_SECS_PER_BLOCK = 6 * 60 * 60 * 1000 /\
  DAYS * MILLI_SECS_PER_BLOCK = 24 * 60 * 60 * 1000 /\
  KickThreshold mod SessionLength = 0 /\ 0 < KickThreshold /\
  Z.of_nat (length (invulnerables development_config_genesis)) <= MaxInvulnerables /\
  Z.of_nat (length (invulnerables local_testnet_genesis)) <= MaxInvulnerables.
Proof. exact session_times. Defined.

Lemma presets_well_formed_witness :
  genesis_ok local_testnet_genesis /\ genesis_ok development_config_genesis.
Proof. exact presets_well_formed. Defined.

Lemma issuance_fits_witness :
  Z.of_nat (length [1; 2; 3]) < 2 ^ 68 /\
  issuance (testnet_genesis [(1, 101)] [1; 2; 3] 1 PARACHAIN_ID) = 2 ^ 60 * 3 /\
  fits 128 (issuance (testnet_genesis [(1, 101)] [1; 2; 3] 1 PARACHAIN_ID)).
Proof.
  assert (H : Z.of_nat (length [1; 2; 3]) < 2 ^ 68) by (by vm_compute).
  split; [exact H | exact (issuance_fits [(1, 101)] [1; 2; 3] 1 PARACHAIN_ID H)].
Defined.

Definition json_patch (g : GenesisPatch) : Z := parachain_id g.
Definition to_string (v : Z) : option string := Some (pretty v).

Lemma preset_served_iff_listed_witness :
  (forall v, is_Some (to_string v)) /\
  exists r, get_preset (E := unit) json_patch to_string "development" tt = (Ok r, tt) /\
    (is_Some r <-> "development" ∈ preset_names) /\
    (forall b, r = Some b -> to_string (json_patch development_config_genesis) = Some b).
Proof.
  assert (H : forall v, is_Some (to_string v)) by (by eexists).
  split; [exact H|].
  exact (preset_served_iff_listed json_patch to_string "development" tt H).
Defined.
End ConfigDemo.
