(* ===== verification/NodeWitness.v ===== *)
(** * Witnesses for the node

    The node's theorems with hypotheses, and runs of its start-up, on the hosts of
    [NodeReference.v]. *)
From S2P Require Import Prelude Frame Constants Genesis Reference.
From S2P Require Import Interaction NodeHost Service ServiceProps ChainSpec Cli Command CommandProps.
From S2P Require Import NodeReference.
From S2P Require Build.

Local Open Scope Z_scope.

Module NodeDemo.

Definition collator_settings : settings := {|
  set_telemetry := Some ["wss://telemetry"]%string; set_heap_pages := None;
  set_authority := true; set_offchain := true;
  set_spec := Some {| relay_chain := RELAY_CHAIN; para_id := PARACHAIN_ID |};
  set_database := Some "db"%string; set_base_path := "/data"%string |}.

Definition no_para : settings := {|
  set_telemetry := None; set_heap_pages := None; set_authority := false; set_offchain := false;
  set_spec := None; set_database := None; set_base_path := "/data"%string |}.

Definition start := start_parachain_node collator_settings no_para tt PARACHAIN_ID (Some 50).

(** A collator comes up; its relay chain is unreachable; its key is missing. *)
Example collator_starts :
  (interp (service_host true (Some "key"%string)) start tt).2 =
  Ok ("tasks"%string, "client"%string).
Proof. reflexivity. Qed.

Example relay_unreachable :
  let '(tr, r) := interp (service_host false None) start tt in
  r = Err "application: no relay chain"%string /\
  marks stage_of tr = [TelemetryStarted; TelemetryOpened; PartsBuilt; Spawned false "telemetry";
                       PoolBuilt; ImportQueueBuilt; RelayChainReached].
Proof. by vm_compute. Qed.

Example key_missing : (interp (service_host true None) start tt).2 = Panic.
Proof. reflexivity. Qed.

(** The theorem of the single panic, on the host without a key. *)
Lemma startup_panics_only_keyless_witness :
  Exists keyless (interp (service_host true None) start tt).1.
Proof.
  pose proof (startup_panics_only_keyless (service_host true None) collator_settings no_para tt
    PARACHAIN_ID (Some 50) tt) as H.
  exact (proj2 (H eq_refl)).
Defined.

Lemma startup_timing_matches_runtime_witness :
  fits 64 5_000_000 /\
  Forall (agrees told_slot RELAY_CHAIN_SLOT_DURATION_MILLIS)
    (interp (service_host true (Some "key"%string)) start tt).1.
Proof.
  assert (H : fits 64 5_000_000) by solve_fits. split; [exact H|].
  exact (proj1 (startup_timing_matches_runtime (service_host true (Some "key"%string))
    collator_settings no_para tt PARACHAIN_ID (Some 50) tt 5_000_000 H)).
Defined.

Definition wasm : string := "wasm".
Definition build (s : spec_settings (Wasm := Wasm)) : GenericChainSpec := extensions s.

Lemma builtin_specs_fit_runtime_witness :
  genesis_preset (local_settings wasm) ∈ preset_names.
Proof.
  exact (proj1 (builtin_specs_fit_runtime wasm (local_settings wasm) (or_intror eq_refl))).
Defined.

#[local] Instance ref_builders : Build.WasmBuilders := {|
  Build.WasmBuilder := option (string * Z);
  Build.init_with_defaults := None;
  Build.enable_metadata_hash symbol decimals _ := Some (symbol, decimals);
  Build.metadata_hash b := b;
|}.
#[local] Instance ref_builders_ok : Build.WasmBuildersOk.
Proof. by split. Qed.

(** Build tools that do as they are told. *)
Definition tools : host Build.BuildOp unit := fun X o s =>
  match o in Build.BuildOp X return X * unit with
  | Build.generate_cargo_keys | Build.rerun_if_git_head_changed
  | Build.wasm_build _ | Build.wasm_build_using_defaults => (tt, s)
  end.

Lemma release_metadata_matches_witness :
  let release := {| Build.std := true; Build.feature_metadata_hash := true |} in
  exists b X (o : Build.BuildOp X) a,
    (interp tools (Build.runtime_build_main (E := unit) release) tt).1 = [Call X o a] /\
    Build.built o = Some b /\ is_Some (Build.metadata_hash b).
Proof.
  destruct (Build.release_metadata_matches (E := unit) tools
    {| Build.std := true; Build.feature_metadata_hash := true |} tt wasm (local_settings wasm)
    (or_intror eq_refl)) as (b & X & o & a & Ht & Hb & symbol & decimals & Hh & _).
  exists b, X, o, a. split; [exact Ht|]. split; [exact Hb|]. rewrite Hh. by eexists.
Defined.

Lemma load_spec_by_name_witness :
  let '(tr, r) := interp (cli_host no_para) (load_spec (Some wasm) build "spec.json") tt in
  exists answer, tr = [Call _ (from_json_file "spec.json") answer] /\
    r = match answer with ROk spec => Ok (boxed spec) | RErr e => Err e end.
Proof.
  exact (load_spec_by_name (Some wasm) build (cli_host no_para) tt wasm "spec.json" eq_refl).
Defined.

Definition run_node_cli : Cli := {|
  subcommand := None; run_cmd := tt; no_hardware_benchmarks := false; relay_chain_args := [] |}.
Definition revert_cli : Cli := {|
  subcommand := Some (Revert tt); run_cmd := tt; no_hardware_benchmarks := false;
  relay_chain_args := [] |}.

Lemma run_terminates_witness :
  (length (interp (cli_host collator_settings) (run (Some wasm) build false run_node_cli) tt).1 <= 24)%nat.
Proof. exact (run_terminates (Some wasm) build false (cli_host collator_settings) run_node_cli tt). Defined.

(** A collator makes all of them. *)
Example collator_makes_24_calls :
  length (interp (cli_host collator_settings) (run (Some wasm) build false run_node_cli) tt).1 = 24%nat.
Proof. by vm_compute. Qed.

Lemma run_executes_its_command_witness :
  marks ran (interp (cli_host collator_settings) (run (Some wasm) build false revert_cli) tt).1 =
  [Some (Revert tt)].
Proof.
  exact (run_executes_its_command (Some wasm) build false (cli_host collator_settings) revert_cli tt).
Defined.

(** Hosts whose runners all have the given specification: the runner type is
    restricted accordingly. *)
Definition runners_at (c : settings) : Runners := {|
  runner_config _ := c;
  sync_run r f := f c;
  async_run r f := x ← f c; try id (block_on x.1 x.2);
  run_node_until_exit r f := tm ← f c; try id (wait_until_exit tm);
|}.
Lemma runners_at_ok c : @RunnersOk _ _ (runners_at c).
Proof. by split. Qed.

Lemma node_needs_para_id_witness :
  (interp (cli_host no_para) (@run _ _ _ (runners_at no_para) (Some wasm) build false run_node_cli) tt).2 =
    Err "Could not find parachain ID in chain-spec."%string /\
  let '(tr, r) := interp (cli_host no_para)
    (@run _ _ _ (runners_at no_para) (Some wasm) build false run_node_cli) tt in
  Forall preliminary tr /\
  (r = Err "Could not find parachain ID in chain-spec."%string \/
   exists runnable e, tr = [Call _ (create_runner runnable) (RErr e)] /\ r = Err e).
Proof.
  split; [reflexivity|].
  exact (@node_needs_para_id _ _ _ (runners_at no_para) (Some wasm) build false
    (runners_at_ok no_para) _ (cli_host no_para) run_node_cli tt eq_refl (fun _ => eq_refl)).
Defined.

Lemma node_serves_spec_para_witness :
  Forall (agrees told_para_cli PARACHAIN_ID)
    (interp (cli_host collator_settings)
      (@run _ _ _ (runners_at collator_settings) (Some wasm) build false run_node_cli) tt).1.
Proof.
  refine (@node_serves_spec_para _ _ _ (runners_at collator_settings) (Some wasm) build false
    (runners_at_ok collator_settings) _ (cli_host collator_settings) run_node_cli PARACHAIN_ID tt
    eq_refl _).
  intros r e He. injection He as <-. reflexivity.
Defined.
End NodeDemo.
