(* ===== verification/XcmWitness.v ===== *)
(** * Witnesses for the XCM configuration

    Combinators that satisfy the laws of [Xcm.v], and its theorems applied to
    concrete messages. *)
From S2P Require Import Prelude Frame Constants Fees Configs Reference Xcm XcmAssets.

Local Open Scope Z_scope.

Module XcmDemo.

Inductive junction : Type := para (id : Z) | account (id : Z) | body (id : Z).
#[export] Instance junction_eq_dec : EqDecision junction.
Proof. solve_decision. Defined.

#[export] Instance ref_xcm : XcmTypes := {|
  Location := Z * list junction;
  Junction := junction;
  BodyId := Z;
  NetworkId := unit;
  InteriorLocation := Z;
  unpack l := l;
  Executive := 1;
  plurality_id j := match j with body b => Some b | _ => None end;
  parent := (1, []);
  XcmAccount := Z;
  ProcessMessageError := string;
  (* credit, does it pay, does it ask to be unpaid, a trailing topic, a reserve
     transfer to the relay chain, an origin that can be computed *)
  XcmState := Z * bool * bool * bool * bool * bool;
|}.

Definition strip (s : XcmState) : XcmState :=
  let '(c, p, u, _, r, k) := s in (c, p, u, false, r, k).
Definition credit (w : Weight) (s : XcmState) : Prop := ref_time w <= s.1.1.1.1.1.
Definition paying (w : Weight) (s : XcmState) : Prop := s.1.1.1.1.2 = true.
Definition unpaid (w : Weight) (s : XcmState) : Prop := s.1.1.1.2 = true.
Definition compute (u n : Z) (o : Location) (s : XcmState) : option (Location * XcmState) :=
  if s.2 then Some (o, s) else None.

Fixpoint try_all (bs : list ShouldExecute) : ShouldExecute := fun o w s =>
  match bs with
  | [] => (Err "unsupported"%string, s)
  | b :: bs => match b o w s with (Ok tt, s') => (Ok tt, s') | (_, s') => try_all bs o w s' end
  end.

#[export] Instance ref_barriers : Barriers := {|
  TrailingSetTopicAsId b o w s := b o w (strip s);
  DenyThenTry d b o w s := match d o w s with Some e => (Err e, s) | None => b o w s end;
  DenyRecursively d := d;
  DenyReserveTransferToRelayChain o w s := if s.1.2 then Some "reserve"%string else None;
  TakeWeightCredit o w s :=
    if ref_time w <=? s.1.1.1.1.1 then (Ok tt, s) else (Err "credit"%string, s);
  WithComputedOrigin b u n o w s :=
    match compute u n o s with
    | Some (o', s') => b o' w s'
    | None => (Err "origin"%string, s)
    end;
  AllowTopLevelPaidExecutionFrom f o w s :=
    if f o && s.1.1.1.1.2 then (Ok tt, s) else (Err "unpaid"%string, s);
  AllowExplicitUnpaidExecutionFrom f o w s :=
    if f o && s.1.1.1.2 then (Ok tt, s) else (Err "not free"%string, s);
  any_of := try_all;
|}.

#[export] Instance ref_barriers_ok : BarriersOk strip credit compute paying unpaid.
Proof.
  split; cbn -[compute]; try done.
  - intros d b o w s e. by intros ->.
  - intros d b o w s. by intros ->.
  - intros o w s. unfold credit. cbn.
    destruct (Z.leb_spec (wt_time w) s.1.1.1.1.1); cbn; (split; [done || lia | done || lia]).
  - intros b u n o w s o' s' Hc. by rewrite Hc.
  - intros b u n o w s Hc. rewrite Hc. eauto.
  - intros f o w s. unfold paying. destruct (f o), (s.1.1.1.1.2); naive_solver.
  - intros f o w s. unfold unpaid. destruct (f o), (s.1.1.1.2); naive_solver.
  - intros b bs o w s. by destruct (b o w s) as [[[]| |] s'].
  - intros b bs o w s. by destruct (b o w s) as [[[]| |] s'].
Qed.

(** A message of the relay chain that asks for free execution. *)
Definition w : Weight := from_parts 1000 1000.
Definition free : XcmState := (0, false, true, true, false, true).

Lemma barrier_admits_witness :
  (Barrier 0 (1, []) w free).1 = Ok tt /\
  (DenyRecursively DenyReserveTransferToRelayChain (1, []) w (strip free) = None /\
   (credit w (strip free) \/
    ~ credit w (strip free) /\ exists o' s3,
      compute 0 8 (1, []) (TakeWeightCredit (1, []) w (strip free)).2 = Some (o', s3) /\
      (paying w s3 \/
       ~ paying w s3 /\ privileged o' /\
       unpaid w (AllowTopLevelPaidExecutionFrom Everything o' w s3).2))).
Proof.
  assert (H : (Barrier 0 (1, []) w free).1 = Ok tt) by reflexivity.
  split; [exact H|]. exact (proj1 (barrier_admits 0 (1, []) w free) H).
Defined.

(** The same message from a sibling parachain is refused. *)
Example sibling_not_free : (Barrier 0 (1, [para 2000]) w free).1 = Err "not free"%string \/
  (Barrier 0 (1, [para 2000]) w free).1 = Err "unsupported"%string.
Proof. by right. Qed.

Definition reserve : XcmState := (0, true, false, true, true, true).

Lemma reserve_transfer_refused_witness :
  DenyReserveTransferToRelayChain (1, []) w (strip reserve) = Some "reserve"%string /\
  (Barrier 0 (1, []) w reserve).1 <> Ok tt /\ (Barrier 0 (1, []) w reserve).2 = strip reserve.
Proof.
  assert (H : DenyReserveTransferToRelayChain (1, []) w (strip reserve) = Some "reserve"%string)
    by reflexivity.
  split; [exact H|]. exact (reserve_transfer_refused 0 (1, []) w reserve "reserve" H).
Defined.

(** ** Origins *)
Inductive kind : Type := sovereign | native | superuser | xcm.
#[export] Instance kind_eq_dec : EqDecision kind.
Proof. solve_decision. Defined.

Inductive origin : Type := signed (a : Z) | relay | sibling (id : Z) | passed.

Definition parent_account (l : Location) : option Z :=
  match l with (1, []) => Some 7 | _ => None end.
Definition sibling_account (l : Location) : option Z :=
  match l with (1, [para n]) => Some (1000 + n) | _ => None end.
Definition local_account (_ : option NetworkId) (l : Location) : option Z :=
  match l with (0, [account n]) => Some n | _ => None end.
Definition sovereign_signed (conv : ConvertLocation) (l : Location) (k : kind) : option origin :=
  if decide (k = sovereign) then signed <$> conv l else None.
Definition relay_native (l : Location) (k : kind) : option origin :=
  match k, l with native, (1, []) => Some relay | _, _ => None end.
Definition sibling_native (l : Location) (k : kind) : option origin :=
  match k, l with native, (1, [para n]) => Some (sibling n) | _, _ => None end.
Definition signed_native (_ : option NetworkId) (l : Location) (k : kind) : option origin :=
  match k, l with native, (0, [account n]) => Some (signed n) | _, _ => None end.
Definition passthrough (l : Location) (k : kind) : option origin :=
  match k with xcm => Some passed | _ => None end.

Lemma transact_origins_witness :
  let origins := XcmOriginToTransactDispatchOrigin parent_account sibling_account local_account
    sovereign_signed relay_native sibling_native signed_native passthrough in
  origins (1, [para 2000]) superuser = None /\
  origins (1, [para 2000]) sovereign = Some (signed 3000) /\
  origins (1, []) native = Some relay.
Proof.
  assert (Hd : NoDup [sovereign; native; superuser; xcm]) by (apply (bool_decide_unpack _); exact I).
  assert (H1 : forall l, unpack l = (1, []) -> relay_native l native = Some relay)
    by (intros [? ?] [= -> ->]; reflexivity).
  assert (H2 : forall l k, is_Some (relay_native l k) -> k = native)
    by (intros l [] [x H]; done).
  assert (H3 : forall l k, is_Some (sibling_native l k) -> k = native)
    by (intros l [] [x H]; done).
  assert (H4 : forall n l k, is_Some (signed_native n l k) -> k = native)
    by (intros n l [] [x H]; done).
  assert (H5 : forall l k, is_Some (passthrough l k) -> k = xcm) by (intros l [] [x H]; done).
  pose proof (fun l => transact_origins sovereign native superuser xcm Hd signed relay
    parent_account sibling_account local_account sovereign_signed relay_native sibling_native
    passthrough signed_native (fun _ _ _ => eq_refl) H1 H2 H3 H4 H5 l) as H.
  split; [|split].
  - exact (proj1 (H (1, [para 2000]))).
  - exact (proj1 (proj2 (H (1, [para 2000])))).
  - exact (proj2 (proj2 (H (1, []))) eq_refl).
Defined.

(** ** Weights *)
#[export] Instance ref_fixed : FixedWeights := fun u limit n =>
  if n <=? limit then Some (from_parts (ref_time u * n) (proof_size u * n)) else None.
#[export] Instance ref_fixed_ok : FixedWeightsOk.
Proof.
  split; intros u limit n; unfold fixed_weight, ref_fixed.
  - intros Hn _ _. by rewrite (proj2 (Z.leb_le _ _)) by lia.
  - intros Hn. by rewrite (proj2 (Z.leb_gt _ _)) by lia.
Qed.

(** With a proof limit of 10 MiB, a message of 41 instructions no longer fits. *)
Lemma message_weight_fits_witness :
  fits 64 (10 * 1024 * 1024) /\
  forall m, Weigher 41 = Some m ->
    5 * ref_time m <= ref_time (ReservedDmpWeight (10 * 1024 * 1024)) /\
    (proof_size m <= proof_size (ReservedDmpWeight (10 * 1024 * 1024)) <->
     41 <= 10 * 1024 * 1024 / (256 * 1024)).
Proof.
  assert (H : fits 64 (10 * 1024 * 1024)) by solve_fits. split; [exact H|].
  assert (Hn : 0 <= 41) by lia. exact (proj2 (message_weight_fits 41 _ Hn H)).
Defined.

(** ** Assets *)
#[export] Instance ref_assets : XcmAssetTypes := {|
  Asset := Location * option Z;
  asset_id := fst;
  fungible := snd;
  Location_eq := (_ : EqDecision (Z * list junction));
  XcmError := string;
  AssetNotFound := "asset not found";
  AccountIdConversionFailed := "no account";
|}.

(** A ledger of one account balance after the other. *)
Definition ledger : Type := Z -> Z.
Definition ref_currency : Currency ledger := {|
  mint_into who n b := (Ok tt, fun a => if decide (a = who) then b a + n else b a);
  burn_from who n b :=
    if n <=? b who then (Ok tt, fun a => if decide (a = who) then b a - n else b a)
    else (Err "too poor"%string, b);
|}.

Definition adapter (cur : Currency ledger) (m : MatchesFungible) (conv : ConvertLocation)
    (move : XcmAccount -> Z -> M ledger XcmError unit) (a : Asset) (l : Location) :
    M ledger XcmError unit :=
  match m a with
  | None => throw AssetNotFound
  | Some n => match conv l with None => throw AccountIdConversionFailed | Some who => move who n end
  end.

#[export] Instance ref_asset_combinators : AssetCombinators ledger := {|
  IsConcrete l a := if decide (asset_id a = l) then fungible a else None;
  NativeAsset a o := bool_decide (asset_id a = o);
  no_pair _ _ := false;
  FungibleAdapter cur m conv := {|
    deposit_asset := adapter cur m conv (mint_into cur);
    withdraw_asset := adapter cur m conv (burn_from cur) |};
|}.
#[export] Instance ref_asset_combinators_ok : AssetCombinatorsOk ledger.
Proof.
  split; try done; intros; cbn; unfold adapter;
    repeat match goal with H : _ = _ |- _ => rewrite H; clear H end; done.
Qed.

#[export] Instance ref_traders : Traders := fun to_fee id w h =>
  if to_fee w <=? h id
  then Some (fun l => if decide (l = id) then h l - to_fee w else h l) else None.
#[export] Instance ref_traders_ok : TradersOk.
Proof.
  split; intros to_fee id w h Hle; unfold UsingComponents, ref_traders.
  - rewrite (proj2 (Z.leb_le _ _)) by done. eexists. split; [done|]. split.
    + by rewrite decide_True.
    + intros l Hl. by rewrite decide_False.
  - by rewrite (proj2 (Z.leb_gt _ _)).
Qed.

#[export] Instance ref_routers : Routers := {|
  ParaId := Z;
  parachain_id j := match j with para n => Some n | _ => None end;
  Route := option Z;
  upward := None;
  sideward := Some;
  ParentAsUmp l := match l with (1, []) => ROk None | _ => RErr NotApplicable end;
  XcmpQueue l := match l with (1, [para n]) => ROk (Some n) | _ => RErr NotApplicable end;
  WithUniqueTopic r := r;
|}.
#[export] Instance ref_routers_ok : RoutersOk.
Proof. split; try done; by intros [[|[| |]|] [|[] []]]. Qed.

Definition demo_config :=
  XcmConfig (W := ledger) (RuntimeCall := unit) ref_currency 1000 parent_account sibling_account
    local_account sovereign_signed relay_native sibling_native passthrough signed_native.

(** The relay chain's token, and another asset of the relay chain. *)
Definition token (n : Z) : Asset := ((1, []), Some n).
Definition poor : ledger := fun _ => 0.

Lemma only_relay_brings_assets_witness :
  IsReserve demo_config (token 5) (1, []) = true /\
  ((1, []) : Location) = RelayLocation /\
  exists n, fungible (token 5) = Some n /\
    deposit_asset (AssetTransactor_ demo_config) (token 5) (0, [account 9]) poor =
    mint_into ref_currency 9 n poor.
Proof.
  assert (H : IsReserve demo_config (token 5) (1, []) = true) by reflexivity.
  assert (Hd : deposit_asset (AssetTransactor_ demo_config) (token 5) (0, [account 9]) poor <>
    (Err AssetNotFound, poor)) by discriminate.
  destruct (only_relay_brings_assets ref_currency 1000 parent_account sibling_account local_account
    sovereign_signed relay_native sibling_native passthrough signed_native
    (RuntimeCall := unit) (token 5) (1, []) (0, [account 9]) poor (or_introl H) Hd) as (Ho & _ & He).
  split; [exact H|]. split; [exact Ho | exact He].
Defined.


Lemma router_delivers_witness :
  XcmSender demo_config (1, [para 2000]) = ROk (Some 2000) /\
  XcmSender demo_config (0, []) <> ROk None.
Proof.
  pose proof (router_delivers ref_currency 1000 parent_account sibling_account local_account
    sovereign_signed relay_native sibling_native passthrough signed_native
    (RuntimeCall := unit)) as H.
  split.
  - apply (proj2 (H (1, [para 2000]) (Some 2000))). right. by exists (para 2000), 2000.
  - intros Hr. apply (proj1 (H (0, []) None)) in Hr as [[Hr _]|(j & p & Hr & _)]; discriminate Hr.
Defined.

(** ** Local accounts *)
Definition signed_location (_ : option NetworkId) (o : origin) : option Location :=
  match o with signed a => Some (0, [account a]) | _ => None end.

Lemma local_account_roundtrip_witness :
  LocalOriginToLocation signed_location (signed 42) ≫=
    LocationToAccountId parent_account sibling_account local_account = Some 42.
Proof.
  assert (H1 : forall (n : option NetworkId) a, exists l, signed_location n (signed a) = Some l /\
    (unpack l).1 = 0 /\ local_account n l = Some a) by (intros n a; by exists (0, [account a])).
  assert (H2 : forall l, is_Some (parent_account l) -> (unpack l).1 = 1)
    by (intros [[|[| |]|] []] [x Hx]; done).
  assert (H3 : forall l, is_Some (sibling_account l) -> (unpack l).1 = 1)
    by (intros [[|[| |]|] [|[] []]] [x Hx]; done).
  exact (local_account_roundtrip signed_location signed parent_account sibling_account local_account
    H1 H2 H3 42).
Defined.

#[export] Instance ref_pallet_xcm :
  PalletXcm (RuntimeOrigin := origin) (Payload := unit) (Assets := Z) unit string := {|
  BadOrigin := "bad origin";
  Filtered := "filtered";
  xcm_execute cfg o p w :=
    match ExecuteXcmOrigin cfg o with
    | None => (Err "bad origin"%string, w)
    | Some l => if XcmExecuteFilter cfg (l, p) then (Ok tt, w) else (Err "filtered"%string, w)
    end;
  reserve_transfer_assets cfg o a w :=
    match ExecuteXcmOrigin cfg o with
    | None => (Err "bad origin"%string, w)
    | Some l => if XcmReserveTransferFilter cfg (l, a) then (Ok tt, w) else (Err "filtered"%string, w)
    end;
|}.
#[export] Instance ref_pallet_xcm_ok : PalletXcmOk (W := unit) (E := string).
Proof.
  split; intros; cbn;
    repeat match goal with H : ExecuteXcmOrigin _ _ = _ |- _ => rewrite H; clear H end; try done.
  all: match goal with H : ?x = false |- (if ?y then _ else _) = _ => change y with x; by rewrite H end.
Qed.

Lemma pallet_xcm_refuses_witness : exists e e',
  xcm_execute (pallet_xcm_config signed_location) (signed 1) tt tt = (Err e, tt) /\
  reserve_transfer_assets (pallet_xcm_config signed_location) (signed 1) 5 tt = (Err e', tt).
Proof.
  destruct (pallet_xcm_refuses signed_location (signed 1) tt 5 tt) as (e & e' & He & He' & _).
  exists e, e'. split; [exact He | exact He'].
Defined.
End XcmDemo.
