(* ===== verification/StorageWitness.v ===== *)
(** * Witnesses of the codecs and of the storage layout

    The theorems of [Codec.v] and [Storage.v] applied to the instances of
    [StorageReference.v], with the bytes written out. *)
From S2P Require Import Prelude Frame Configs Codec Storage Reference StorageReference.
From S2P Require Swarm SwarmSpec Template Runtime.
From Stdlib Require Import Strings.Byte.

Local Open Scope Z_scope.

#[local] Existing Instances SwarmSpec.state_equiv SwarmSpec.state_equivalence.

(** ** Calls on the wire *)
Module CodecDemo.

Definition goto : Swarm.Command := Swarm.GoToLocation {| Swarm.x := #3; Swarm.y := #260 |}.
Definition call : Runtime.RuntimeCall (OtherCall := unit) :=
  Runtime.CallSwarm (Swarm.Call_enqueue_command goto).
Definition wire : bytes := [x33; x01; x00; x03; x00; x00; x00; x04; x01; x00; x00].

Example call_on_the_wire : scale_encode call = wire.
Proof. reflexivity. Qed.
Lemma runtime_call_roundtrip_witness :
  scale_decode wire = Some (call, []) /\
  (byte_index <$> head wire = Some 51 <-> exists s, call = Runtime.CallSwarm s) /\
  wire = scale_encode call ++ [].
Proof.
  destruct (runtime_call_roundtrip call wire []) as [He Hd].
  assert (H : scale_decode wire = Some (call, [])) by exact He.
  destruct (Hd H) as (Hs & _ & Hex).
  split; [exact H|]. split; [exact Hs|]. apply Hex. left. eexists. reflexivity.
Defined.

Lemma command_roundtrip_witness :
  (scale_decode [x02; xff] = Some (Swarm.Halt, [xff]) <-> [x02; xff] = scale_encode Swarm.Halt ++ [xff]) /\
  scale_decode (A := Swarm.Command) [x04; x02] = None.
Proof.
  split; [exact (proj1 (command_roundtrip Swarm.Halt [x02; xff] [xff]))|].
  apply (proj2 (command_roundtrip Swarm.Halt [x02] []) x04). reflexivity.
Defined.
End CodecDemo.

(** ** The store *)
Module StoreDemo.
Import Swarm SwarmSpec.

#[local] Existing Instances raw_swarm_storage_ok raw_template_storage_ok.
#[local] Instance demo_store : SwarmStorage store := raw_swarm_storage ref_events.
#[local] Instance demo_template_store : Template.TemplateStorage store := raw_template_storage ref_events.

Definition empty : store := {| st_get _ := None; st_events := []; st_number := 1 |}.
Definition user : OriginFor := Some 1.
Definition mission : list (OriginFor * Call) :=
  [(user, Call_register_robot (#7 : RobotId)); (user, Call_enqueue_command CodecDemo.goto);
   (user, Call_enqueue_command Halt); (user, Call_pull_next (#7 : RobotId));
   (user, Call_pull_next (#9 : RobotId))].
Definition after : store := (run mission empty).2.

Lemma empty_blank : blank empty.
Proof. by split. Qed.

(** A store as FRAME leaves it: the version of the pallet's storage is there. *)
Definition fresh : store := raw_put (version_key Runtime.SwarmRobotPallet) [x00; x00] empty.
Lemma fresh_blank : blank fresh.
Proof.
  split; [|by vm_compute]. intros r. unfold fresh. rewrite raw_get_put, decide_False; [done|].
  intros E. apply (f_equal (take 32)) in E.
  change (take 32 (version_key Runtime.SwarmRobotPallet) = robots_prefix) in E.
  revert E. by vm_compute.
Qed.

(** One command is left: its length, then the index of [Halt]. *)
Example queue_bytes : raw_get queue_key after = Some [x04; x02].
Proof. by vm_compute. Qed.
Example robot_bytes : raw_get (robot_key (#7 : RobotId)) after = Some [].
Proof. by vm_compute. Qed.

Lemma raw_store_refines_witness :
  blank fresh /\
  (run mission fresh).1 = (spec_run mission (initial ref_events fresh)).1 /\
  raw_view ref_events (run mission fresh).2 ≡ (spec_run mission (initial ref_events fresh)).2.
Proof.
  split; [exact fresh_blank | exact (raw_store_refines ref_events mission fresh fresh_blank)].
Defined.

Lemma queue_bytes_bounded_witness :
  blank empty /\ raw_get queue_key (run mission empty).2 = Some [x04; x02] /\
  Z.of_nat (length [x04; x02]) <= 578.
Proof.
  assert (H : raw_get queue_key (run mission empty).2 = Some [x04; x02]) by (by vm_compute).
  split; [exact empty_blank|]. split; [exact H|].
  exact (queue_bytes_bounded ref_events mission empty _ eq_refl empty_blank H).
Defined.

(** Two calls of other pallets: one of [Sudo], which dispatches an enqueue in the name of
    a user, and one that writes a raw key, the robot map's prefix with no robot. *)
Inductive other_call : Type := sudo_as | set_storage.
Definition nested : Runtime.OwnCall := Runtime.OwnSwarm (Call_enqueue_command WaitForCommand).
Definition other (_ : OriginFor) (c : other_call) : M store DispatchError unit :=
  match c with
  | sudo_as => with_storage_layer (dispatch user (Call_enqueue_command WaitForCommand))
  | set_storage => modify (raw_put robots_prefix [x01])
  end.
#[local] Instance ref_other : Runtime.OtherPallets (W := store) (OtherCall := other_call) := {|
  Runtime.other_mandatory _ := false;
  Runtime.nested_calls _ c _ := match c with sudo_as => [(user, nested)] | set_storage => [] end;
  Runtime.raw_writes _ c _ := match c with sudo_as => false | set_storage => true end;
|}.
#[local] Instance ref_foreign : ForeignPallets ref_events other.
Proof.
  intros o [] w Hraw; [|discriminate Hraw].
  apply (Runtime.unfolds_own other (foreign_step ref_events) (user, nested)). constructor.
Qed.

Definition block : list (OriginFor * Runtime.RuntimeCall (OtherCall := other_call)) :=
  [(user, Runtime.CallSwarm (Call_enqueue_command Halt));
   (user, Runtime.CallTemplate (Template.Call_do_something #5)); (user, Runtime.CallOther sudo_as)].

Lemma fresh_typed : well_typed fresh.
Proof.
  split; intros k v Hu; unfold fresh; rewrite raw_get_put; case_decide as Hk; [|done| |done];
    subst k; intros [= <-].
  - right. right. by split.
  - by destruct (under_not Runtime.SwarmRobotPallet Runtime.TemplatePallet _
      (under_item0 Runtime.SwarmRobotPallet ":__STORAGE_VERSION__:") ltac:(discriminate) Hu).
Qed.

Lemma storage_stays_typed_witness :
  well_typed fresh /\ Runtime.block_writes_raw other block fresh = false /\
  well_typed (Runtime.run_block other block fresh).2.
Proof.
  assert (H : Runtime.block_writes_raw other block fresh = false) by reflexivity.
  split; [exact fresh_typed|]. split; [exact H|].
  exact (storage_stays_typed ref_events other block fresh H fresh_typed).
Defined.

(** The nested command is in the queue; and with a raw write the claim would be wrong. *)
Example nested_enqueued :
  raw_get queue_key (Runtime.run_block other block fresh).2 = Some [x08; x02; x03].
Proof. by vm_compute. Qed.
Example raw_writes_break_types :
  ~ well_typed (Runtime.run_block other [(user, Runtime.CallOther set_storage)] fresh).2.
Proof.
  intros [Hs _].
  assert (Hu : under Runtime.SwarmRobotPallet robots_prefix)
    by (apply (under_item0 Runtime.SwarmRobotPallet "RegisteredRobots")).
  destruct (Hs robots_prefix [x01] Hu ltac:(by vm_compute)) as [(r & _ & E)|[(E & _)|(E & _)]];
    [done|revert E; by vm_compute..].
Qed.

(** A call of the template pallet leaves the queue's bytes alone. *)
Definition store_five : OriginFor * Runtime.RuntimeCall (OtherCall := other_call) :=
  (user, Runtime.CallTemplate (Template.Call_do_something #5)).

Lemma calls_write_own_keys_witness :
  pallet_of store_five.2 = Some Runtime.TemplatePallet /\
  raw_get queue_key (Runtime.runtime_dispatch other store_five after).2 = raw_get queue_key after.
Proof.
  assert (Ht : ~ under Runtime.TemplatePallet queue_key)
    by (apply (under_not Runtime.SwarmRobotPallet); [apply queue_key_under | discriminate]).
  assert (Hs : ~ under Runtime.System queue_key)
    by (apply (under_not Runtime.SwarmRobotPallet); [apply queue_key_under | discriminate]).
  split; [reflexivity|].
  exact (calls_write_own_keys ref_events other store_five Runtime.TemplatePallet queue_key after
    eq_refl Ht Hs).
Defined.
End StoreDemo.
