(* ===== verification/ApiWitness.v ===== *)
(** * Witnesses for the pallet configurations, the runtime APIs and transactions

    Instances of the interfaces of [PalletConfigs.v], [Apis.v] and [Executive.v], and
    their theorems at concrete inputs. *)
From S2P Require Import Prelude Frame Constants Fees Genesis Configs PalletConfigs Apis Executive.
From S2P Require Import Reference.
From S2P Require NodeHost ChainSpec NodeReference Swarm SwarmSpec Template Runtime Witness.
From S2P Require Codec Storage StorageReference.
From Stdlib Require Strings.Byte.

Local Open Scope Z_scope.

(** ** Configurations *)
Module PalletDemo.

Definition pov : Z := 5 * 1024 * 1024.

#[export] Instance ref_sessions : Sessions := fun p o n =>
  bool_decide (o <= n) && bool_decide ((n - o) mod p = 0).
#[export] Instance ref_sessions_ok : SessionsOk.
Proof. by intros p o n. Qed.

Lemma session_rotation_witness :
  0 <= 5000 /\ (exists m, (5000 < m <= 5000 + Period /\ ShouldEndSession m = true) /\
    forall m', 5000 < m' <= 5000 + Period /\ ShouldEndSession m' = true -> m' = m).
Proof.
  assert (H : 0 <= 5000) by lia. split; [exact H | exact (proj1 (session_rotation 5000 H))].
Defined.

#[export] Instance ref_length_fees : LengthFees := saturating_mul 128.
#[export] Instance ref_length_fees_ok : LengthFeesOk.
Proof. by intros m n. Qed.

Lemma extrinsic_fee_bounded_witness :
  fits 64 pov /\
  weight_to_fee_of transaction_payment_config ExtrinsicBaseWeight +
    length_to_fee_of transaction_payment_config 100 < 53 * UNIT.
Proof.
  assert (Hp : fits 64 pov) by solve_fits.
  assert (Hw : 0 <= ref_time ExtrinsicBaseWeight <= ref_time (MAXIMUM_BLOCK_WEIGHT pov))
    by (vm_compute; split; discriminate).
  assert (Hn : 0 <= 100 <= 5 * 1024 * 1024) by lia.
  split; [exact Hp|].
  exact (proj1 (proj2 (extrinsic_fee_bounded pov ExtrinsicBaseWeight 100 Hp Hw Hn))).
Defined.

Lemma capacities_consistent_witness :
  existential_deposit balances_config <= candidacy_bond (@testnet_genesis ref_genesis [(1, 101)] [1; 2] 1 1000).
Proof.
  destruct (@capacities_consistent ref_genesis [(1, 101)] [1; 2] 1 1000) as (_ & _ & _ & _ & _ & H). exact H.
Defined.

(** Root, an account, or a location: the relay chain's body [n], or nobody's. *)
Inductive demo_origin : Type := root | account (a : Z) | remote (body : option Z).
Definition is_root (o : demo_origin) : bool := match o with root => true | _ => false end.
Definition is_signed_account (o : demo_origin) : bool := match o with account _ => true | _ => false end.
Definition location_of (o : demo_origin) : option (option Z) :=
  match o with remote b => Some b | _ => None end.
Definition ensure_xcm (f : option Z -> bool) (o : demo_origin) : bool :=
  match location_of o with Some l => f l | None => false end.
Definition is_voice (_ : option Z) (body : Z) (l : option Z) : bool := bool_decide (l = Some body).

Lemma collator_admins_witness :
  let update := CollatorSelectionUpdateOrigin is_root ensure_xcm is_voice
    (fun f g o => f o || g o) None 5 in
  update (account 1) = false /\ update (remote (Some 5)) = true.
Proof.
  assert (Hs : forall o, is_signed_account o = true -> is_root o = false /\ location_of o = None)
    by (by intros []).
  pose proof (collator_admins is_root ensure_xcm is_voice (fun f g o => f o || g o) None 5
    location_of is_signed_account (fun _ _ _ => eq_refl) (fun _ _ => eq_refl) Hs) as H.
  split; [exact (proj2 (H (account 1)) eq_refl)|].
  apply (proj2 (proj1 (H (remote (Some 5))))). right. by exists (Some 5).
Defined.

#[export] Instance ref_message_origins : MessageOrigins := {|
  ParaId := Z;
  AggregateMessageOrigin := option (option Z);
  Here := None;
  Parent := Some None;
  Sibling p := Some (Some p);
  as_sibling o := match o with Some (Some p) => Some p | _ => None end;
|}.
#[export] Instance ref_message_origins_ok : MessageOriginsOk.
Proof. by split. Qed.

Definition queues : Type := list (option (option Z) * string).
Definition put (o : AggregateMessageOrigin) (m : string) (w : queues) : queues := w ++ [(o, m)].
#[export] Instance ref_queues : QueueCombinators (Message := string) (W := queues) := {|
  EnqueueWithOrigin o m w := put o m w;
  TransformOrigin f p m w := put (f p) m w;
  ParaIdToSibling := Sibling;
  NarrowOriginToSibling q o w := match as_sibling o with Some p => q p w | None => false end;
|}.
#[export] Instance ref_queues_ok : QueueCombinatorsOk put.
Proof. by split. Qed.

Lemma inbound_queues_separate_witness :
  XcmpQueue (2000 : ParaId) "hello"%string [] = [(Some (Some 2000), "hello"%string)] /\
  Sibling 2000 <> RelayOrigin /\ QueuePausedQuery (fun _ _ => true) RelayOrigin [] = false.
Proof.
  destruct (inbound_queues_separate put (fun _ _ => true) 2000 2001 "hello"%string []) as
    (_ & Hs & Hne & _ & Hp & _).
  split; [exact Hs|]. split; [exact Hne | exact Hp].
Defined.
End PalletDemo.

(** ** Runtime APIs *)
Module ApiDemo.
Import PalletDemo.

(** A payment pallet with one kind of transaction; the weight is capped by the block. *)
#[export] Instance ref_payment : PaymentOps unit := {|
  Uxt := Z; Call := Z; RuntimeDispatchInfo := Z; FeeDetails := Z;
  query_info cfg uxt len _ := length_to_fee_of cfg len;
  query_fee_details cfg uxt len _ := length_to_fee_of cfg len;
  query_call_info cfg call len _ := length_to_fee_of cfg len;
  query_call_fee_details cfg call len _ := length_to_fee_of cfg len;
  payment_weight_to_fee cfg max_block w :=
    weight_to_fee_of cfg (from_parts (Z.min (ref_time w) (ref_time max_block)) 0);
  payment_length_to_fee cfg n := length_to_fee_of cfg n;
|}.
#[export] Instance ref_payment_ok : PaymentOpsOk unit.
Proof. split; [|done]. intros cfg m w. by exists (from_parts (Z.min (ref_time w) (ref_time m)) 0). Qed.

(** A weight far beyond a block pays for a block. *)
Definition huge : Weight := from_parts 5_000_000_000_000_000 0.

Lemma fee_queries_witness :
  fits 64 pov /\ RuntimeBlockWeights pov = Some Witness.ConfigDemo.built /\
  (exists f, TransactionPaymentApi_query_weight_to_fee (W := unit) (E := unit) pov huge tt = (Ok f, tt) /\
     f <= 16 * MILLI_UNIT) /\
  TransactionPaymentApi_query_length_to_fee 100 = 10 * MICRO_UNIT * 100.
Proof.
  assert (Hp : fits 64 pov) by solve_fits. assert (Hw : fits 64 (ref_time huge)) by solve_fits.
  assert (Hb : RuntimeBlockWeights pov = Some Witness.ConfigDemo.built) by reflexivity.
  assert (Hn : 0 <= 100 < 2 ^ 32) by lia.
  destruct (fee_queries (W := unit) (E := unit) pov _ huge 100 tt Hp Hb Hw Hn)
    as ((f & Hf & _ & Hmax) & _ & _ & Hlen & _).
  split; [exact Hp|]. split; [exact Hb|]. split; [exists f; split; [exact Hf | exact Hmax] | exact Hlen].
Defined.

(** Genesis, with the serializer of [Witness.v]. *)
#[export] Instance ref_helpers : GenesisHelpers unit unit := {|
  build_state c := mret (if String.eqb c "" then RErr "empty"%string else ROk tt);
  default_config_json := "default"%string;
  get_preset_helper id f := match id with None => mret (Some "default"%string) | Some id => f id end;
|}.
#[export] Instance ref_helpers_ok : GenesisHelpersOk unit unit.
Proof. by split. Qed.

Lemma node_genesis_served_witness :
  (forall v, is_Some (Witness.ConfigDemo.to_string v)) /\
  (exists g b,
     GenesisBuilder_get_preset (W := unit) (E := unit) Witness.ConfigDemo.json_patch
       Witness.ConfigDemo.to_string (Some "development"%string) tt = (Ok (Some b), tt) /\
     genesis_ok g /\ parachain_id g = 1000) /\
  GenesisBuilder_get_preset (W := unit) (E := unit) Witness.ConfigDemo.json_patch
    Witness.ConfigDemo.to_string (Some "other"%string) tt = (Ok None, tt).
Proof.
  assert (H : forall v, is_Some (Witness.ConfigDemo.to_string v)) by (by eexists).
  assert (Hid : ("other"%string : PresetId) ∉ GenesisBuilder_preset_names)
    by (apply (bool_decide_unpack _); by vm_compute).
  pose proof (fun w : string => node_genesis_served (W := unit) (E := unit) Witness.ConfigDemo.json_patch
    Witness.ConfigDemo.to_string w (ChainSpec.development_settings w) "other"%string tt H
    (or_introl eq_refl)) as Hs.
  destruct (Hs "wasm"%string) as ((g & b & Hg & _ & Hok & Hpara) & Hother & _).
  split; [exact H|]. split; [|exact (Hother Hid)].
  exists g, b. split; [exact Hg|]. split; [exact Hok | exact Hpara].
Defined.

(** The chain as the number of its blocks that wait for inclusion. *)
#[export] Instance ref_pallets : PalletOps Z := {|
  AuthorityId := Z; Nonce := Z; Account := Z; Slot := Z; IncludedHash := Z;
  CollationInfo := Z; CollationHeader := Z; KeyTypeId := Z; RawBytes := string;
  Authorities _ := [1; 2];
  account_nonce _ _ := 0;
  ParachainSystem_collect_collation_info h _ := h;
  SessionKeys_generate _ w := ("keys"%string, w);
  SessionKeys_decode_into_raw_public_keys _ := None;
  OpaqueMetadata := string;
  Runtime_metadata := ""%string;
  Runtime_metadata_at_version _ := None;
  Runtime_metadata_versions := [14; 15];
  ViewFunctionId := Z; ViewFunctionDispatchError := Z;
  Runtime_execute_view_function _ _ _ := RErr 0;
|}.
Definition demo_hook (_ _ c : Z) (_ : IncludedHash (W := Z)) (_ : Slot (W := Z)) (w : Z) : bool := w <? c.

Lemma segment_bounded_witness :
  rtc (authoring (W := Z) (E := unit) demo_hook (fun w => w)) 2 3 /\ 2 <= UNINCLUDED_SEGMENT_CAPACITY /\
  3 <= UNINCLUDED_SEGMENT_CAPACITY.
Proof.
  assert (Hc : forall (d v c : Z) (h : IncludedHash (W := Z)) (s : Slot (W := Z)) (w : Z), demo_hook d v c h s w = true -> w < c)
    by (intros d v c h s w; apply Z.ltb_lt).
  assert (Hr : rtc (authoring (W := Z) (E := unit) demo_hook (fun w => w)) 2 3)
    by (apply rtc_once, (author (W := Z) demo_hook (fun w => w) 0 0); reflexivity).
  assert (Hw : 2 <= UNINCLUDED_SEGMENT_CAPACITY) by (unfold UNINCLUDED_SEGMENT_CAPACITY; lia).
  split; [exact Hr|]. split; [exact Hw|].
  exact (segment_bounded (W := Z) (E := unit) demo_hook (fun w => w) Hc 2 3 Hr Hw).
Defined.

(** An executive whose upgrade fails and whose blocks pass. *)
#[export] Instance ref_executive : ExecutiveOps unit unit := {|
  Block := Z; Header := Z; Extrinsic := Z; Hash := Z; ExtrinsicInclusionMode := unit;
  ApplyExtrinsicResult := unit; TransactionSource := unit; TransactionValidity := unit;
  InherentData := unit; CheckInherentsResult := unit; TryRuntimeError := string;
  UpgradeCheckSelect := unit; TryStateSelect := unit; TryWeight := Z;
  Executive_execute_block _ := mret tt;
  Executive_initialize_block _ := mret tt;
  Executive_apply_extrinsic _ := mret tt;
  Executive_finalize_block := mret 0;
  Executive_validate_transaction _ _ _ := mret tt;
  Executive_offchain_worker _ := mret tt;
  create_extrinsics _ := mret [];
  check_extrinsics _ _ := mret tt;
  Executive_try_runtime_upgrade _ := mret (RErr "migration"%string);
  Executive_try_execute_block _ _ _ _ := mret (ROk 7);
|}.

Definition no_checks : @UpgradeCheckSelect unit unit ref_executive := tt.
Definition no_select : @TryStateSelect unit unit ref_executive := tt.
Definition block_zero : @Block unit unit ref_executive := 0.

Lemma try_runtime_panics_on_error_witness :
  fits 64 pov /\ is_Some (RuntimeBlockWeights pov) /\
  TryRuntime_on_runtime_upgrade (W := unit) (E := unit) pov tt tt = (Panic, tt) /\
  TryRuntime_execute_block (W := unit) (E := unit) (0 : Block) true true tt tt = (Ok 7, tt).
Proof.
  assert (Hp : fits 64 pov) by solve_fits.
  assert (Hb : is_Some (RuntimeBlockWeights pov)) by (by eexists).
  destruct (try_runtime_panics_on_error (W := unit) (E := unit) pov Hp no_checks block_zero true true
    no_select tt Hb)
    as (H1 & _ & _ & H4).
  split; [exact Hp|]. split; [exact Hb|].
  split; [exact (H1 _ _ eq_refl) | exact (H4 _ _ eq_refl)].
Defined.

Lemma benchmark_dispatch_witness :
  dispatch_benchmark (fun c : string => c) (fun _ name => ROk name) "swarm_robot_pallet"%string =
  RErr "Benchmark not found for this pallet."%string.
Proof.
  exact (proj1 (benchmark_dispatch (fun c : string => c) (fun _ name => ROk name)
    "swarm_robot_pallet"%string)).
Defined.
End ApiDemo.

(** ** Transactions

    On the store of [StorageReference.v], with a nonce and a number of fees paid kept
    as lengths under two keys of their own. *)
Module ExecutiveDemo.
Import PalletDemo Codec Storage StorageReference.

#[local] Existing Instances raw_swarm_storage_ok raw_template_storage_ok
  SwarmSpec.state_equiv SwarmSpec.state_equivalence Runtime.unseen_preorder.
#[local] Instance demo_store : Swarm.SwarmStorage store := raw_swarm_storage ref_events.
#[local] Instance demo_template_store : Template.TemplateStorage store := raw_template_storage ref_events.

Abbreviation Result := (outcome DispatchError unit).
Definition nonce_key : bytes := [Byte.x00].
Definition fees_key : bytes := [Byte.x01].
Definition counter (k : bytes) (w : store) : nat := length (default [] (raw_get k w)).
Definition bump (k : bytes) (w : store) : store := raw_put k (replicate (S (counter k w)) Byte.x00) w.

(** A nonce and a call with its origin.  What is prepared: nothing, or that of a tuple. *)
Definition tx : Type := nat * (OriginFor * Runtime.RuntimeCall (OtherCall := unit)).
Inductive pre : Type := one | several (ps : list pre).
Record extension : Type := {
  ex_validate : tx -> store -> option string;
  ex_prepare : tx -> M store string pre;
  ex_post : pre -> M store string unit;
}.
Definition pass : extension :=
  {| ex_validate _ _ := None; ex_prepare _ := mret one; ex_post _ := mret tt |}.
Definition check_nonce : extension := {|
  ex_validate t w := if decide (t.1 = counter nonce_key w) then None else Some "bad nonce"%string;
  ex_prepare _ := modify (bump nonce_key);; mret one;
  ex_post _ := mret tt |}.
Definition charge : extension := {|
  ex_validate t _ := match t.2.1 with None => Some "no payer"%string | Some _ => None end;
  ex_prepare _ := modify (bump fees_key);; mret one;
  ex_post _ := mret tt |}.
Fixpoint first_reason (xs : list extension) (t : tx) (w : store) : option string :=
  match xs with
  | [] => None
  | x :: xs => match ex_validate x t w with Some e => Some e | None => first_reason xs t w end
  end.
Definition all (xs : list extension) : extension := {|
  ex_validate := first_reason xs;
  ex_prepare t := ps ← collect (fun x => ex_prepare x t) xs; mret (several ps);
  ex_post p := match p with several ps => each ex_post xs ps | one => mret tt end |}.

#[export] Instance ref_extensions : TransactionExtensions store tx string Result := {|
  Ext := extension;
  Pre := pre;
  validate := ex_validate;
  prepare := ex_prepare;
  post_dispatch _ _ x p := ex_post x p;
  tuple := all;
  pre_tuple := several;
  StorageWeightReclaim x := x;
  inner_pre p := p;
  reclaim _ _ _ := mret tt;
  CheckNonZeroSender := pass; CheckSpecVersion := pass; CheckTxVersion := pass;
  CheckGenesis := pass; CheckEra := pass; CheckNonce := check_nonce; CheckWeight := pass;
  ChargeTransactionPayment := charge; CheckMetadataHash := pass;
|}.
#[export] Instance ref_extensions_ok : TransactionExtensionsOk store tx string Result.
Proof.
  split; try done. intros x p t r w. cbn. rewrite run_bind. by destruct (ex_post x p w) as [[[]| |] w'].
Qed.

(** Nobody signs for account 666. *)
#[export] Instance ref_executive : Executives store tx string DispatchError
    (OriginFor * Runtime.RuntimeCall (OtherCall := unit)) := {|
  tx_call := snd;
  check t _ := if t.2.1 is Some 666 then Some "bad signature"%string else None;
  note_extrinsic _ w := w;
  note_applied_extrinsic _ r := es_deposit ref_events (OtherEventOf (if is_err r then 0 else 1));
  BadMandatory := "bad mandatory"%string;
  Executive x mandatory dispatch t :=
    refuse (fun _ => if t.2.1 is Some 666 then Some "bad signature"%string else None);;
    refuse (ex_validate x t);;
    p ← ex_prepare x t;
    r ← reify (dispatch t.2);
    ex_post x p;;
    (if mandatory t.2 && is_err r then throw "bad mandatory"%string
     else modify (es_deposit ref_events (OtherEventOf (if is_err r then 0 else 1))));;
    mret r;
|}.
#[export] Instance ref_executive_ok : ExecutivesOk store tx string DispatchError
    (OriginFor * Runtime.RuntimeCall (OtherCall := unit)).
Proof. by intros x m d t w. Qed.

Definition other (_ : OriginFor) (_ : unit) : M store DispatchError unit := throw BadOrigin.
#[export] Instance ref_other : Runtime.OtherPallets (W := store) (OtherCall := unit) := {|
  Runtime.other_mandatory _ := false; Runtime.nested_calls _ _ _ := []; Runtime.raw_writes _ _ _ := false;
|}.
Abbreviation number_value := (@uval 32 : @BlockNumber ref_numbers -> Z).
#[export] Instance ref_other_ok : Runtime.OtherPalletsOk other number_value.
Proof. intros o c w _. constructor. Qed.

Lemma demo_keep : ExtensionsKeep (Runtime.unseen number_value).
Proof.
  split.
  - intros t w. reflexivity.
  - intros x t w Hx. apply list_elem_of_In in Hx. cbn in Hx.
    (* the counters the extensions write are no keys of the pallets *)
    destruct_or! Hx; subst; try reflexivity; done.
  - intros p t r w. destruct p as [|ps]; [reflexivity|].
    do 9 (destruct ps as [|? ps]; [reflexivity|]). reflexivity.
  - intros t r w. refine (foreign_step_unseen ref_events number_value _ _ _).
    apply (foreign_pallet ref_events w _ Runtime.System); [done..|].
    split; [|..|done]; cbn; destruct (st_number w =? 0); try done;
      rewrite omap_app; cbn; by rewrite app_nil_r.
Qed.

Definition empty : store := {| st_get _ := None; st_events := []; st_number := 1 |}.
Definition pull (n : nat) (who : OriginFor) : tx :=
  (n, (who, Runtime.CallSwarm (Swarm.Call_pull_next (#7 : Swarm.RobotId)))).

(** A replayed, unsigned transaction: the nonce is reported, not the missing payer. *)
Lemma invalid_transaction_refused_witness :
  checks !! 5%nat = Some check_nonce /\
  (apply_extrinsic other (pull 3 None) empty).1 = Err "bad nonce"%string.
Proof.
  assert (He : validate check_nonce (pull 3 None) empty = Some "bad nonce"%string) by reflexivity.
  assert (Hb : forall j y, (j < 5)%nat -> checks !! j = Some y ->
    validate y (pull 3 None) empty = None).
  { intros j y Hj Hy. do 5 (destruct j as [|j]; [injection Hy as <-; reflexivity|]). lia. }
  split; [reflexivity|].
  exact (proj1 (invalid_transaction_refused other (pull 3 None) empty 5 check_nonce _ eq_refl He Hb)).
Defined.

Example bad_signature_refused :
  (apply_extrinsic other (pull 0 (Some 666)) empty).1 = Err "bad signature"%string.
Proof. reflexivity. Qed.

(** Accounts: everyone shares the nonce and the fees paid, of 200 MICRO_UNITs each. *)
#[export] Instance ref_accounts : Accounts store tx string Result := {|
  Payer := Z;
  signer t := t.2.1;
  nonce _ w := Z.of_nat (counter nonce_key w);
  free _ w := 1_000 * UNIT - 200 * MICRO_UNIT * Z.of_nat (counter fees_key w);
  tx_len _ := 16;
  withdrawn _ := 200 * MICRO_UNIT;
|}.

Lemma counter_bump k k' w :
  counter k' (bump k w) = if decide (k = k') then S (counter k w) else counter k' w.
Proof.
  unfold bump, counter. rewrite raw_get_put. case_decide; [|done]. cbn. by rewrite length_replicate.
Qed.

#[export] Instance ref_accounts_ok : AccountsOk.
Proof.
  split.
  - by intros t a w.
  - by intros t r a w.
  - intros x t a w p w' Hx. apply list_elem_of_In in Hx. cbn in Hx.
    destruct_or! Hx; subst; try done; intros [= <- <-]; by split.
  - intros x p t r a w w' Hx. apply list_elem_of_In in Hx. cbn in Hx.
    destruct_or! Hx; subst; try done; intros [= <-]; by split.
  - intros p t r a w w' [= <-]. by split.
  - intros t a w p w' _ Hp. cbn in Hp. rewrite run_bind, run_modify, run_ret in Hp.
    injection Hp as <- <-. unfold nonce, free, ref_accounts. rewrite !counter_bump.
    rewrite decide_True, decide_False by done. lia.
  - intros t a w p w' _ Hp. cbn in Hp. rewrite run_bind, run_modify, run_ret in Hp.
    injection Hp as <- <-. unfold nonce, free, withdrawn, ref_accounts. rewrite !counter_bump.
    rewrite decide_False, decide_True by done. unfold MICRO_UNIT. lia.
  - intros t a r p w w' _ _ [= <-].
    unfold nonce, free, withdrawn, ref_accounts.
    match goal with |- context [200 * MICRO_UNIT - ?l] =>
      assert (l <= 200 * MICRO_UNIT) by (by vm_compute) end.
    split; [done|]. lia.
Qed.

Definition alice : @Payer store tx string Result ref_extensions ref_accounts := 1.

(** A pull by a robot nobody registered: the nonce and the fee are gone. *)
Definition after_pull : store := (apply_extrinsic other (pull 0 (Some 1)) empty).2.

Lemma failed_call_still_pays_witness :
  apply_extrinsic other (pull 0 (Some 1)) empty = (Ok (Err (ModuleError 51 0)), after_pull) /\
  nonce alice after_pull = 1 /\
  free alice after_pull <=
    free alice empty - (MICRO_UNIT + 10 * MICRO_UNIT * tx_len (pull 0 (Some 1))).
Proof.
  assert (Ha : apply_extrinsic other (pull 0 (Some 1)) empty =
    (Ok (Err (ModuleError 51 0)), after_pull)) by reflexivity.
  assert (Ho : forall c, (tx_call (pull 0 (Some 1))).2 <> Runtime.CallOther c) by (intros c; discriminate).
  assert (Hl : 0 <= tx_len (pull 0 (Some 1)) < 2 ^ 32) by (cbn; lia).
  destruct (failed_call_still_pays other number_value (pull 0 (Some 1)) alice empty
    (ModuleError 51 0) demo_keep eq_refl Hl Ho) as [_ H].
  destruct (H after_pull Ha) as (Hn & Hf & _).
  split; [exact Ha|]. split; [exact Hn | exact Hf].
Defined.
End ExecutiveDemo.
