(* ===== verification/BlockWitness.v ===== *)
(** * Witnesses for blocks

    A block executive, seals and a validation function over the reference store and
    the transactions of [ApiWitness.v], and the theorems of [Blocks.v] on a
    candidate of two blocks. *)
From S2P Require Import Prelude Frame Constants Genesis Configs Executive Blocks.
From S2P Require Import Reference Codec Storage StorageReference.
From S2P Require Swarm SwarmSpec SwarmProps Template TemplateProps Runtime Chain.
From S2P Require Import ApiWitness.

Local Open Scope Z_scope.

Module BlockDemo.
Import ExecutiveDemo.

#[local] Existing Instances SwarmSpec.state_equiv SwarmSpec.state_equivalence
  raw_swarm_storage_ok raw_template_storage_ok demo_store demo_template_store.

(** A block: its number, its transactions, the seals on its header. *)
Record block : Type := { blk_number : Z; blk_txs : list tx; blk_seals : list string }.

Definition at_number (n : Z) (w : store) : store :=
  {| st_get := st_get w; st_events := []; st_number := n |}.

(** Numbers go up; the events of the block before are dropped. *)
Definition initialize (b : block) : M store string unit := fun w =>
  if (0 <? blk_number b) && (st_number w <? blk_number b)
  then (Ok tt, at_number (blk_number b) w) else (Panic, w).

#[export] Instance ref_blocks : BlockExecutives store tx string (outcome DispatchError unit) := {|
  Block := block;
  Header := Z;
  header := blk_number;
  extrinsics := blk_txs;
  initialize_block := initialize;
  finish_block _ := mret tt;
  execute_block apply b := initialize b;; apply_each apply (blk_txs b);; mret tt;
|}.
#[export] Instance ref_blocks_ok :
  BlockExecutivesOk store tx string (outcome DispatchError unit).
Proof. by intros apply b w. Qed.

#[export] Instance ref_parachain :
  ParachainBlocks store tx string (outcome DispatchError unit) (H := ref_blocks) := {|
  Seal := string;
  remove_seal b :=
    match blk_seals b with
    | [s] => Some (s, {| blk_number := blk_number b; blk_txs := blk_txs b; blk_seals := [] |})
    | _ => None
    end;
  seal_verifies s _ _ := bool_decide (s = "alice"%string);
  BlockExecutor exec b := fun w =>
    match blk_seals b with
    | [s] =>
        if bool_decide (s = "alice"%string)
        then exec {| blk_number := blk_number b; blk_txs := blk_txs b; blk_seals := [] |} w
        else (Panic, w)
    | _ => (Panic, w)
    end;
  ValidationParams := list block * store;
  ValidationResult := Z;
  params_blocks := fst;
  params_state := snd;
  register_validate_block exec p :=
    match apply_each exec p.1 p.2 with (Ok _, w) => Some (st_number w) | _ => None end;
|}.
#[export] Instance ref_parachain_ok :
  ParachainBlocksOk store tx string (outcome DispatchError unit).
Proof.
  split.
  - intros [n ts [|s0 [|s1 l]]] s b' Hb; try discriminate Hb. by injection Hb as <- <-.
  - intros exec [n ts [|s0 [|s1 l]]] w; done.
  - intros exec [bs w] v Hv. cbn in *. destruct (apply_each exec bs w) as [[us|e|] w']; eauto; done.
Qed.

#[local] Existing Instance raw_storage_apart.

#[export] Instance ref_hooks : BlockHooks store Z (OriginFor * Runtime.OwnCall) := {|
  opening_calls _ _ := []; opening_raw _ _ := false;
  closing_calls _ := []; closing_raw _ := false;
|}.

#[export] Instance demo_hooks : HooksOk other number_value.
Proof.
  split; [exact demo_keep|..].
  - intros b w w' Hi _. exists (at_number (blk_number b) w).
    unfold initialize_block, ref_blocks, initialize in Hi.
    destruct ((0 <? blk_number b) && (st_number w <? blk_number b)) eqn:Hn; [|done].
    injection Hi as <-. apply andb_prop in Hn as [Hn _]. apply Z.ltb_lt in Hn.
    split; [|constructor]. repeat split. unfold Swarm.recording; cbn.
    apply negb_true_iff, Z.eqb_neq. lia.
  - intros b w w' Hf _. injection Hf as <-. constructor.
Qed.

(** Two blocks: a robot registers and a command is enqueued; the robot pulls twice. *)
Definition send (n : nat) (c : Swarm.Call) : tx := (n, (Some 1, Runtime.CallSwarm c)).
Definition first_txs : list tx :=
  [send 0 (Swarm.Call_register_robot (#7 : Swarm.RobotId));
   send 1 (Swarm.Call_enqueue_command Swarm.Halt)].
Definition second_txs : list tx := [pull 2 (Some 1); pull 3 (Some 1)].
Definition candidate (seals : list string) : list block * store :=
  ([{| blk_number := 2; blk_txs := first_txs; blk_seals := seals |};
    {| blk_number := 3; blk_txs := second_txs; blk_seals := ["alice"%string] |}], empty).

(** A missing, a doubled and a foreign seal are refused, and so is a replayed nonce. *)
Example seals_checked :
  (fun ss => validate_block other (candidate ss)) <$>
    [["alice"%string]; []; ["alice"%string; "alice"%string]; ["mallory"%string]] =
  [Some 3; None; None; None].
Proof. by vm_compute. Qed.

Example replay_refused :
  validate_block other
    ([{| blk_number := 2; blk_txs := [send 0 (Swarm.Call_enqueue_command Swarm.Halt);
          send 0 (Swarm.Call_enqueue_command Swarm.Halt)]; blk_seals := ["alice"%string] |}], empty) =
  None.
Proof. by vm_compute. Qed.

(** The answers to the second block's pulls: the command, then an empty queue. *)
Definition middle : store := (apply_each (apply_extrinsic other) first_txs empty).2.

Lemma transactions_refine_witness :
  txs_raw other second_txs middle = false /\
  (apply_each (apply_extrinsic other) second_txs middle).1 =
    Ok [Ok tt; Err (ModuleError 51 2)] /\
  Runtime.answers Runtime.swarm_call (tx_call <$> second_txs) [Ok tt; Err (ModuleError 51 2)] =
    (SwarmSpec.spec_run (omap Runtime.swarm_call (tx_call <$> second_txs))
       (SwarmSpec.view middle)).1.
Proof.
  assert (Hraw : txs_raw other second_txs middle = false) by reflexivity.
  assert (Ha : (apply_each (apply_extrinsic other) second_txs middle).1 =
    Ok [Ok tt; Err (ModuleError 51 2)]) by (by vm_compute).
  split; [exact Hraw|]. split; [exact Ha|].
  pose proof (surjective_pairing (apply_each (apply_extrinsic other) second_txs middle)) as H.
  rewrite Ha in H.
  destruct (transactions_refine other number_value _ _ _ _ H Hraw) as (_ & _ & _ & Hall).
  refine (proj1 (Hall _)). repeat constructor.
Defined.

Lemma validated_blocks_deliver_witness :
  validate_block other (candidate ["alice"%string]) = Some 3 /\
  blocks_raw other (candidate ["alice"%string]).1 empty = false /\
  exists es w', sealed_blocks other empty (candidate ["alice"%string]).1 es w' /\
    Swarm.queue empty ++ omap SwarmProps.enqueued es =
      omap SwarmProps.pulled es ++ Swarm.queue w'.
Proof.
  assert (H : validate_block other (candidate ["alice"%string]) = Some 3) by (by vm_compute).
  assert (Hraw : blocks_raw other (candidate ["alice"%string]).1 empty = false) by reflexivity.
  split; [exact H|]. split; [exact Hraw|].
  destruct (validated_blocks_deliver other number_value _ _ H) as (es & w' & Hs & _ & Hdel).
  exists es, w'. split; [exact Hs|]. exact (proj1 (Hdel Hraw)).
Defined.
End BlockDemo.
