(* ===== verification/AuthoringWitness.v ===== *)
(** * Witnesses for authoring

    Headers with a state root, an author, and a relay chain over the reference store
    and the transactions of [ApiWitness.v]; the theorems of [Authoring.v] on a block
    with a refused transaction and on a candidate of two blocks. *)
From S2P Require Import Prelude Frame Constants Genesis Configs Executive Blocks Authoring.
From S2P Require Import Reference Codec Storage StorageReference.
From S2P Require Swarm SwarmSpec SwarmProps Template TemplateProps Runtime Chain.
From S2P Require Apis.
From S2P Require Import ApiWitness.

Local Open Scope Z_scope.

Module AuthorDemo.
Import ExecutiveDemo.

#[local] Existing Instances SwarmSpec.state_equiv SwarmSpec.state_equivalence
  raw_swarm_storage_ok raw_template_storage_ok demo_store demo_template_store raw_storage_apart.

Abbreviation Result := (outcome DispatchError unit).

(** A header: the number and, for a state root, the transactions so far and the length
    of the command queue.  An author opens with zeros in place of the root. *)
Record hdr : Type := { hd_number : Z; hd_root : nat * nat }.
Record block : Type := { blk_header : hdr; blk_txs : list tx; blk_seals : list string }.
#[export] Instance hdr_eq_dec : EqDecision hdr.
Proof. solve_decision. Defined.

Definition root (w : store) : nat * nat := (counter nonce_key w, length (Swarm.queue w)).
Definition at_number (n : Z) (w : store) : store :=
  {| st_get := st_get w; st_events := []; st_number := n |}.
Definition open_at (h : hdr) : M store string unit := fun w =>
  if (0 <? hd_number h) && (st_number w <? hd_number h)
  then (Ok tt, at_number (hd_number h) w) else (Panic, w).
Definition close : M store string hdr := fun w =>
  (Ok {| hd_number := st_number w; hd_root := root w |}, w).
Definition few (b : block) : bool := bool_decide (length (blk_txs b) <= 4)%nat.
Definition finish (b : block) : M store string unit :=
  h ← close; if decide (h = blk_header b) then mret tt else panic.
Definition start (b : block) : M store string unit :=
  _m ← open_at (blk_header b); ok ← gets (fun _ => few b);
  if (ok : bool) then mret tt else panic.

#[export] Instance ref_blocks : BlockExecutives store tx string Result := {|
  Block := block;
  Header := hdr;
  header := blk_header;
  extrinsics := blk_txs;
  initialize_block := start;
  finish_block := finish;
  execute_block apply b := start b;; apply_each apply (blk_txs b);; finish b;
|}.
#[export] Instance ref_blocks_ok : BlockExecutivesOk store tx string Result.
Proof. by intros apply b w. Qed.

#[export] Instance ref_authoring : BlockAuthoring store tx string Result := {|
  InclusionMode := unit;
  Opening := Z;
  opening := hd_number;
  opened := st_number;
  initialize := open_at;
  initial_checks _ b _ := few b;
  finalize := close;
|}.
#[export] Instance ref_hooks : BlockHooks store hdr (OriginFor * Runtime.OwnCall) := {|
  opening_calls _ _ := []; opening_raw _ _ := false;
  closing_calls _ := []; closing_raw _ := false;
|}.
#[export] Instance ref_authoring_ok : BlockAuthoringOk store tx string Result.
Proof.
  split; cbn.
  - intros h h' w Hh. unfold open_at. by rewrite Hh.
  - intros h w m w1 Hi _. unfold open_at in Hi. by destruct (_ && _); [injection Hi as _ <-|].
  - intros w h w1 Hf _. by injection Hf as <- <-.
  - done.
  - done.
Qed.

Definition unsealed (b : block) : block :=
  {| blk_header := blk_header b; blk_txs := blk_txs b; blk_seals := [] |}.
#[export] Instance ref_parachain : ParachainBlocks store tx string Result (H := ref_blocks) := {|
  Seal := string;
  remove_seal b := match blk_seals b with [s] => Some (s, unsealed b) | _ => None end;
  seal_verifies s _ _ := bool_decide (s = "alice"%string);
  BlockExecutor exec b := fun w =>
    match blk_seals b with
    | [s] => if bool_decide (s = "alice"%string) then exec (unsealed b) w else (Panic, w)
    | _ => (Panic, w)
    end;
  ValidationParams := list block * store;
  ValidationResult := Z;
  params_blocks := fst;
  params_state := snd;
  register_validate_block exec p :=
    match apply_each exec p.1 p.2 with (Ok _, w) => Some (st_number w) | _ => None end;
|}.
#[export] Instance ref_parachain_ok : ParachainBlocksOk store tx string Result.
Proof.
  split.
  - intros [n ts [|s0 [|s1 l]]] s b' Hb; try discriminate Hb. by injection Hb as <- <-.
  - intros exec [n ts [|s0 [|s1 l]]] w; done.
  - intros exec [bs w] v Hv. cbn in *. destruct (apply_each exec bs w) as [[us|e|] w']; eauto; done.
Qed.

#[export] Instance ref_rest : ExecutiveRest store tx string block hdr := {|
  Hash := Z; TransactionSource := unit; TransactionValidity := bool; InherentData := unit;
  CheckInherentsResult := bool; TryRuntimeError := string; UpgradeCheckSelect := unit;
  TryStateSelect := unit; TryWeight := Z;
  rest_validate_transaction _ t _ := gets (fun w => bool_decide (validate TxExtension t w = None));
  rest_offchain_worker _ := mret tt;
  rest_create_extrinsics _ := mret [];
  rest_check_extrinsics _ _ := mret true;
  rest_try_runtime_upgrade _ := mret (ROk 0);
  rest_try_execute_block _ _ _ _ := mret (ROk 0);
|}.

#[export] Instance demo_hooks : HooksOk other number_value.
Proof.
  split; [exact demo_keep|..].
  - intros b w w' Hi _. exists (at_number (hd_number (blk_header b)) w).
    change (start b w = (Ok tt, w')) in Hi. unfold start, open_at in Hi. rewrite run_bind in Hi.
    destruct ((0 <? hd_number (blk_header b)) && _) eqn:Hn; [|done].
    rewrite run_bind, run_gets in Hi. destruct (few b); [|done].
    injection Hi as <-. apply andb_prop in Hn as [Hn _]. apply Z.ltb_lt in Hn.
    split; [|constructor]. repeat split. unfold Swarm.recording; cbn.
    apply negb_true_iff, Z.eqb_neq. lia.
  - intros b w w' Hf _. change (finish b w = (Ok tt, w')) in Hf. unfold finish, close in Hf.
    rewrite run_bind in Hf. destruct (decide _) in Hf; [|done]. injection Hf as <-. constructor.
Qed.

#[export] Instance demo_opening : OpeningApart other.
Proof.
  split; try done. split; try done.
  - intros x t w Hx. apply list_elem_of_In in Hx. cbn in Hx.
    destruct_or! Hx; subst; try reflexivity; done.
  - intros p t r w. destruct p as [|ps]; [reflexivity|].
    do 9 (destruct ps as [|? ps]; [reflexivity|]). reflexivity.
Qed.

(** ** An author

    It is offered a registration, a command, the command again under a used nonce, and
    a pull; the third is refused. *)
Definition send (n : nat) (c : Swarm.Call) : tx := (n, (Some 1, Runtime.CallSwarm c)).
Definition offered : list tx :=
  [send 0 (Swarm.Call_register_robot (#7 : Swarm.RobotId));
   send 1 (Swarm.Call_enqueue_command Swarm.Halt);
   send 1 (Swarm.Call_enqueue_command Swarm.Halt);
   pull 2 (Some 1)].
Definition taken : list tx :=
  [send 0 (Swarm.Call_register_robot (#7 : Swarm.RobotId));
   send 1 (Swarm.Call_enqueue_command Swarm.Halt);
   pull 2 (Some 1)].
Definition opening_header : hdr := {| hd_number := 2; hd_root := (0, 0)%nat |}.
Definition built : block :=
  {| blk_header := {| hd_number := 2; hd_root := (3, 0)%nat |}; blk_txs := taken; blk_seals := [] |}.
Abbreviation execute := (Apis.Core_execute_block (ExecutiveOps0 := runtime_executive other)).
Definition after : store := (apply_each (apply_extrinsic other) taken (at_number 2 empty)).2.

Lemma run_known {A} (p : outcome string A * store) o : p.1 = o -> p = (o, p.2).
Proof. destruct p. by intros <-. Qed.

Lemma offered_taken w1 w2 rs :
  apply_each (apply_extrinsic other) taken w1 = (Ok rs, w2) -> offers other offered w1 taken rs w2.
Proof.
  intros H. apply apply_each_cons in H as (r1 & rs1 & v1 & -> & H1 & H).
  apply apply_each_cons in H as (r2 & rs2 & v2 & -> & H2 & H).
  apply apply_each_cons in H as (r3 & rs3 & v3 & -> & H3 & H). injection H as <- <-.
  econstructor; [exact H1|]. econstructor; [exact H2|]. constructor.
  econstructor; [exact H3|]. constructor.
Qed.

(** The third offer is refused where it comes. *)
Example replay_is_refused :
  (apply_extrinsic other (send 1 (Swarm.Call_enqueue_command Swarm.Halt))
     (apply_each (apply_extrinsic other) (take 2 taken) empty).2).1 = Err "bad nonce"%string.
Proof. by vm_compute. Qed.

Lemma built_authored : exists rs, authored other opening_header offered empty built rs after.
Proof.
  exists [Ok tt; Ok tt; Ok tt], tt, (at_number 2 empty), after.
  split; [reflexivity|]. split; [reflexivity|]. split.
  - apply offered_taken. apply run_known. by vm_compute.
  - split; [|reflexivity].
    change (close after = (Ok (blk_header built), after)). unfold close.
    assert (Hn : st_number after = 2) by (by vm_compute).
    assert (Hr : root after = (3, 0)%nat) by (by vm_compute). by rewrite Hn, Hr.
Qed.

(** The author's block executes from the same parent state to the author's state. *)
Lemma import_iff_authored_witness :
  execute built empty = (Ok tt, after) /\ taken `sublist_of` offered /\
  Swarm.registered after (#7 : Swarm.RobotId) = true.
Proof.
  destruct built_authored as [rs Hb].
  destruct (import_iff_authored other (BlockExecutives0 := ref_blocks) built empty after)
    as (Hiff & Hsub & _).
  split; [apply Hiff; eauto|]. split; [exact (Hsub _ _ _ Hb) | by vm_compute].
Defined.

(** Sealed by the authority the block is accepted; sealed by a stranger or with another
    header it is not. *)
Definition seal (s : string) (b : block) : block :=
  {| blk_header := blk_header b; blk_txs := blk_txs b; blk_seals := [s] |}.
Definition forged : block := {| blk_header := opening_header; blk_txs := taken; blk_seals := [] |}.
Example only_finished_and_sealed :
  (fun b => validate_block other ([b], empty)) <$>
    [seal "alice" built; seal "mallory" built; built; seal "alice" forged] =
  [Some 2; None; None; None].
Proof. by vm_compute. Qed.

Lemma accepted_iff_authored_witness :
  authored_chain other empty [seal "alice" built] after /\
  ((exists us, apply_each (BlockExecutor execute) [seal "alice" built] empty = (Ok us, after)) /\
   blocks_raw other [seal "alice" built] empty = false) /\
  exists es, Swarm.queue empty ++ omap SwarmProps.enqueued es =
    omap SwarmProps.pulled es ++ Swarm.queue after.
Proof.
  destruct built_authored as [rs Hb].
  assert (Hc : authored_chain other empty [seal "alice" built] after)
    by (eapply (chain_next other (BlockExecutives0 := ref_blocks)
          (ParachainBlocks0 := ref_parachain) _ _ _ built);
        [exact Hb | reflexivity.. | constructor]).
  destruct (accepted_iff_authored other (BlockExecutives0 := ref_blocks)
    number_value [seal "alice" built] empty after) as (Hiff & _ & Hdel).
  split; [exact Hc|]. split; [by apply Hiff|].
  destruct (Hdel Hc) as (es & _ & Hq & _). by exists es.
Defined.
End AuthorDemo.
