(* ===== verification/WireWitness.v ===== *)
(** * Witnesses for blocks on the wire

    Vectors, extrinsics and blocks over the reference codecs, and the theorems of
    [Wire.v] on a block that carries a command. *)
From S2P Require Import Prelude Frame Constants Fees Configs PalletConfigs Codec Wire.
From S2P Require Import Reference StorageReference.
From S2P Require Swarm Template Runtime Storage ApiWitness.

Local Open Scope Z_scope.

Module WireDemo.
Import ApiWitness.PalletDemo.

#[local] Existing Instances Storage.location_codec Storage.task_codec Storage.robot_codec
  Storage.location_codec_ok Storage.task_codec_ok Storage.robot_codec_ok.

Definition short {A} (l : list A) : Prop := Z.of_nat (length l) <= 16383.
#[local] Instance short_dec {A} (l : list A) : Decision (short l).
Proof. unfold short. apply _. Defined.

#[export] Instance ref_vecs : Vecs := {|
  Vec A := dsig (short (A := A));
  vec_list A v := `v;
  vec_new A := to_short short;
  vec_capacity := 16383;
  vec_codec A _ := short_codec short;
|}.
#[export] Instance ref_vecs_ok : VecsOk.
Proof.
  split; [|intros A l Hl|intros A v|intros A ? ?|done].
  - intros A l v. apply to_short_Some.
  - unfold vec_new, ref_vecs, to_short. destruct (decide (short l)) as [|Hn]; [done|]. by destruct Hn.
  - exact (proj2_dsig v).
  - refine (short_codec_ok short _). intros l Hl. unfold short in Hl. lia.
Qed.

(** Hashes, accounts and signatures without content; a header is its number. *)
#[export] Instance ref_runtime : SpRuntime := {|
  MultiSignature := unit; AccountIdOf _ := unit; MultiAddress _ _ := unit; H256 := unit;
  BlakeTwo256 := unit; HashOutput _ := unit; generic_Header N _ := N;
|}.
#[local] Instance header_codec : Codec Header := u32_codec.
#[local] Instance header_codec_ok : CodecOk Header := u32_codec_ok.

Abbreviation Call := (Runtime.RuntimeCall (OtherCall := unit)).

(** The one other call decodes from no bytes: every call has one encoding here. *)
#[local] Instance call_codec_ok : CodecOk Call.
Proof.
  intros c bs rest. apply runtime_call_inverts. destruct c as [c|c|[]]; [done..|].
  intros bs' rest' Hd. cbn in Hd. by injection Hd as ->.
Qed.

(** An extrinsic: a nonce for a preamble, and a call. *)
Definition xt : Type := u32 * Call.
Definition body (x : xt) : bytes := scale_encode x.1 ++ scale_encode x.2.

#[local] Instance ref_xt_codec : Codec xt := {|
  scale_encode x := compact (Z.of_nat (length (body x))) ++ body x;
  scale_decode :=
    n ← read_compact; p ← scale_decode; c ← scale_decode;
    if decide (Z.of_nat (length (body (p, c))) = n) then mret (p, c) else invalid;
|}.

#[export] Instance ref_xt : UncheckedExtrinsics Address Call Signature unit := {|
  generic_UncheckedExtrinsic := xt;
  preamble := fst;
  function := snd;
|}.

Lemma u32_bytes (n : u32) : length (@scale_encode u32 u32_codec n) = 4%nat.
Proof. done. Qed.

Lemma body_len x : Z.of_nat (length (body x)) <= 15.
Proof.
  destruct x as [p c]. unfold body. cbn [fst snd]. rewrite length_app, Nat2Z.inj_add.
  change (Z.of_nat (length (scale_encode p))) with 4.
  destruct c as [[]|c|[]]; [by vm_compute..| |by vm_compute].
  rewrite (swarm_call_len (OtherCall := unit) u32_bytes c). by destruct c as [|[]|].
Qed.

#[local] Instance xt_codec_ok : CodecOk xt.
Proof.
  intros x bs rest. change (ref_xt_codec.(scale_decode) bs = Some (x, rest) <->
    bs = ref_xt_codec.(scale_encode) x ++ rest).
  cbn [scale_decode scale_encode ref_xt_codec]. split.
  - intros Hd. apply decode_bind_Some in Hd as (n & mid & Hn & Hd).
    apply compact_read_compact in Hn as [_ ->].
    apply decode_bind_Some in Hd as (p & mid' & Hp & Hd). apply scale_inverts in Hp as ->.
    apply decode_bind_Some in Hd as (c & mid'' & Hc & Hd). apply scale_inverts in Hc as ->.
    case_decide as Hlen; [|done]. decode_inv. unfold body. cbn [fst snd].
    by rewrite <- !app_assoc.
  - intros ->. pose proof (body_len x). rewrite <- app_assoc. apply decode_bind_Some.
    eexists _, _. split; [apply read_compact_compact; lia|]. destruct x as [p c].
    assert (body (p, c) ++ rest = scale_encode p ++ scale_encode c ++ rest) as ->
      by (unfold body; by rewrite <- app_assoc).
    apply decode_bind_Some. eexists _, _. split; [apply scale_decode_encode|].
    apply decode_bind_Some. eexists _, _. split; [apply scale_decode_encode|].
    by rewrite decide_True.
Qed.

#[export] Instance ref_xt_ok : UncheckedExtrinsicsOk Address Call Signature unit.
Proof.
  split; [exact (@codec_roundtrips xt ref_xt_codec xt_codec_ok)
         |intros x; pose proof (body_len x); change (Z.of_nat (length (body x)) <= 16383); lia
         |done].
Qed.

#[export] Instance ref_opaque : OpaqueExtrinsics := {|
  OpaqueExtrinsic := Vec Byte.byte; opaque_new v := v; opaque_codec := vec_codec Byte.byte |}.
#[export] Instance ref_opaque_ok : OpaqueExtrinsicsOk.
Proof. split; [|done]. exact (vec_codec_ok Byte.byte). Qed.

(** A block: a pair. *)
#[export] Instance ref_block H X `{!Codec H, !Codec X} : GenericBlocks H X := {|
  generic_Block := H * Vec X;
  new_block h v := (h, v);
  block_header := fst;
  block_extrinsics := snd;
  generic_block_codec := {|
    scale_encode b := scale_encode b.1 ++ scale_encode b.2;
    scale_decode := h ← scale_decode; v ← scale_decode; mret (h, v) |};
|}.
#[export] Instance ref_block_ok H X `{!Codec H, !Codec X, !CodecOk H, !CodecOk X} :
  GenericBlocksOk H X.
Proof.
  split; [done|done| |done].
  intros [h v] rest. unfold scale_decode at 1, scale_encode at 1.
  cbn [generic_block_codec ref_block fst snd]. by decode_run.
Qed.

Definition goto : Swarm.Call :=
  Swarm.Call_enqueue_command (Swarm.GoToLocation {| Swarm.x := #3; Swarm.y := #4 |}).
Definition order : xt := (#9, Runtime.CallSwarm goto).
Definition demo_block (v : Vec xt) : Block (OtherCall := unit) (TxExtension := unit) := (#1, v).

Definition demo_encode (v : Vec xt) : bytes :=
  @scale_encode Block (@generic_block_codec Header UncheckedExtrinsic _ _ _ _) (demo_block v).

(** Number 1; one extrinsic of 15 bytes: nonce 9, pallet 51, call 1, variant 0, (3, 4). *)
Example block_bytes :
  (fun v => byte_index <$> demo_encode v) <$> vec_new [order] =
  Some [1; 0; 0; 0; 4; 60; 9; 0; 0; 0; 51; 1; 0; 3; 0; 0; 0; 4; 0; 0; 0].
Proof. by vm_compute. Qed.

Lemma order_short : short [order].
Proof. by vm_compute. Qed.
Definition demo_vec : Vec xt := dexist [order] order_short.

Lemma opaque_block_same_bytes_witness :
  exists o : opaque_Block,
    scale_decode (demo_encode demo_vec) = Some (o, []) /\ scale_encode o = demo_encode demo_vec.
Proof.
  destruct (opaque_block_same_bytes (demo_block demo_vec) []) as (o & Hd & _ & _ & He & _).
  exists o. rewrite app_nil_r in Hd. split; [exact Hd | exact He].
Defined.

Definition order_function : Call :=
  @function Address Call Signature unit _ _ _ ref_xt order.
Definition order_bytes : bytes := @scale_encode xt ref_xt_codec order.

(** Sixteen bytes at ten MICRO_UNITs. *)
Lemma swarm_transaction_fee_witness :
  order_function = Runtime.CallSwarm goto /\
  length_to_fee_of transaction_payment_config (Z.of_nat (length order_bytes)) =
    10 * MICRO_UNIT * 16.
Proof.
  assert (H : order_function = Runtime.CallSwarm goto) by reflexivity.
  split; [exact H|].
  exact (swarm_transaction_fee (OtherCall := unit) (TxExtension := unit) u32_bytes order goto H
    eq_refl).
Defined.
End WireDemo.
