(* ===== verification/ClientWitness.v ===== *)
(** * Witnesses for the web client

    A hypotenuse, the printing of the chain's values, and the theorems of
    [ClientProps.v] over the reference chain: a click on a fresh swarm, a queue that is
    full, a robot that arrives and a robot that is told to halt. *)
From S2P Require Import Prelude Frame Configs Reference Kinematics Client ClientProps.
From S2P Require Swarm.
From Stdlib Require Import Floats.SpecFloat Strings.Ascii.

Local Open Scope Z_scope.

#[local] Existing Instance swarm_config.

Module ClientDemo.

#[export] Instance ref_hypot : MathHypot := fun a b =>
  SFsqrt 53 1024 (SFadd 53 1024 (SFmul 53 1024 a a) (SFmul 53 1024 b b)).
#[export] Instance ref_hypot_ok : MathHypotOk.
Proof.
  split.
  - intros a b [Ha|Hb] Hia Hib; unfold hypot, ref_hypot.
    + destruct a; try discriminate Ha. by rewrite NaN_mul_l, NaN_add_l.
    + destruct b; try discriminate Hb. by rewrite NaN_mul_l, NaN_add_r.
  - by intros [] [].
Qed.

(** Up to three digits, and the thousands before a comma. *)
Definition show (n : Z) : string :=
  let c i := ascii_of_nat (Z.to_nat (48 + n / i mod 10)) in
  String (c 100) (String (c 10) (String (c 1) "")).
Fixpoint join (s t : string) : string :=
  match s with EmptyString => t | String c s => String c (join s t) end.
Definition print (n : Z) : string :=
  if decide (n < 1000) then show n
  else join (show (n / 1000 mod 1000)) (String "," (show (n mod 1000))).

#[export] Instance ref_polkadot : PolkadotTypes := {|
  toHuman c :=
    match c with
    | Swarm.GoToLocation l =>
        HObject [("GoToLocation"%string,
          HObject [("x"%string, HString (print (uval (Swarm.x l))));
                   ("y"%string, HString (print (uval (Swarm.y l))))])]
    | Swarm.PerformTask t => HObject [("PerformTask"%string, HString (print (uval t)))]
    | Swarm.Halt => HString "Halt"
    | Swarm.WaitForCommand => HString "WaitForCommand"
    end;
  formatNumber := print;
  undefined_u32 := Some #0;
|}.

Lemma comma_is_no_digit s t acc : digits acc (join s (String "," t)) = None.
Proof. revert acc. induction s as [|c s IH]; intros acc; [done|]. cbn. destruct (digit c); [apply IH | done]. Qed.

Lemma show_reads : forallb (fun n => bool_decide (digits 0 (show (Z.of_nat n)) = Some (Z.of_nat n)))
  (seq 0 1000) = true.
Proof. by vm_compute. Qed.

#[export] Instance ref_polkadot_ok : PolkadotTypesOk.
Proof.
  split; try done.
  - intros n Hn. cbn. unfold print. rewrite decide_True by lia.
    pose proof (proj1 (forallb_forall _ _) show_reads (Z.to_nat n)) as H.
    rewrite in_seq, bool_decide_eq_true, Z2Nat.id in H by lia. apply H. lia.
  - intros n Hn. cbn. unfold print. rewrite decide_False by lia. apply comma_is_no_digit.
Qed.

(** ** The chain and a page with one robot *)
Definition zero_id : @Swarm.RobotId swarm_config := #0.
Definition far : @Swarm.Location swarm_config := Swarm.Build_Coordinate #640 #1500.
Definition alice : OriginFor := Some 1.
Definition swarm (q : list Swarm.Command) : world :=
  {| w_robots := {[ #0 ]}; w_queue := q; w_something := None; w_events := []; w_number := 1 |}.
Definition at_origin : Robot :=
  {| robot_id := 0; position := Kinematics.zero; velocity := Kinematics.zero |}.
Definition one_robot (r : Robot) : page DispatchError :=
  Page true (Array [r]) (Array [r]) false [] Boids None None false false.
Definition idle (q : list Swarm.Command) : sys (W := world) :=
  Sys (one_robot at_origin) (swarm q) [] [] [].

Lemma click_moves_to_oldest_witness :
  Z.of_nat (length (Swarm.queue (chain (idle [])))) < Swarm.MaxGlobalCommands /\
  exists s', rtc (step alice) (idle []) s' /\ Swarm.queue (chain s') = [] /\
    target (ui s') = Some {| vx := num 3; vy := num 4 |}.
Proof.
  assert (Hroom : Z.of_nat (length (Swarm.queue (chain (idle [])))) < Swarm.MaxGlobalCommands)
    by (by vm_compute).
  assert (Hid : to_uint 32 (robot_id at_origin) = Some #0) by (by apply to_uint_Some).
  assert (Hreg : Swarm.registered (swarm []) #0 = true) by (by vm_compute).
  split; [exact Hroom|].
  destruct (click_moves_to_oldest alice 1 eq_refl #3 #4 (idle []) at_origin [] #0
    (click_command #3 #4) [] eq_refl eq_refl eq_refl Hid Hreg eq_refl Hroom
    eq_refl eq_refl eq_refl eq_refl) as (s' & Hs & _ & _ & _ & Hq & _ & _ & Ht).
  exists s'. split; [exact Hs|]. split; [exact Hq|]. by apply Ht.
Defined.

(** Something waits: the click is behind it, and the robot is sent nowhere. *)
Lemma backlog_never_drains_witness :
  rtc (step alice) (idle (replicate 64 Swarm.Halt))
    (handleCanvasClick #3 #4 (idle (replicate 64 Swarm.Halt))) /\
  Swarm.queue (chain (handleCanvasClick #3 #4 (idle (replicate 64 Swarm.Halt)))) =
    replicate 64 Swarm.Halt.
Proof.
  assert (Hr : rtc (step alice) (idle (replicate 64 Swarm.Halt))
    (handleCanvasClick #3 #4 (idle (replicate 64 Swarm.Halt))))
    by (apply rtc_once, step_click; reflexivity).
  split; [exact Hr|].
  apply (proj1 (proj2 (backlog_never_drains alice _ _ Hr) eq_refl ltac:(by vm_compute))).
Defined.

Lemma pulled_command_targets_witness :
  exists p', on_event (Swarm.CommandPulled zero_id
      (Swarm.GoToLocation far) None)
      (one_robot at_origin) = Some p' /\
    target p' = Some {| vx := num 640; vy := NaN |}.
Proof.
  destruct (pulled_command_targets zero_id
    (Swarm.GoToLocation far) None
    (one_robot at_origin)) as (p' & He & Ht & _).
  exists p'. split; [exact He|]. rewrite Ht. by vm_compute.
Defined.

(** ** Arriving *)
Definition there : Vec := {| vx := num 3; vy := num 4 |}.
Definition arrived : Robot := {| robot_id := 0; position := there; velocity := there |}.
Definition on_target : page DispatchError := commit (setTarget there (one_robot arrived)).

Lemma seek_arrival_crashes_witness :
  finite (num 3) = true /\ robots (tick on_target) = NotArray arrived /\
  crashed (tick (commit (tick on_target))) = true.
Proof.
  assert (Hf : finite (num 3) = true) by reflexivity. split; [exact Hf|].
  destruct (seek_arrival_crashes on_target
    {| t_target := there; t_swarm := Boids; t_frame := 0 |} arrived
    eq_refl eq_refl eq_refl eq_refl eq_refl Hf eq_refl) as (Hr & _ & Hc).
  split; [exact Hr | exact Hc].
Defined.

(** A robot that starts at the origin is there after one frame, for its speed is five:
    a click on (3, 4) takes the page down within three frames. *)
Example click_crashes_page :
  let frame p := tick (commit p) in
  let p := setTarget there (one_robot at_origin) in
  (robots (frame p), crashed (frame (frame p)), crashed (frame (frame (frame p)))) =
  (Array [arrived], false, true).
Proof. by vm_compute. Qed.

Lemma halt_loses_lone_robot_witness :
  exists p', on_event (Swarm.CommandPulled zero_id Swarm.Halt None)
      (one_robot at_origin) = Some p' /\
    first_lost (robots (tick (commit p'))).
Proof.
  destruct (halt_loses_lone_robot (W := world) alice (one_robot at_origin) at_origin
    zero_id Swarm.Halt None eq_refl ltac:(discriminate)) as (p' & He & Hl & _).
  exists p'. split; [exact He | exact Hl].
Defined.

(** ** A robot that is dropped

    A second robot is registered, and before the page is rendered a frame runs: it takes
    the swarm for a lone robot and drops the second. *)
Example second_robot_dropped :
  let p := commit (setTarget there (one_robot at_origin)) in
  (robots (tick (registerRobot_submitted p)), robots (tick (commit (registerRobot_submitted p)))) =
  (Array [arrived],
   from_option id (Array []) (moveToBoids (num 3) (num 4) (Array [at_origin;
     {| robot_id := 1; position := Kinematics.zero; velocity := Kinematics.zero |}]))).
Proof. by vm_compute. Qed.
End ClientDemo.
